(** * CodexMem: durable queue, session registry, hybrid merge, retention

    A shallow embedding of the storage layer ([src/db/store.ts]) and of the
    worker routes that drive it ([src/worker/server.ts]).

    Conventions of the embedding:
    - every SQLite table is a list of rows in rowid order; an [UPDATE ... WHERE]
      is a [map] that rewrites the matching rows, a [DELETE ... WHERE] is a
      [filter] that keeps the others, an [INSERT] appends;
    - [Date.now()] is an explicit argument [now] of each operation;
    - a statement that SQLite rejects (foreign key, unique index) makes the
      operation return [None] and leaves the store as it was;
    - JavaScript numbers that hold row ids, counters and epochs are [Z];
    - a JavaScript string is the string of its UTF-8 bytes, and what the code
      counts in UTF-16 code units is counted so here. *)

From Stdlib Require Import ZArith List String Ascii Bool Lia Sorted Permutation.
From stdpp Require Import base gmap strings pretty.
Import ListNotations.
Local Open Scope Z_scope.

(** ** Constants of [store.ts] *)

Definition MAX_RETRY : Z := 3.
Definition DAY_MS : Z := 24 * 60 * 60 * 1000.

(** ** Rows *)

Inductive MessageType := observation | summarize.
Inductive QueueStatus := pending | processing | processed | failed.
Inductive SessionStatus := active | completed | session_failed.

Definition MessageType_eqb (a b : MessageType) : bool :=
  match a, b with
  | observation, observation | summarize, summarize => true
  | _, _ => false
  end.

Definition QueueStatus_eqb (a b : QueueStatus) : bool :=
  match a, b with
  | pending, pending | processing, processing
  | processed, processed | failed, failed => true
  | _, _ => false
  end.

(** Table [sdk_sessions]. *)
Record SessionRow := mkSessionRow {
  s_id : Z;
  s_content_session_id : string;
  s_memory_session_id : option string;
  s_project : string;
  s_user_prompt : option string;
  s_started_at_epoch : Z;
  s_status : SessionStatus
}.

(** Table [user_prompts]. *)
Record PromptRow := mkPromptRow {
  up_id : Z;
  up_content_session_id : string;
  up_prompt_number : Z;
  up_prompt_text : string;
  up_created_at_epoch : Z;
  up_last_accessed_at_epoch : option Z;
  up_deleted_at_epoch : option Z
}.

(** What the agent hands back for one tool event ([ObservationInput]). *)
Record ObservationInput := mkObservationInput {
  oi_type : string;
  oi_title : option string;
  oi_subtitle : option string;
  oi_facts : list string;
  oi_narrative : option string;
  oi_concepts : list string;
  oi_files_read : list string;
  oi_files_modified : list string
}.

(** What the agent hands back for a closing message ([SummaryInput]). *)
Record SummaryInput := mkSummaryInput {
  si_request : option string;
  si_investigated : option string;
  si_learned : option string;
  si_completed : option string;
  si_next_steps : option string;
  si_notes : option string
}.

(** Table [observations]; the JSON text columns hold the agent's lists. *)
Record ObservationRow := mkObservationRow {
  o_id : Z;
  o_memory_session_id : string;
  o_project : string;
  o_input : ObservationInput;
  o_prompt_number : Z;
  o_created_at_epoch : Z;
  o_last_accessed_at_epoch : option Z;
  o_deleted_at_epoch : option Z
}.

(** Table [session_summaries]. *)
Record SummaryRow := mkSummaryRow {
  ss_id : Z;
  ss_memory_session_id : string;
  ss_project : string;
  ss_input : SummaryInput;
  ss_prompt_number : Z;
  ss_created_at_epoch : Z;
  ss_last_accessed_at_epoch : option Z;
  ss_deleted_at_epoch : option Z
}.

(** Table [pending_messages]. *)
Record PendingMessage := mkPendingMessage {
  pm_id : Z;
  pm_session_db_id : Z;
  pm_content_session_id : string;
  pm_message_type : MessageType;
  pm_dedupe_key : option string;
  pm_tool_name : option string;
  pm_tool_input : option string;
  pm_tool_response : option string;
  pm_cwd : option string;
  pm_last_assistant_message : option string;
  pm_prompt_number : Z;
  pm_status : QueueStatus;
  pm_retry_count : Z;
  pm_created_at_epoch : Z;
  pm_started_processing_at_epoch : option Z;
  pm_failed_at_epoch : option Z
}.

(** Table [processed_message_dedupe], the dedupe ledger. *)
Record DedupeRow := mkDedupeRow {
  d_session_db_id : Z;
  d_message_type : MessageType;
  d_dedupe_key : string;
  d_created_at_epoch : Z
}.

(** Table [project_memory_activity]. *)
Record ActivityRow := mkActivityRow {
  a_project : string;
  a_last_accessed_at_epoch : Z;
  a_updated_at_epoch : Z
}.

(** Table [project_retention_policies]. *)
Record PolicyRow := mkPolicyRow {
  rp_project : string;
  rp_enabled : bool;
  rp_pinned : bool;
  rp_ttl_days : option Z;
  rp_updated_at_epoch : Z
}.

(** ** The store

    The [seq_*] fields are the [sqlite_sequence] counters of the
    [AUTOINCREMENT] tables: the largest rowid ever handed out. *)
Record Store := mkStore {
  sdk_sessions : list SessionRow;
  user_prompts : list PromptRow;
  observations : list ObservationRow;
  session_summaries : list SummaryRow;
  pending_messages : list PendingMessage;
  processed_message_dedupe : list DedupeRow;
  project_memory_activity : list ActivityRow;
  project_retention_policies : list PolicyRow;
  seq_sessions : Z;
  seq_prompts : Z;
  seq_observations : Z;
  seq_summaries : Z;
  seq_pending : Z
}.

Definition empty_store : Store :=
  mkStore [] [] [] [] [] [] [] [] 0 0 0 0 0.

(** [AUTOINCREMENT]: one more than the largest rowid ever used. *)
Definition next_rowid (seq : Z) (ids : list Z) : Z :=
  fold_right Z.max seq ids + 1.

Definition with_sessions (st : Store) (rows : list SessionRow) (seq : Z) : Store :=
  mkStore rows (user_prompts st) (observations st) (session_summaries st)
    (pending_messages st) (processed_message_dedupe st)
    (project_memory_activity st) (project_retention_policies st)
    seq (seq_prompts st) (seq_observations st) (seq_summaries st) (seq_pending st).

Definition with_prompts (st : Store) (rows : list PromptRow) (seq : Z) : Store :=
  mkStore (sdk_sessions st) rows (observations st) (session_summaries st)
    (pending_messages st) (processed_message_dedupe st)
    (project_memory_activity st) (project_retention_policies st)
    (seq_sessions st) seq (seq_observations st) (seq_summaries st) (seq_pending st).

Definition with_observations (st : Store) (rows : list ObservationRow) (seq : Z) : Store :=
  mkStore (sdk_sessions st) (user_prompts st) rows (session_summaries st)
    (pending_messages st) (processed_message_dedupe st)
    (project_memory_activity st) (project_retention_policies st)
    (seq_sessions st) (seq_prompts st) seq (seq_summaries st) (seq_pending st).

Definition with_summaries (st : Store) (rows : list SummaryRow) (seq : Z) : Store :=
  mkStore (sdk_sessions st) (user_prompts st) (observations st) rows
    (pending_messages st) (processed_message_dedupe st)
    (project_memory_activity st) (project_retention_policies st)
    (seq_sessions st) (seq_prompts st) (seq_observations st) seq (seq_pending st).

Definition with_pending (st : Store) (rows : list PendingMessage) (seq : Z) : Store :=
  mkStore (sdk_sessions st) (user_prompts st) (observations st) (session_summaries st)
    rows (processed_message_dedupe st)
    (project_memory_activity st) (project_retention_policies st)
    (seq_sessions st) (seq_prompts st) (seq_observations st) (seq_summaries st) seq.

Definition with_dedupe (st : Store) (rows : list DedupeRow) : Store :=
  mkStore (sdk_sessions st) (user_prompts st) (observations st) (session_summaries st)
    (pending_messages st) rows
    (project_memory_activity st) (project_retention_policies st)
    (seq_sessions st) (seq_prompts st) (seq_observations st) (seq_summaries st) (seq_pending st).

Definition with_activity (st : Store) (rows : list ActivityRow) : Store :=
  mkStore (sdk_sessions st) (user_prompts st) (observations st) (session_summaries st)
    (pending_messages st) (processed_message_dedupe st)
    rows (project_retention_policies st)
    (seq_sessions st) (seq_prompts st) (seq_observations st) (seq_summaries st) (seq_pending st).

(** ** The queue: [pending_messages] *)

(** The four columns the state machine rewrites. *)
Definition pm_update (status : QueueStatus) (retry : Z) (started failed_at : option Z)
    (m : PendingMessage) : PendingMessage :=
  mkPendingMessage (pm_id m) (pm_session_db_id m) (pm_content_session_id m)
    (pm_message_type m) (pm_dedupe_key m) (pm_tool_name m) (pm_tool_input m)
    (pm_tool_response m) (pm_cwd m) (pm_last_assistant_message m) (pm_prompt_number m)
    status retry (pm_created_at_epoch m) started failed_at.

(** [SET status = 'processing', started_processing_at_epoch = now]. *)
Definition set_claimed (now : Z) (m : PendingMessage) : PendingMessage :=
  pm_update processing (pm_retry_count m) (Some now) (pm_failed_at_epoch m) m.

(** [SET status = 'pending', retry_count = retry_count + 1,
    started_processing_at_epoch = NULL]. *)
Definition set_retry (m : PendingMessage) : PendingMessage :=
  pm_update pending (pm_retry_count m + 1) None (pm_failed_at_epoch m) m.

(** [SET status = 'failed', failed_at_epoch = now]. *)
Definition set_failed (now : Z) (m : PendingMessage) : PendingMessage :=
  pm_update failed (pm_retry_count m) (pm_started_processing_at_epoch m) (Some now) m.

(** [UPDATE pending_messages SET ... WHERE id = ?]. *)
Definition update_by_id (i : Z) (f : PendingMessage -> PendingMessage)
    (rows : list PendingMessage) : list PendingMessage :=
  map (fun m => if pm_id m =? i then f m else m) rows.

(** [WHERE session_db_id = ? AND status = 'pending']. *)
Definition is_pending_of (sid : Z) (m : PendingMessage) : bool :=
  (pm_session_db_id m =? sid) && QueueStatus_eqb (pm_status m) pending.

(** [ORDER BY id ASC LIMIT 1]: the row of least id. *)
Fixpoint order_by_id_asc_limit_1 (rows : list PendingMessage) : option PendingMessage :=
  match rows with
  | [] => None
  | m :: rest =>
      match order_by_id_asc_limit_1 rest with
      | None => Some m
      | Some b => if pm_id b <? pm_id m then Some b else Some m
      end
  end.

(** [Store.claimNextPending]: the select and the flip run in one
    transaction; the row handed back is the one read before the update. *)
Definition claimNextPending (st : Store) (sessionDbId : Z) (now : Z)
    : option PendingMessage * Store :=
  match order_by_id_asc_limit_1 (List.filter (is_pending_of sessionDbId) (pending_messages st)) with
  | None => (None, st)
  | Some msg =>
      (Some msg,
       with_pending st (update_by_id (pm_id msg) (set_claimed now) (pending_messages st))
         (seq_pending st))
  end.

(** [Store.confirmProcessed]: [DELETE FROM pending_messages WHERE id = ?]. *)
Definition confirmProcessed (st : Store) (messageId : Z) : Store :=
  with_pending st (List.filter (fun m => negb (pm_id m =? messageId)) (pending_messages st))
    (seq_pending st).

(** [Store.markFailed]. *)
Definition markFailed (st : Store) (messageId : Z) (now : Z) : Store :=
  match List.find (fun m => pm_id m =? messageId) (pending_messages st) with
  | None => st
  | Some row =>
      if pm_retry_count row <? MAX_RETRY then
        with_pending st (update_by_id messageId set_retry (pending_messages st)) (seq_pending st)
      else
        with_pending st (update_by_id messageId (set_failed now) (pending_messages st))
          (seq_pending st)
  end.

(** [Store.resetStaleProcessing]: returns the number of rows changed. *)
Definition is_stale (cutoff : Z) (m : PendingMessage) : bool :=
  QueueStatus_eqb (pm_status m) processing &&
  match pm_started_processing_at_epoch m with
  | Some t => t <? cutoff
  | None => false
  end.

Definition resetStaleProcessing (st : Store) (thresholdMs : Z) (now : Z) : Z * Store :=
  let cutoff := now - thresholdMs in
  (Z.of_nat (List.length (List.filter (is_stale cutoff) (pending_messages st))),
   with_pending st
     (map (fun m => if is_stale cutoff m
                    then pm_update pending (pm_retry_count m) None (pm_failed_at_epoch m) m
                    else m)
        (pending_messages st))
     (seq_pending st)).

(** [Store.getPendingCount]: rows of the session that are pending or processing. *)
Definition getPendingCount (st : Store) (sessionDbId : Z) : Z :=
  Z.of_nat (List.length (List.filter
    (fun m => (pm_session_db_id m =? sessionDbId) &&
              (QueueStatus_eqb (pm_status m) pending || QueueStatus_eqb (pm_status m) processing))
    (pending_messages st))).

(** The row a caller sees for an id ([SELECT ... WHERE id = ?]). *)
Definition getMessage (st : Store) (messageId : Z) : option PendingMessage :=
  List.find (fun m => pm_id m =? messageId) (pending_messages st).

(** ** Project activity *)

(** [[...new Set(xs.filter(x => !!x))]]: non-empty names, first occurrence kept. *)
Fixpoint uniq_first (xs : list string) : list string :=
  match xs with
  | [] => []
  | x :: rest => x :: List.filter (fun y => negb (String.eqb y x)) (uniq_first rest)
  end.

Definition nonempty (s : string) : bool := negb (String.eqb s EmptyString).

(** The order of SQLite's binary collation: byte by byte, a prefix first. *)
Fixpoint insert_name (x : string) (sorted : list string) : list string :=
  match sorted with
  | [] => [x]
  | y :: rest => if String.leb x y then x :: y :: rest else y :: insert_name x rest
  end.

Definition sort_names (xs : list string) : list string := fold_right insert_name [] xs.

(** The upsert of [touchProjectActivity] for one project. *)
Definition touch_one (atEpoch : Z) (rows : list ActivityRow) (p : string) : list ActivityRow :=
  if existsb (fun a => String.eqb (a_project a) p) rows then
    map (fun a =>
           if String.eqb (a_project a) p then
             mkActivityRow (a_project a)
               (if a_last_accessed_at_epoch a <? atEpoch then atEpoch
                else a_last_accessed_at_epoch a)
               atEpoch
           else a) rows
  else rows ++ [mkActivityRow p atEpoch atEpoch].

(** [Store.touchProjectActivity]. *)
Definition touchProjectActivity (st : Store) (projects : list string) (atEpoch : Z) : Store :=
  with_activity st
    (fold_left (touch_one atEpoch) (uniq_first (List.filter nonempty projects))
       (project_memory_activity st)).

(** ** Sessions and prompts *)

Definition getSessionById (st : Store) (sessionDbId : Z) : option SessionRow :=
  List.find (fun s => s_id s =? sessionDbId) (sdk_sessions st).

Definition getSessionByContentSessionId (st : Store) (contentSessionId : string)
    : option SessionRow :=
  List.find (fun s => String.eqb (s_content_session_id s) contentSessionId) (sdk_sessions st).

Definition set_project (project : string) (s : SessionRow) : SessionRow :=
  mkSessionRow (s_id s) (s_content_session_id s) (s_memory_session_id s) project
    (s_user_prompt s) (s_started_at_epoch s) (s_status s).

Definition set_memory_session_id (mid : string) (s : SessionRow) : SessionRow :=
  mkSessionRow (s_id s) (s_content_session_id s) (Some mid) (s_project s)
    (s_user_prompt s) (s_started_at_epoch s) (s_status s).

(** [Store.createSDKSession]: get-or-create keyed by the external id.  The
    caller's [userPrompt] goes into the new row as it was received. *)
Definition createSDKSession (st : Store) (contentSessionId project userPrompt : string)
    (now : Z) : Z * Store :=
  match getSessionByContentSessionId st contentSessionId with
  | Some existing =>
      if nonempty project then
        (s_id existing,
         with_sessions st
           (map (fun s =>
                   if String.eqb (s_content_session_id s) contentSessionId
                      && String.eqb (s_project s) EmptyString
                   then set_project project s else s)
              (sdk_sessions st))
           (seq_sessions st))
      else (s_id existing, st)
  | None =>
      let new_id := next_rowid (seq_sessions st) (map s_id (sdk_sessions st)) in
      let row := mkSessionRow new_id contentSessionId None project (Some userPrompt) now active in
      let st1 := with_sessions st (sdk_sessions st ++ [row]) new_id in
      let st2 := touchProjectActivity st1 [project] now in
      (match getSessionByContentSessionId st2 contentSessionId with
       | Some r => s_id r
       | None => new_id
       end, st2)
  end.

Definition rename_obs_session (old new : string) (o : ObservationRow) : ObservationRow :=
  if String.eqb (o_memory_session_id o) old then
    mkObservationRow (o_id o) new (o_project o) (o_input o) (o_prompt_number o)
      (o_created_at_epoch o) (o_last_accessed_at_epoch o) (o_deleted_at_epoch o)
  else o.

Definition rename_sum_session (old new : string) (x : SummaryRow) : SummaryRow :=
  if String.eqb (ss_memory_session_id x) old then
    mkSummaryRow (ss_id x) new (ss_project x) (ss_input x) (ss_prompt_number x)
      (ss_created_at_epoch x) (ss_last_accessed_at_epoch x) (ss_deleted_at_epoch x)
  else x.

(** [Store.ensureMemorySessionIdRegistered]: an unconditional
    [UPDATE sdk_sessions SET memory_session_id = ? WHERE id = ?].  The column
    is [UNIQUE], so the statement is rejected when another session holds the
    value; the [ON UPDATE CASCADE] of the two child tables follows a rename. *)
Definition ensureMemorySessionIdRegistered (st : Store) (sessionDbId : Z)
    (memorySessionId : string) : option Store :=
  match getSessionById st sessionDbId with
  | None => Some st
  | Some row =>
      if existsb (fun s => negb (s_id s =? sessionDbId) &&
                           match s_memory_session_id s with
                           | Some m => String.eqb m memorySessionId
                           | None => false
                           end) (sdk_sessions st)
      then None
      else
        let st1 := with_sessions st
          (map (fun s => if s_id s =? sessionDbId
                         then set_memory_session_id memorySessionId s else s)
             (sdk_sessions st))
          (seq_sessions st) in
        match s_memory_session_id row with
        | None => Some st1
        | Some old =>
            Some (with_summaries
                    (with_observations st1
                       (map (rename_obs_session old memorySessionId) (observations st1))
                       (seq_observations st1))
                    (map (rename_sum_session old memorySessionId) (session_summaries st1))
                    (seq_summaries st1))
        end
  end.

(** [Store.saveUserPrompt]; the foreign key needs the session row. *)
Definition saveUserPrompt (st : Store) (contentSessionId : string) (promptNumber : Z)
    (promptText : string) (now : Z) : option (Z * Store) :=
  match getSessionByContentSessionId st contentSessionId with
  | None => None
  | Some row =>
      let new_id := next_rowid (seq_prompts st) (map up_id (user_prompts st)) in
      let st1 := with_prompts st
        (user_prompts st ++
           [mkPromptRow new_id contentSessionId promptNumber promptText now (Some now) None])
        new_id in
      Some (new_id,
            if nonempty (s_project row) then touchProjectActivity st1 [s_project row] now
            else st1)
  end.

(** [Store.getPromptNumberFromUserPrompts]: the row count of the session's prompts. *)
Definition getPromptNumberFromUserPrompts (st : Store) (contentSessionId : string) : Z :=
  Z.of_nat (List.length (List.filter
    (fun p => String.eqb (up_content_session_id p) contentSessionId) (user_prompts st))).

(** [Store.getUserPrompt]. *)
Definition getUserPrompt (st : Store) (contentSessionId : string) (promptNumber : Z)
    : option string :=
  option_map up_prompt_text
    (List.find (fun p => String.eqb (up_content_session_id p) contentSessionId
                         && (up_prompt_number p =? promptNumber))
       (user_prompts st)).

(** ** Enqueue with the dedupe ledger *)

Record EnqueueResult := mkEnqueueResult { er_id : Z; er_deduped : bool }.

(** The kind-specific columns of a new queue row. *)
Record ObservationPayload := mkObservationPayload {
  op_tool_name : string;
  op_tool_input : string;
  op_tool_response : string;
  op_cwd : string;
  op_prompt_number : Z;
  op_dedupe_key : option string
}.

Record SummarizePayload := mkSummarizePayload {
  sp_last_assistant_message : string;
  sp_prompt_number : Z;
  sp_dedupe_key : option string
}.

(** [!payload.dedupe_key]: an absent or empty key counts as no key. *)
Definition truthy_key (k : option string) : option string :=
  match k with
  | Some s => if String.eqb s EmptyString then None else Some s
  | None => None
  end.

Definition same_key (sid : Z) (kind : MessageType) (k : string) (m : PendingMessage) : bool :=
  (pm_session_db_id m =? sid) && MessageType_eqb (pm_message_type m) kind &&
  match pm_dedupe_key m with
  | Some k' => String.eqb k' k
  | None => false
  end.

Definition ledger_has (st : Store) (sid : Z) (kind : MessageType) (k : string) : bool :=
  existsb (fun d => (d_session_db_id d =? sid) && MessageType_eqb (d_message_type d) kind
                    && String.eqb (d_dedupe_key d) k)
    (processed_message_dedupe st).

Definition session_exists (st : Store) (sid : Z) : bool :=
  existsb (fun s => s_id s =? sid) (sdk_sessions st).

(** The body shared by [enqueueObservation] and [enqueueSummarize]; [row]
    builds the new pending row from its id and its dedupe column.  With a
    key, ledger insert and queue insert are one transaction: a rejected
    statement rolls both back. *)
Definition enqueue_message (st : Store) (sessionDbId : Z) (kind : MessageType)
    (key : option string) (row : Z -> option string -> PendingMessage) (now : Z)
    : option EnqueueResult * Store :=
  let new_id := next_rowid (seq_pending st) (map pm_id (pending_messages st)) in
  match truthy_key key with
  | None =>
      if session_exists st sessionDbId then
        (Some (mkEnqueueResult new_id false),
         with_pending st (pending_messages st ++ [row new_id None]) new_id)
      else (None, st)
  | Some k =>
      if ledger_has st sessionDbId kind k then
        (Some (mkEnqueueResult
                 (match List.find (same_key sessionDbId kind k) (pending_messages st) with
                  | Some existing => pm_id existing
                  | None => 0
                  end) true),
         st)
      else if negb (session_exists st sessionDbId) then (None, st)
      else if existsb (same_key sessionDbId kind k) (pending_messages st) then (None, st)
      else
        (Some (mkEnqueueResult new_id false),
         with_pending
           (with_dedupe st
              (processed_message_dedupe st ++ [mkDedupeRow sessionDbId kind k now]))
           (pending_messages st ++ [row new_id (Some k)]) new_id)
  end.

(** The pending row of a tool event. *)
Definition observation_row (sessionDbId : Z) (contentSessionId : string)
    (payload : ObservationPayload) (now : Z) (new_id : Z) (key : option string)
    : PendingMessage :=
  mkPendingMessage new_id sessionDbId contentSessionId observation key
    (Some (op_tool_name payload)) (Some (op_tool_input payload))
    (Some (op_tool_response payload)) (Some (op_cwd payload)) None
    (op_prompt_number payload) pending 0 now None None.

(** The pending row of a closing message. *)
Definition summarize_row (sessionDbId : Z) (contentSessionId : string)
    (payload : SummarizePayload) (now : Z) (new_id : Z) (key : option string)
    : PendingMessage :=
  mkPendingMessage new_id sessionDbId contentSessionId summarize key
    None None None None (Some (sp_last_assistant_message payload))
    (sp_prompt_number payload) pending 0 now None None.

(** [Store.enqueueObservation]. *)
Definition enqueueObservation (st : Store) (sessionDbId : Z) (contentSessionId : string)
    (payload : ObservationPayload) (now : Z) : option EnqueueResult * Store :=
  enqueue_message st sessionDbId observation (op_dedupe_key payload)
    (observation_row sessionDbId contentSessionId payload now) now.

(** [Store.enqueueSummarize]. *)
Definition enqueueSummarize (st : Store) (sessionDbId : Z) (contentSessionId : string)
    (payload : SummarizePayload) (now : Z) : option EnqueueResult * Store :=
  enqueue_message st sessionDbId summarize (sp_dedupe_key payload)
    (summarize_row sessionDbId contentSessionId payload now) now.

(** ** Writing results *)

Definition memory_session_known (st : Store) (mid : string) : bool :=
  existsb (fun s => match s_memory_session_id s with
                    | Some m => String.eqb m mid
                    | None => false
                    end) (sdk_sessions st).

(** [Store.storeObservation]; the foreign key needs a session that holds
    the memory session id. *)
Definition storeObservation (st : Store) (memorySessionId project : string)
    (obs : ObservationInput) (promptNumber : Z) (now : Z) : option (Z * Store) :=
  if memory_session_known st memorySessionId then
    let new_id := next_rowid (seq_observations st) (map o_id (observations st)) in
    let st1 := with_observations st
      (observations st ++
         [mkObservationRow new_id memorySessionId project obs promptNumber now (Some now) None])
      new_id in
    Some (new_id, touchProjectActivity st1 [project] now)
  else None.

(** [Store.storeSummary]. *)
Definition storeSummary (st : Store) (memorySessionId project : string)
    (summary : SummaryInput) (promptNumber : Z) (now : Z) : option (Z * Store) :=
  if memory_session_known st memorySessionId then
    let new_id := next_rowid (seq_summaries st) (map ss_id (session_summaries st)) in
    let st1 := with_summaries st
      (session_summaries st ++
         [mkSummaryRow new_id memorySessionId project summary promptNumber now (Some now) None])
      new_id in
    Some (new_id, touchProjectActivity st1 [project] now)
  else None.

(** ** String helpers ([String.prototype.trim], [slice], the tag regexes)

    A string is the sequence of the UTF-8 bytes of the JavaScript string, as
    SQLite stores it; the half of a surrogate pair that [slice] can leave
    behind is written in the same three-byte form. *)

(** The number of bytes of the white space or line terminator character
    that [s] begins with, 0 when it begins with none: tab, LF, VT, FF, CR
    and space, U+00A0, U+1680, U+2000 to U+200A, U+2028, U+2029, U+202F,
    U+205F, U+3000 and U+FEFF. *)
Definition space_width (s : string) : nat :=
  match s with
  | EmptyString => 0%nat
  | String c1 r1 =>
      let b1 := nat_of_ascii c1 in
      if Nat.eqb b1 32 || (Nat.leb 9 b1 && Nat.leb b1 13) then 1%nat
      else
        match r1 with
        | EmptyString => 0%nat
        | String c2 r2 =>
            let b2 := nat_of_ascii c2 in
            if Nat.eqb b1 194 && Nat.eqb b2 160 then 2%nat
            else
              match r2 with
              | EmptyString => 0%nat
              | String c3 _ =>
                  let b3 := nat_of_ascii c3 in
                  if (Nat.eqb b1 225 && Nat.eqb b2 154 && Nat.eqb b3 128)
                     || (Nat.eqb b1 226 && Nat.eqb b2 128
                         && ((Nat.leb 128 b3 && Nat.leb b3 138)
                             || Nat.eqb b3 168 || Nat.eqb b3 169 || Nat.eqb b3 175))
                     || (Nat.eqb b1 226 && Nat.eqb b2 129 && Nat.eqb b3 159)
                     || (Nat.eqb b1 227 && Nat.eqb b2 128 && Nat.eqb b3 128)
                     || (Nat.eqb b1 239 && Nat.eqb b2 187 && Nat.eqb b3 191)
                  then 3%nat else 0%nat
              end
        end
  end.

(** Drops [skip] bytes, then the white space characters that follow. *)
Fixpoint drop_space (skip : nat) (s : string) : string :=
  match s with
  | EmptyString => EmptyString
  | String _ rest =>
      match skip with
      | S k => drop_space k rest
      | O =>
          match space_width s with
          | O => s
          | S k => drop_space k rest
          end
      end
  end.

Definition trim_start (s : string) : string := drop_space 0%nat s.

(** The end is cut where nothing but white space follows. *)
Fixpoint trim_end (s : string) : string :=
  match s with
  | EmptyString => EmptyString
  | String c rest =>
      if String.eqb (trim_start s) EmptyString then EmptyString
      else String c (trim_end rest)
  end.

Definition trim (s : string) : string := trim_end (trim_start s).

(** The bytes and the UTF-16 code units of the character a byte leads:
    a character of four bytes is a surrogate pair. *)
Definition char_shape (c : ascii) : nat * nat :=
  let b := nat_of_ascii c in
  if Nat.ltb b 192 then (1%nat, 1%nat)
  else if Nat.ltb b 224 then (2%nat, 1%nat)
  else if Nat.ltb b 240 then (3%nat, 1%nat)
  else (4%nat, 2%nat).

(** The high surrogate of the four-byte character [s] begins with. *)
Definition high_surrogate (s : string) : string :=
  match s with
  | String c1 (String c2 (String c3 _)) =>
      let top := ((nat_of_ascii c1 mod 8) * 256 + (nat_of_ascii c2 mod 64) * 4
                  + (nat_of_ascii c3 mod 64) / 16)%nat in
      let unit := (863 * 64 + top)%nat in
      String (ascii_of_nat 237)
        (String (ascii_of_nat (128 + (unit / 64) mod 64))
           (String (ascii_of_nat (128 + unit mod 64)) EmptyString))
  | _ => EmptyString
  end.

(** [s.slice(0, units)]: the cut is counted in UTF-16 code units; [inside]
    is the number of bytes still to copy of the character under way.  A cut
    in the middle of a surrogate pair keeps the high surrogate. *)
Fixpoint slice_loop (units inside : nat) (s : string) : string :=
  match s with
  | EmptyString => EmptyString
  | String c rest =>
      match inside with
      | S k => String c (slice_loop units k rest)
      | O =>
          let '(width, cost) := char_shape c in
          if Nat.leb cost units
          then String c (slice_loop (units - cost) (width - 1) rest)
          else if Nat.eqb units 0%nat then EmptyString
          else high_surrogate s
      end
  end.

Definition slice_from_start (units : nat) (s : string) : string :=
  slice_loop units 0%nat s.

Fixpoint drop_chars (n : nat) (s : string) : string :=
  match n, s with
  | O, _ => s
  | S n', String _ rest => drop_chars n' rest
  | S _, EmptyString => EmptyString
  end.

(** What follows the first occurrence of [close] in [s], if there is one. *)
Fixpoint after_first (close s : string) : option string :=
  if String.prefix close s then Some (drop_chars (String.length close) s)
  else match s with
       | EmptyString => None
       | String _ rest => after_first close rest
       end.

(** The global, lazy regex replace that deletes every tagged span: left to
    right, each match
    runs from an opening tag to the nearest closing tag after it. *)
Fixpoint strip_tag_fuel (fuel : nat) (open close s : string) : string :=
  match fuel with
  | O => s
  | S fuel' =>
      match s with
      | EmptyString => EmptyString
      | String c rest =>
          if String.prefix open s then
            match after_first close (drop_chars (String.length open) s) with
            | Some tail => strip_tag_fuel fuel' open close tail
            | None => String c (strip_tag_fuel fuel' open close rest)
            end
          else String c (strip_tag_fuel fuel' open close rest)
      end
  end.

Definition strip_tag (open close s : string) : string :=
  strip_tag_fuel (S (String.length s)) open close s.

(** Matches of a literal tag; the tags cannot overlap themselves. *)
Fixpoint count_matches (pat s : string) : nat :=
  match s with
  | EmptyString => O
  | String _ rest =>
      ((if String.prefix pat s then 1 else 0) + count_matches pat rest)%nat
  end.

(** ** [src/lib/tag-stripping.ts] *)

Definition MAX_TAG_COUNT : nat := 100.

Definition countTags (content : string) : nat :=
  (count_matches "<private>" content + count_matches "<claude-mem-context>" content)%nat.

Definition stripTagsInternal (content : string) : string :=
  if Nat.ltb MAX_TAG_COUNT (countTags content) then
    trim (strip_tag "<private>" "</private>"
            (strip_tag "<claude-mem-context>" "</claude-mem-context>" content))
  else
    trim (strip_tag "<private>" "</private>"
            (strip_tag "<claude-mem-context>" "</claude-mem-context>" content)).

Definition stripMemoryTagsFromPrompt (content : string) : string := stripTagsInternal content.
Definition stripMemoryTagsFromJson (content : string) : string := stripTagsInternal content.

(** ** Reading rows back *)

(** The columns every memory table shares. *)
Class MemoryRow (A : Type) := {
  row_id : A -> Z;
  row_created : A -> Z;
  row_deleted : A -> option Z
}.

#[export] Instance ObservationRow_MemoryRow : MemoryRow ObservationRow :=
  {| row_id := o_id; row_created := o_created_at_epoch; row_deleted := o_deleted_at_epoch |}.
#[export] Instance SummaryRow_MemoryRow : MemoryRow SummaryRow :=
  {| row_id := ss_id; row_created := ss_created_at_epoch; row_deleted := ss_deleted_at_epoch |}.
#[export] Instance PromptRow_MemoryRow : MemoryRow PromptRow :=
  {| row_id := up_id; row_created := up_created_at_epoch; row_deleted := up_deleted_at_epoch |}.

Inductive Order := date_desc | date_asc.

(** [deleted_at_epoch IS NULL]. *)
Definition live {A} `{MemoryRow A} (r : A) : bool :=
  match row_deleted r with None => true | Some _ => false end.

(** [ORDER BY created_at_epoch]: a stable insertion sort, so rows of equal
    time keep their rowid order. *)
Definition comes_first {A} `{MemoryRow A} (o : Order) (x y : A) : bool :=
  match o with
  | date_asc => row_created x <=? row_created y
  | date_desc => row_created y <=? row_created x
  end.

Fixpoint insert_row {A} `{MemoryRow A} (o : Order) (x : A) (sorted : list A) : list A :=
  match sorted with
  | [] => [x]
  | y :: rest => if comes_first o x y then x :: y :: rest else y :: insert_row o x rest
  end.

Definition order_by_created {A} `{MemoryRow A} (o : Order) (rows : list A) : list A :=
  fold_right (insert_row o) [] rows.

(** [LIMIT n]; SQLite reads a negative [n] as no limit. *)
Definition sql_limit {A} (n : Z) (rows : list A) : list A :=
  if n <? 0 then rows else firstn (Z.to_nat n) rows.

(** [LIMIT n OFFSET k]. *)
Definition sql_limit_offset {A} (n k : Z) (rows : list A) : list A :=
  sql_limit n (skipn (Z.to_nat k) rows).

Definition truthy_string (s : option string) : option string :=
  match s with
  | Some x => if String.eqb x EmptyString then None else Some x
  | None => None
  end.

(** The optional [AND column = ?] and range clauses. *)
Definition project_clause (project : option string) (p : string) : bool :=
  match truthy_string project with Some want => String.eqb p want | None => true end.

Definition types_clause (obsTypes : list string) (t : string) : bool :=
  match obsTypes with [] => true | _ => existsb (String.eqb t) obsTypes end.

Definition date_clause (dateStart dateEnd : option Z) (created : Z) : bool :=
  match dateStart with Some a => a <=? created | None => true end &&
  match dateEnd with Some b => created <=? b | None => true end.

Record ByIdsOptions := mkByIdsOptions {
  bo_orderBy : option Order;
  bo_limit : option Z;
  bo_project : option string;
  bo_obsTypes : list string;
  bo_dateStartEpoch : option Z;
  bo_dateEndEpoch : option Z
}.

Definition order_clause (o : option Order) : Order :=
  match o with Some date_asc => date_asc | _ => date_desc end.

(** A truthy [options.limit] adds [LIMIT Math.max(1, options.limit)]. *)
Definition limit_clause {A} (limit : option Z) (rows : list A) : list A :=
  match limit with
  | Some n => if n =? 0 then rows else sql_limit (Z.max 1 n) rows
  | None => rows
  end.

Definition id_in (ids : list Z) (i : Z) : bool := existsb (Z.eqb i) ids.

(** [Store.getObservationById]. *)
Definition getObservationById (st : Store) (i : Z) : option ObservationRow :=
  List.find (fun o => (o_id o =? i) && live o) (observations st).

(** [Store.getObservationsByIds]. *)
Definition getObservationsByIds (st : Store) (ids : list Z) (opts : ByIdsOptions)
    : list ObservationRow :=
  match ids with
  | [] => []
  | _ =>
      limit_clause (bo_limit opts)
        (order_by_created (order_clause (bo_orderBy opts))
           (List.filter
              (fun o => id_in ids (o_id o) && live o
                        && project_clause (bo_project opts) (o_project o)
                        && types_clause (bo_obsTypes opts) (oi_type (o_input o))
                        && date_clause (bo_dateStartEpoch opts) (bo_dateEndEpoch opts)
                             (o_created_at_epoch o))
              (observations st)))
  end.

(** [Store.getSummariesByIds]. *)
Definition getSummariesByIds (st : Store) (ids : list Z) (opts : ByIdsOptions)
    : list SummaryRow :=
  match ids with
  | [] => []
  | _ =>
      limit_clause (bo_limit opts)
        (order_by_created (order_clause (bo_orderBy opts))
           (List.filter
              (fun x => id_in ids (ss_id x) && live x
                        && project_clause (bo_project opts) (ss_project x)
                        && date_clause (bo_dateStartEpoch opts) (bo_dateEndEpoch opts)
                             (ss_created_at_epoch x))
              (session_summaries st)))
  end.

(** [user_prompts up JOIN sdk_sessions s ON s.content_session_id =
    up.content_session_id]: one pair per matching session row. *)
Definition prompts_join_sessions (st : Store) : list (PromptRow * SessionRow) :=
  flat_map
    (fun up =>
       map (fun s => (up, s))
         (List.filter
            (fun s => String.eqb (s_content_session_id s) (up_content_session_id up))
            (sdk_sessions st)))
    (user_prompts st).

(** [Store.getPromptsByIds]. *)
Definition getPromptsByIds (st : Store) (ids : list Z) (opts : ByIdsOptions)
    : list PromptRow :=
  match ids with
  | [] => []
  | _ =>
      limit_clause (bo_limit opts)
        (order_by_created (order_clause (bo_orderBy opts))
           (map fst
              (List.filter
                 (fun us => id_in ids (up_id (fst us)) && live (fst us)
                            && project_clause (bo_project opts) (s_project (snd us))
                            && date_clause (bo_dateStartEpoch opts) (bo_dateEndEpoch opts)
                                 (up_created_at_epoch (fst us)))
                 (prompts_join_sessions st))))
  end.

(** [Store.listObservations]: a page and the total. *)
Definition listObservations (st : Store) (offset limit : Z) (project : option string)
    : list ObservationRow * Z :=
  let rows := List.filter (fun o => project_clause project (o_project o) && live o)
                (observations st) in
  (sql_limit_offset limit offset (order_by_created date_desc rows),
   Z.of_nat (List.length rows)).

(** [Store.listSummaries]. *)
Definition listSummaries (st : Store) (offset limit : Z) (project : option string)
    : list SummaryRow * Z :=
  let rows := List.filter (fun x => project_clause project (ss_project x) && live x)
                (session_summaries st) in
  (sql_limit_offset limit offset (order_by_created date_desc rows),
   Z.of_nat (List.length rows)).

(** [Store.listPrompts]. *)
Definition listPrompts (st : Store) (offset limit : Z) (project : option string)
    : list PromptRow * Z :=
  let rows :=
    List.filter
      (fun up => live up &&
                 match truthy_string project with
                 | Some want =>
                     existsb (fun s => String.eqb (s_content_session_id s)
                                         (up_content_session_id up)
                                       && String.eqb (s_project s) want)
                       (sdk_sessions st)
                 | None => true
                 end)
      (user_prompts st) in
  (sql_limit_offset limit offset (order_by_created date_desc rows),
   Z.of_nat (List.length rows)).

Inductive SearchOrder := relevance | search_date_desc | search_date_asc.

Record SearchArgs := mkSearchArgs {
  sa_query : option string;
  sa_limit : option Z;
  sa_offset : option Z;
  sa_project : option string;
  sa_includeObservations : option bool;
  sa_includeSessions : option bool;
  sa_includePrompts : option bool;
  sa_obsTypes : list string;
  sa_dateStartEpoch : option Z;
  sa_dateEndEpoch : option Z;
  sa_orderBy : option SearchOrder
}.

Record SearchResult := mkSearchResult {
  sr_observations : list ObservationRow;
  sr_sessions : list SummaryRow;
  sr_prompts : list PromptRow
}.

Section Lexical.

(** SQLite's [column LIKE pattern] on a nullable text column; the engine's
    matcher is taken as given. *)
Variable like : option string -> string -> bool.

(** [Store.search], the lexical path. *)
Definition search (st : Store) (args : SearchArgs) : SearchResult :=
  let limit := Z.max 1 (Z.min (default 20 (sa_limit args)) 100) in
  let offset := Z.max 0 (default 0 (sa_offset args)) in
  let q := trim (default EmptyString (sa_query args)) in
  let order := match sa_orderBy args with Some search_date_asc => date_asc | _ => date_desc end in
  let pattern := String.append "%" (String.append q "%") in
  let has_q := nonempty q in
  let included (flag : option bool) :=
    match flag with Some false => false | _ => true end in
  mkSearchResult
    (if included (sa_includeObservations args) then
       sql_limit_offset limit offset
         (order_by_created order
            (List.filter
               (fun o => live o
                  && (negb has_q
                      || like (oi_title (o_input o)) pattern
                      || like (oi_subtitle (o_input o)) pattern
                      || like (oi_narrative (o_input o)) pattern)
                  && project_clause (sa_project args) (o_project o)
                  && types_clause (sa_obsTypes args) (oi_type (o_input o))
                  && date_clause (sa_dateStartEpoch args) (sa_dateEndEpoch args)
                       (o_created_at_epoch o))
               (observations st)))
     else [])
    (if included (sa_includeSessions args) then
       sql_limit_offset limit offset
         (order_by_created order
            (List.filter
               (fun x => live x
                  && (negb has_q
                      || like (si_request (ss_input x)) pattern
                      || like (si_investigated (ss_input x)) pattern
                      || like (si_learned (ss_input x)) pattern
                      || like (si_completed (ss_input x)) pattern
                      || like (si_next_steps (ss_input x)) pattern)
                  && project_clause (sa_project args) (ss_project x)
                  && date_clause (sa_dateStartEpoch args) (sa_dateEndEpoch args)
                       (ss_created_at_epoch x))
               (session_summaries st)))
     else [])
    (if included (sa_includePrompts args) then
       sql_limit_offset limit offset
         (order_by_created order
            (map fst
               (List.filter
                  (fun us => live (fst us)
                     && (negb has_q || like (Some (up_prompt_text (fst us))) pattern)
                     && project_clause (sa_project args) (s_project (snd us))
                     && date_clause (sa_dateStartEpoch args) (sa_dateEndEpoch args)
                          (up_created_at_epoch (fst us)))
                  (prompts_join_sessions st))))
     else []).

End Lexical.

(** ** Hybrid merge ([src/worker/server.ts]) *)

(** The loop of [mergeRowsWithPriority]: [seen] is the set of ids already
    taken, the loop breaks as soon as [merged] reaches [limit].  Rows come
    from SQLite, so the guard on a missing row or a non-integer id never
    fires and is left to the row type. *)
Fixpoint merge_loop {A} `{MemoryRow A} (rows : list A) (seen : gset Z) (merged : list A)
    (limit : Z) : list A :=
  match rows with
  | [] => merged
  | row :: rest =>
      if bool_decide (row_id row ∈ seen) then merge_loop rest seen merged limit
      else
        let merged' := merged ++ [row] in
        if limit <=? Z.of_nat (List.length merged') then merged'
        else merge_loop rest (seen ∪ {[row_id row]}) merged' limit
  end.

Definition mergeRowsWithPriority {A} `{MemoryRow A} (priorityRows lexicalRows : list A)
    (limit : Z) : list A :=
  merge_loop (priorityRows ++ lexicalRows) ∅ [] limit.

(** Ids returned by the external vector service, one list per kind. *)
Record ChromaIds := mkChromaIds {
  ci_observations : list Z;
  ci_summaries : list Z;
  ci_prompts : list Z
}.

(** The two vector sources as the route sees them: whether each is switched
    on and usable, and the ranked ids it answers with. *)
Record VectorSources := mkVectorSources {
  vs_sqlite : bool;
  vs_semanticIds : list Z;
  vs_chroma : bool;
  vs_chromaIds : ChromaIds
}.

Record SearchRequest := mkSearchRequest {
  rq_query : option string;
  rq_limit : option Z;
  rq_offset : option Z;
  rq_project : option string;
  rq_includeObservations : bool;
  rq_includeSessions : bool;
  rq_includePrompts : bool;
  rq_obsTypes : list string;
  rq_dateStartEpoch : option Z;
  rq_dateEndEpoch : option Z;
  rq_orderBy : option SearchOrder
}.

Inductive SearchMode := lexical_only | hybrid.

Definition page_limit (rq : SearchRequest) : Z :=
  Z.max 1 (Z.min (default 20 (rq_limit rq)) 100).

(** The ids each kind collects from the two sources, local table first. *)
Definition vectorObservationIds (rq : SearchRequest) (vs : VectorSources) : list Z :=
  (if rq_includeObservations rq && vs_sqlite vs then vs_semanticIds vs else []) ++
  (if vs_chroma vs && rq_includeObservations rq then ci_observations (vs_chromaIds vs) else []).

Definition vectorSummaryIds (rq : SearchRequest) (vs : VectorSources) : list Z :=
  if vs_chroma vs && rq_includeSessions rq then ci_summaries (vs_chromaIds vs) else [].

Definition vectorPromptIds (rq : SearchRequest) (vs : VectorSources) : list Z :=
  if vs_chroma vs && rq_includePrompts rq then ci_prompts (vs_chromaIds vs) else [].

Definition hydrate_options (rq : SearchRequest) : ByIdsOptions :=
  mkByIdsOptions (Some date_desc) (Some (page_limit rq)) (rq_project rq) (rq_obsTypes rq)
    (rq_dateStartEpoch rq) (rq_dateEndEpoch rq).

Definition is_nil {A} (l : list A) : bool := match l with [] => true | _ => false end.

Section Routes.

Variable like : option string -> string -> bool.

Definition lexical_search (st : Store) (rq : SearchRequest) : SearchResult :=
  search like st
    (mkSearchArgs (rq_query rq) (Some (page_limit rq))
       (Some (Z.max 0 (default 0 (rq_offset rq)))) (rq_project rq)
       (Some (rq_includeObservations rq)) (Some (rq_includeSessions rq))
       (Some (rq_includePrompts rq)) (rq_obsTypes rq)
       (rq_dateStartEpoch rq) (rq_dateEndEpoch rq) (rq_orderBy rq)).

(** [GET /api/search]: the lexical page, then per kind the hydrated vector
    rows merged in front of it. *)
Definition api_search (st : Store) (rq : SearchRequest) (vs : VectorSources)
    : SearchMode * SearchResult :=
  let lexical := lexical_search st rq in
  match truthy_string (rq_query rq) with
  | None => (lexical_only, lexical)
  | Some _ =>
      let vo := vectorObservationIds rq vs in
      let vsum := vectorSummaryIds rq vs in
      let vp := vectorPromptIds rq vs in
      (if is_nil vo && is_nil vsum && is_nil vp then lexical_only else hybrid,
       mkSearchResult
         (if is_nil vo then sr_observations lexical
          else mergeRowsWithPriority (getObservationsByIds st vo (hydrate_options rq))
                 (sr_observations lexical) (page_limit rq))
         (if is_nil vsum then sr_sessions lexical
          else mergeRowsWithPriority (getSummariesByIds st vsum (hydrate_options rq))
                 (sr_sessions lexical) (page_limit rq))
         (if is_nil vp then sr_prompts lexical
          else mergeRowsWithPriority (getPromptsByIds st vp (hydrate_options rq))
                 (sr_prompts lexical) (page_limit rq)))
  end.

Inductive TimelineResponse :=
| no_timeline_anchor
| anchor_not_found (anchorId : Z)
| timeline_items (items : list ObservationRow).

(** A falsy number: absent or zero. *)
Definition truthy_number (n : option Z) : option Z :=
  match n with
  | Some x => if x =? 0 then None else Some x
  | None => None
  end.

(** [GET /api/timeline]: the anchor row through [getObservationById], its
    neighbours through two queries of the route's own.  A parameter of the
    query string is a string, so [anchor], [depth_before] and [depth_after]
    are [None] when the parameter is missing or empty and the number it
    reads as otherwise: a depth of 0 is a depth, [LIMIT 0], while an anchor
    of 0 is no anchor once it is a number. *)
Definition api_timeline (st : Store) (anchor : option Z) (query : option string)
    (depth_before depth_after : option Z) (project : option string) : TimelineResponse :=
  let depthBefore := default 3 depth_before in
  let depthAfter := default 3 depth_after in
  let anchorId :=
    match truthy_number anchor, truthy_string query with
    | Some a, _ => Some a
    | None, Some q =>
        option_map o_id
          (head (sr_observations
                   (search like st
                      (mkSearchArgs (Some q) (Some 1) (Some 0) project
                         None None None [] None None None))))
    | None, None => None
    end in
  match truthy_number anchorId with
  | None => no_timeline_anchor
  | Some a =>
      match getObservationById st a with
      | None => anchor_not_found a
      | Some anchorRow =>
          let before :=
            sql_limit depthBefore
              (order_by_created date_desc
                 (List.filter
                    (fun o => (o_created_at_epoch o <? o_created_at_epoch anchorRow)
                              && project_clause project (o_project o))
                    (observations st))) in
          let after :=
            sql_limit depthAfter
              (order_by_created date_asc
                 (List.filter
                    (fun o => (o_created_at_epoch anchorRow <? o_created_at_epoch o)
                              && project_clause project (o_project o))
                    (observations st))) in
          timeline_items (rev before ++ [anchorRow] ++ after)
      end
  end.

End Routes.

(** ** Retention ([Store.runRetentionCleanup]) *)

Inductive SkipReason := skip_pinned | skip_disabled | skip_not_expired.

Record RetentionDetail := mkRetentionDetail {
  dt_project : string;
  dt_ttlDays : Z;
  dt_lastAccessEpoch : option Z;
  dt_skippedReason : option SkipReason;
  dt_softDeleteCandidate : bool;
  dt_observations : Z;
  dt_summaries : Z;
  dt_prompts : Z
}.

(** The report; [inactiveDays], a two-decimal figure for display, is left out. *)
Record RetentionCleanupReport := mkReport {
  r_dryRun : bool;
  r_nowEpoch : Z;
  r_defaultTtlDays : Z;
  r_softDeleteDays : Z;
  r_scannedProjects : Z;
  r_skippedPinned : Z;
  r_skippedDisabled : Z;
  r_softDeletedProjects : Z;
  r_softDeletedObservations : Z;
  r_softDeletedSummaries : Z;
  r_softDeletedPrompts : Z;
  r_hardDeletedObservations : Z;
  r_hardDeletedSummaries : Z;
  r_hardDeletedPrompts : Z;
  r_details : list RetentionDetail
}.

(** Whole numbers of days; [Math.floor] is the identity on them. *)
Record RetentionCleanupOptions := mkCleanupOptions {
  co_dryRun : bool;
  co_nowEpoch : option Z;
  co_defaultTtlDays : Z;
  co_softDeleteDays : Z
}.

Record RetentionPolicy := mkRetentionPolicy {
  pol_enabled : bool;
  pol_pinned : bool;
  pol_ttlDays : option Z
}.

(** [Store.listRetentionProjects]: the distinct non-empty project names of
    five tables.  SQLite removes the duplicates of a [UNION] through a sorted
    temporary table, so the names come back in the order of the binary
    collation. *)
Definition listRetentionProjects (st : Store) : list string :=
  sort_names
    (uniq_first
       (List.filter nonempty
          (map s_project (sdk_sessions st) ++ map o_project (observations st)
           ++ map ss_project (session_summaries st)
           ++ map a_project (project_memory_activity st)
           ++ map rp_project (project_retention_policies st)))).

(** [Store.getProjectRetentionPolicy]. *)
Definition getProjectRetentionPolicy (st : Store) (project : string) : RetentionPolicy :=
  match List.find (fun r => String.eqb (rp_project r) project) (project_retention_policies st) with
  | None => mkRetentionPolicy true false None
  | Some row => mkRetentionPolicy (rp_enabled row) (rp_pinned row) (rp_ttl_days row)
  end.

(** A prompt belongs to the projects of the sessions that carry its
    external session id. *)
Definition prompt_in_project (st : Store) (project : string) (up : PromptRow) : bool :=
  existsb (fun s => String.eqb (s_content_session_id s) (up_content_session_id up)
                    && String.eqb (s_project s) project)
    (sdk_sessions st).

Definition max_of (xs : list Z) : option Z :=
  fold_right (fun x acc => match acc with None => Some x | Some y => Some (Z.max x y) end)
    None xs.

Definition last_access {A} `{MemoryRow A} (accessed : A -> option Z) (r : A) : Z :=
  default (row_created r) (accessed r).

(** [Store.getProjectLastAccessEpoch]: the latest access over the live rows
    of the project and its activity row; [None] when there is nothing. *)
Definition getProjectLastAccessEpoch (st : Store) (project : string) : option Z :=
  max_of
    (map (last_access o_last_accessed_at_epoch)
       (List.filter (fun o => String.eqb (o_project o) project && live o) (observations st))
     ++ map (last_access ss_last_accessed_at_epoch)
          (List.filter (fun x => String.eqb (ss_project x) project && live x)
             (session_summaries st))
     ++ map (fun us => last_access up_last_accessed_at_epoch (fst us))
          (List.filter (fun us => String.eqb (s_project (snd us)) project && live (fst us))
             (prompts_join_sessions st))
     ++ map a_last_accessed_at_epoch
          (List.filter (fun a => String.eqb (a_project a) project)
             (project_memory_activity st))).

Definition effective_ttl (policy : RetentionPolicy) (defaultTtlDays : Z) : Z :=
  match pol_ttlDays policy with
  | Some t => if (negb (t =? 0)) && (0 <? t) then t else defaultTtlDays
  | None => defaultTtlDays
  end.

(** [inactiveMs >= ttlDays * DAY_MS], a project never accessed being
    infinitely inactive. *)
Definition is_expired (nowEpoch : Z) (lastAccessEpoch : option Z) (ttlDays : Z) : bool :=
  match lastAccessEpoch with
  | Some e => ttlDays * DAY_MS <=? nowEpoch - e
  | None => true
  end.

Definition stamp_observation (nowEpoch : Z) (o : ObservationRow) : ObservationRow :=
  mkObservationRow (o_id o) (o_memory_session_id o) (o_project o) (o_input o)
    (o_prompt_number o) (o_created_at_epoch o) (o_last_accessed_at_epoch o) (Some nowEpoch).

Definition stamp_summary (nowEpoch : Z) (x : SummaryRow) : SummaryRow :=
  mkSummaryRow (ss_id x) (ss_memory_session_id x) (ss_project x) (ss_input x)
    (ss_prompt_number x) (ss_created_at_epoch x) (ss_last_accessed_at_epoch x) (Some nowEpoch).

Definition stamp_prompt (nowEpoch : Z) (up : PromptRow) : PromptRow :=
  mkPromptRow (up_id up) (up_content_session_id up) (up_prompt_number up) (up_prompt_text up)
    (up_created_at_epoch up) (up_last_accessed_at_epoch up) (Some nowEpoch).

(** The three soft-delete [UPDATE]s of one project. *)
Definition soft_delete_project (st : Store) (project : string) (nowEpoch : Z) : Store :=
  with_prompts
    (with_summaries
       (with_observations st
          (map (fun o => if String.eqb (o_project o) project && live o
                         then stamp_observation nowEpoch o else o)
             (observations st))
          (seq_observations st))
       (map (fun x => if String.eqb (ss_project x) project && live x
                      then stamp_summary nowEpoch x else x)
          (session_summaries st))
       (seq_summaries st))
    (map (fun up => if live up && prompt_in_project st project up
                    then stamp_prompt nowEpoch up else up)
       (user_prompts st))
    (seq_prompts st).

Definition count_of {A} (f : A -> bool) (rows : list A) : Z :=
  Z.of_nat (List.length (List.filter f rows)).

(** One turn of the [for (const project of projects)] loop. *)
Definition retention_step (dryRun : bool) (nowEpoch defaultTtlDays : Z)
    (acc : RetentionCleanupReport * Store) (project : string)
    : RetentionCleanupReport * Store :=
  let '(report, st) := acc in
  let policy := getProjectRetentionPolicy st project in
  let ttlDays := effective_ttl policy defaultTtlDays in
  let lastAccessEpoch := getProjectLastAccessEpoch st project in
  let expired := is_expired nowEpoch lastAccessEpoch ttlDays in
  let obsCount :=
    count_of (fun o => String.eqb (o_project o) project && live o) (observations st) in
  let summaryCount :=
    count_of (fun x => String.eqb (ss_project x) project && live x) (session_summaries st) in
  let promptCount :=
    count_of (fun us => String.eqb (s_project (snd us)) project && live (fst us))
      (prompts_join_sessions st) in
  let detail reason candidate :=
    mkRetentionDetail project ttlDays lastAccessEpoch reason candidate
      obsCount summaryCount promptCount in
  let bump (pinned disabled projects : Z) (candidate : bool) (d : RetentionDetail) :=
    mkReport (r_dryRun report) (r_nowEpoch report) (r_defaultTtlDays report)
      (r_softDeleteDays report) (r_scannedProjects report)
      (r_skippedPinned report + pinned) (r_skippedDisabled report + disabled)
      (r_softDeletedProjects report + projects)
      (r_softDeletedObservations report + (if candidate then obsCount else 0))
      (r_softDeletedSummaries report + (if candidate then summaryCount else 0))
      (r_softDeletedPrompts report + (if candidate then promptCount else 0))
      (r_hardDeletedObservations report) (r_hardDeletedSummaries report)
      (r_hardDeletedPrompts report) (r_details report ++ [d]) in
  if pol_pinned policy then (bump 1 0 0 false (detail (Some skip_pinned) false), st)
  else if negb (pol_enabled policy) then (bump 0 1 0 false (detail (Some skip_disabled) false), st)
  else if negb expired then (bump 0 0 0 false (detail (Some skip_not_expired) false), st)
  else (bump 0 0 1 true (detail None true),
        if dryRun then st else soft_delete_project st project nowEpoch).

(** [deleted_at_epoch IS NOT NULL AND deleted_at_epoch <= cutoff]. *)
Definition past_grace {A} `{MemoryRow A} (cutoff : Z) (r : A) : bool :=
  match row_deleted r with Some d => d <=? cutoff | None => false end.

(** [Store.runRetentionCleanup]; [now] stands for [Date.now()] when the
    caller gives no [nowEpoch]. *)
Definition runRetentionCleanup (st : Store) (options : RetentionCleanupOptions) (now : Z)
    : RetentionCleanupReport * Store :=
  let nowEpoch := default now (co_nowEpoch options) in
  let defaultTtlDays := Z.max 1 (co_defaultTtlDays options) in
  let softDeleteDays := Z.max 1 (co_softDeleteDays options) in
  let projects := listRetentionProjects st in
  let report0 :=
    mkReport (co_dryRun options) nowEpoch defaultTtlDays softDeleteDays
      (Z.of_nat (List.length projects)) 0 0 0 0 0 0 0 0 0 [] in
  let '(report1, st1) :=
    fold_left (retention_step (co_dryRun options) nowEpoch defaultTtlDays) projects
      (report0, st) in
  let hardDeleteCutoff := nowEpoch - softDeleteDays * DAY_MS in
  let report2 :=
    mkReport (r_dryRun report1) (r_nowEpoch report1) (r_defaultTtlDays report1)
      (r_softDeleteDays report1) (r_scannedProjects report1) (r_skippedPinned report1)
      (r_skippedDisabled report1) (r_softDeletedProjects report1)
      (r_softDeletedObservations report1) (r_softDeletedSummaries report1)
      (r_softDeletedPrompts report1)
      (count_of (past_grace hardDeleteCutoff) (observations st1))
      (count_of (past_grace hardDeleteCutoff) (session_summaries st1))
      (count_of (past_grace hardDeleteCutoff) (user_prompts st1))
      (r_details report1) in
  (report2,
   if co_dryRun options then st1
   else
     with_observations
       (with_summaries
          (with_prompts st1
             (List.filter (fun r => negb (past_grace hardDeleteCutoff r)) (user_prompts st1))
             (seq_prompts st1))
          (List.filter (fun r => negb (past_grace hardDeleteCutoff r)) (session_summaries st1))
          (seq_summaries st1))
       (List.filter (fun r => negb (past_grace hardDeleteCutoff r)) (observations st1))
       (seq_observations st1)).

(** ** The worker ([src/worker/server.ts])

    The process state the routes share: the store and the in-memory set of
    active session ids.  Event broadcast, logs, timing and failure records
    and the vector indexes never feed back into the store or into control
    flow and are not part of the state. *)
Record Worker := mkWorker {
  store : Store;
  activeSessions : gset Z
}.

Inductive InitResponse :=
| init_bad_request
| init_ok (sessionDbId promptNumber : Z) (skipped : bool) (reason : option string)
| init_internal_error.

(** [POST /api/sessions/init]. *)
Definition sessions_init (w : Worker) (contentSessionId project prompt : option string)
    (now : Z) : InitResponse * Worker :=
  match truthy_string contentSessionId, truthy_string project, prompt with
  | Some csid, Some proj, Some text =>
      let '(sessionDbId, st1) := createSDKSession (store w) csid proj text now in
      let act := activeSessions w ∪ {[sessionDbId]} in
      let currentCount := getPromptNumberFromUserPrompts st1 csid in
      let promptNumber := currentCount + 1 in
      let cleanedPrompt := stripMemoryTagsFromPrompt text in
      if negb (nonempty (trim cleanedPrompt)) then
        (init_ok sessionDbId promptNumber true (Some "private"%string), mkWorker st1 act)
      else
        match saveUserPrompt st1 csid promptNumber cleanedPrompt now with
        | Some (_, st2) => (init_ok sessionDbId promptNumber false None, mkWorker st2 act)
        | None => (init_internal_error, mkWorker st1 act)
        end
  | _, _, _ => (init_bad_request, w)
  end.

Inductive CompleteResponse :=
| complete_bad_request
| complete_skipped (reason : string)
| complete_completed (sessionDbId : Z).

(** [POST /api/sessions/complete]. *)
Definition sessions_complete (w : Worker) (contentSessionId : option string)
    : CompleteResponse * Worker :=
  match truthy_string contentSessionId with
  | None => (complete_bad_request, w)
  | Some csid =>
      match getSessionByContentSessionId (store w) csid with
      | None => (complete_skipped "not_active", w)
      | Some session =>
          (complete_completed (s_id session),
           mkWorker (store w) (activeSessions w ∖ {[s_id session]}))
      end
  end.

(** *** The agent, an external collaborator

    A call either returns a structured record or throws.  The first
    argument is the number of the loop turn, so that an agent may answer
    differently each time it sees the same message. *)
Inductive AgentResult (A : Type) :=
| returned (value : A)
| threw (error : string).
Arguments returned {A} value.
Arguments threw {A} error.

Record Agent := mkAgent {
  processObservation : nat -> PendingMessage -> AgentResult ObservationInput;
  processSummary : nat -> PendingMessage -> AgentResult SummaryInput
}.

(** [x || "unknown"]. *)
Definition or_unknown (s : string) : string :=
  if String.eqb s EmptyString then "unknown"%string else s.

(** The body of the [try] block up to, not including, [confirmProcessed].
    The result is whether the block ran through, the store as the writes
    made so far left it, and whether the agent was called. *)
Definition process_message (agent : Agent) (turn : nat) (now : Z) (msg : PendingMessage)
    (session : SessionRow) (st : Store) : bool * Store * bool :=
  let memorySessionId :=
    default (String.append "cmem-" (pretty (s_id session)))
      (truthy_string (s_memory_session_id session)) in
  let registered :=
    match truthy_string (s_memory_session_id session) with
    | Some _ => Some st
    | None => ensureMemorySessionIdRegistered st (s_id session) memorySessionId
    end in
  match registered with
  | None => (false, st, false)
  | Some st1 =>
      match pm_message_type msg with
      | observation =>
          match processObservation agent turn msg with
          | threw _ => (false, st1, true)
          | returned obs =>
              match storeObservation st1 memorySessionId (or_unknown (s_project session))
                      obs (pm_prompt_number msg) now with
              | Some (_, st2) => (true, st2, true)
              | None => (false, st1, true)
              end
          end
      | summarize =>
          match processSummary agent turn msg with
          | threw _ => (false, st1, true)
          | returned summary =>
              match storeSummary st1 memorySessionId (or_unknown (s_project session))
                      summary (pm_prompt_number msg) now with
              | Some (_, st2) => (true, st2, true)
              | None => (false, st1, true)
              end
          end
      end
  end.

(** The [while (true)] loop of [processSessionQueue].  [seen] holds the ids
    claimed in this call, [calls] the ids handed to the agent, oldest first.
    [None] means the fuel ran out before the loop left. *)
Fixpoint drain_loop (fuel : nat) (agent : Agent) (clock : nat -> Z) (sessionDbId : Z)
    (turn : nat) (st : Store) (seen : gset Z) (calls : list Z) : option (Store * list Z) :=
  match fuel with
  | O => None
  | S fuel' =>
      match claimNextPending st sessionDbId (clock turn) with
      | (None, st1) => Some (st1, calls)
      | (Some msg, st1) =>
          if bool_decide (pm_id msg ∈ seen) then Some (st1, calls)
          else
            let seen' := seen ∪ {[pm_id msg]} in
            match getSessionById st1 (pm_session_db_id msg) with
            | None =>
                drain_loop fuel' agent clock sessionDbId (S turn)
                  (markFailed st1 (pm_id msg) (clock turn)) seen' calls
            | Some session =>
                let '(ok, st2, called) :=
                  process_message agent turn (clock turn) msg session st1 in
                let calls' := if called then calls ++ [pm_id msg] else calls in
                drain_loop fuel' agent clock sessionDbId (S turn)
                  (if ok then confirmProcessed st2 (pm_id msg)
                   else markFailed st2 (pm_id msg) (clock turn))
                  seen' calls'
            end
      end
  end.

(** [processSessionQueue]: a fresh [seen] set for each call. *)
Definition processSessionQueue (fuel : nat) (agent : Agent) (clock : nat -> Z)
    (st : Store) (sessionDbId : Z) : option (Store * list Z) :=
  drain_loop fuel agent clock sessionDbId O st ∅ [].

(** ** More of the queue ([src/db/store.ts]) *)

(** [status IN ('pending','processing')]. *)
Definition is_open (m : PendingMessage) : bool :=
  QueueStatus_eqb (pm_status m) pending || QueueStatus_eqb (pm_status m) processing.

(** [ORDER BY id]. *)
Fixpoint insert_by_id (m : PendingMessage) (sorted : list PendingMessage)
    : list PendingMessage :=
  match sorted with
  | [] => [m]
  | x :: rest => if pm_id m <=? pm_id x then m :: x :: rest else x :: insert_by_id m rest
  end.

Definition order_by_id (rows : list PendingMessage) : list PendingMessage :=
  fold_right insert_by_id [] rows.

(** [SELECT DISTINCT]: a value stays where it is first met. *)
Fixpoint distinct_first (xs : list Z) : list Z :=
  match xs with
  | [] => []
  | x :: rest => x :: List.filter (fun y => negb (y =? x)) (distinct_first rest)
  end.

(** [Store.getSessionsWithPendingMessages]: [SELECT DISTINCT session_db_id
    ... WHERE status IN ('pending','processing')].  SQLite answers the [IN]
    from the index on [status], value by value and by rowid within a value:
    the pending rows come first, then the processing rows. *)
Definition getSessionsWithPendingMessages (st : Store) : list Z :=
  distinct_first
    (map pm_session_db_id
       (order_by_id
          (List.filter (fun m => QueueStatus_eqb (pm_status m) pending) (pending_messages st))
        ++ order_by_id
             (List.filter (fun m => QueueStatus_eqb (pm_status m) processing)
                (pending_messages st)))).

Record QueueCounts := mkQueueCounts {
  qc_pending : Z;
  qc_processing : Z;
  qc_failed : Z
}.

(** [SUM(CASE WHEN status = ? THEN 1 ELSE 0 END)], with [?? 0] for the empty table. *)
Definition count_status (s : QueueStatus) (rows : list PendingMessage) : Z :=
  Z.of_nat (List.length (List.filter (fun m => QueueStatus_eqb (pm_status m) s) rows)).

(** [Store.getQueueCounts]. *)
Definition getQueueCounts (st : Store) : QueueCounts :=
  mkQueueCounts (count_status pending (pending_messages st))
    (count_status processing (pending_messages st))
    (count_status failed (pending_messages st)).

Record QueueSnapshot := mkQueueSnapshot {
  qs_pending : Z;
  qs_processing : Z;
  qs_failed : Z;
  qs_queueDepth : Z
}.

(** [queueSnapshot] of [src/worker/server.ts]. *)
Definition queueSnapshot (st : Store) : QueueSnapshot :=
  let counts := getQueueCounts st in
  mkQueueSnapshot (qc_pending counts) (qc_processing counts) (qc_failed counts)
    (qc_pending counts + qc_processing counts).

(** [WHERE status = 'failed'], with [AND session_db_id = ?] when the caller
    names a session. *)
Definition is_failed_of (sessionDbId : option Z) (m : PendingMessage) : bool :=
  QueueStatus_eqb (pm_status m) failed &&
  match sessionDbId with
  | Some sid => pm_session_db_id m =? sid
  | None => true
  end.

(** [Store.retryFailed]: [SET status = 'pending', retry_count = 0,
    started_processing_at_epoch = NULL, failed_at_epoch = NULL]; returns the
    number of rows changed. *)
Definition retryFailed (st : Store) (sessionDbId : option Z) : Z * Store :=
  (Z.of_nat (List.length (List.filter (is_failed_of sessionDbId) (pending_messages st))),
   with_pending st
     (map (fun m => if is_failed_of sessionDbId m then pm_update pending 0 None None m else m)
        (pending_messages st))
     (seq_pending st)).

(** ** Sessions on demand *)

Record ProcessingSession := mkProcessingSession {
  ps_sessionDbId : Z;
  ps_memorySessionId : string;
  ps_project : string
}.

(** [ensureSessionForProcessing] of [src/worker/server.ts]: the session of
    an external id, created under project [unknown] when it is missing, with
    a memory session id registered when it has none.  [None] stands for the
    exception of a rejected statement. *)
Definition ensureSessionForProcessing (st : Store) (contentSessionId : string) (now : Z)
    : option (ProcessingSession * Store) :=
  match getSessionByContentSessionId st contentSessionId with
  | None =>
      let '(sid, st1) := createSDKSession st contentSessionId "unknown" EmptyString now in
      let memoryId := String.append "cmem-" (pretty sid) in
      match ensureMemorySessionIdRegistered st1 sid memoryId with
      | Some st2 => Some (mkProcessingSession sid memoryId "unknown", st2)
      | None => None
      end
  | Some session =>
      match truthy_string (s_memory_session_id session) with
      | Some memorySessionId =>
          Some (mkProcessingSession (s_id session) memorySessionId
                  (or_unknown (s_project session)), st)
      | None =>
          let memorySessionId := String.append "cmem-" (pretty (s_id session)) in
          match ensureMemorySessionIdRegistered st (s_id session) memorySessionId with
          | Some st1 =>
              Some (mkProcessingSession (s_id session) memorySessionId
                      (or_unknown (s_project session)), st1)
          | None => None
          end
      end
  end.

(** [Store.getOrCreateManualSession]. *)
Definition getOrCreateManualSession (st : Store) (project : string) (now : Z)
    : option (string * Store) :=
  let contentSessionId := String.append "manual-" project in
  let '(sessionId, st1) :=
    createSDKSession st contentSessionId project "Manual memory session" now in
  let memorySessionId := String.append "manual-" (pretty sessionId) in
  match ensureMemorySessionIdRegistered st1 sessionId memorySessionId with
  | Some st2 => Some (memorySessionId, st2)
  | None => None
  end.

Inductive SaveResponse :=
| save_bad_request
| save_ok (id : Z) (title project : string).

(** [POST /api/memory/save]: a hand-written observation under the manual
    session of the project.  [None] stands for an exception of the store. *)
Definition memory_save (st : Store) (text title project : option string) (now : Z)
    : option (SaveResponse * Store) :=
  match truthy_string text with
  | None => Some (save_bad_request, st)
  | Some body =>
      if negb (nonempty (trim body)) then Some (save_bad_request, st)
      else
        let targetProject := default "codexmem"%string (truthy_string project) in
        match getOrCreateManualSession st targetProject now with
        | None => None
        | Some (memorySessionId, st1) =>
            let shown := default (slice_from_start 60%nat body) (truthy_string title) in
            match storeObservation st1 memorySessionId targetProject
                    (mkObservationInput "discovery" (Some shown) (Some "Manual memory"%string)
                       [] (Some body) [] [] [])
                    0 now with
            | None => None
            | Some (id, st2) => Some (save_ok id shown targetProject, st2)
            end
        end
  end.

(** ** Access times and retention policies ([src/db/store.ts]) *)

Definition with_policies (st : Store) (rows : list PolicyRow) : Store :=
  mkStore (sdk_sessions st) (user_prompts st) (observations st) (session_summaries st)
    (pending_messages st) (processed_message_dedupe st)
    (project_memory_activity st) rows
    (seq_sessions st) (seq_prompts st) (seq_observations st) (seq_summaries st) (seq_pending st).

(** A field left out is [None]; [ttlDays] can also be given as [null]. *)
Record RetentionPolicyInput := mkRetentionPolicyInput {
  pi_enabled : option bool;
  pi_pinned : option bool;
  pi_ttlDays : option (option Z)
}.

(** [Store.upsertRetentionPolicy]: the fields left out keep the stored
    value, or the default when the project has no policy yet. *)
Definition upsertRetentionPolicy (st : Store) (project : string)
    (policy : RetentionPolicyInput) (atEpoch : Z) : Store :=
  let existing :=
    List.find (fun r => String.eqb (rp_project r) project) (project_retention_policies st) in
  let enabled :=
    default (match existing with Some e => rp_enabled e | None => true end)
      (pi_enabled policy) in
  let pinned :=
    default (match existing with Some e => rp_pinned e | None => false end)
      (pi_pinned policy) in
  let ttlDays :=
    match pi_ttlDays policy with
    | None => match existing with Some e => rp_ttl_days e | None => None end
    | Some given => given
    end in
  with_policies st
    (match existing with
     | Some _ =>
         map (fun r => if String.eqb (rp_project r) project
                       then mkPolicyRow (rp_project r) enabled pinned ttlDays atEpoch
                       else r)
           (project_retention_policies st)
     | None => project_retention_policies st ++ [mkPolicyRow project enabled pinned ttlDays atEpoch]
     end).

Inductive PolicyResponse :=
| policy_bad_request (message : string)
| policy_saved (project : string).

(** [POST /api/ops/retention/policies]; the request's [ttlDays] is a
    whole number or absent, and the route hands [ttlDays ?? null] on. *)
Definition retention_policies_post (st : Store) (project : option string)
    (enabled pinned : option bool) (ttlDays : option Z) (now : Z) : PolicyResponse * Store :=
  match truthy_string project with
  | None => (policy_bad_request "project is required", st)
  | Some p =>
      if negb (nonempty (trim p)) then (policy_bad_request "project is required", st)
      else
        match ttlDays with
        | Some t =>
            if t <=? 0 then
              (policy_bad_request "ttlDays must be a positive integer or null", st)
            else
              (policy_saved (trim p),
               upsertRetentionPolicy st (trim p)
                 (mkRetentionPolicyInput enabled pinned (Some (Some t))) now)
        | None =>
            (policy_saved (trim p),
             upsertRetentionPolicy st (trim p)
               (mkRetentionPolicyInput enabled pinned (Some None)) now)
        end
  end.

Record AccessArgs := mkAccessArgs {
  aa_observationIds : list Z;
  aa_summaryIds : list Z;
  aa_promptIds : list Z;
  aa_projects : list string
}.

Definition touch_observation (atEpoch : Z) (o : ObservationRow) : ObservationRow :=
  mkObservationRow (o_id o) (o_memory_session_id o) (o_project o) (o_input o)
    (o_prompt_number o) (o_created_at_epoch o) (Some atEpoch) (o_deleted_at_epoch o).

Definition touch_summary (atEpoch : Z) (x : SummaryRow) : SummaryRow :=
  mkSummaryRow (ss_id x) (ss_memory_session_id x) (ss_project x) (ss_input x)
    (ss_prompt_number x) (ss_created_at_epoch x) (Some atEpoch) (ss_deleted_at_epoch x).

Definition touch_prompt (atEpoch : Z) (up : PromptRow) : PromptRow :=
  mkPromptRow (up_id up) (up_content_session_id up) (up_prompt_number up) (up_prompt_text up)
    (up_created_at_epoch up) (Some atEpoch) (up_deleted_at_epoch up).

(** [Store.touchMemoryAccess]: stamp the access time on the live rows
    named, then refresh the activity of their projects and of the projects
    given; the project of a named row counts whether the row is live or not. *)
Definition touchMemoryAccess (st : Store) (args : AccessArgs) (atEpoch : Z) : Store :=
  let obsIds := aa_observationIds args in
  let summaryIds := aa_summaryIds args in
  let promptIds := aa_promptIds args in
  let st1 :=
    if is_nil obsIds then st
    else with_observations st
           (map (fun o => if live o && id_in obsIds (o_id o) then touch_observation atEpoch o
                          else o)
              (observations st))
           (seq_observations st) in
  let obsProjects :=
    if is_nil obsIds then []
    else map o_project (List.filter (fun o => id_in obsIds (o_id o)) (observations st1)) in
  let st2 :=
    if is_nil summaryIds then st1
    else with_summaries st1
           (map (fun x => if live x && id_in summaryIds (ss_id x) then touch_summary atEpoch x
                          else x)
              (session_summaries st1))
           (seq_summaries st1) in
  let summaryProjects :=
    if is_nil summaryIds then []
    else map ss_project
           (List.filter (fun x => id_in summaryIds (ss_id x)) (session_summaries st2)) in
  let st3 :=
    if is_nil promptIds then st2
    else with_prompts st2
           (map (fun up => if live up && id_in promptIds (up_id up) then touch_prompt atEpoch up
                           else up)
              (user_prompts st2))
           (seq_prompts st2) in
  let promptProjects :=
    if is_nil promptIds then []
    else map (fun us => s_project (snd us))
           (List.filter (fun us => id_in promptIds (up_id (fst us)))
              (prompts_join_sessions st3)) in
  touchProjectActivity st3
    (List.filter nonempty (aa_projects args) ++ List.filter nonempty obsProjects
     ++ List.filter nonempty summaryProjects ++ List.filter nonempty promptProjects)
    atEpoch.

(** ** The listing routes ([src/worker/server.ts]) *)

(** [parseLimitOffset], on whole-number query values. *)
Definition parseLimitOffset (limit offset : option Z) (project : option string)
    : Z * Z * option string :=
  (Z.max 1 (Z.min (default 20 limit) 100), Z.max 0 (default 0 offset), truthy_string project).

Record ListResponse (A : Type) := mkListResponse {
  lr_items : list A;
  lr_total : Z;
  lr_hasMore : bool
}.
Arguments mkListResponse {A} _ _ _.
Arguments lr_items {A} _.
Arguments lr_total {A} _.
Arguments lr_hasMore {A} _.

Definition project_list (project : option string) : list string :=
  match project with Some p => [p] | None => [] end.

(** [GET /api/observations]. *)
Definition api_observations (st : Store) (limit offset : option Z) (project : option string)
    (now : Z) : ListResponse ObservationRow * Store :=
  let '(lim, off, proj) := parseLimitOffset limit offset project in
  let '(items, total) := listObservations st off lim proj in
  (mkListResponse items total (off + Z.of_nat (List.length items) <? total),
   touchMemoryAccess st (mkAccessArgs (map o_id items) [] [] (project_list proj)) now).

(** [GET /api/summaries]. *)
Definition api_summaries (st : Store) (limit offset : option Z) (project : option string)
    (now : Z) : ListResponse SummaryRow * Store :=
  let '(lim, off, proj) := parseLimitOffset limit offset project in
  let '(items, total) := listSummaries st off lim proj in
  (mkListResponse items total (off + Z.of_nat (List.length items) <? total),
   touchMemoryAccess st (mkAccessArgs [] (map ss_id items) [] (project_list proj)) now).

(** [GET /api/prompts]. *)
Definition api_prompts (st : Store) (limit offset : option Z) (project : option string)
    (now : Z) : ListResponse PromptRow * Store :=
  let '(lim, off, proj) := parseLimitOffset limit offset project in
  let '(items, total) := listPrompts st off lim proj in
  (mkListResponse items total (off + Z.of_nat (List.length items) <? total),
   touchMemoryAccess st (mkAccessArgs [] [] (map up_id items) (project_list proj)) now).

(** ** Scenarios

    Drivers and sample stores used to state and to exercise the properties. *)

(** One failed attempt: claim the next item of the session, then report the
    claimed id as failed. *)
Definition claim_and_fail (st : Store) (sessionDbId : Z) (now : Z) : Store :=
  match claimNextPending st sessionDbId now with
  | (Some msg, st1) => markFailed st1 (pm_id msg) now
  | (None, st1) => st1
  end.

Fixpoint fail_rounds (n : nat) (st : Store) (sessionDbId : Z) (now : Z) : Store :=
  match n with
  | O => st
  | S k => claim_and_fail (fail_rounds k st sessionDbId now) sessionDbId now
  end.

(** What a queue row looks like after its [k]-th failed attempt, for a row
    that started with no retries. *)
Definition after_failure (now : Z) (m : PendingMessage) : PendingMessage :=
  let claimed := set_claimed now m in
  if pm_retry_count claimed <? MAX_RETRY then set_retry claimed else set_failed now claimed.

(** A store with one session and one freshly enqueued observation. *)
Definition one_session : Store :=
  snd (createSDKSession empty_store "sess-c3" "test-project" "hello" 10).

Definition run_payload : ObservationPayload :=
  mkObservationPayload "Run" "{}" "{}" "/tmp" 1 None.

Definition one_item : Store :=
  snd (enqueueObservation one_session 1 "sess-c3" run_payload 20).

(** A queue with rows of two sessions in several states. *)
Definition sample_row (i sid : Z) (status : QueueStatus) : PendingMessage :=
  mkPendingMessage i sid "s" observation None (Some "Read"%string) (Some "{}"%string)
    (Some "{}"%string) (Some "/tmp"%string) None 1 status 0 (10 * i) None None.

Definition sample_queue : Store :=
  with_pending one_session
    [sample_row 1 1 processing; sample_row 2 1 pending; sample_row 3 2 pending;
     sample_row 4 1 pending] 4.

(** Every keyed queue row has its ledger entry: the two are only ever
    inserted together, and ledger rows are never removed on their own. *)
Definition ledger_covers_queue (st : Store) : Prop :=
  forall m k, In m (pending_messages st) -> pm_dedupe_key m = Some k ->
              ledger_has st (pm_session_db_id m) (pm_message_type m) k = true.

(** A session as the observation route leaves it before it enqueues: known
    to the store, with its memory session id assigned. *)
Definition ready_session : Store :=
  with_sessions empty_store
    [mkSessionRow 1 "sess-dedupe-1" (Some "cmem-1"%string) "test-project"
       (Some "hello"%string) 10 active] 1.

Definition read_payload : ObservationPayload :=
  mkObservationPayload "Read" "{file:a.ts}" "{ok:true}" "/tmp" 1 (Some "obs-key-1"%string).

Definition stored_observation : ObservationInput :=
  mkObservationInput "execution" (Some "stored"%string) None ["f1"%string]
    (Some "n1"%string) ["c1"%string] ["a.ts"%string] [].

(** An agent that always answers. *)
Definition steady_agent : Agent :=
  mkAgent (fun _ _ => returned stored_observation)
          (fun _ _ => returned (mkSummaryInput None None None None None None)).

(** An agent that always throws. *)
Definition broken_agent : Agent :=
  mkAgent (fun _ _ => threw "timeout") (fun _ _ => threw "timeout").

(** The queue seen as (id, session) pairs, and the number of rows whose id a
    drain has not claimed yet: the quantity that shrinks at every turn of
    the loop. *)
Definition queue_keys (st : Store) : list (Z * Z) :=
  map (fun m => (pm_id m, pm_session_db_id m)) (pending_messages st).

Definition unseen (seen : gset Z) (st : Store) : nat :=
  List.length (List.filter (fun k => negb (bool_decide (fst k ∈ seen))) (queue_keys st)).

(** A worker that has just started: no rows, no active session. *)
Definition fresh_worker : Worker := mkWorker empty_store ∅.

Definition private_prompt : string := "<private>secret</private>".

(** The merge as the amended claim words it: the hydrated vector rows [P]
    as they are, then the lexical rows whose id is not among them, cut at the
    page limit. *)
Definition vector_rows_then_lexical {A} `{MemoryRow A} (P L : list A) (limit : Z) : list A :=
  firstn (Z.to_nat limit)
    (P ++ List.filter (fun r => negb (id_in (map row_id P) (row_id r))) L).

(** Newest first: creation times never increase along the list. *)
Definition newest_first {A} `{MemoryRow A} (rows : list A) : Prop :=
  Sorted (fun x y => row_created y <= row_created x) rows.

(** The filters of a search request as the amended claim words them: the
    project asked for, when one is given; one of the observation types asked
    for, when any is; a creation time within the dates given. *)
Definition in_project (project : option string) (p : string) : Prop :=
  forall want, project = Some want -> want <> EmptyString -> p = want.

Definition of_type (obsTypes : list string) (t : string) : Prop :=
  obsTypes = [] \/ In t obsTypes.

Definition in_dates (dateStart dateEnd : option Z) (created : Z) : Prop :=
  (forall a, dateStart = Some a -> a <= created) /\
  (forall b, dateEnd = Some b -> created <= b).

(** The rows the hydration of the ids [V] is after: the live rows of the
    table whose id is in [V] and that pass the filters of the request.  A
    prompt has the project of its session. *)
Definition wanted_observation (st : Store) (rq : SearchRequest) (V : list Z)
    (o : ObservationRow) : Prop :=
  In o (observations st) /\ In (o_id o) V /\ o_deleted_at_epoch o = None /\
  in_project (rq_project rq) (o_project o) /\
  of_type (rq_obsTypes rq) (oi_type (o_input o)) /\
  in_dates (rq_dateStartEpoch rq) (rq_dateEndEpoch rq) (o_created_at_epoch o).

Definition wanted_summary (st : Store) (rq : SearchRequest) (V : list Z)
    (x : SummaryRow) : Prop :=
  In x (session_summaries st) /\ In (ss_id x) V /\ ss_deleted_at_epoch x = None /\
  in_project (rq_project rq) (ss_project x) /\
  in_dates (rq_dateStartEpoch rq) (rq_dateEndEpoch rq) (ss_created_at_epoch x).

Definition wanted_prompt (st : Store) (rq : SearchRequest) (V : list Z)
    (up : PromptRow) : Prop :=
  In up (user_prompts st) /\ In (up_id up) V /\ up_deleted_at_epoch up = None /\
  (exists s, In s (sdk_sessions st) /\
             s_content_session_id s = up_content_session_id up /\
             in_project (rq_project rq) (s_project s)) /\
  in_dates (rq_dateStartEpoch rq) (rq_dateEndEpoch rq) (up_created_at_epoch up).

(** The hydrated vector rows [P] as the amended claim words them: wanted
    rows only, newest first, without repeats, at most [limit] of them, and
    the newest of the wanted rows: a wanted row that is missing is no newer
    than any row of [P], and [P] is then full. *)
Definition hydrated {A} `{MemoryRow A} (wanted : A -> Prop) (P : list A) (limit : Z) : Prop :=
  newest_first P /\
  (Z.of_nat (List.length P) <= limit) /\
  List.NoDup (map row_id P) /\
  (forall r, In r P -> wanted r) /\
  (forall r, wanted r ->
     In r P \/
     (Z.of_nat (List.length P) = limit /\
      forall r', In r' P -> row_created r <= row_created r')).

(** The first occurrence of every id not in [seen], in list order. *)
Fixpoint first_occurrences {A} `{MemoryRow A} (seen : gset Z) (rows : list A) : list A :=
  match rows with
  | [] => []
  | r :: rest =>
      if bool_decide (row_id r ∈ seen) then first_occurrences seen rest
      else r :: first_occurrences (seen ∪ {[row_id r]}) rest
  end.

Definition sample_observation (i created : Z) (deleted : option Z) : ObservationRow :=
  mkObservationRow i "cmem-1" "p"
    (mkObservationInput "discovery" (Some "note"%string) None [] (Some "text"%string) [] [] [])
    0 created (Some created) deleted.

(** Observation 1 is older than observation 2. *)
Definition two_observations : Store :=
  with_observations ready_session
    [sample_observation 1 100 None; sample_observation 2 200 None] 2.

(** Observation 2, older than observation 1, was soft-deleted at 70. *)
Definition deleted_neighbour : Store :=
  with_observations ready_session
    [sample_observation 1 100 None; sample_observation 2 50 (Some 70)] 2.

Definition plain_request (query : option string) : SearchRequest :=
  mkSearchRequest query None None None true true true [] None None None.

(** The local vector source ranks observation 1 above observation 2. *)
Definition ranked_1_then_2 : VectorSources :=
  mkVectorSources true [1; 2] false (mkChromaIds [] [] []).

Definition no_options : ByIdsOptions := mkByIdsOptions None None None [] None None.

(** Two stores agree on everything the retention of project [p] looks at:
    the session, policy and activity tables, the observations and summaries
    of [p], and the prompts of the sessions of [p]. *)
Definition same_for (p : string) (st st' : Store) : Prop :=
  sdk_sessions st' = sdk_sessions st /\
  project_retention_policies st' = project_retention_policies st /\
  project_memory_activity st' = project_memory_activity st /\
  List.filter (fun o => String.eqb (o_project o) p) (observations st')
  = List.filter (fun o => String.eqb (o_project o) p) (observations st) /\
  List.filter (fun x => String.eqb (ss_project x) p) (session_summaries st')
  = List.filter (fun x => String.eqb (ss_project x) p) (session_summaries st) /\
  List.filter (prompt_in_project st p) (user_prompts st')
  = List.filter (prompt_in_project st p) (user_prompts st).

Definition old_observation : ObservationRow :=
  mkObservationRow 1 "cmem-1" "old"
    (mkObservationInput "discovery" None None [] None [] [] []) 1 0 (Some 0) None.

Definition kept_observation : ObservationRow :=
  mkObservationRow 2 "cmem-2" "keep"
    (mkObservationInput "discovery" None None [] None [] [] []) 1 0 (Some 0) None.

(** A store with a stale project [old], a pinned stale project [keep],
    one session, one prompt and one observation each. *)
Definition retention_store : Store :=
  mkStore
    [mkSessionRow 1 "s-old" (Some "cmem-1"%string) "old" (Some "hi"%string) 0 active;
     mkSessionRow 2 "s-keep" (Some "cmem-2"%string) "keep" (Some "hi"%string) 0 active]
    [mkPromptRow 1 "s-old" 1 "hi" 0 (Some 0) None;
     mkPromptRow 2 "s-keep" 1 "hi" 0 (Some 0) None]
    [old_observation; kept_observation]
    [] [] []
    [mkActivityRow "old" 0 0; mkActivityRow "keep" 0 0]
    [mkPolicyRow "keep" true true None 0]
    2 2 2 0 0.

(** An execute call 31 days later, with the default 30 and 7 days. *)
Definition execute_cleanup : RetentionCleanupOptions :=
  mkCleanupOptions false (Some (31 * DAY_MS)) 30 7.

(** No row of project [p] is live in [st]; the prompts of [p] are those of
    its sessions in [st0]. *)
Definition no_live_rows (p : string) (st0 st : Store) : Prop :=
  (forall o, In o (observations st) -> o_project o = p -> o_deleted_at_epoch o <> None) /\
  (forall x, In x (session_summaries st) -> ss_project x = p ->
             ss_deleted_at_epoch x <> None) /\
  (forall up, In up (user_prompts st) -> prompt_in_project st0 p up = true ->
              up_deleted_at_epoch up <> None).

(** The state of the queue every operation of the store keeps: row ids are
    unique and never above the sequence counter, and no row has been retried
    more often than the cap allows. *)
Definition queue_ok (st : Store) : Prop :=
  List.NoDup (map pm_id (pending_messages st)) /\
  (forall r, In r (pending_messages st) -> pm_id r <= seq_pending st) /\
  (forall r, In r (pending_messages st) -> 0 <= pm_retry_count r <= MAX_RETRY).

(** The sum of the open rows of the listed sessions. *)
Definition open_rows_of (st : Store) (sessions : list Z) : Z :=
  fold_right (fun sid acc => getPendingCount st sid + acc) 0 sessions.

(** The state of the session table the store keeps: row ids and external
    ids are unique, and no row id lies above the sequence counter. *)
Definition sessions_ok (st : Store) : Prop :=
  List.NoDup (map s_id (sdk_sessions st)) /\
  List.NoDup (map s_content_session_id (sdk_sessions st)) /\
  (forall s, In s (sdk_sessions st) -> s_id s <= seq_sessions st).

(** A memory session id built from a row id names the row that holds it:
    the worker only ever assigns [cmem-<id>] and [manual-<id>] to session
    [<id>]. *)
Definition memory_ids_own (st : Store) : Prop :=
  forall s x, In s (sdk_sessions st) ->
    s_memory_session_id s = Some (String.append "cmem-" (pretty x)) \/
    s_memory_session_id s = Some (String.append "manual-" (pretty x)) ->
    x = s_id s.

(** The three ways the cleanup loop passes a project by: pinned, disabled,
    or not yet expired. *)
Definition spared (nowEpoch defaultTtlDays : Z) (st : Store) (p : string) : bool :=
  let policy := getProjectRetentionPolicy st p in
  pol_pinned policy || negb (pol_enabled policy)
  || negb (is_expired nowEpoch (getProjectLastAccessEpoch st p)
             (effective_ttl policy defaultTtlDays)).

(** The options and the report of a dry run, read as those of an execute call. *)
Definition as_execute (options : RetentionCleanupOptions) : RetentionCleanupOptions :=
  mkCleanupOptions false (co_nowEpoch options) (co_defaultTtlDays options)
    (co_softDeleteDays options).

Definition report_as_execute (r : RetentionCleanupReport) : RetentionCleanupReport :=
  mkReport false (r_nowEpoch r) (r_defaultTtlDays r) (r_softDeleteDays r)
    (r_scannedProjects r) (r_skippedPinned r) (r_skippedDisabled r)
    (r_softDeletedProjects r) (r_softDeletedObservations r) (r_softDeletedSummaries r)
    (r_softDeletedPrompts r) (r_hardDeletedObservations r) (r_hardDeletedSummaries r)
    (r_hardDeletedPrompts r) (r_details r).

(** The loop of [runRetentionCleanup] over the projects, and the three
    [DELETE] statements that close an execute call. *)
Definition cleanup_loop (st : Store) (options : RetentionCleanupOptions) (now : Z)
    : RetentionCleanupReport * Store :=
  let nowEpoch := default now (co_nowEpoch options) in
  let defaultTtlDays := Z.max 1 (co_defaultTtlDays options) in
  fold_left (retention_step (co_dryRun options) nowEpoch defaultTtlDays)
    (listRetentionProjects st)
    (mkReport (co_dryRun options) nowEpoch defaultTtlDays (Z.max 1 (co_softDeleteDays options))
       (Z.of_nat (List.length (listRetentionProjects st))) 0 0 0 0 0 0 0 0 0 [], st).

Definition hardDeleteCutoff (options : RetentionCleanupOptions) (now : Z) : Z :=
  default now (co_nowEpoch options) - Z.max 1 (co_softDeleteDays options) * DAY_MS.

Definition hard_delete_pass (cutoff : Z) (st : Store) : Store :=
  with_observations
    (with_summaries
       (with_prompts st
          (List.filter (fun r => negb (past_grace cutoff r)) (user_prompts st))
          (seq_prompts st))
       (List.filter (fun r => negb (past_grace cutoff r)) (session_summaries st))
       (seq_summaries st))
    (List.filter (fun r => negb (past_grace cutoff r)) (observations st))
    (seq_observations st).

(** The activity row of [p] is there and no older than [t]. *)
Definition refreshed (p : string) (t : Z) (rows : list ActivityRow) : Prop :=
  exists a, In a rows /\ a_project a = p /\ t <= a_last_accessed_at_epoch a.

(** The dry run of [execute_cleanup]. *)
Definition dry_cleanup : RetentionCleanupOptions :=
  mkCleanupOptions true (Some (31 * DAY_MS)) 30 7.

(** A text in which no angle bracket opens: it holds no tag of any kind. *)
Definition plain (s : string) : Prop := count_matches "<" s = 0%nat.

(** An agent that answers every message, whatever the turn. *)
Definition agent_answers (agent : Agent) : Prop :=
  forall turn msg,
    (exists v, processObservation agent turn msg = returned v) /\
    (exists v, processSummary agent turn msg = returned v).

(** The pending rows of a session, and the number of memory rows stored. *)
Definition pending_of (sid : Z) (st : Store) : list PendingMessage :=
  List.filter (is_pending_of sid) (pending_messages st).

Definition stored_rows (st : Store) : nat :=
  (List.length (observations st) + List.length (session_summaries st))%nat.

(** [ready_session] with one observation queued. *)
Definition ready_item : Store :=
  snd (enqueueObservation ready_session 1 "sess-dedupe-1" read_payload 20).

(** Nothing is left for a cleanup to do for project [p]: the project is
    spared, or none of its rows is live. *)
Definition settled (nowEpoch defaultTtlDays : Z) (st : Store) (p : string) : Prop :=
  spared nowEpoch defaultTtlDays st p = true \/ no_live_rows p st st.

(** A text of the Basic Multilingual Plane: no character of four bytes, so
    that every character is one UTF-16 code unit. *)
Definition bmp (s : string) : Prop :=
  Forall (fun c => (nat_of_ascii c < 240)%nat) (list_ascii_of_string s).

(** Sixty-one times the letter e with an acute accent, two bytes each. *)
Definition accented_note : string :=
  "ééééééééééééééééééééééééééééééééééééééééééééééééééééééééééééé".



(** [retention_store] with a third observation: a row of the pinned project
    [keep] that was soft-deleted at time 0, before the project was pinned. *)
Definition forgotten_observation : ObservationRow :=
  mkObservationRow 3 "cmem-2" "keep"
    (mkObservationInput "discovery" None None [] None [] [] []) 1 0 (Some 0) (Some 0).

Definition pinned_after_delete : Store :=
  with_observations retention_store
    [old_observation; kept_observation; forgotten_observation] 3.

(** * Properties *)

(** ** Generic facts about the table operations *)

Lemma MessageType_eqb_eq a b : MessageType_eqb a b = true <-> a = b.
Proof. destruct a, b; simpl; split; (congruence || discriminate). Qed.

Lemma QueueStatus_eqb_eq a b : QueueStatus_eqb a b = true <-> a = b.
Proof. destruct a, b; simpl; split; (congruence || discriminate). Qed.

Lemma QueueStatus_eqb_refl a : QueueStatus_eqb a a = true.
Proof. destruct a; reflexivity. Qed.

Lemma is_pending_of_spec sid m :
  is_pending_of sid m = true <-> pm_session_db_id m = sid /\ pm_status m = pending.
Proof.
  unfold is_pending_of. rewrite andb_true_iff, Z.eqb_eq, QueueStatus_eqb_eq. tauto.
Qed.

Lemma oldest_spec rows m :
  order_by_id_asc_limit_1 rows = Some m ->
  In m rows /\ forall r, In r rows -> pm_id m <= pm_id r.
Proof.
  revert m. induction rows as [|a rows IH]; simpl; intros m Hm; [discriminate|].
  destruct (order_by_id_asc_limit_1 rows) as [b|] eqn:E.
  - destruct (IH b eq_refl) as [Hin Hmin].
    destruct (pm_id b <? pm_id a) eqn:Hlt; inversion Hm; subst; clear Hm.
    + apply Z.ltb_lt in Hlt. split; [now right|].
      intros r [->|Hr]; [lia | now apply Hmin].
    + apply Z.ltb_ge in Hlt. split; [now left|].
      intros r [->|Hr]; [lia | specialize (Hmin r Hr); lia].
  - inversion Hm; subst. split; [now left|].
    intros r [->|Hr]; [lia|].
    destruct rows as [|c rows']; [destruct Hr|].
    simpl in E. destruct (order_by_id_asc_limit_1 rows'); [destruct (_ <? _)|]; discriminate.
Qed.

Lemma oldest_none rows : order_by_id_asc_limit_1 rows = None -> rows = [].
Proof.
  destruct rows as [|a rows]; [reflexivity|]. simpl.
  destruct (order_by_id_asc_limit_1 rows); [destruct (_ <? _)|]; discriminate.
Qed.

Lemma update_by_id_absent i f rows :
  ~ In i (map pm_id rows) -> update_by_id i f rows = rows.
Proof.
  induction rows as [|a rows IH]; simpl; intros H; [reflexivity|].
  destruct (pm_id a =? i) eqn:E.
  - apply Z.eqb_eq in E. exfalso. apply H. now left.
  - f_equal. apply IH. intros Hin. apply H. now right.
Qed.

Lemma update_by_id_split i f rows m :
  List.NoDup (map pm_id rows) -> In m rows -> pm_id m = i ->
  exists l1 l2, rows = l1 ++ m :: l2 /\ update_by_id i f rows = l1 ++ f m :: l2.
Proof.
  induction rows as [|a rows IH]; simpl; intros Hnd Hin Hid; [destruct Hin|].
  inversion Hnd as [|? ? Hnotin Hnd']; subst.
  destruct Hin as [->|Hin].
  - exists [], rows. rewrite Z.eqb_refl. simpl. split; [reflexivity|].
    f_equal. now apply update_by_id_absent.
  - destruct (IH Hnd' Hin eq_refl) as (l1 & l2 & E1 & E2).
    exists (a :: l1), l2. simpl. rewrite <- E1. split; [reflexivity|].
    destruct (pm_id a =? pm_id m) eqn:E.
    + apply Z.eqb_eq in E. exfalso. apply Hnotin. rewrite E. now apply in_map.
    + now rewrite <- E2.
Qed.

Lemma update_by_id_in i f rows r :
  In r (update_by_id i f rows) ->
  (In r rows /\ pm_id r <> i) \/ (exists r0, In r0 rows /\ pm_id r0 = i /\ r = f r0).
Proof.
  unfold update_by_id. rewrite in_map_iff. intros (r0 & E & Hin).
  destruct (pm_id r0 =? i) eqn:Hi.
  - apply Z.eqb_eq in Hi. right. now exists r0.
  - apply Z.eqb_neq in Hi. left. now subst.
Qed.

Lemma in_update_by_id_other i f rows r :
  In r rows -> pm_id r <> i -> In r (update_by_id i f rows).
Proof.
  intros Hin Hne. unfold update_by_id. apply in_map_iff. exists r.
  apply Z.eqb_neq in Hne. now rewrite Hne.
Qed.

(** ** C3: claiming the oldest pending item *)

(** C3.  With row ids unique (the primary key), [claimNextPending] hands
    back the pending row of the session with the least id, rewrites exactly
    that row to [processing] with the claim time and leaves every other row
    and table as it was; a later claim, for any session, never hands the
    same id back, and a later claim for the same session hands back a larger
    id.  When the session has no pending row the answer is none and the
    store does not change. *)
Theorem claimNextPending_oldest_first (st : Store) (sid now : Z) :
  List.NoDup (map pm_id (pending_messages st)) ->
  match claimNextPending st sid now with
  | (None, st') =>
      st' = st /\
      forall r, In r (pending_messages st) -> pm_session_db_id r = sid ->
                pm_status r <> pending
  | (Some m, st') =>
      pm_session_db_id m = sid /\ pm_status m = pending /\
      (forall r, In r (pending_messages st) -> pm_session_db_id r = sid ->
                 pm_status r = pending -> pm_id m <= pm_id r) /\
      (exists l1 l2,
          pending_messages st = l1 ++ m :: l2 /\
          pending_messages st' = l1 ++ set_claimed now m :: l2) /\
      pm_status (set_claimed now m) = processing /\
      pm_started_processing_at_epoch (set_claimed now m) = Some now /\
      st' = with_pending st (pending_messages st') (seq_pending st) /\
      (forall sid' now',
          match fst (claimNextPending st' sid' now') with
          | Some m' => pm_id m' <> pm_id m /\ (sid' = sid -> pm_id m < pm_id m')
          | None => True
          end)
  end.
Proof.
  intros Hnd. unfold claimNextPending.
  destruct (order_by_id_asc_limit_1 _) as [m|] eqn:E.
  - destruct (oldest_spec _ _ E) as [Hin Hmin].
    apply filter_In in Hin. destruct Hin as [Hin Hp].
    apply is_pending_of_spec in Hp. destruct Hp as [Hs Hst].
    split; [exact Hs|]. split; [exact Hst|].
    split.
    { intros r Hr Hrs Hrp. apply Hmin. apply filter_In. split; [exact Hr|].
      apply is_pending_of_spec. now split. }
    split.
    { destruct (update_by_id_split (pm_id m) (set_claimed now) _ m Hnd Hin eq_refl)
        as (l1 & l2 & E1 & E2).
      exists l1, l2. simpl. now split. }
    split; [reflexivity|]. split; [reflexivity|]. split; [reflexivity|].
    intros sid' now'. simpl.
    destruct (order_by_id_asc_limit_1 (List.filter (is_pending_of sid') _)) as [m'|] eqn:E';
      simpl; [|exact I].
    destruct (oldest_spec _ _ E') as [Hin' _].
    apply filter_In in Hin'. destruct Hin' as [Hin' Hp'].
    apply is_pending_of_spec in Hp'. destruct Hp' as [Hs' Hst'].
    apply update_by_id_in in Hin'.
    destruct Hin' as [[Hin0 Hne] | (r0 & _ & _ & ->)].
    + split; [exact Hne|]. intros ->.
      assert (pm_id m <= pm_id m').
      { apply Hmin. apply filter_In. split; [exact Hin0|].
        apply is_pending_of_spec. now split. }
      lia.
    + simpl in Hst'. discriminate.
  - simpl. split; [reflexivity|].
    intros r Hr Hrs Hrp. apply oldest_none in E.
    assert (Hf : In r (List.filter (is_pending_of sid) (pending_messages st))).
    { apply filter_In. split; [exact Hr|]. apply is_pending_of_spec. now split. }
    rewrite E in Hf. destruct Hf.
Qed.

Lemma claimNextPending_oldest_first_witness :
  List.NoDup (map pm_id (pending_messages sample_queue)) /\
  exists st',
    claimNextPending sample_queue 1 100 = (Some (sample_row 2 1 pending), st') /\
    pending_messages st' =
      [sample_row 1 1 processing; set_claimed 100 (sample_row 2 1 pending);
       sample_row 3 2 pending; sample_row 4 1 pending] /\
    forall sid' now',
      match fst (claimNextPending st' sid' now') with
      | Some m' => pm_id m' <> 2 /\ (sid' = 1 -> 2 < pm_id m')
      | None => True
      end.
Proof.
  assert (Hnd : List.NoDup (map pm_id (pending_messages sample_queue))).
  { simpl. repeat constructor; simpl; intuition lia. }
  split; [exact Hnd|].
  pose proof (claimNextPending_oldest_first sample_queue 1 100 Hnd) as H.
  destruct (claimNextPending sample_queue 1 100) as [[m|] st'] eqn:E;
    vm_compute in E; inversion E; subst; clear E.
  destruct H as (_ & _ & _ & _ & _ & _ & _ & H).
  eexists. split; [reflexivity|]. split; [reflexivity|]. exact H.
Defined.

(** ** C2: the retry cap *)

Lemma map_id_update_by_id i f rows :
  (forall r, pm_id (f r) = pm_id r) ->
  map pm_id (update_by_id i f rows) = map pm_id rows.
Proof.
  intros Hf. unfold update_by_id. rewrite map_map. apply map_ext.
  intros r. destruct (pm_id r =? i); [apply Hf | reflexivity].
Qed.

Lemma find_update_by_id_same i f rows :
  (forall r, pm_id (f r) = pm_id r) ->
  List.find (fun m => pm_id m =? i) (update_by_id i f rows)
  = option_map f (List.find (fun m => pm_id m =? i) rows).
Proof.
  intros Hf. induction rows as [|a rows IH]; simpl; [reflexivity|].
  destruct (pm_id a =? i) eqn:E.
  - rewrite Hf, E. reflexivity.
  - rewrite E. exact IH.
Qed.

Lemma find_update_by_id_other i j f rows :
  (forall r, pm_id (f r) = pm_id r) -> j <> i ->
  List.find (fun m => pm_id m =? j) (update_by_id i f rows)
  = List.find (fun m => pm_id m =? j) rows.
Proof.
  intros Hf Hne. induction rows as [|a rows IH]; simpl; [reflexivity|].
  destruct (pm_id a =? i) eqn:E.
  - rewrite Hf. apply Z.eqb_eq in E.
    assert ((pm_id a =? j) = false) as -> by (apply Z.eqb_neq; lia). exact IH.
  - destruct (pm_id a =? j); [reflexivity | exact IH].
Qed.

Lemma find_by_id_unique rows m :
  List.NoDup (map pm_id rows) -> In m rows ->
  List.find (fun r => pm_id r =? pm_id m) rows = Some m.
Proof.
  induction rows as [|a rows IH]; simpl; intros Hnd Hin; [destruct Hin|].
  inversion Hnd as [|? ? Hnotin Hnd']; subst.
  destruct Hin as [->|Hin].
  - now rewrite Z.eqb_refl.
  - destruct (pm_id a =? pm_id m) eqn:E.
    + apply Z.eqb_eq in E. exfalso. apply Hnotin. rewrite E. now apply in_map.
    + now apply IH.
Qed.

Lemma find_by_id_in rows i r :
  List.find (fun m => pm_id m =? i) rows = Some r -> In r rows /\ pm_id r = i.
Proof.
  intros H. apply find_some in H. destruct H as [Hin E]. apply Z.eqb_eq in E. now split.
Qed.

Lemma update_by_id_const i f rows m :
  List.NoDup (map pm_id rows) -> In m rows -> pm_id m = i ->
  update_by_id i f rows = update_by_id i (fun _ => f m) rows.
Proof.
  intros Hnd Hin Hid. unfold update_by_id. apply map_ext_in. intros r Hr.
  destruct (pm_id r =? i) eqn:E; [|reflexivity].
  apply Z.eqb_eq in E.
  assert (Some r = Some m) as Heq.
  { rewrite <- (find_by_id_unique rows r Hnd Hr).
    rewrite E, <- Hid. now apply find_by_id_unique. }
  now inversion Heq.
Qed.

Lemma update_by_id_twice i f g rows :
  (forall r, pm_id (f r) = pm_id r) ->
  update_by_id i g (update_by_id i f rows) = update_by_id i (fun r => g (f r)) rows.
Proof.
  intros Hf. unfold update_by_id. rewrite map_map. apply map_ext. intros r.
  destruct (pm_id r =? i) eqn:E.
  - now rewrite Hf, E.
  - now rewrite E.
Qed.

Lemma pm_id_set_claimed now r : pm_id (set_claimed now r) = pm_id r.
Proof. reflexivity. Qed.

Lemma pm_id_set_retry r : pm_id (set_retry r) = pm_id r.
Proof. reflexivity. Qed.

Lemma pm_id_set_failed now r : pm_id (set_failed now r) = pm_id r.
Proof. reflexivity. Qed.

Lemma pm_id_after_failure now r : pm_id (after_failure now r) = pm_id r.
Proof. unfold after_failure. destruct (_ <? _); reflexivity. Qed.

(** What [markFailed] does to the row it names. *)
Lemma markFailed_row st i now r :
  getMessage st i = Some r ->
  getMessage (markFailed st i now) i
  = Some (if pm_retry_count r <? MAX_RETRY then set_retry r else set_failed now r).
Proof.
  unfold getMessage, markFailed. intros E. rewrite E.
  destruct (pm_retry_count r <? MAX_RETRY); simpl.
  - rewrite find_update_by_id_same by apply pm_id_set_retry. now rewrite E.
  - rewrite find_update_by_id_same by apply pm_id_set_failed. now rewrite E.
Qed.

Lemma markFailed_other st i j now :
  j <> i -> getMessage (markFailed st i now) j = getMessage st j.
Proof.
  unfold getMessage, markFailed. intros Hne.
  destruct (List.find (fun m => pm_id m =? i) (pending_messages st)) as [r|]; [|reflexivity].
  destruct (pm_retry_count r <? MAX_RETRY); simpl.
  - apply find_update_by_id_other; [apply pm_id_set_retry | exact Hne].
  - apply find_update_by_id_other; [apply pm_id_set_failed | exact Hne].
Qed.

Lemma markFailed_ids st i now :
  map pm_id (pending_messages (markFailed st i now)) = map pm_id (pending_messages st).
Proof.
  unfold markFailed.
  destruct (List.find _ _) as [r|]; [|reflexivity].
  destruct (_ <? _); simpl.
  - apply map_id_update_by_id, pm_id_set_retry.
  - apply map_id_update_by_id, pm_id_set_failed.
Qed.

(** The retry counter stays within the cap. *)
Lemma markFailed_retry_bound st i now :
  List.NoDup (map pm_id (pending_messages st)) ->
  (forall r, In r (pending_messages st) -> pm_retry_count r <= MAX_RETRY) ->
  forall r, In r (pending_messages (markFailed st i now)) -> pm_retry_count r <= MAX_RETRY.
Proof.
  intros Hnd Hb r. unfold markFailed.
  destruct (List.find _ _) as [r0|] eqn:E; [|apply Hb].
  destruct (find_by_id_in _ _ _ E) as [Hin0 Hid0].
  destruct (pm_retry_count r0 <? MAX_RETRY) eqn:Hlt; simpl; intros Hin;
    apply update_by_id_in in Hin; destruct Hin as [[Hin _]|(r1 & Hin1 & Hid1 & ->)];
    try (now apply Hb).
  - assert (r1 = r0) as ->.
    { pose proof (find_by_id_unique _ _ Hnd Hin1) as F. rewrite Hid1 in F.
      rewrite F in E. now inversion E. }
    apply Z.ltb_lt in Hlt. simpl. lia.
  - simpl. now apply Hb.
Qed.

Lemma claim_in st sid now m :
  fst (claimNextPending st sid now) = Some m ->
  In m (pending_messages st) /\ pm_session_db_id m = sid /\ pm_status m = pending /\
  forall r, In r (pending_messages st) -> pm_session_db_id r = sid ->
            pm_status r = pending -> pm_id m <= pm_id r.
Proof.
  unfold claimNextPending.
  destruct (order_by_id_asc_limit_1 _) as [m0|] eqn:E; simpl; [|discriminate].
  intros H; inversion H; subst; clear H.
  destruct (oldest_spec _ _ E) as [Hin Hmin].
  apply filter_In in Hin. destruct Hin as [Hin Hp].
  apply is_pending_of_spec in Hp. destruct Hp as [Hs Hst].
  repeat split; try assumption.
  intros r Hr Hrs Hrp. apply Hmin. apply filter_In. split; [exact Hr|].
  apply is_pending_of_spec. now split.
Qed.

Lemma claim_some st sid now b :
  In b (pending_messages st) -> pm_session_db_id b = sid -> pm_status b = pending ->
  exists m, fst (claimNextPending st sid now) = Some m.
Proof.
  intros Hin Hs Hp. unfold claimNextPending.
  destruct (order_by_id_asc_limit_1 _) as [m|] eqn:E; [now exists m|].
  apply oldest_none in E.
  assert (Hf : In b (List.filter (is_pending_of sid) (pending_messages st))).
  { apply filter_In. split; [exact Hin|]. apply is_pending_of_spec. now split. }
  rewrite E in Hf. destruct Hf.
Qed.

(** A failed attempt rewrites the claimed row, and only that row. *)
Lemma claim_and_fail_queue st sid now m :
  List.NoDup (map pm_id (pending_messages st)) ->
  fst (claimNextPending st sid now) = Some m ->
  pending_messages (claim_and_fail st sid now)
  = update_by_id (pm_id m) (fun _ => after_failure now m) (pending_messages st).
Proof.
  intros Hnd Hc. unfold claim_and_fail.
  destruct (claim_in _ _ _ _ Hc) as (Hin & _).
  unfold claimNextPending in *.
  destruct (order_by_id_asc_limit_1 _) as [m0|]; simpl in Hc; [|discriminate].
  inversion Hc; subst m0; clear Hc.
  unfold markFailed. simpl.
  rewrite find_update_by_id_same by apply pm_id_set_claimed.
  rewrite (find_by_id_unique _ _ Hnd Hin).
  unfold after_failure. simpl.
  destruct (pm_retry_count m <? MAX_RETRY); simpl;
    rewrite update_by_id_twice by apply pm_id_set_claimed;
    now rewrite (update_by_id_const (pm_id m) _ _ m Hnd Hin eq_refl).
Qed.

Lemma claim_and_fail_ids st sid now :
  map pm_id (pending_messages (claim_and_fail st sid now)) = map pm_id (pending_messages st).
Proof.
  unfold claim_and_fail, claimNextPending.
  destruct (order_by_id_asc_limit_1 _) as [m|]; [|reflexivity].
  rewrite markFailed_ids. simpl. apply map_id_update_by_id, pm_id_set_claimed.
Qed.

Lemma fail_rounds_ids k st sid now :
  map pm_id (pending_messages (fail_rounds k st sid now)) = map pm_id (pending_messages st).
Proof.
  induction k as [|k IH]; simpl; [reflexivity|]. now rewrite claim_and_fail_ids.
Qed.

(** After a failed attempt that leaves the row pending, the next claim of
    the session picks the same row again. *)
Lemma claim_again st sid now now' m :
  List.NoDup (map pm_id (pending_messages st)) ->
  fst (claimNextPending st sid now) = Some m ->
  pm_retry_count m < MAX_RETRY ->
  fst (claimNextPending (claim_and_fail st sid now) sid now') = Some (after_failure now m).
Proof.
  intros Hnd Hc Hlt.
  pose proof (claim_and_fail_queue st sid now m Hnd Hc) as Hq.
  destruct (claim_in _ _ _ _ Hc) as (Hin & Hs & Hp & Hmin).
  assert (Haf : after_failure now m = set_retry (set_claimed now m)).
  { unfold after_failure. simpl. apply Z.ltb_lt in Hlt. now rewrite Hlt. }
  assert (Hb : In (after_failure now m) (pending_messages (claim_and_fail st sid now))).
  { rewrite Hq. unfold update_by_id. apply in_map_iff. exists m.
    now rewrite Z.eqb_refl. }
  destruct (claim_some (claim_and_fail st sid now) sid now' (after_failure now m) Hb)
    as [m' Hm'].
  { rewrite Haf. exact Hs. }
  { rewrite Haf. reflexivity. }
  rewrite Hm'. f_equal.
  destruct (claim_in _ _ _ _ Hm') as (Hin' & Hs' & Hp' & Hmin').
  rewrite Hq in Hin'. apply update_by_id_in in Hin'.
  destruct Hin' as [[Hin0 Hne]|(r0 & _ & _ & ->)]; [|reflexivity].
  exfalso.
  assert (pm_id m <= pm_id m') by (now apply Hmin).
  assert (pm_id m' <= pm_id (after_failure now m)).
  { apply Hmin'; [exact Hb | rewrite Haf; exact Hs | rewrite Haf; reflexivity]. }
  rewrite pm_id_after_failure in *. lia.
Qed.

Lemma claim_and_fail_keeps_failed st sid now i r :
  List.NoDup (map pm_id (pending_messages st)) ->
  getMessage st i = Some r -> pm_status r = failed ->
  getMessage (claim_and_fail st sid now) i = Some r.
Proof.
  intros Hnd Hg Hf. unfold claim_and_fail.
  destruct (claimNextPending st sid now) as [[m'|] st1] eqn:E.
  - assert (Hc : fst (claimNextPending st sid now) = Some m') by now rewrite E.
    destruct (claim_in _ _ _ _ Hc) as (Hin & _ & Hp & _).
    assert (Hne : i <> pm_id m').
    { intros ->. unfold getMessage in Hg.
      rewrite (find_by_id_unique _ _ Hnd Hin) in Hg. inversion Hg; subst. congruence. }
    rewrite markFailed_other by exact Hne.
    unfold claimNextPending in E.
    destruct (order_by_id_asc_limit_1 _) as [m0|]; [|discriminate].
    inversion E; subst; clear E. unfold getMessage. simpl.
    rewrite find_update_by_id_other; [exact Hg | apply pm_id_set_claimed | exact Hne].
  - unfold claimNextPending in E.
    destruct (order_by_id_asc_limit_1 _); [discriminate|].
    inversion E; subst. exact Hg.
Qed.

Lemma failed_row_not_claimed st sid now i r r' :
  List.NoDup (map pm_id (pending_messages st)) ->
  getMessage st i = Some r -> pm_status r = failed ->
  fst (claimNextPending st sid now) = Some r' -> pm_id r' <> i.
Proof.
  intros Hnd Hg Hf Hc E.
  destruct (claim_in _ _ _ _ Hc) as (Hin & _ & Hp & _).
  unfold getMessage in Hg. rewrite <- E in Hg.
  rewrite (find_by_id_unique _ _ Hnd Hin) in Hg. inversion Hg; subst. congruence.
Qed.

Lemma fail_rounds_NoDup k st sid now :
  List.NoDup (map pm_id (pending_messages st)) ->
  List.NoDup (map pm_id (pending_messages (fail_rounds k st sid now))).
Proof. now rewrite fail_rounds_ids. Qed.

(** The first three failures put the row back with the counter raised. *)
Lemma fail_rounds_pending st sid now m k :
  List.NoDup (map pm_id (pending_messages st)) ->
  fst (claimNextPending st sid now) = Some m ->
  pm_retry_count m = 0 ->
  (k <= 3)%nat ->
  exists r, fst (claimNextPending (fail_rounds k st sid now) sid now) = Some r /\
            pm_id r = pm_id m /\ pm_status r = pending /\
            pm_retry_count r = Z.of_nat k.
Proof.
  intros Hnd Hc H0. induction k as [|k IH]; intros Hk.
  - exists m. destruct (claim_in _ _ _ _ Hc) as (_ & _ & Hp & _).
    simpl. repeat split; try assumption.
  - destruct IH as (r & Hr & Hid & Hp & Hrc); [lia|].
    exists (after_failure now r). simpl.
    rewrite (claim_again _ sid now now r (fail_rounds_NoDup k st sid now Hnd) Hr)
      by (unfold MAX_RETRY; lia).
    split; [reflexivity|].
    unfold after_failure. simpl.
    assert ((pm_retry_count r <? MAX_RETRY) = true) as ->
      by (apply Z.ltb_lt; unfold MAX_RETRY; lia).
    simpl. repeat split; [exact Hid | lia].
Qed.

(** The fourth failure is terminal, and stays so. *)
Lemma fail_rounds_failed st sid now m k :
  List.NoDup (map pm_id (pending_messages st)) ->
  fst (claimNextPending st sid now) = Some m ->
  pm_retry_count m = 0 ->
  (4 <= k)%nat ->
  exists r, getMessage (fail_rounds k st sid now) (pm_id m) = Some r /\
            pm_status r = failed /\ pm_retry_count r = MAX_RETRY.
Proof.
  intros Hnd Hc H0 Hk.
  assert (H4 : exists r, getMessage (fail_rounds 4 st sid now) (pm_id m) = Some r /\
                         pm_status r = failed /\ pm_retry_count r = MAX_RETRY).
  { destruct (fail_rounds_pending st sid now m 3 Hnd Hc H0) as (r & Hr & Hid & Hp & Hrc);
      [lia|].
    change (fail_rounds 4 st sid now) with (claim_and_fail (fail_rounds 3 st sid now) sid now).
    pose proof (fail_rounds_NoDup 3 st sid now Hnd) as Hnd3.
    destruct (claim_in _ _ _ _ Hr) as (Hin & _).
    exists (after_failure now r). unfold getMessage.
    rewrite (claim_and_fail_queue _ sid now r Hnd3 Hr), <- Hid.
    split.
    - clear -Hin. induction (pending_messages (fail_rounds 3 st sid now)) as [|a l IH];
        [destruct Hin|].
      simpl. destruct (pm_id a =? pm_id r) eqn:E.
      + now rewrite pm_id_after_failure, Z.eqb_refl.
      + rewrite E. apply IH. destruct Hin as [->|Hin]; [|exact Hin].
        rewrite Z.eqb_refl in E. discriminate.
    - unfold after_failure. simpl.
      assert ((pm_retry_count r <? MAX_RETRY) = false) as ->
        by (apply Z.ltb_ge; unfold MAX_RETRY; lia).
      simpl. split; [reflexivity | unfold MAX_RETRY; lia]. }
  induction k as [|k IH]; [lia|].
  destruct (Nat.eq_dec (S k) 4%nat) as [->|Hne]; [exact H4|].
  destruct IH as (r & Hg & Hf & Hrc); [lia|].
  exists r. simpl. split; [|now split].
  apply claim_and_fail_keeps_failed; [apply fail_rounds_NoDup| |]; assumption.
Qed.

(** C2, amended.  [markFailed] sends a row whose retry counter is below 3
    back to [pending] with the counter raised by one, and any other row to
    the terminal [failed]; the counter never passes 3.  A fresh row that
    keeps failing is therefore claimable again after its first, second and
    third failure (counter 1, 2, 3) and becomes [failed] at the fourth
    failure, with the counter at 3; from then on no claim returns it and
    further rounds leave it failed. *)
Theorem retry_cap_after_four_failures (st : Store) (sid now : Z) (m : PendingMessage) :
  List.NoDup (map pm_id (pending_messages st)) ->
  fst (claimNextPending st sid now) = Some m ->
  pm_retry_count m = 0 ->
  (forall k, (k <= 3)%nat ->
     exists r, fst (claimNextPending (fail_rounds k st sid now) sid now) = Some r /\
               pm_id r = pm_id m /\ pm_status r = pending /\
               pm_retry_count r = Z.of_nat k) /\
  (forall k, (4 <= k)%nat ->
     exists r, getMessage (fail_rounds k st sid now) (pm_id m) = Some r /\
               pm_status r = failed /\ pm_retry_count r = 3 /\
               forall sid' now' r',
                 fst (claimNextPending (fail_rounds k st sid now) sid' now') = Some r' ->
                 pm_id r' <> pm_id m) /\
  (forall st' i t r,
     getMessage st' i = Some r ->
     getMessage (markFailed st' i t) i
     = Some (if pm_retry_count r <? 3 then set_retry r else set_failed t r)) /\
  (forall st' i t,
     List.NoDup (map pm_id (pending_messages st')) ->
     (forall r, In r (pending_messages st') -> pm_retry_count r <= 3) ->
     forall r, In r (pending_messages (markFailed st' i t)) -> pm_retry_count r <= 3).
Proof.
  intros Hnd Hc H0. split; [|split; [|split]].
  - intros k Hk. now apply fail_rounds_pending.
  - intros k Hk.
    destruct (fail_rounds_failed st sid now m k Hnd Hc H0 Hk) as (r & Hg & Hf & Hrc).
    exists r. repeat split; try assumption.
    intros sid' now' r' Hc'.
    eapply (failed_row_not_claimed _ sid' now' _ r r'); [|exact Hg|exact Hf|exact Hc'].
    now apply fail_rounds_NoDup.
  - intros st' i t r Hg. now apply markFailed_row.
  - intros st' i t Hnd' Hb. now apply markFailed_retry_bound.
Qed.

Lemma retry_cap_after_four_failures_witness :
  List.NoDup (map pm_id (pending_messages one_item)) /\
  exists m,
    fst (claimNextPending one_item 1 30) = Some m /\ pm_retry_count m = 0 /\
    (exists r, fst (claimNextPending (fail_rounds 3 one_item 1 30) 1 30) = Some r /\
               pm_id r = pm_id m /\ pm_status r = pending /\ pm_retry_count r = 3) /\
    (exists r, getMessage (fail_rounds 4 one_item 1 30) (pm_id m) = Some r /\
               pm_status r = failed /\ pm_retry_count r = 3).
Proof.
  assert (Hnd : List.NoDup (map pm_id (pending_messages one_item))).
  { vm_compute. repeat constructor. intros []. }
  split; [exact Hnd|].
  destruct (fst (claimNextPending one_item 1 30)) as [m|] eqn:Hc; [|discriminate].
  assert (H0 : pm_retry_count m = 0) by (vm_compute in Hc; now inversion Hc).
  exists m. split; [reflexivity|]. split; [exact H0|].
  destruct (retry_cap_after_four_failures one_item 1 30 m Hnd Hc H0) as (H3 & H4 & _).
  split.
  - destruct (H3 3%nat (le_n 3)) as (r & Hr & Hid & Hp & Hrc). exists r. now repeat split.
  - destruct (H4 4%nat (le_n 4)) as (r & Hg & Hf & Hrc & _). exists r. now repeat split.
Defined.

Lemma retry_cap_three_failures_counterexample :
  option_map pm_status (getMessage (fail_rounds 3 one_item 1 30) 1) = Some pending /\
  option_map pm_retry_count (getMessage (fail_rounds 3 one_item 1 30) 1) = Some 3 /\
  option_map pm_status (getMessage (fail_rounds 3 one_item 1 30) 1) <> Some failed.
Proof. vm_compute. repeat split. discriminate. Qed.

(** ** C1: idempotent enqueue *)

Lemma existsb_app_false {A} (f : A -> bool) l x :
  existsb f l = false -> existsb f (l ++ [x]) = f x.
Proof. intros H. rewrite existsb_app, H. simpl. now rewrite orb_false_r. Qed.

Lemma find_app_skip {A} (f : A -> bool) l x :
  existsb f l = false -> f x = true -> List.find f (l ++ [x]) = Some x.
Proof.
  induction l as [|a l IH]; simpl; intros H Hx.
  - now rewrite Hx.
  - apply orb_false_iff in H. destruct H as [Ha Hl]. rewrite Ha. now apply IH.
Qed.

Lemma next_rowid_bound seq ids i : In i ids -> i < next_rowid seq ids.
Proof.
  unfold next_rowid. induction ids as [|a ids IH]; simpl; intros H; [destruct H|].
  destruct H as [->|H]; [lia|]. specialize (IH H). lia.
Qed.

Lemma next_rowid_fresh seq ids : ~ In (next_rowid seq ids) ids.
Proof. intros H. apply (next_rowid_bound seq) in H. lia. Qed.

Lemma filter_none {A} (f : A -> bool) l :
  (forall x, In x l -> f x = false) -> List.filter f l = [].
Proof.
  induction l as [|a l IH]; simpl; intros H; [reflexivity|].
  rewrite (H a) by now left. apply IH. intros x Hx. apply H. now right.
Qed.

Lemma filter_all {A} (f : A -> bool) l :
  (forall x, In x l -> f x = true) -> List.filter f l = l.
Proof.
  induction l as [|a l IH]; simpl; intros H; [reflexivity|].
  rewrite (H a) by now left. f_equal. apply IH. intros x Hx. apply H. now right.
Qed.


Lemma truthy_key_some k : k <> EmptyString -> truthy_key (Some k) = Some k.
Proof.
  intros H. unfold truthy_key. destruct (String.eqb k EmptyString) eqn:E; [|reflexivity].
  apply String.eqb_eq in E. contradiction.
Qed.


(** Enqueueing keeps the ledger ahead of the queue. *)
Lemma enqueue_message_keeps_cover st sid kind key row now :
  (forall i k, pm_session_db_id (row i k) = sid /\ pm_message_type (row i k) = kind
               /\ pm_dedupe_key (row i k) = k) ->
  ledger_covers_queue st ->
  ledger_covers_queue (snd (enqueue_message st sid kind key row now)).
Proof.
  intros Hrow Hcov. unfold enqueue_message.
  destruct (truthy_key key) as [k|].
  - destruct (ledger_has st sid kind k); [exact Hcov|].
    destruct (negb (session_exists st sid)); [exact Hcov|].
    destruct (existsb _ _); [exact Hcov|].
    simpl. intros m k' Hin Hk'. unfold ledger_has. simpl.
    rewrite existsb_app. apply in_app_or in Hin. destruct Hin as [Hin|[<-|[]]].
    + apply orb_true_iff. left. exact (Hcov m k' Hin Hk').
    + destruct (Hrow (next_rowid (seq_pending st) (map pm_id (pending_messages st))) (Some k))
        as (Hs & Ht & Hk).
      rewrite Hk in Hk'. inversion Hk'; subst k'. rewrite Hs, Ht.
      apply orb_true_iff. right. simpl.
      rewrite Z.eqb_refl, String.eqb_refl.
      destruct kind; reflexivity.
  - destruct (session_exists st sid); [|exact Hcov].
    simpl. intros m k' Hin Hk'. apply in_app_or in Hin. destruct Hin as [Hin|[<-|[]]].
    + exact (Hcov m k' Hin Hk').
    + destruct (Hrow (next_rowid (seq_pending st) (map pm_id (pending_messages st))) None)
        as (_ & _ & Hk). rewrite Hk in Hk'. discriminate.
Qed.

Lemma cover_no_key st sid kind k :
  ledger_covers_queue st -> ledger_has st sid kind k = false ->
  existsb (same_key sid kind k) (pending_messages st) = false.
Proof.
  intros Hcov Hl. destruct (existsb _ _) eqn:E; [|reflexivity].
  apply existsb_exists in E. destruct E as (m & Hin & Hm).
  unfold same_key in Hm. apply andb_true_iff in Hm. destruct Hm as [Hm Hk].
  apply andb_true_iff in Hm. destruct Hm as [Hs Ht].
  apply Z.eqb_eq in Hs. apply MessageType_eqb_eq in Ht.
  destruct (pm_dedupe_key m) as [k'|] eqn:Ek; [|discriminate].
  apply String.eqb_eq in Hk. subst k'.
  rewrite <- Hs, <- Ht, (Hcov m k Hin Ek) in Hl. discriminate.
Qed.

Lemma getSessionById_known st sid s mid :
  getSessionById st sid = Some s -> truthy_string (s_memory_session_id s) = Some mid ->
  memory_session_known st mid = true.
Proof.
  unfold getSessionById, memory_session_known. intros Hf Hm.
  apply find_some in Hf. destruct Hf as [Hin _].
  apply existsb_exists. exists s. split; [exact Hin|].
  unfold truthy_string in Hm. destruct (s_memory_session_id s) as [x|]; [|discriminate].
  destruct (String.eqb x EmptyString); inversion Hm; subst. apply String.eqb_refl.
Qed.

Lemma getSessionById_exists st sid s :
  getSessionById st sid = Some s -> session_exists st sid = true.
Proof.
  unfold getSessionById, session_exists. intros Hf. apply find_some in Hf.
  destruct Hf as [Hin E]. apply existsb_exists. now exists s.
Qed.



Lemma pending_touchProjectActivity st ps t :
  pending_messages (touchProjectActivity st ps t) = pending_messages st.
Proof. reflexivity. Qed.

Lemma pending_ensureMemorySessionIdRegistered st sid mid st' :
  ensureMemorySessionIdRegistered st sid mid = Some st' ->
  pending_messages st' = pending_messages st.
Proof.
  unfold ensureMemorySessionIdRegistered.
  destruct (getSessionById st sid) as [row|]; [|intros H; now inversion H].
  destruct (existsb _ _); [discriminate|].
  destruct (s_memory_session_id row); intros H; inversion H; reflexivity.
Qed.

(** The agent and the result writers leave the queue alone. *)
Lemma pending_process_message agent turn now msg session st :
  pending_messages (snd (fst (process_message agent turn now msg session st)))
  = pending_messages st.
Proof.
  unfold process_message.
  destruct (truthy_string (s_memory_session_id session)) as [mid|]; simpl.
  - destruct (pm_message_type msg).
    + destruct (processObservation agent turn msg); [|reflexivity].
      unfold storeObservation. destruct (memory_session_known _ _); reflexivity.
    + destruct (processSummary agent turn msg); [|reflexivity].
      unfold storeSummary. destruct (memory_session_known _ _); reflexivity.
  - destruct (ensureMemorySessionIdRegistered _ _ _) as [st1|] eqn:E; [|reflexivity].
    apply pending_ensureMemorySessionIdRegistered in E.
    destruct (pm_message_type msg).
    + destruct (processObservation agent turn msg); [|exact E].
      unfold storeObservation. destruct (memory_session_known _ _); exact E.
    + destruct (processSummary agent turn msg); [|exact E].
      unfold storeSummary. destruct (memory_session_known _ _); exact E.
Qed.

















(** ** C10: one drain pass ends, and calls the agent once per item *)

Lemma queue_keys_update_by_id st i f seq :
  (forall r, pm_id (f r) = pm_id r /\ pm_session_db_id (f r) = pm_session_db_id r) ->
  queue_keys (with_pending st (update_by_id i f (pending_messages st)) seq) = queue_keys st.
Proof.
  intros Hf. unfold queue_keys, update_by_id. simpl. rewrite map_map. apply map_ext.
  intros r. destruct (pm_id r =? i); [|reflexivity].
  destruct (Hf r) as [-> ->]. reflexivity.
Qed.

Lemma queue_keys_claim st sid now :
  queue_keys (snd (claimNextPending st sid now)) = queue_keys st.
Proof.
  unfold claimNextPending. destruct (order_by_id_asc_limit_1 _) as [m|]; [|reflexivity].
  simpl. apply queue_keys_update_by_id. intros r. now split.
Qed.

Lemma queue_keys_markFailed st i now : queue_keys (markFailed st i now) = queue_keys st.
Proof.
  unfold markFailed. destruct (List.find _ _) as [r|]; [|reflexivity].
  destruct (_ <? _); apply queue_keys_update_by_id; intros r'; now split.
Qed.

Lemma queue_keys_confirm st i :
  queue_keys (confirmProcessed st i)
  = List.filter (fun k => negb (fst k =? i)) (queue_keys st).
Proof.
  unfold queue_keys, confirmProcessed. simpl.
  induction (pending_messages st) as [|a l IH]; simpl; [reflexivity|].
  destruct (pm_id a =? i); simpl; now rewrite IH.
Qed.

Lemma queue_keys_process_message agent turn now msg session st :
  queue_keys (snd (fst (process_message agent turn now msg session st))) = queue_keys st.
Proof. unfold queue_keys. now rewrite pending_process_message. Qed.

Lemma unseen_filter (seen : gset Z) (f : Z * Z -> bool) (keys : list (Z * Z)) :
  (List.length (List.filter (fun k => negb (bool_decide (fst k ∈ seen))) (List.filter f keys))
   <= List.length (List.filter (fun k => negb (bool_decide (fst k ∈ seen))) keys))%nat.
Proof.
  induction keys as [|a l IH]; simpl; [lia|].
  destruct (f a); simpl; destruct (negb _); simpl; lia.
Qed.

Lemma unseen_grow (seen : gset Z) i (keys : list (Z * Z)) :
  (List.length (List.filter (fun k => negb (bool_decide (fst k ∈ seen ∪ {[i]}))) keys)
   <= List.length (List.filter (fun k => negb (bool_decide (fst k ∈ seen))) keys))%nat.
Proof.
  induction keys as [|a l IH]; simpl; [lia|].
  destruct (bool_decide (a.1 ∈ seen)) eqn:E.
  - apply bool_decide_eq_true in E.
    rewrite bool_decide_eq_true_2 by set_solver. simpl. exact IH.
  - simpl. destruct (negb _); simpl; lia.
Qed.

Lemma unseen_claimed (seen : gset Z) i s (keys : list (Z * Z)) :
  In (i, s) keys -> i ∉ seen ->
  (List.length (List.filter (fun k => negb (bool_decide (fst k ∈ seen ∪ {[i]}))) keys)
   < List.length (List.filter (fun k => negb (bool_decide (fst k ∈ seen))) keys))%nat.
Proof.
  intros Hin Hseen. induction keys as [|a l IH]; simpl; [destruct Hin|].
  destruct Hin as [->|Hin].
  - simpl. rewrite (bool_decide_eq_true_2 (i ∈ seen ∪ {[i]})) by set_solver.
    rewrite (bool_decide_eq_false_2 (i ∈ seen)) by exact Hseen. simpl.
    pose proof (unseen_grow seen i l). lia.
  - specialize (IH Hin). pose proof (unseen_grow seen i [a]) as Ha. simpl in Ha.
    destruct (negb (bool_decide (a.1 ∈ seen ∪ {[i]})));
      destruct (negb (bool_decide (a.1 ∈ seen))); simpl in *; lia.
Qed.

Lemma NoDup_snoc {A} (l : list A) x :
  List.NoDup l -> ~ In x l -> List.NoDup (l ++ [x]).
Proof.
  induction l as [|a l IH]; simpl; intros Hnd Hx.
  - repeat constructor. intros [].
  - inversion Hnd as [|? ? Ha Hl]; subst. constructor.
    + intros Hin. apply in_app_or in Hin. destruct Hin as [Hin|[->|[]]]; [now apply Ha|].
      apply Hx. now left.
    + apply IH; [exact Hl|]. intros Hin. apply Hx. now right.
Qed.

(** The loop invariant: with more fuel than unseen rows the loop leaves,
    and what it handed to the agent has no repeats. *)
Lemma drain_loop_leaves agent clock sid :
  forall fuel turn st seen calls,
    (unseen seen st < fuel)%nat ->
    List.NoDup calls ->
    (forall i, In i calls -> i ∈ seen) ->
    exists st' calls',
      drain_loop fuel agent clock sid turn st seen calls = Some (st', calls') /\
      List.NoDup calls' /\
      (forall i, In i calls' -> In i calls \/ In (i, sid) (queue_keys st)) /\
      (List.length calls' <= List.length calls + unseen seen st)%nat.
Proof.
  induction fuel as [|fuel IH]; intros turn st seen calls Hfuel Hnd Hsub; [lia|].
  cbn [drain_loop].
  pose proof (queue_keys_claim st sid (clock turn)) as Hkeys.
  destruct (claimNextPending st sid (clock turn)) as [[msg|] st1] eqn:Hclaim; simpl in Hkeys.
  - assert (Hc : fst (claimNextPending st sid (clock turn)) = Some msg) by now rewrite Hclaim.
    destruct (claim_in _ _ _ _ Hc) as (Hin & Hs & _).
    assert (Hkey : In (pm_id msg, sid) (queue_keys st)).
    { unfold queue_keys. apply in_map_iff. exists msg. now rewrite Hs. }
    destruct (bool_decide (pm_id msg ∈ seen)) eqn:Hseen.
    + exists st1, calls. repeat split; try assumption; [now left | lia].
    + apply bool_decide_eq_false in Hseen.
      pose proof (unseen_claimed seen (pm_id msg) sid (queue_keys st) Hkey Hseen) as Hless.
      assert (Hstep : forall st2 calls2,
                 (exists f, queue_keys st2 = List.filter f (queue_keys st)) ->
                 (calls2 = calls \/ calls2 = calls ++ [pm_id msg]) ->
                 exists st' calls',
                   drain_loop fuel agent clock sid (S turn) st2 (seen ∪ {[pm_id msg]}) calls2
                   = Some (st', calls') /\
                   List.NoDup calls' /\
                   (forall i, In i calls' -> In i calls \/ In (i, sid) (queue_keys st)) /\
                   (List.length calls' <= List.length calls + unseen seen st)%nat).
      { intros st2 calls2 [f Hf] Hcalls.
        assert (Hle : (unseen (seen ∪ {[pm_id msg]}) st2
                       <= List.length (List.filter
                            (fun k => negb (bool_decide (fst k ∈ seen ∪ {[pm_id msg]})))
                            (queue_keys st)))%nat).
        { unfold unseen. rewrite Hf. apply unseen_filter. }
        assert (Hnd2 : List.NoDup calls2).
        { destruct Hcalls as [->| ->]; [exact Hnd|].
          apply NoDup_snoc; [exact Hnd|]. intros Hx. apply Hseen. now apply Hsub. }
        assert (Hsub2 : forall i, In i calls2 -> i ∈ seen ∪ {[pm_id msg]}).
        { intros i Hi. destruct Hcalls as [->| ->].
          - apply Hsub in Hi. set_solver.
          - apply in_app_or in Hi. destruct Hi as [Hi|[<-|[]]];
              [apply Hsub in Hi|]; set_solver. }
        destruct (IH (S turn) st2 (seen ∪ {[pm_id msg]}) calls2) as (st' & calls' & E & N & I & L);
          [unfold unseen in *; lia | exact Hnd2 | exact Hsub2 |].
        exists st', calls'. split; [exact E|]. split; [exact N|]. split.
        - intros i Hi. destruct (I i Hi) as [Hi2|Hi2].
          + destruct Hcalls as [->| ->]; [now left|].
            apply in_app_or in Hi2. destruct Hi2 as [Hi2|[<-|[]]]; [now left | now right].
          + right. rewrite Hf in Hi2. apply filter_In in Hi2. tauto.
        - assert (List.length calls2 <= List.length calls + 1)%nat.
          { destruct Hcalls as [->| ->]; [lia|]. rewrite length_app. simpl. lia. }
          unfold unseen in *. lia. }
      destruct (getSessionById st1 (pm_session_db_id msg)) as [session|].
      * pose proof (queue_keys_process_message agent turn (clock turn) msg session st1) as Hpm.
        destruct (process_message agent turn (clock turn) msg session st1)
          as [[ok st2] called]. simpl in Hpm.
        apply Hstep.
        -- destruct ok.
           ++ exists (fun k => negb (fst k =? pm_id msg)).
              now rewrite queue_keys_confirm, Hpm, Hkeys.
           ++ exists (fun _ => true). rewrite queue_keys_markFailed, Hpm, Hkeys.
              symmetry. now apply filter_all.
        -- destruct called; [now right | now left].
      * apply Hstep; [|now left].
        exists (fun _ => true). rewrite queue_keys_markFailed, Hkeys.
        symmetry. now apply filter_all.
  - exists st1, calls. repeat split; try assumption; [now left | lia].
Qed.

(** C10.  For every agent, clock, store and session, [processSessionQueue]
    leaves its loop as soon as the fuel exceeds the number of queue rows,
    whatever the agent throws; the ids it handed to the agent are pairwise
    distinct, each is the id of a queue row of that session, and there are no
    more of them than queue rows. *)
Theorem processSessionQueue_terminates_once_per_item (agent : Agent) (clock : nat -> Z)
    (st : Store) (sid : Z) (fuel : nat) :
  (List.length (pending_messages st) < fuel)%nat ->
  exists st' calls,
    processSessionQueue fuel agent clock st sid = Some (st', calls) /\
    List.NoDup calls /\
    (forall i, In i calls ->
               exists m, In m (pending_messages st) /\ pm_id m = i
                         /\ pm_session_db_id m = sid) /\
    (List.length calls <= List.length (pending_messages st))%nat.
Proof.
  intros Hfuel.
  assert (Hun : unseen ∅ st = List.length (pending_messages st)).
  { unfold unseen, queue_keys. rewrite filter_all; [now rewrite length_map|].
    intros k _. rewrite bool_decide_eq_false_2 by set_solver. reflexivity. }
  destruct (drain_loop_leaves agent clock sid fuel O st ∅ []) as (st' & calls & E & N & I & L).
  - now rewrite Hun.
  - constructor.
  - intros i [].
  - exists st', calls. split; [exact E|]. split; [exact N|]. split.
    + intros i Hi. destruct (I i Hi) as [[]|Hk].
      unfold queue_keys in Hk. apply in_map_iff in Hk. destruct Hk as (m & Em & Hm).
      inversion Em; subst. now exists m.
    + simpl in L. now rewrite <- Hun.
Qed.

Lemma processSessionQueue_terminates_once_per_item_witness :
  (List.length (pending_messages one_item) < 2)%nat /\
  exists st',
    processSessionQueue 2 broken_agent (fun _ => 40) one_item 1 = Some (st', [1]) /\
    option_map pm_retry_count (getMessage st' 1) = Some 1.
Proof.
  assert (H : (List.length (pending_messages one_item) < 2)%nat) by (vm_compute; lia).
  split; [exact H|].
  destruct (processSessionQueue_terminates_once_per_item broken_agent (fun _ => 40)
              one_item 1 2 H) as (st' & calls & E & _).
  exists st'. vm_compute in E. inversion E; subst. split; reflexivity.
Defined.

(** ** Session init and complete (C7, C8, C9) *)

Lemma find_map_same {A} (f : A -> bool) (g : A -> A) l :
  (forall x, f (g x) = f x) -> List.find f (map g l) = option_map g (List.find f l).
Proof.
  intros H. induction l as [|a l IH]; simpl; [reflexivity|].
  rewrite H. destruct (f a); [reflexivity | exact IH].
Qed.

Lemma find_none_existsb {A} (f : A -> bool) l :
  List.find f l = None -> existsb f l = false.
Proof.
  induction l as [|a l IH]; simpl; [reflexivity|].
  destruct (f a); [discriminate | exact IH].
Qed.

Lemma nonempty_true s : s <> EmptyString -> nonempty s = true.
Proof.
  intros H. unfold nonempty. destruct (String.eqb s EmptyString) eqn:E; [|reflexivity].
  apply String.eqb_eq in E. contradiction.
Qed.

Lemma truthy_string_some s : s <> EmptyString -> truthy_string (Some s) = Some s.
Proof.
  intros H. unfold truthy_string. destruct (String.eqb s EmptyString) eqn:E; [|reflexivity].
  apply String.eqb_eq in E. contradiction.
Qed.

(** What [createSDKSession] guarantees: the store then holds a row for the
    external id, its id is the one returned, every row of that external id
    has a project, and prompts and queue are untouched. *)
Lemma createSDKSession_post st c p u now :
  p <> EmptyString ->
  exists r,
    getSessionByContentSessionId (snd (createSDKSession st c p u now)) c = Some r /\
    s_id r = fst (createSDKSession st c p u now) /\
    (forall s, In s (sdk_sessions (snd (createSDKSession st c p u now))) ->
               s_content_session_id s = c -> s_project s <> EmptyString) /\
    user_prompts (snd (createSDKSession st c p u now)) = user_prompts st.
Proof.
  intros Hp. unfold createSDKSession.
  destruct (getSessionByContentSessionId st c) as [existing|] eqn:E.
  - rewrite (nonempty_true p Hp). simpl.
    unfold getSessionByContentSessionId in *. simpl.
    rewrite find_map_same.
    + rewrite E. simpl. eexists. split; [reflexivity|]. split.
      * destruct (_ && _); reflexivity.
      * split; [|reflexivity].
        intros s Hs Hc. apply in_map_iff in Hs. destruct Hs as (s0 & <- & _).
        destruct (String.eqb (s_content_session_id s0) c
                  && String.eqb (s_project s0) EmptyString) eqn:B; [exact Hp|].
        apply andb_false_iff in B. destruct B as [B|B].
        -- rewrite <- Hc in B. now rewrite String.eqb_refl in B.
        -- now apply String.eqb_neq in B.
    + intros x. destruct (_ && _); reflexivity.
  - simpl. unfold getSessionByContentSessionId in *. simpl.
    pose proof (find_none_existsb _ _ E) as Hex.
    rewrite (find_app_skip _ _ _ Hex) by (simpl; apply String.eqb_refl).
    eexists. split; [reflexivity|]. split; [reflexivity|]. split; [|reflexivity].
    intros s Hs Hc. apply in_app_or in Hs. destruct Hs as [Hs|[<-|[]]]; [|exact Hp].
    exfalso. assert (existsb (fun s => String.eqb (s_content_session_id s) c)
                       (sdk_sessions st) = true).
    { apply existsb_exists. exists s. split; [exact Hs|]. rewrite Hc. apply String.eqb_refl. }
    congruence.
Qed.

(** On a store that already has the session, with every row of that
    external id holding a project, [createSDKSession] changes nothing. *)
Lemma createSDKSession_again st c p u now r :
  getSessionByContentSessionId st c = Some r ->
  (forall s, In s (sdk_sessions st) -> s_content_session_id s = c ->
             s_project s <> EmptyString) ->
  createSDKSession st c p u now
  = (s_id r, if nonempty p then with_sessions st (sdk_sessions st) (seq_sessions st) else st).
Proof.
  intros E Hproj. unfold createSDKSession. rewrite E.
  destruct (nonempty p); [|reflexivity]. f_equal. f_equal.
  rewrite <- (map_id (sdk_sessions st)) at 2. apply map_ext_in. intros s Hs.
  destruct (String.eqb (s_content_session_id s) c) eqn:B; [|reflexivity].
  apply String.eqb_eq in B. specialize (Hproj s Hs B).
  apply String.eqb_neq in Hproj. now rewrite Hproj.
Qed.

Lemma with_sessions_same st : with_sessions st (sdk_sessions st) (seq_sessions st) = st.
Proof. now destruct st. Qed.

Lemma saveUserPrompt_post st c n text now r :
  getSessionByContentSessionId st c = Some r ->
  exists st',
    saveUserPrompt st c n text now
    = Some (next_rowid (seq_prompts st) (map up_id (user_prompts st)), st') /\
    user_prompts st'
    = user_prompts st ++
      [mkPromptRow (next_rowid (seq_prompts st) (map up_id (user_prompts st)))
         c n text now (Some now) None] /\
    sdk_sessions st' = sdk_sessions st.
Proof.
  intros E. unfold saveUserPrompt. rewrite E. eexists. split; [reflexivity|].
  destruct (nonempty (s_project r)); split; reflexivity.
Qed.

Lemma prompt_count_snoc c rows row :
  up_content_session_id row = c ->
  Z.of_nat (List.length (List.filter
              (fun p => String.eqb (up_content_session_id p) c) (rows ++ [row])))
  = Z.of_nat (List.length (List.filter
                (fun p => String.eqb (up_content_session_id p) c) rows)) + 1.
Proof.
  intros H. rewrite List.filter_app, length_app. simpl. rewrite H, String.eqb_refl.
  simpl. lia.
Qed.

Lemma getSessionByContentSessionId_sessions st st' c :
  sdk_sessions st' = sdk_sessions st ->
  getSessionByContentSessionId st' c = getSessionByContentSessionId st c.
Proof. unfold getSessionByContentSessionId. now intros ->. Qed.

(** C7, amended.  Two init calls with the same external id, project and
    prompt return the same [sessionDbId], and the second call leaves the
    session table exactly as the first left it.  Each call numbers its prompt
    as the count of stored prompts plus one: when the prompt is visible after
    stripping, the first call stores it under number [n], the second under
    [n + 1], and two prompt rows are added; when it is empty after stripping
    both calls are skipped as private with the same number and no prompt row
    is added. *)
Theorem sessions_init_twice_same_session (w : Worker) (c p text : string) (now1 now2 : Z) :
  c <> EmptyString -> p <> EmptyString ->
  let n := getPromptNumberFromUserPrompts (store w) c + 1 in
  let cleaned := stripMemoryTagsFromPrompt text in
  let first := sessions_init w (Some c) (Some p) (Some text) now1 in
  let second := sessions_init (snd first) (Some c) (Some p) (Some text) now2 in
  exists sid,
    sdk_sessions (store (snd second)) = sdk_sessions (store (snd first)) /\
    sid ∈ activeSessions (snd second) /\
    if nonempty (trim cleaned) then
      fst first = init_ok sid n false None /\
      fst second = init_ok sid (n + 1) false None /\
      exists i1 i2,
        user_prompts (store (snd second))
        = user_prompts (store w) ++
          [mkPromptRow i1 c n cleaned now1 (Some now1) None;
           mkPromptRow i2 c (n + 1) cleaned now2 (Some now2) None]
    else
      fst first = init_ok sid n true (Some "private"%string) /\
      fst second = init_ok sid n true (Some "private"%string) /\
      user_prompts (store (snd second)) = user_prompts (store w).
Proof.
  intros Hc Hp n cleaned first second.
  destruct (createSDKSession_post (store w) c p text now1 Hp) as (r & Hr & Hid & Hproj & Hup).
  destruct (createSDKSession (store w) c p text now1) as [sid st1] eqn:Hcreate.
  simpl in Hr, Hid, Hproj, Hup.
  assert (Hn : getPromptNumberFromUserPrompts st1 c + 1 = n).
  { unfold n, getPromptNumberFromUserPrompts. now rewrite Hup. }
  assert (Hagain : forall st' now, sdk_sessions st' = sdk_sessions st1 ->
                     createSDKSession st' c p text now = (sid, st')).
  { intros st' now Hs.
    rewrite (createSDKSession_again st' c p text now r).
    - rewrite (nonempty_true p Hp), with_sessions_same. now rewrite Hid.
    - now rewrite (getSessionByContentSessionId_sessions st1 st' c Hs).
    - rewrite Hs. exact Hproj. }
  exists sid.
  subst second first. unfold sessions_init.
  rewrite !(truthy_string_some c Hc), !(truthy_string_some p Hp).
  rewrite Hcreate, Hn. unfold cleaned.
  destruct (nonempty (trim (stripMemoryTagsFromPrompt text))) eqn:Hvis; cbn [negb].
  - destruct (saveUserPrompt_post st1 c n (stripMemoryTagsFromPrompt text) now1 r Hr)
      as (st2 & Hsave & Hup2 & Hs2).
    rewrite Hsave. cbn [fst snd store].
    rewrite (Hagain st2 now2 Hs2).
    assert (Hn2 : getPromptNumberFromUserPrompts st2 c + 1 = n + 1).
    { unfold getPromptNumberFromUserPrompts. rewrite Hup2.
      rewrite prompt_count_snoc by reflexivity.
      unfold getPromptNumberFromUserPrompts in Hn. lia. }
    rewrite Hn2. cbn [negb].
    assert (Hr2 : getSessionByContentSessionId st2 c = Some r)
      by now rewrite (getSessionByContentSessionId_sessions st1 st2 c Hs2).
    destruct (saveUserPrompt_post st2 c (n + 1) (stripMemoryTagsFromPrompt text) now2 r Hr2)
      as (st3 & Hsave3 & Hup3 & Hs3).
    rewrite Hsave3. cbn [fst snd store activeSessions].
    split; [exact Hs3|]. split; [set_solver|].
    split; [reflexivity|]. split; [reflexivity|].
    eexists _, _. rewrite Hup3, Hup2, Hup, <- app_assoc. reflexivity.
  - cbn [fst snd store]. rewrite (Hagain st1 now2 eq_refl), Hn.
    cbn [negb fst snd store activeSessions].
    split; [reflexivity|]. split; [set_solver|].
    split; [reflexivity|]. split; [reflexivity|]. exact Hup.
Qed.

Lemma sessions_init_twice_same_session_witness :
  "s1"%string <> EmptyString /\ "p"%string <> EmptyString /\
  exists sid,
    fst (sessions_init fresh_worker (Some "s1"%string) (Some "p"%string)
           (Some "hello"%string) 100) = init_ok sid 1 false None /\
    fst (sessions_init
           (snd (sessions_init fresh_worker (Some "s1"%string) (Some "p"%string)
                   (Some "hello"%string) 100))
           (Some "s1"%string) (Some "p"%string) (Some "hello"%string) 200)
    = init_ok sid 2 false None.
Proof.
  assert (H1 : "s1"%string <> EmptyString) by discriminate.
  assert (H2 : "p"%string <> EmptyString) by discriminate.
  split; [exact H1|]. split; [exact H2|].
  pose proof (sessions_init_twice_same_session fresh_worker "s1" "p" "hello" 100 200 H1 H2)
    as H.
  cbv zeta in H. destruct H as (sid & _ & _ & Hrest).
  change (nonempty (trim (stripMemoryTagsFromPrompt "hello"))) with true in Hrest.
  cbv iota in Hrest. destruct Hrest as (E1 & E2 & _).
  exists sid. split; [exact E1 | exact E2].
Defined.

Lemma sessions_init_twice_counterexample :
  fst (sessions_init fresh_worker (Some "s1"%string) (Some "p"%string)
         (Some "hello"%string) 100) = init_ok 1 1 false None /\
  fst (sessions_init
         (snd (sessions_init fresh_worker (Some "s1"%string) (Some "p"%string)
                 (Some "hello"%string) 100))
         (Some "s1"%string) (Some "p"%string) (Some "hello"%string) 200)
  = init_ok 1 2 false None /\
  map up_prompt_number
    (user_prompts (store (snd (sessions_init
       (snd (sessions_init fresh_worker (Some "s1"%string) (Some "p"%string)
               (Some "hello"%string) 100))
       (Some "s1"%string) (Some "p"%string) (Some "hello"%string) 200))))
  = [1; 2].
Proof. vm_compute. repeat split. Qed.

(** C8, as the code has it.  An init call whose prompt is empty after
    stripping is answered [skipped = true, reason = private] and adds no row
    to [user_prompts]; but when the call creates the session, the prompt as
    received, private span included, is written to the [user_prompt] column
    of the new [sdk_sessions] row before any stripping takes place. *)
Theorem sessions_init_private_prompt_stored_raw (w : Worker) (c p text : string) (now : Z) :
  c <> EmptyString -> p <> EmptyString ->
  getSessionByContentSessionId (store w) c = None ->
  trim (stripMemoryTagsFromPrompt text) = EmptyString ->
  let sid := next_rowid (seq_sessions (store w)) (map s_id (sdk_sessions (store w))) in
  let result := sessions_init w (Some c) (Some p) (Some text) now in
  fst result
    = init_ok sid (getPromptNumberFromUserPrompts (store w) c + 1) true
        (Some "private"%string) /\
  user_prompts (store (snd result)) = user_prompts (store w) /\
  sdk_sessions (store (snd result))
    = sdk_sessions (store w) ++ [mkSessionRow sid c None p (Some text) now active].
Proof.
  intros Hc Hp Hnew Hempty sid result. subst result. unfold sessions_init.
  rewrite (truthy_string_some c Hc), (truthy_string_some p Hp).
  unfold createSDKSession. rewrite Hnew.
  unfold getSessionByContentSessionId in *. cbn [sdk_sessions touchProjectActivity
    with_activity with_sessions].
  rewrite (find_app_skip _ _ _ (find_none_existsb _ _ Hnew))
    by (simpl; apply String.eqb_refl).
  rewrite Hempty. simpl. repeat split.
Qed.

Lemma sessions_init_private_prompt_stored_raw_witness :
  "s1"%string <> EmptyString /\ "p"%string <> EmptyString /\
  getSessionByContentSessionId (store fresh_worker) "s1" = None /\
  trim (stripMemoryTagsFromPrompt private_prompt) = EmptyString /\
  fst (sessions_init fresh_worker (Some "s1"%string) (Some "p"%string)
         (Some private_prompt) 100)
    = init_ok 1 1 true (Some "private"%string) /\
  user_prompts (store (snd (sessions_init fresh_worker (Some "s1"%string)
                              (Some "p"%string) (Some private_prompt) 100))) = [] /\
  map s_user_prompt
    (sdk_sessions (store (snd (sessions_init fresh_worker (Some "s1"%string)
                                 (Some "p"%string) (Some private_prompt) 100))))
    = [Some "<private>secret</private>"%string].
Proof.
  assert (H1 : "s1"%string <> EmptyString) by discriminate.
  assert (H2 : "p"%string <> EmptyString) by discriminate.
  assert (H3 : getSessionByContentSessionId (store fresh_worker) "s1" = None) by reflexivity.
  assert (H4 : trim (stripMemoryTagsFromPrompt private_prompt) = EmptyString)
    by (vm_compute; reflexivity).
  split; [exact H1|]. split; [exact H2|]. split; [exact H3|]. split; [exact H4|].
  pose proof (sessions_init_private_prompt_stored_raw fresh_worker "s1" "p" private_prompt
                100 H1 H2 H3 H4) as H.
  cbv zeta in H. destruct H as (E1 & E2 & E3).
  split; [exact E1|]. split; [exact E2|]. rewrite E3. reflexivity.
Defined.

(** C9, as the code has it.  [complete] looks the external id up in the
    session table, not in the active set: whenever the row exists it removes
    the id from the active set and answers [completed], so a repeat call after
    completion answers [completed] again and never [skipped]. *)
Theorem sessions_complete_repeat_completes_again (w : Worker) (c : string) (s : SessionRow) :
  c <> EmptyString ->
  getSessionByContentSessionId (store w) c = Some s ->
  let first := sessions_complete w (Some c) in
  let second := sessions_complete (snd first) (Some c) in
  fst first = complete_completed (s_id s) /\
  (s_id s ∉ activeSessions (snd first)) /\
  fst second = complete_completed (s_id s) /\
  store (snd second) = store w.
Proof.
  intros Hc Hs first second. subst second first. unfold sessions_complete.
  rewrite (truthy_string_some c Hc), Hs. cbn [fst snd store activeSessions].
  rewrite Hs. cbn [fst snd store].
  split; [reflexivity|]. split; [|split; reflexivity].
  apply not_elem_of_difference. right. now apply elem_of_singleton.
Qed.

Lemma sessions_complete_repeat_completes_again_witness :
  "s1"%string <> EmptyString /\
  getSessionByContentSessionId
    (store (snd (sessions_init fresh_worker (Some "s1"%string) (Some "p"%string)
                   (Some "hello"%string) 100))) "s1"
  = Some (mkSessionRow 1 "s1" None "p" (Some "hello"%string) 100 active) /\
  fst (sessions_complete
         (snd (sessions_init fresh_worker (Some "s1"%string) (Some "p"%string)
                 (Some "hello"%string) 100)) (Some "s1"%string))
  = complete_completed 1 /\
  fst (sessions_complete
         (snd (sessions_complete
                 (snd (sessions_init fresh_worker (Some "s1"%string) (Some "p"%string)
                         (Some "hello"%string) 100)) (Some "s1"%string)))
         (Some "s1"%string))
  = complete_completed 1.
Proof.
  assert (H1 : "s1"%string <> EmptyString) by discriminate.
  assert (H2 : getSessionByContentSessionId
                 (store (snd (sessions_init fresh_worker (Some "s1"%string)
                                (Some "p"%string) (Some "hello"%string) 100))) "s1"
               = Some (mkSessionRow 1 "s1" None "p" (Some "hello"%string) 100 active))
    by (vm_compute; reflexivity).
  split; [exact H1|]. split; [exact H2|].
  pose proof (sessions_complete_repeat_completes_again _ "s1" _ H1 H2) as H.
  cbv zeta in H. destruct H as (E1 & _ & E2 & _).
  split; [exact E1 | exact E2].
Defined.

(** ** Ordering, limits and the merge loop (C4, C6) *)

Lemma seen_union_empty (s : gset Z) : s = s ∪ list_to_set (@nil Z).
Proof.
  apply set_eq. intros x. rewrite elem_of_union, elem_of_list_to_set.
  split; [now left|]. intros [Hx|Hx]; [exact Hx|]. now apply not_elem_of_nil in Hx.
Qed.

Lemma seen_union_absorb (s t : gset Z) i : i ∈ s -> s ∪ t = s ∪ ({[i]} ∪ t).
Proof.
  intros Hi. apply set_eq. intros x. rewrite !elem_of_union, elem_of_singleton.
  split; [tauto|]. intros [Hx|[->|Hx]]; tauto.
Qed.

Lemma seen_union_shift (s t : gset Z) i : s ∪ {[i]} ∪ t = s ∪ ({[i]} ∪ t).
Proof. symmetry. apply (assoc_L (∪)). Qed.

Lemma seen_union_left (s : gset Z) i j : j ∈ s -> j ∈ s ∪ {[i]}.
Proof. set_solver. Qed.

Lemma not_in_empty_seen (i : Z) : i ∉ (∅ : gset Z).
Proof. set_solver. Qed.

Section Rows.
Context {A : Type} {rows_of_A : MemoryRow A}.

Lemma insert_row_perm o (x : A) l : Permutation (insert_row o x l) (x :: l).
Proof.
  induction l as [|a l IH]; simpl; [apply Permutation_refl|].
  destruct (comes_first o x a); [apply Permutation_refl|].
  eapply perm_trans; [apply perm_skip, IH | apply perm_swap].
Qed.

Lemma order_by_created_perm o (l : list A) : Permutation (order_by_created o l) l.
Proof.
  induction l as [|a l IH]; simpl; [apply perm_nil|].
  eapply perm_trans; [apply insert_row_perm | now apply perm_skip].
Qed.

Lemma in_order_by_created o (l : list A) x : In x (order_by_created o l) <-> In x l.
Proof.
  split; apply Permutation_in;
    [apply order_by_created_perm | apply Permutation_sym, order_by_created_perm].
Qed.

Lemma comes_first_total o (x y : A) : comes_first o x y = false -> comes_first o y x = true.
Proof.
  destruct o; simpl; intros E; apply Z.leb_gt in E; apply Z.leb_le; lia.
Qed.

Lemma insert_row_sorted o (x : A) l :
  Sorted (fun a b => comes_first o a b = true) l ->
  Sorted (fun a b => comes_first o a b = true) (insert_row o x l).
Proof.
  induction l as [|a l IH]; simpl; intros Hs.
  - repeat constructor.
  - destruct (comes_first o x a) eqn:E.
    + constructor; [exact Hs | now constructor].
    + inversion Hs as [|? ? Hs' Hd]; subst. constructor; [now apply IH|].
      destruct l as [|b l']; simpl.
      * constructor. now apply comes_first_total.
      * destruct (comes_first o x b).
        -- constructor. now apply comes_first_total.
        -- inversion Hd; subst. now constructor.
Qed.

Lemma order_by_created_sorted o (l : list A) :
  Sorted (fun a b => comes_first o a b = true) (order_by_created o l).
Proof.
  induction l as [|a l IH]; simpl; [constructor | now apply insert_row_sorted].
Qed.

Lemma sorted_firstn (R : A -> A -> Prop) n l : Sorted R l -> Sorted R (firstn n l).
Proof.
  revert n. induction l as [|a l IH]; intros [|n] Hs; simpl; try constructor.
  - inversion Hs; subst. now apply IH.
  - inversion Hs as [|? ? _ Hd]; subst. destruct l as [|b l'], n as [|n]; simpl; constructor.
    now inversion Hd.
Qed.

Lemma sorted_sql_limit (R : A -> A -> Prop) n l : Sorted R l -> Sorted R (sql_limit n l).
Proof. unfold sql_limit. destruct (n <? 0); [trivial | apply sorted_firstn]. Qed.

Lemma sorted_limit_clause (R : A -> A -> Prop) n l : Sorted R l -> Sorted R (limit_clause n l).
Proof.
  unfold limit_clause. destruct n as [n|]; [|trivial].
  destruct (n =? 0); [trivial | apply sorted_sql_limit].
Qed.

Lemma newest_first_date_desc (l : list A) :
  Sorted (fun a b => comes_first date_desc a b = true) l -> newest_first l.
Proof.
  unfold newest_first. induction 1 as [|a l Hs IH Hd]; constructor; [exact IH|].
  destruct Hd as [|b l' Hb]; constructor. simpl in Hb. now apply Z.leb_le.
Qed.

Lemma in_firstn (n : nat) (l : list A) x : In x (firstn n l) -> In x l.
Proof.
  revert n. induction l as [|a l IH]; intros [|n]; simpl; try tauto.
  intros [->|Hx]; [now left | right; eapply IH; eauto].
Qed.

Lemma in_limit_clause n (l : list A) x : In x (limit_clause n l) -> In x l.
Proof.
  unfold limit_clause, sql_limit. destruct n as [n|]; [|trivial].
  destruct (n =? 0); [trivial|]. destruct (_ <? 0); [trivial | apply in_firstn].
Qed.

Lemma in_sql_limit_offset n k (l : list A) x : In x (sql_limit_offset n k l) -> In x l.
Proof.
  unfold sql_limit_offset, sql_limit. intros Hx.
  assert (Hs : In x (skipn (Z.to_nat k) l)).
  { destruct (n <? 0); [exact Hx | now apply in_firstn in Hx]. }
  clear Hx. revert Hs. generalize (Z.to_nat k). intros m. revert l.
  induction m as [|m IH]; intros [|a l]; simpl; try tauto. intros Hx. right. now apply IH.
Qed.

Lemma NoDup_map_firstn (n : nat) (l : list A) :
  List.NoDup (map row_id l) -> List.NoDup (map row_id (firstn n l)).
Proof.
  revert n. induction l as [|a l IH]; intros [|n]; simpl; intros Hnd; try constructor.
  - inversion Hnd as [|? ? Ha Hl]; subst. intros Hin. apply Ha.
    apply in_map_iff in Hin. destruct Hin as (r & E & Hr). apply in_map_iff.
    exists r. split; [exact E | now apply in_firstn in Hr].
  - inversion Hnd; subst. now apply IH.
Qed.

Lemma NoDup_map_filter (f : A -> bool) (l : list A) :
  List.NoDup (map row_id l) -> List.NoDup (map row_id (List.filter f l)).
Proof.
  induction l as [|a l IH]; simpl; intros Hnd; [constructor|].
  inversion Hnd as [|? ? Ha Hl]; subst.
  destruct (f a); simpl; [|now apply IH]. constructor; [|now apply IH].
  intros Hin. apply Ha. apply in_map_iff in Hin. destruct Hin as (r & E & Hr).
  apply in_map_iff. exists r. split; [exact E|]. apply filter_In in Hr. tauto.
Qed.

Lemma NoDup_map_order_by o (l : list A) :
  List.NoDup (map row_id l) -> List.NoDup (map row_id (order_by_created o l)).
Proof.
  intros Hnd. eapply Permutation_NoDup; [|exact Hnd].
  apply Permutation_map, Permutation_sym, order_by_created_perm.
Qed.

Lemma NoDup_map_limit_clause n (l : list A) :
  List.NoDup (map row_id l) -> List.NoDup (map row_id (limit_clause n l)).
Proof.
  unfold limit_clause, sql_limit. destruct n as [n|]; [|trivial].
  destruct (n =? 0); [trivial|]. destruct (_ <? 0); [trivial | apply NoDup_map_firstn].
Qed.

Lemma length_limit_clause n (l : list A) :
  1 <= n -> Z.of_nat (List.length (limit_clause (Some n) l)) <= n.
Proof.
  intros Hn. unfold limit_clause, sql_limit.
  assert ((n =? 0) = false) as -> by (apply Z.eqb_neq; lia).
  assert ((Z.max 1 n <? 0) = false) as -> by (apply Z.ltb_ge; lia).
  rewrite length_firstn. lia.
Qed.

(** The merge loop, seen from outside. *)
Lemma merge_loop_spec (rows : list A) (seen : gset Z) (merged : list A) (limit : Z) :
  merge_loop rows seen merged limit
  = merged ++ firstn (Z.to_nat (Z.max 1 (limit - Z.of_nat (List.length merged))))
                (first_occurrences seen rows).
Proof.
  revert seen merged. induction rows as [|r rows IH]; intros seen merged; simpl.
  - now rewrite firstn_nil, app_nil_r.
  - destruct (bool_decide (row_id r ∈ seen)); [apply IH|].
    rewrite length_app. simpl.
    destruct (limit <=? Z.of_nat (List.length merged + 1)) eqn:E.
    + apply Z.leb_le in E.
      destruct (Z.to_nat (Z.max 1 (limit - Z.of_nat (List.length merged)))) as [|n] eqn:En;
        [lia|].
      assert (n = O) as -> by lia. reflexivity.
    + apply Z.leb_gt in E. rewrite IH, length_app. simpl. rewrite <- app_assoc. simpl.
      replace (Z.to_nat (Z.max 1 (limit - Z.of_nat (List.length merged))))
        with (S (Z.to_nat (Z.max 1 (limit - Z.of_nat (List.length merged + 1))))) by lia.
      reflexivity.
Qed.

Lemma first_occurrences_filter (seen : gset Z) (rows : list A) :
  List.NoDup (map row_id rows) ->
  first_occurrences seen rows
  = List.filter (fun r => negb (bool_decide (row_id r ∈ seen))) rows.
Proof.
  revert seen. induction rows as [|r rows IH]; intros seen Hnd; simpl; [reflexivity|].
  inversion Hnd as [|? ? Hr Hrows]; subst.
  destruct (bool_decide (row_id r ∈ seen)) eqn:E; simpl; [now apply IH|].
  f_equal. rewrite (IH _ Hrows). apply filter_ext_in. intros x Hx. f_equal.
  apply bool_decide_ext. split; [|apply seen_union_left].
  intros Hin. apply elem_of_union in Hin. destruct Hin as [Hin|Hin]; [exact Hin|].
  apply elem_of_singleton in Hin. exfalso. apply Hr. rewrite <- Hin. now apply in_map.
Qed.

Lemma first_occurrences_app (seen : gset Z) (P L : list A) :
  first_occurrences seen (P ++ L)
  = first_occurrences seen P
    ++ first_occurrences (seen ∪ list_to_set (map row_id P)) L.
Proof.
  revert seen. induction P as [|r P IH]; intros seen; simpl.
  - f_equal. apply seen_union_empty.
  - destruct (bool_decide (row_id r ∈ seen)) eqn:E.
    + rewrite IH. f_equal. f_equal. apply bool_decide_eq_true in E.
      now apply seen_union_absorb.
    + simpl. f_equal. rewrite IH. f_equal. f_equal. apply seen_union_shift.
Qed.

(** With distinct ids on both sides and a limit of at least one, the merge
    is the priority rows, then the lexical rows not among them, cut at the
    limit. *)
Lemma mergeRowsWithPriority_spec (P L : list A) (limit : Z) :
  1 <= limit ->
  List.NoDup (map row_id P) -> List.NoDup (map row_id L) ->
  mergeRowsWithPriority P L limit = vector_rows_then_lexical P L limit.
Proof.
  intros Hl HP HL. unfold mergeRowsWithPriority, vector_rows_then_lexical.
  rewrite merge_loop_spec. simpl. rewrite Z.sub_0_r.
  replace (Z.max 1 limit) with limit by lia. f_equal.
  rewrite first_occurrences_app. f_equal.
  - rewrite (first_occurrences_filter _ _ HP). apply filter_all.
    intros x _. rewrite bool_decide_eq_false_2 by apply not_in_empty_seen. reflexivity.
  - rewrite (first_occurrences_filter _ _ HL). apply filter_ext. intros r. f_equal.
    unfold id_in. destruct (existsb (Z.eqb (row_id r)) (map row_id P)) eqn:E.
    + apply bool_decide_eq_true. apply existsb_exists in E. destruct E as (i & Hi & Ei).
      apply Z.eqb_eq in Ei. subst i. apply elem_of_union. right.
      apply elem_of_list_to_set. now apply list_elem_of_In.
    + apply bool_decide_eq_false. intros Hin. apply elem_of_union in Hin.
      destruct Hin as [Hin|Hin]; [now apply not_in_empty_seen in Hin|].
      apply elem_of_list_to_set, list_elem_of_In in Hin.
      assert (existsb (Z.eqb (row_id r)) (map row_id P) = true); [|congruence].
      apply existsb_exists. exists (row_id r). split; [exact Hin | apply Z.eqb_refl].
Qed.

End Rows.

Section Hydration.
Context {A : Type} {rows_of_A : MemoryRow A}.

Lemma NoDup_map_skipn (n : nat) (l : list A) :
  List.NoDup (map row_id l) -> List.NoDup (map row_id (skipn n l)).
Proof.
  revert l. induction n as [|n IH]; intros [|a l]; simpl; intros Hnd; try assumption.
  inversion Hnd; subst. now apply IH.
Qed.

Lemma NoDup_map_sql_limit_offset n k (l : list A) :
  List.NoDup (map row_id l) -> List.NoDup (map row_id (sql_limit_offset n k l)).
Proof.
  intros Hnd. unfold sql_limit_offset, sql_limit.
  destruct (n <? 0); [|apply NoDup_map_firstn]; now apply NoDup_map_skipn.
Qed.

(** Of a sorted list, an element is among the first [n] or no better than
    any of them, and they are [n] then. *)
Lemma firstn_or_behind (n : nat) (l : list A) (x : A) :
  Sorted (fun a b => comes_first date_desc a b = true) l ->
  In x l ->
  In x (firstn n l) \/
  (List.length (firstn n l) = n /\
   forall y, In y (firstn n l) -> row_created x <= row_created y).
Proof.
  intros Hs. apply Sorted_StronglySorted in Hs.
  2:{ intros a b c Hab Hbc. simpl in *. apply Z.leb_le in Hab, Hbc. apply Z.leb_le. lia. }
  revert n. induction Hs as [|a l Hl IH Ha]; intros n Hx; [destruct Hx|].
  destruct n as [|n]; [right; split; [reflexivity | intros y []]|].
  cbn [firstn List.length In]. destruct Hx as [->|Hx]; [left; now left|].
  destruct (IH n Hx) as [Hin | [Hlen Hall]]; [left; now right|].
  right. split; [now rewrite Hlen|]. intros y [<-|Hy]; [|now apply Hall].
  rewrite List.Forall_forall in Ha. specialize (Ha x Hx). simpl in Ha.
  now apply Z.leb_le in Ha.
Qed.

(** Sorting the wanted rows newest first and cutting at the limit gives
    hydrated rows. *)
Lemma hydrated_rows (wanted : A -> Prop) (rows : list A) (limit : Z) :
  1 <= limit ->
  List.NoDup (map row_id rows) ->
  (forall r, In r rows <-> wanted r) ->
  hydrated wanted (limit_clause (Some limit) (order_by_created date_desc rows)) limit.
Proof.
  intros Hl Hnd Hrows. unfold hydrated. split; [|split; [|split; [|split]]].
  - apply newest_first_date_desc, sorted_limit_clause, order_by_created_sorted.
  - pose proof (length_limit_clause limit (order_by_created date_desc rows) Hl). lia.
  - now apply NoDup_map_limit_clause, NoDup_map_order_by.
  - intros r Hr. apply Hrows. apply in_limit_clause in Hr. now apply in_order_by_created in Hr.
  - intros r Hr. apply Hrows, (in_order_by_created date_desc) in Hr.
    unfold limit_clause, sql_limit.
    assert ((limit =? 0) = false) as -> by (apply Z.eqb_neq; lia).
    assert ((Z.max 1 limit <? 0) = false) as -> by (apply Z.ltb_ge; lia).
    replace (Z.max 1 limit) with limit by lia.
    destruct (firstn_or_behind (Z.to_nat limit) (order_by_created date_desc rows) r
                (order_by_created_sorted date_desc rows) Hr) as [Hin | [Hlen Hall]];
      [now left|].
    right. split; [rewrite Hlen; lia | exact Hall].
Qed.

Lemma hydrated_nil (wanted : A -> Prop) (limit : Z) :
  1 <= limit -> (forall r, ~ wanted r) -> hydrated wanted [] limit.
Proof.
  intros Hl Hnone. unfold hydrated. split; [constructor|]. split; [simpl; lia|].
  split; [constructor|]. split; [intros r []|]. intros r Hr. now apply Hnone in Hr.
Qed.

End Hydration.

Lemma id_in_spec ids i : id_in ids i = true -> In i ids.
Proof.
  unfold id_in. intros H. apply existsb_exists in H. destruct H as (j & Hj & E).
  apply Z.eqb_eq in E. now subst.
Qed.

Lemma live_spec {A} `{MemoryRow A} (r : A) : live r = true -> row_deleted r = None.
Proof. unfold live. destruct (row_deleted r); [discriminate | reflexivity]. Qed.

Lemma page_limit_pos rq : 1 <= page_limit rq.
Proof. unfold page_limit. lia. Qed.

(** With external ids unique, a prompt joins at most one session row. *)
Lemma one_session_per_prompt sessions c :
  List.NoDup (map s_content_session_id sessions) ->
  (List.length (List.filter (fun s => String.eqb (s_content_session_id s) c) sessions) <= 1)%nat.
Proof.
  induction sessions as [|a l IH]; simpl; intros Hnd; [lia|].
  inversion Hnd as [|? ? Ha Hl]; subst.
  destruct (String.eqb (s_content_session_id a) c) eqn:E; [|now apply IH].
  apply String.eqb_eq in E. simpl.
  rewrite filter_none; [simpl; lia|].
  intros x Hx. apply String.eqb_neq. intros Ex. apply Ha. rewrite E, <- Ex. now apply in_map.
Qed.

Lemma join_rows_NoDup st (g : PromptRow * SessionRow -> bool) :
  List.NoDup (map up_id (user_prompts st)) ->
  List.NoDup (map s_content_session_id (sdk_sessions st)) ->
  List.NoDup (map up_id (map fst (List.filter g (prompts_join_sessions st)))).
Proof.
  intros Hp Hs. unfold prompts_join_sessions.
  induction (user_prompts st) as [|a l IH]; simpl; [constructor|].
  inversion Hp as [|? ? Ha Hl]; subst.
  rewrite List.filter_app, !map_app.
  pose proof (one_session_per_prompt (sdk_sessions st) (up_content_session_id a) Hs) as Hone.
  assert (Hrest : forall i, In i (map up_id (map fst (List.filter g
                     (flat_map (fun up => map (fun s => (up, s))
                        (List.filter (fun s => String.eqb (s_content_session_id s)
                                                 (up_content_session_id up))
                           (sdk_sessions st))) l)))) -> In i (map up_id l)).
  { intros i Hi. apply in_map_iff in Hi. destruct Hi as (up & <- & Hup).
    apply in_map_iff in Hup. destruct Hup as ([up' s] & <- & Hus).
    apply filter_In in Hus. destruct Hus as [Hus _].
    apply in_flat_map in Hus. destruct Hus as (up0 & Hup0 & Hpair).
    apply in_map_iff in Hpair. destruct Hpair as (s0 & E & _). inversion E; subst.
    now apply in_map. }
  destruct (List.filter (fun s => String.eqb (s_content_session_id s) (up_content_session_id a))
              (sdk_sessions st)) as [|s [|s' rest]]; simpl in *; [now apply IH| |lia].
  destruct (g (a, s)); simpl; [|now apply IH].
  constructor; [|now apply IH]. intros Hin. apply Ha. now apply Hrest.
Qed.

Lemma join_rows_in st (g : PromptRow * SessionRow -> bool) up :
  In up (map fst (List.filter g (prompts_join_sessions st))) ->
  In up (user_prompts st) /\ exists s, g (up, s) = true.
Proof.
  intros Hin. apply in_map_iff in Hin. destruct Hin as ([up' s] & <- & Hus).
  apply filter_In in Hus. destruct Hus as [Hus Hg]. simpl.
  split; [|now exists s].
  unfold prompts_join_sessions in Hus. apply in_flat_map in Hus.
  destruct Hus as (up0 & Hup0 & Hpair). apply in_map_iff in Hpair.
  destruct Hpair as (s0 & E & _). now inversion E; subst.
Qed.

Lemma id_in_In ids i : id_in ids i = true <-> In i ids.
Proof.
  unfold id_in. rewrite existsb_exists. split.
  - intros (j & Hj & E). apply Z.eqb_eq in E. now subst.
  - intros H. exists i. split; [exact H | apply Z.eqb_refl].
Qed.

Lemma live_iff {A} `{MemoryRow A} (r : A) : live r = true <-> row_deleted r = None.
Proof. unfold live. destruct (row_deleted r); split; (reflexivity || discriminate). Qed.

Lemma project_clause_iff project p : project_clause project p = true <-> in_project project p.
Proof.
  unfold project_clause, in_project, truthy_string. destruct project as [want|].
  - destruct (String.eqb want EmptyString) eqn:E.
    + apply String.eqb_eq in E. split; [|reflexivity]. intros _ w Hw Hne.
      inversion Hw; subst. contradiction.
    + apply String.eqb_neq in E. rewrite String.eqb_eq. split.
      * intros -> w Hw _. now inversion Hw.
      * intros H. now apply H.
  - split; [intros _ w Hw; discriminate | reflexivity].
Qed.

Lemma types_clause_iff obsTypes t : types_clause obsTypes t = true <-> of_type obsTypes t.
Proof.
  unfold types_clause, of_type. destruct obsTypes as [|a l].
  - split; [now left | reflexivity].
  - rewrite existsb_exists. split.
    + intros (x & Hx & E). apply String.eqb_eq in E. subst. now right.
    + intros [Hnil|Hin]; [discriminate|]. exists t. split; [exact Hin | apply String.eqb_refl].
Qed.

Lemma date_clause_iff a b created : date_clause a b created = true <-> in_dates a b created.
Proof.
  unfold date_clause, in_dates. rewrite andb_true_iff. split.
  - intros [Ha Hb]. split.
    + intros x ->. now apply Z.leb_le.
    + intros y ->. now apply Z.leb_le.
  - intros [Ha Hb]. split.
    + destruct a as [x|]; [apply Z.leb_le; now apply Ha | reflexivity].
    + destruct b as [y|]; [apply Z.leb_le; now apply Hb | reflexivity].
Qed.

Lemma in_prompts_join_sessions st up s :
  In (up, s) (prompts_join_sessions st) <->
  In up (user_prompts st) /\ In s (sdk_sessions st) /\
  s_content_session_id s = up_content_session_id up.
Proof.
  unfold prompts_join_sessions. rewrite in_flat_map. split.
  - intros (up0 & Hup0 & Hpair). apply in_map_iff in Hpair.
    destruct Hpair as (s0 & E & Hs0). inversion E; subst.
    apply filter_In in Hs0. destruct Hs0 as [Hs0 Hc]. apply String.eqb_eq in Hc. tauto.
  - intros (Hup & Hs & Hc). exists up. split; [exact Hup|]. apply in_map_iff.
    exists s. split; [reflexivity|]. apply filter_In. split; [exact Hs|].
    now apply String.eqb_eq.
Qed.

Lemma getObservationsByIds_hydrated st rq V :
  List.NoDup (map o_id (observations st)) ->
  hydrated (wanted_observation st rq V) (getObservationsByIds st V (hydrate_options rq))
    (page_limit rq).
Proof.
  intros Hnd. unfold getObservationsByIds. destruct V as [|v V'].
  - apply hydrated_nil; [apply page_limit_pos|]. intros r (_ & [] & _).
  - apply hydrated_rows; [apply page_limit_pos | now apply NoDup_map_filter |].
    intros r. rewrite filter_In, !andb_true_iff. unfold wanted_observation.
    cbn [hydrate_options bo_project bo_obsTypes bo_dateStartEpoch bo_dateEndEpoch].
    rewrite id_in_In, live_iff, project_clause_iff, types_clause_iff, date_clause_iff.
    cbn [row_deleted ObservationRow_MemoryRow]. tauto.
Qed.

Lemma getSummariesByIds_hydrated st rq V :
  List.NoDup (map ss_id (session_summaries st)) ->
  hydrated (wanted_summary st rq V) (getSummariesByIds st V (hydrate_options rq))
    (page_limit rq).
Proof.
  intros Hnd. unfold getSummariesByIds. destruct V as [|v V'].
  - apply hydrated_nil; [apply page_limit_pos|]. intros r (_ & [] & _).
  - apply hydrated_rows; [apply page_limit_pos | now apply NoDup_map_filter |].
    intros r. rewrite filter_In, !andb_true_iff. unfold wanted_summary.
    cbn [hydrate_options bo_project bo_dateStartEpoch bo_dateEndEpoch].
    rewrite id_in_In, live_iff, project_clause_iff, date_clause_iff.
    cbn [row_deleted SummaryRow_MemoryRow]. tauto.
Qed.

Lemma getPromptsByIds_hydrated st rq V :
  List.NoDup (map up_id (user_prompts st)) ->
  List.NoDup (map s_content_session_id (sdk_sessions st)) ->
  hydrated (wanted_prompt st rq V) (getPromptsByIds st V (hydrate_options rq)) (page_limit rq).
Proof.
  intros Hnd Hs. unfold getPromptsByIds. destruct V as [|v V'].
  - apply hydrated_nil; [apply page_limit_pos|]. intros r (_ & [] & _).
  - apply hydrated_rows; [apply page_limit_pos | now apply join_rows_NoDup |].
    intros up. rewrite in_map_iff. unfold wanted_prompt.
    cbn [hydrate_options bo_project bo_dateStartEpoch bo_dateEndEpoch]. split.
    + intros ([up' s] & E & Hus). cbn [fst] in E. subst up'.
      apply filter_In in Hus. destruct Hus as [Hjoin Hf]. cbn [fst snd] in Hf.
      rewrite !andb_true_iff in Hf. destruct Hf as (((Hid & Hlive) & Hproj) & Hdate).
      apply in_prompts_join_sessions in Hjoin. destruct Hjoin as (Hup & Hin & Hc).
      split; [exact Hup|]. split; [now apply id_in_In|].
      split; [exact (proj1 (live_iff up) Hlive)|].
      split; [|now apply date_clause_iff].
      exists s. split; [exact Hin|]. split; [exact Hc | now apply project_clause_iff].
    + intros (Hup & Hid & Hlive & (s & Hin & Hc & Hproj) & Hdate).
      exists (up, s). split; [reflexivity|]. apply filter_In. split.
      * apply in_prompts_join_sessions. tauto.
      * cbn [fst snd]. rewrite !andb_true_iff.
        split; [split; [split|]|];
          [now apply id_in_In | exact (proj2 (live_iff up) Hlive)
          | now apply project_clause_iff | now apply date_clause_iff].
Qed.

(** The rows of a lexical page have distinct ids. *)
Lemma lexical_search_NoDup like st rq :
  List.NoDup (map o_id (observations st)) ->
  List.NoDup (map ss_id (session_summaries st)) ->
  List.NoDup (map up_id (user_prompts st)) ->
  List.NoDup (map s_content_session_id (sdk_sessions st)) ->
  List.NoDup (map o_id (sr_observations (lexical_search like st rq))) /\
  List.NoDup (map ss_id (sr_sessions (lexical_search like st rq))) /\
  List.NoDup (map up_id (sr_prompts (lexical_search like st rq))).
Proof.
  intros Ho Hs Hp Hc. unfold lexical_search, search. simpl. split; [|split].
  - destruct (rq_includeObservations rq); [|constructor].
    now apply (NoDup_map_sql_limit_offset (rows_of_A := ObservationRow_MemoryRow)),
      NoDup_map_order_by,
      NoDup_map_filter.
  - destruct (rq_includeSessions rq); [|constructor].
    now apply (NoDup_map_sql_limit_offset (rows_of_A := SummaryRow_MemoryRow)),
      NoDup_map_order_by,
      NoDup_map_filter.
  - destruct (rq_includePrompts rq); [|constructor].
    now apply (NoDup_map_sql_limit_offset (rows_of_A := PromptRow_MemoryRow)),
      NoDup_map_order_by,
      join_rows_NoDup.
Qed.

Lemma is_nil_true {A} (l : list A) : is_nil l = true <-> l = [].
Proof. destruct l; simpl; split; (congruence || discriminate). Qed.

(** C4, amended.  With primary keys and external session ids unique, and a
    query present: for each kind, when the vector sources returned no id the
    result is the lexical page; otherwise the result is the hydrated vector
    rows, then the lexical rows not among them, cut at the page limit.  The
    hydrated rows are live rows of the table whose id a vector source
    returned and that pass the request's project, type and date filters (a
    prompt by the project of its session), ordered newest first by creation
    time (not by vector rank), without repeats and at most a page of them;
    and they are the newest such rows: one that is left out is no newer
    than any of a full page. *)
Theorem api_search_hydrated_rows_first (like : option string -> string -> bool)
    (st : Store) (rq : SearchRequest) (vs : VectorSources) :
  List.NoDup (map o_id (observations st)) ->
  List.NoDup (map ss_id (session_summaries st)) ->
  List.NoDup (map up_id (user_prompts st)) ->
  List.NoDup (map s_content_session_id (sdk_sessions st)) ->
  truthy_string (rq_query rq) <> None ->
  let lexical := lexical_search like st rq in
  let result := snd (api_search like st rq vs) in
  let limit := page_limit rq in
  let opts := hydrate_options rq in
  ((vectorObservationIds rq vs = [] -> sr_observations result = sr_observations lexical) /\
   (vectorObservationIds rq vs <> [] ->
    sr_observations result
    = vector_rows_then_lexical (getObservationsByIds st (vectorObservationIds rq vs) opts)
        (sr_observations lexical) limit) /\
   hydrated (wanted_observation st rq (vectorObservationIds rq vs))
     (getObservationsByIds st (vectorObservationIds rq vs) opts) limit) /\
  ((vectorSummaryIds rq vs = [] -> sr_sessions result = sr_sessions lexical) /\
   (vectorSummaryIds rq vs <> [] ->
    sr_sessions result
    = vector_rows_then_lexical (getSummariesByIds st (vectorSummaryIds rq vs) opts)
        (sr_sessions lexical) limit) /\
   hydrated (wanted_summary st rq (vectorSummaryIds rq vs))
     (getSummariesByIds st (vectorSummaryIds rq vs) opts) limit) /\
  ((vectorPromptIds rq vs = [] -> sr_prompts result = sr_prompts lexical) /\
   (vectorPromptIds rq vs <> [] ->
    sr_prompts result
    = vector_rows_then_lexical (getPromptsByIds st (vectorPromptIds rq vs) opts)
        (sr_prompts lexical) limit) /\
   hydrated (wanted_prompt st rq (vectorPromptIds rq vs))
     (getPromptsByIds st (vectorPromptIds rq vs) opts) limit).
Proof.
  intros Ho Hs Hp Hc Hq lexical result limit opts.
  destruct (lexical_search_NoDup like st rq Ho Hs Hp Hc) as (Lo & Ls & Lp).
  pose proof (getObservationsByIds_hydrated st rq (vectorObservationIds rq vs) Ho) as HHo.
  pose proof (getSummariesByIds_hydrated st rq (vectorSummaryIds rq vs) Hs) as HHs.
  pose proof (getPromptsByIds_hydrated st rq (vectorPromptIds rq vs) Hp Hc) as HHp.
  subst result. unfold api_search.
  destruct (truthy_string (rq_query rq)) as [q|]; [|contradiction]. simpl.
  split; [|split]; (split; [|split]); try assumption.
  - intros E. now rewrite E.
  - intros E. destruct (is_nil (vectorObservationIds rq vs)) eqn:N;
      [apply is_nil_true in N; contradiction|].
    apply mergeRowsWithPriority_spec; [apply page_limit_pos | apply HHo | exact Lo].
  - intros E. now rewrite E.
  - intros E. destruct (is_nil (vectorSummaryIds rq vs)) eqn:N;
      [apply is_nil_true in N; contradiction|].
    apply mergeRowsWithPriority_spec; [apply page_limit_pos | apply HHs | exact Ls].
  - intros E. now rewrite E.
  - intros E. destruct (is_nil (vectorPromptIds rq vs)) eqn:N;
      [apply is_nil_true in N; contradiction|].
    apply mergeRowsWithPriority_spec; [apply page_limit_pos | apply HHp | exact Lp].
Qed.

Lemma api_search_hydrated_rows_first_witness :
  List.NoDup (map o_id (observations two_observations)) /\
  List.NoDup (map ss_id (session_summaries two_observations)) /\
  List.NoDup (map up_id (user_prompts two_observations)) /\
  List.NoDup (map s_content_session_id (sdk_sessions two_observations)) /\
  truthy_string (rq_query (plain_request (Some "note"%string))) <> None /\
  sr_observations (snd (api_search (fun _ _ => false) two_observations
                          (plain_request (Some "note"%string)) ranked_1_then_2))
  = [sample_observation 2 200 None; sample_observation 1 100 None].
Proof.
  assert (H1 : List.NoDup (map o_id (observations two_observations))).
  { simpl. repeat constructor; simpl; intuition lia. }
  assert (H2 : List.NoDup (map ss_id (session_summaries two_observations))) by constructor.
  assert (H3 : List.NoDup (map up_id (user_prompts two_observations))) by constructor.
  assert (H4 : List.NoDup (map s_content_session_id (sdk_sessions two_observations))).
  { simpl. repeat constructor. intros []. }
  assert (H5 : truthy_string (rq_query (plain_request (Some "note"%string))) <> None)
    by discriminate.
  repeat (split; [assumption|]).
  pose proof (api_search_hydrated_rows_first (fun _ _ => false) two_observations
                (plain_request (Some "note"%string)) ranked_1_then_2 H1 H2 H3 H4 H5) as H.
  cbv zeta in H. destruct H as ((_ & Hobs & _) & _).
  rewrite Hobs by discriminate. vm_compute. reflexivity.
Defined.

Lemma api_search_rank_order_counterexample :
  vectorObservationIds (plain_request (Some "note"%string)) ranked_1_then_2 = [1; 2] /\
  map o_id (sr_observations (snd (api_search (fun _ _ => false) two_observations
                                    (plain_request (Some "note"%string)) ranked_1_then_2)))
  = [2; 1].
Proof. vm_compute. split; reflexivity. Qed.

(** The read paths of the store itself return live rows only. *)
Lemma store_reads_skip_soft_deleted (like : option string -> string -> bool) (st : Store) :
  (forall i o, getObservationById st i = Some o -> o_deleted_at_epoch o = None) /\
  (forall ids opts o, In o (getObservationsByIds st ids opts) ->
                      o_deleted_at_epoch o = None) /\
  (forall ids opts x, In x (getSummariesByIds st ids opts) ->
                      ss_deleted_at_epoch x = None) /\
  (forall offset limit project o,
      In o (fst (listObservations st offset limit project)) ->
      o_deleted_at_epoch o = None) /\
  (forall offset limit project x,
      In x (fst (listSummaries st offset limit project)) ->
      ss_deleted_at_epoch x = None) /\
  (forall args o, In o (sr_observations (search like st args)) ->
                  o_deleted_at_epoch o = None) /\
  (forall args x, In x (sr_sessions (search like st args)) ->
                  ss_deleted_at_epoch x = None).
Proof.
  split; [|split; [|split; [|split; [|split; [|split]]]]].
  - intros i o Hf. unfold getObservationById in Hf. apply find_some in Hf.
    destruct Hf as [_ Hf]. apply andb_true_iff in Hf. destruct Hf as [_ Hl].
    exact (live_spec o Hl).
  - intros ids opts o Hin. unfold getObservationsByIds in Hin.
    destruct ids as [|i ids']; [destruct Hin|].
    apply in_limit_clause, in_order_by_created, filter_In in Hin. destruct Hin as [_ Hf].
    rewrite !andb_true_iff in Hf. destruct Hf as ((((_ & Hl) & _) & _) & _).
    exact (live_spec o Hl).
  - intros ids opts x Hin. unfold getSummariesByIds in Hin.
    destruct ids as [|i ids']; [destruct Hin|].
    apply in_limit_clause, in_order_by_created, filter_In in Hin. destruct Hin as [_ Hf].
    rewrite !andb_true_iff in Hf. destruct Hf as (((_ & Hl) & _) & _).
    exact (live_spec x Hl).
  - intros offset limit project o Hin. unfold listObservations in Hin. simpl in Hin.
    apply in_sql_limit_offset, in_order_by_created, filter_In in Hin.
    destruct Hin as [_ Hf]. apply andb_true_iff in Hf. destruct Hf as [_ Hl].
    exact (live_spec o Hl).
  - intros offset limit project x Hin. unfold listSummaries in Hin. simpl in Hin.
    apply in_sql_limit_offset, in_order_by_created, filter_In in Hin.
    destruct Hin as [_ Hf]. apply andb_true_iff in Hf. destruct Hf as [_ Hl].
    exact (live_spec x Hl).
  - intros args o Hin. unfold search in Hin. simpl in Hin.
    destruct (sa_includeObservations args) as [[|]|]; try destruct Hin;
      apply in_sql_limit_offset, in_order_by_created, filter_In in Hin;
      destruct Hin as [_ Hf]; rewrite !andb_true_iff in Hf;
      destruct Hf as ((((Hl & _) & _) & _) & _); exact (live_spec o Hl).
  - intros args x Hin. unfold search in Hin. simpl in Hin.
    destruct (sa_includeSessions args) as [[|]|]; try destruct Hin;
      apply in_sql_limit_offset, in_order_by_created, filter_In in Hin;
      destruct Hin as [_ Hf]; rewrite !andb_true_iff in Hf;
      destruct Hf as (((Hl & _) & _) & _); exact (live_spec x Hl).
Qed.

(** C6, as the code has it.  The neighbour queries of the timeline route
    read [observations] without the [deleted_at_epoch IS NULL] filter: with
    observation 2 soft-deleted, the timeline around observation 1 still
    returns it, while fetch by id, fetch by ids, the listing and the search
    all leave it out. *)
Theorem api_timeline_returns_soft_deleted_row (like : option string -> string -> bool) :
  o_deleted_at_epoch (sample_observation 2 50 (Some 70)) = Some 70 /\
  api_timeline like deleted_neighbour (Some 1) None None None None
  = timeline_items [sample_observation 2 50 (Some 70); sample_observation 1 100 None] /\
  getObservationById deleted_neighbour 2 = None /\
  getObservationsByIds deleted_neighbour [1; 2] no_options = [sample_observation 1 100 None] /\
  fst (listObservations deleted_neighbour 0 20 None) = [sample_observation 1 100 None] /\
  sr_observations (search like deleted_neighbour
                     (mkSearchArgs None None None None None None None [] None None None))
  = [sample_observation 1 100 None].
Proof. vm_compute. repeat split. Qed.

(** ** C5: retention expiry and pinning *)

Lemma filter_andb {A} (f g : A -> bool) l :
  List.filter (fun x => f x && g x) l = List.filter g (List.filter f l).
Proof.
  induction l as [|a l IH]; simpl; [reflexivity|].
  destruct (f a); simpl; [destruct (g a)|]; now rewrite IH.
Qed.

Lemma filter_map_fixed {A} (f : A -> bool) (g : A -> A) l :
  (forall x, f (g x) = f x) -> (forall x, f x = true -> g x = x) ->
  List.filter f (map g l) = List.filter f l.
Proof.
  intros Hf Hg. induction l as [|a l IH]; simpl; [reflexivity|].
  rewrite Hf. destruct (f a) eqn:E; [rewrite (Hg a E)|]; now rewrite IH.
Qed.

Lemma filter_flat_map {A B} (f : B -> bool) (h : A -> list B) l :
  List.filter f (flat_map h l) = flat_map (fun x => List.filter f (h x)) l.
Proof.
  induction l as [|a l IH]; simpl; [reflexivity|]. now rewrite List.filter_app, IH.
Qed.

Lemma flat_map_skip {A B} (f : A -> bool) (k : A -> list B) l :
  (forall x, f x = false -> k x = []) -> flat_map k l = flat_map k (List.filter f l).
Proof.
  intros Hk. induction l as [|a l IH]; simpl; [reflexivity|].
  destruct (f a) eqn:E; simpl; [now rewrite IH | now rewrite (Hk a E)].
Qed.

(** The prompts that count for a project, read off the prompts of the
    project alone. *)
Lemma join_of_project sessions p prompts :
  List.filter (fun us : PromptRow * SessionRow =>
                 String.eqb (s_project (snd us)) p && live (fst us))
    (flat_map (fun up => map (fun s => (up, s))
                 (List.filter (fun s => String.eqb (s_content_session_id s)
                                          (up_content_session_id up)) sessions))
       prompts)
  = flat_map
      (fun up => List.filter (fun us : PromptRow * SessionRow =>
                                String.eqb (s_project (snd us)) p && live (fst us))
                   (map (fun s => (up, s))
                      (List.filter (fun s => String.eqb (s_content_session_id s)
                                               (up_content_session_id up)) sessions)))
      (List.filter
         (fun up => existsb (fun s => String.eqb (s_content_session_id s)
                                        (up_content_session_id up)
                                      && String.eqb (s_project s) p) sessions)
         prompts).
Proof.
  rewrite filter_flat_map. apply flat_map_skip. intros up Hex.
  apply filter_none. intros [up' s] Hin. apply in_map_iff in Hin.
  destruct Hin as (s0 & E & Hs0). inversion E; subst. simpl.
  apply filter_In in Hs0. destruct Hs0 as [Hs0 Hc].
  destruct (String.eqb (s_project s) p) eqn:Ep; [|reflexivity].
  exfalso. assert (existsb (fun s => String.eqb (s_content_session_id s)
                                       (up_content_session_id up')
                                     && String.eqb (s_project s) p) sessions = true).
  { apply existsb_exists. exists s. split; [exact Hs0|]. now rewrite Hc, Ep. }
  congruence.
Qed.

Lemma same_for_refl p st : same_for p st st.
Proof. repeat split. Qed.

Lemma same_for_policy p st st' :
  same_for p st st' -> getProjectRetentionPolicy st' p = getProjectRetentionPolicy st p.
Proof. intros (_ & Hpol & _). unfold getProjectRetentionPolicy. now rewrite Hpol. Qed.

Lemma same_for_last_access p st st' :
  same_for p st st' -> getProjectLastAccessEpoch st' p = getProjectLastAccessEpoch st p.
Proof.
  intros (Hs & _ & Ha & Ho & Hx & Hp). unfold getProjectLastAccessEpoch.
  rewrite !(filter_andb (fun o => String.eqb (o_project o) p)).
  rewrite !(filter_andb (fun x => String.eqb (ss_project x) p)).
  rewrite Ho, Hx, Ha. unfold prompts_join_sessions. rewrite Hs.
  rewrite !join_of_project.
  unfold prompt_in_project in Hp. now rewrite Hp.
Qed.

Lemma same_for_in_observations p st st' o :
  same_for p st st' -> o_project o = p ->
  (In o (observations st') <-> In o (observations st)).
Proof.
  intros (_ & _ & _ & Ho & _) Hp.
  assert (Hf : forall l, In o l <-> In o (List.filter (fun o => String.eqb (o_project o) p) l)).
  { intros l. rewrite filter_In, Hp, String.eqb_refl. tauto. }
  now rewrite (Hf (observations st')), (Hf (observations st)), Ho.
Qed.

Lemma same_for_in_summaries p st st' x :
  same_for p st st' -> ss_project x = p ->
  (In x (session_summaries st') <-> In x (session_summaries st)).
Proof.
  intros (_ & _ & _ & _ & Hx & _) Hp.
  assert (Hf : forall l, In x l <-> In x (List.filter (fun x => String.eqb (ss_project x) p) l)).
  { intros l. rewrite filter_In, Hp, String.eqb_refl. tauto. }
  now rewrite (Hf (session_summaries st')), (Hf (session_summaries st)), Hx.
Qed.

Lemma same_for_in_prompts p st st' up :
  same_for p st st' -> prompt_in_project st p up = true ->
  (In up (user_prompts st') <-> In up (user_prompts st)).
Proof.
  intros (_ & _ & _ & _ & _ & Hu) Hp.
  assert (Hf : forall l, In up l <-> In up (List.filter (prompt_in_project st p) l)).
  { intros l. rewrite filter_In, Hp. tauto. }
  now rewrite (Hf (user_prompts st')), (Hf (user_prompts st)), Hu.
Qed.

Lemma prompt_in_project_sessions st st' p up :
  sdk_sessions st' = sdk_sessions st ->
  prompt_in_project st' p up = prompt_in_project st p up.
Proof. unfold prompt_in_project. now intros ->. Qed.

(** With external ids unique a prompt belongs to one project only. *)
Lemma prompt_one_project st p q up :
  List.NoDup (map s_content_session_id (sdk_sessions st)) ->
  prompt_in_project st p up = true -> prompt_in_project st q up = true -> p = q.
Proof.
  unfold prompt_in_project. intros Hnd Hp Hq.
  apply existsb_exists in Hp. destruct Hp as (s1 & H1 & E1).
  apply existsb_exists in Hq. destruct Hq as (s2 & H2 & E2).
  apply andb_true_iff in E1. destruct E1 as [C1 P1].
  apply andb_true_iff in E2. destruct E2 as [C2 P2].
  apply String.eqb_eq in C1, C2, P1, P2.
  assert (s1 = s2); [|congruence].
  clear P1 P2. revert H1 H2. induction (sdk_sessions st) as [|a l IH]; [intros []|].
  simpl in Hnd. inversion Hnd as [|? ? Ha Hl]; subst.
  intros [->|H1] [->|H2]; try reflexivity.
  - exfalso. apply Ha. rewrite C1, <- C2. now apply in_map.
  - exfalso. apply Ha. rewrite C2, <- C1. now apply in_map.
  - now apply IH.
Qed.

Lemma in_uniq_first xs x : In x (uniq_first xs) <-> In x xs.
Proof.
  induction xs as [|a l IH]; simpl; [tauto|]. rewrite filter_In, IH. split.
  - intros [->|[Hx _]]; tauto.
  - intros [->|Hx]; [now left|].
    destruct (String.eqb x a) eqn:E.
    + apply String.eqb_eq in E. now left.
    + right. split; [exact Hx | reflexivity].
Qed.

Lemma in_insert_name x y xs : In y (insert_name x xs) <-> y = x \/ In y xs.
Proof.
  induction xs as [|a xs IH]; cbn [insert_name].
  - simpl. intuition.
  - destruct (String.leb x a); cbn [In]; [intuition|]. rewrite IH. intuition.
Qed.

Lemma in_sort_names xs x : In x (sort_names xs) <-> In x xs.
Proof.
  unfold sort_names. induction xs as [|a xs IH]; [reflexivity|].
  cbn [fold_right In]. rewrite in_insert_name, IH. intuition.
Qed.

Lemma NoDup_sort_names xs : List.NoDup xs -> List.NoDup (sort_names xs).
Proof.
  unfold sort_names. induction xs as [|a xs IH]; intros Hnd; [constructor|].
  inversion Hnd as [|? ? Ha Hxs]; subst. cbn [fold_right].
  specialize (IH Hxs).
  assert (Hout : ~ In a (fold_right insert_name [] xs))
    by (intros Hin; apply Ha; now apply (in_sort_names xs a)).
  revert IH Hout. generalize (fold_right insert_name [] xs). intros l.
  induction l as [|b l IHl]; intros Hl Hout; cbn [insert_name].
  - constructor; [intros [] | constructor].
  - destruct (String.leb a b); [now constructor|].
    inversion Hl as [|? ? Hb Hl']; subst. constructor.
    + rewrite in_insert_name. intros [->|Hin]; [apply Hout; now left | contradiction].
    + apply IHl; [exact Hl' | intros Hin; apply Hout; now right].
Qed.

Lemma listRetentionProjects_spec st p :
  In p (listRetentionProjects st) <->
  p <> EmptyString /\
  In p (map s_project (sdk_sessions st) ++ map o_project (observations st)
        ++ map ss_project (session_summaries st)
        ++ map a_project (project_memory_activity st)
        ++ map rp_project (project_retention_policies st)).
Proof.
  unfold listRetentionProjects. rewrite in_sort_names, in_uniq_first, filter_In.
  unfold nonempty.
  rewrite negb_true_iff, String.eqb_neq. tauto.
Qed.

(** What one turn of the loop does to the store. *)
Lemma retention_step_store dryRun nowEpoch defaultTtl report st q :
  snd (retention_step dryRun nowEpoch defaultTtl (report, st) q)
  = if pol_pinned (getProjectRetentionPolicy st q) then st
    else if negb (pol_enabled (getProjectRetentionPolicy st q)) then st
    else if negb (is_expired nowEpoch (getProjectLastAccessEpoch st q)
                    (effective_ttl (getProjectRetentionPolicy st q) defaultTtl)) then st
    else if dryRun then st else soft_delete_project st q nowEpoch.
Proof.
  unfold retention_step. destruct (pol_pinned _); [reflexivity|].
  destruct (negb (pol_enabled _)); [reflexivity|].
  destruct (negb (is_expired _ _ _)); reflexivity.
Qed.

Lemma soft_delete_other p q st st' nowEpoch :
  q <> p ->
  List.NoDup (map s_content_session_id (sdk_sessions st)) ->
  same_for p st st' -> same_for p st (soft_delete_project st' q nowEpoch).
Proof.
  intros Hne Hnd (Hs & Hpol & Ha & Ho & Hx & Hu). unfold same_for. simpl.
  split; [exact Hs|]. split; [exact Hpol|]. split; [exact Ha|].
  split; [|split].
  - rewrite <- Ho. apply filter_map_fixed.
    + intros o. destruct (_ && _); reflexivity.
    + intros o Ep. apply String.eqb_eq in Ep.
      assert (String.eqb (o_project o) q = false) as ->; [|reflexivity].
      apply String.eqb_neq. congruence.
  - rewrite <- Hx. apply filter_map_fixed.
    + intros x. destruct (_ && _); reflexivity.
    + intros x Ep. apply String.eqb_eq in Ep.
      assert (String.eqb (ss_project x) q = false) as ->; [|reflexivity].
      apply String.eqb_neq. congruence.
  - rewrite <- Hu. apply filter_map_fixed.
    + intros up. destruct (_ && _); reflexivity.
    + intros up Ep. rewrite (prompt_in_project_sessions st st' q up Hs).
      destruct (prompt_in_project st q up) eqn:Eq; [|now rewrite andb_false_r].
      exfalso. apply Hne. symmetry. exact (prompt_one_project st p q up Hnd Ep Eq).
Qed.

Lemma retention_step_other dryRun nowEpoch defaultTtl report p q st st' :
  q <> p ->
  List.NoDup (map s_content_session_id (sdk_sessions st)) ->
  same_for p st st' ->
  same_for p st (snd (retention_step dryRun nowEpoch defaultTtl (report, st') q)).
Proof.
  intros Hne Hnd Hsame. rewrite retention_step_store.
  destruct (pol_pinned _); [exact Hsame|].
  destruct (negb (pol_enabled _)); [exact Hsame|].
  destruct (negb (is_expired _ _ _)); [exact Hsame|].
  destruct dryRun; [exact Hsame | now apply soft_delete_other].
Qed.

(** Rows already soft-deleted pass through a turn unchanged. *)
Lemma retention_step_keeps_deleted dryRun nowEpoch defaultTtl report st q :
  (forall o, In o (observations st) -> o_deleted_at_epoch o <> None ->
     In o (observations (snd (retention_step dryRun nowEpoch defaultTtl (report, st) q)))) /\
  (forall x, In x (session_summaries st) -> ss_deleted_at_epoch x <> None ->
     In x (session_summaries (snd (retention_step dryRun nowEpoch defaultTtl (report, st) q)))) /\
  (forall up, In up (user_prompts st) -> up_deleted_at_epoch up <> None ->
     In up (user_prompts (snd (retention_step dryRun nowEpoch defaultTtl (report, st) q)))).
Proof.
  rewrite retention_step_store.
  destruct (pol_pinned _); [tauto|].
  destruct (negb (pol_enabled _)); [tauto|].
  destruct (negb (is_expired _ _ _)); [tauto|].
  destruct dryRun; [tauto|]. simpl. split; [|split].
  - intros o Hin Hd. apply in_map_iff. exists o. split; [|exact Hin].
    unfold live. simpl. destruct (o_deleted_at_epoch o); [|contradiction].
    now rewrite andb_false_r.
  - intros x Hin Hd. apply in_map_iff. exists x. split; [|exact Hin].
    unfold live. simpl. destruct (ss_deleted_at_epoch x); [|contradiction].
    now rewrite andb_false_r.
  - intros up Hin Hd. apply in_map_iff. exists up. split; [|exact Hin].
    unfold live. simpl. destruct (up_deleted_at_epoch up); [reflexivity | contradiction].
Qed.

Lemma fold_keeps_deleted dryRun nowEpoch defaultTtl l :
  forall acc,
  (forall o, In o (observations (snd acc)) -> o_deleted_at_epoch o <> None ->
     In o (observations (snd (fold_left (retention_step dryRun nowEpoch defaultTtl) l acc)))) /\
  (forall x, In x (session_summaries (snd acc)) -> ss_deleted_at_epoch x <> None ->
     In x (session_summaries
             (snd (fold_left (retention_step dryRun nowEpoch defaultTtl) l acc)))) /\
  (forall up, In up (user_prompts (snd acc)) -> up_deleted_at_epoch up <> None ->
     In up (user_prompts (snd (fold_left (retention_step dryRun nowEpoch defaultTtl) l acc)))).
Proof.
  induction l as [|q l IH]; intros [report st]; [simpl; tauto|].
  destruct (retention_step_keeps_deleted dryRun nowEpoch defaultTtl report st q)
    as (K1 & K2 & K3).
  destruct (IH (retention_step dryRun nowEpoch defaultTtl (report, st) q)) as (I1 & I2 & I3).
  cbn [fold_left snd] in *.
  split; [|split]; intros r Hin Hd; [apply I1 | apply I2 | apply I3]; auto.
Qed.

(** The turn of an expired, enabled, unpinned project stamps its live rows. *)
Lemma soft_delete_stamps p st st' nowEpoch :
  same_for p st st' ->
  (forall o, In o (observations st) -> o_project o = p -> o_deleted_at_epoch o = None ->
     In (stamp_observation nowEpoch o) (observations (soft_delete_project st' p nowEpoch))) /\
  (forall x, In x (session_summaries st) -> ss_project x = p -> ss_deleted_at_epoch x = None ->
     In (stamp_summary nowEpoch x) (session_summaries (soft_delete_project st' p nowEpoch))) /\
  (forall up, In up (user_prompts st) -> prompt_in_project st p up = true ->
     up_deleted_at_epoch up = None ->
     In (stamp_prompt nowEpoch up) (user_prompts (soft_delete_project st' p nowEpoch))).
Proof.
  intros Hsame. simpl. split; [|split].
  - intros o Hin Hp Hd. apply in_map_iff. exists o.
    split; [|now apply (same_for_in_observations p st st' o Hsame Hp)].
    unfold live. simpl. now rewrite Hp, String.eqb_refl, Hd.
  - intros x Hin Hp Hd. apply in_map_iff. exists x.
    split; [|now apply (same_for_in_summaries p st st' x Hsame Hp)].
    unfold live. simpl. now rewrite Hp, String.eqb_refl, Hd.
  - intros up Hin Hp Hd. apply in_map_iff. exists up.
    split; [|now apply (same_for_in_prompts p st st' up Hsame Hp)].
    destruct Hsame as (Hs & _).
    rewrite (prompt_in_project_sessions st st' p up Hs), Hp.
    unfold live. simpl. now rewrite Hd.
Qed.

Lemma fold_expired p st nowEpoch defaultTtl :
  List.NoDup (map s_content_session_id (sdk_sessions st)) ->
  pol_pinned (getProjectRetentionPolicy st p) = false ->
  pol_enabled (getProjectRetentionPolicy st p) = true ->
  is_expired nowEpoch (getProjectLastAccessEpoch st p)
    (effective_ttl (getProjectRetentionPolicy st p) defaultTtl) = true ->
  forall l acc,
    same_for p st (snd acc) -> In p l ->
    (forall o, In o (observations st) -> o_project o = p -> o_deleted_at_epoch o = None ->
       In (stamp_observation nowEpoch o)
         (observations (snd (fold_left (retention_step false nowEpoch defaultTtl) l acc)))) /\
    (forall x, In x (session_summaries st) -> ss_project x = p ->
       ss_deleted_at_epoch x = None ->
       In (stamp_summary nowEpoch x)
         (session_summaries (snd (fold_left (retention_step false nowEpoch defaultTtl) l acc)))) /\
    (forall up, In up (user_prompts st) -> prompt_in_project st p up = true ->
       up_deleted_at_epoch up = None ->
       In (stamp_prompt nowEpoch up)
         (user_prompts (snd (fold_left (retention_step false nowEpoch defaultTtl) l acc)))).
Proof.
  intros Hnd Hpin Hen Hexp. induction l as [|q l IH]; intros [report st'] Hsame Hin;
    [destruct Hin|]. cbn [snd] in Hsame. cbn [fold_left].
  destruct (string_dec q p) as [->|Hne].
  - pose proof (retention_step_store false nowEpoch defaultTtl report st' p) as Hstep.
    rewrite (same_for_policy p st st' Hsame), (same_for_last_access p st st' Hsame),
      Hpin, Hen, Hexp in Hstep. cbn [negb] in Hstep.
    destruct (soft_delete_stamps p st st' nowEpoch Hsame) as (S1 & S2 & S3).
    destruct (fold_keeps_deleted false nowEpoch defaultTtl l
                (retention_step false nowEpoch defaultTtl (report, st') p)) as (K1 & K2 & K3).
    rewrite Hstep in K1, K2, K3.
    split; [|split]; intros r Hr Hp Hd;
      [apply K1; [now apply S1 | discriminate]
      |apply K2; [now apply S2 | discriminate]
      |apply K3; [now apply S3 | discriminate]].
  - destruct Hin as [->|Hin]; [contradiction|].
    apply IH; [|exact Hin].
    now apply (retention_step_other false nowEpoch defaultTtl report p q st st' Hne Hnd).
Qed.

Lemma prompt_in_project_stamp st p nowEpoch up :
  prompt_in_project st p (stamp_prompt nowEpoch up) = prompt_in_project st p up.
Proof. reflexivity. Qed.

Lemma soft_delete_no_live p st st' nowEpoch :
  sdk_sessions st' = sdk_sessions st ->
  no_live_rows p st (soft_delete_project st' p nowEpoch).
Proof.
  intros Hs. unfold no_live_rows. simpl. split; [|split].
  - intros y Hy Hp. apply in_map_iff in Hy. destruct Hy as (o & <- & _).
    unfold live. simpl.
    destruct (String.eqb (o_project o) p) eqn:E; simpl.
    + destruct (o_deleted_at_epoch o) eqn:D; simpl; [rewrite D|]; discriminate.
    + apply String.eqb_neq in E. simpl in Hp. contradiction.
  - intros y Hy Hp. apply in_map_iff in Hy. destruct Hy as (x & <- & _).
    unfold live. simpl.
    destruct (String.eqb (ss_project x) p) eqn:E; simpl.
    + destruct (ss_deleted_at_epoch x) eqn:D; simpl; [rewrite D|]; discriminate.
    + apply String.eqb_neq in E. simpl in Hp. contradiction.
  - intros y Hy Hp. apply in_map_iff in Hy. destruct Hy as (up & <- & _).
    rewrite (prompt_in_project_sessions st st' p up Hs) in *.
    destruct (live up && prompt_in_project st p up) eqn:C; [discriminate|].
    rewrite Hp, andb_true_r in C. unfold live in C. simpl in C.
    destruct (up_deleted_at_epoch up); discriminate.
Qed.

Lemma soft_delete_keeps_no_live p q st st' nowEpoch :
  no_live_rows p st st' -> no_live_rows p st (soft_delete_project st' q nowEpoch).
Proof.
  intros (N1 & N2 & N3). unfold no_live_rows. simpl. split; [|split].
  - intros y Hy Hp. apply in_map_iff in Hy. destruct Hy as (o & <- & Ho).
    destruct (String.eqb (o_project o) q && live o); [discriminate|]. now apply N1.
  - intros y Hy Hp. apply in_map_iff in Hy. destruct Hy as (x & <- & Hx).
    destruct (String.eqb (ss_project x) q && live x); [discriminate|]. now apply N2.
  - intros y Hy Hp. apply in_map_iff in Hy. destruct Hy as (up & <- & Hup).
    destruct (live up && prompt_in_project st' q up); [discriminate|]. now apply N3.
Qed.

Lemma retention_step_keeps_no_live dryRun nowEpoch defaultTtl report p q st st' :
  no_live_rows p st st' ->
  no_live_rows p st (snd (retention_step dryRun nowEpoch defaultTtl (report, st') q)).
Proof.
  intros HN. rewrite retention_step_store.
  destruct (pol_pinned _); [exact HN|].
  destruct (negb (pol_enabled _)); [exact HN|].
  destruct (negb (is_expired _ _ _)); [exact HN|].
  destruct dryRun; [exact HN | now apply soft_delete_keeps_no_live].
Qed.

Lemma fold_keeps_no_live dryRun nowEpoch defaultTtl p st l :
  forall acc,
    no_live_rows p st (snd acc) ->
    no_live_rows p st (snd (fold_left (retention_step dryRun nowEpoch defaultTtl) l acc)).
Proof.
  induction l as [|q l IH]; intros [report st'] HN; [exact HN|].
  cbn [fold_left]. apply IH.
  destruct (retention_step dryRun nowEpoch defaultTtl (report, st') q) as [r' s'] eqn:E.
  pose proof (retention_step_keeps_no_live dryRun nowEpoch defaultTtl report p q st st' HN) as K.
  now rewrite E in K.
Qed.

Lemma fold_expired_no_live p st nowEpoch defaultTtl :
  List.NoDup (map s_content_session_id (sdk_sessions st)) ->
  pol_pinned (getProjectRetentionPolicy st p) = false ->
  pol_enabled (getProjectRetentionPolicy st p) = true ->
  is_expired nowEpoch (getProjectLastAccessEpoch st p)
    (effective_ttl (getProjectRetentionPolicy st p) defaultTtl) = true ->
  forall l acc,
    same_for p st (snd acc) -> In p l ->
    no_live_rows p st (snd (fold_left (retention_step false nowEpoch defaultTtl) l acc)).
Proof.
  intros Hnd Hpin Hen Hexp. induction l as [|q l IH]; intros [report st'] Hsame Hin;
    [destruct Hin|]. cbn [snd] in Hsame. cbn [fold_left].
  destruct (string_dec q p) as [->|Hne].
  - pose proof (retention_step_store false nowEpoch defaultTtl report st' p) as Hstep.
    rewrite (same_for_policy p st st' Hsame), (same_for_last_access p st st' Hsame),
      Hpin, Hen, Hexp in Hstep. cbn [negb] in Hstep.
    apply fold_keeps_no_live. rewrite Hstep. apply soft_delete_no_live. apply Hsame.
  - destruct Hin as [->|Hin]; [contradiction|].
    apply IH; [|exact Hin].
    now apply (retention_step_other false nowEpoch defaultTtl report p q st st' Hne Hnd).
Qed.

(** The turn of a pinned project records the skip and changes no row. *)
Lemma retention_step_pinned dryRun nowEpoch defaultTtl report p st st' :
  pol_pinned (getProjectRetentionPolicy st p) = true ->
  same_for p st st' ->
  snd (retention_step dryRun nowEpoch defaultTtl (report, st') p) = st' /\
  exists d,
    r_details (fst (retention_step dryRun nowEpoch defaultTtl (report, st') p))
    = r_details report ++ [d] /\
    dt_project d = p /\ dt_skippedReason d = Some skip_pinned /\
    dt_softDeleteCandidate d = false.
Proof.
  intros Hpin Hsame. unfold retention_step.
  rewrite (same_for_policy p st st' Hsame), Hpin. simpl.
  split; [reflexivity|]. eexists. split; [reflexivity|]. repeat split.
Qed.

Lemma retention_step_details dryRun nowEpoch defaultTtl report st q :
  exists d,
    r_details (fst (retention_step dryRun nowEpoch defaultTtl (report, st) q))
    = r_details report ++ [d].
Proof.
  unfold retention_step. destruct (pol_pinned _); [eexists; reflexivity|].
  destruct (negb (pol_enabled _)); [eexists; reflexivity|].
  destruct (negb (is_expired _ _ _)); eexists; reflexivity.
Qed.

Lemma fold_details_grow dryRun nowEpoch defaultTtl l :
  forall acc d,
    In d (r_details (fst acc)) ->
    In d (r_details (fst (fold_left (retention_step dryRun nowEpoch defaultTtl) l acc))).
Proof.
  induction l as [|q l IH]; intros [report st] d Hin; [exact Hin|].
  cbn [fold_left]. apply IH.
  destruct (retention_step_details dryRun nowEpoch defaultTtl report st q) as (d' & E).
  destruct (retention_step dryRun nowEpoch defaultTtl (report, st) q) as [r' s'].
  simpl in *. rewrite E. apply in_or_app. now left.
Qed.

Lemma fold_pinned dryRun nowEpoch defaultTtl p st :
  List.NoDup (map s_content_session_id (sdk_sessions st)) ->
  pol_pinned (getProjectRetentionPolicy st p) = true ->
  forall l acc,
    same_for p st (snd acc) ->
    same_for p st (snd (fold_left (retention_step dryRun nowEpoch defaultTtl) l acc)) /\
    (In p l ->
     exists d,
       In d (r_details (fst (fold_left (retention_step dryRun nowEpoch defaultTtl) l acc))) /\
       dt_project d = p /\ dt_skippedReason d = Some skip_pinned /\
       dt_softDeleteCandidate d = false).
Proof.
  intros Hnd Hpin. induction l as [|q l IH]; intros [report st'] Hsame.
  - split; [exact Hsame | intros []].
  - cbn [snd] in Hsame. cbn [fold_left].
    destruct (string_dec q p) as [->|Hne].
    + destruct (retention_step_pinned dryRun nowEpoch defaultTtl report p st st' Hpin Hsame)
        as (Hst & d & Hd & D1 & D2 & D3).
      destruct (IH (retention_step dryRun nowEpoch defaultTtl (report, st') p)) as [I1 _].
      { now rewrite Hst. }
      split; [exact I1|]. intros _. exists d. split; [|now repeat split].
      apply fold_details_grow. rewrite Hd. apply in_or_app. right. now left.
    + pose proof (retention_step_other dryRun nowEpoch defaultTtl report p q st st' Hne Hnd
                    Hsame) as Hsame'.
      destruct (IH (retention_step dryRun nowEpoch defaultTtl (report, st') q) Hsame')
        as [I1 I2].
      split; [exact I1|]. intros [->|Hin]; [contradiction | now apply I2].
Qed.

Lemma fold_other dryRun nowEpoch defaultTtl p st :
  List.NoDup (map s_content_session_id (sdk_sessions st)) ->
  forall l acc,
    ~ In p l -> same_for p st (snd acc) ->
    same_for p st (snd (fold_left (retention_step dryRun nowEpoch defaultTtl) l acc)).
Proof.
  intros Hnd. induction l as [|q l IH]; intros [report st'] Hnot Hsame; [exact Hsame|].
  cbn [fold_left]. apply IH; [intros Hin; apply Hnot; now right|].
  apply retention_step_other; [|exact Hnd | exact Hsame].
  intros ->. apply Hnot. now left.
Qed.

Lemma filter_comm {A} (f g : A -> bool) l :
  List.filter f (List.filter g l) = List.filter g (List.filter f l).
Proof.
  induction l as [|a l IH]; simpl; [reflexivity|].
  destruct (g a) eqn:G, (f a) eqn:F; simpl; rewrite ?G, ?F, IH; reflexivity.
Qed.

Lemma pinned_has_policy st p :
  pol_pinned (getProjectRetentionPolicy st p) = true ->
  In p (map rp_project (project_retention_policies st)).
Proof.
  unfold getProjectRetentionPolicy.
  destruct (List.find _ _) as [row|] eqn:E; [|discriminate]. intros _.
  apply find_some in E. destruct E as [Hin Ep]. apply String.eqb_eq in Ep.
  rewrite <- Ep. now apply in_map.
Qed.

Lemma prompt_project_listed st p up :
  prompt_in_project st p up = true -> In p (map s_project (sdk_sessions st)).
Proof.
  unfold prompt_in_project. intros Hex. apply existsb_exists in Hex.
  destruct Hex as (s & Hs & E). apply andb_true_iff in E. destruct E as [_ Ep].
  apply String.eqb_eq in Ep. rewrite <- Ep. now apply in_map.
Qed.

Lemma DAY_MS_pos : 0 < DAY_MS.
Proof. reflexivity. Qed.

(** C5, amended.  An execute call of [runRetentionCleanup], external
    session ids unique, [p] a project name.  When the policy of [p] is
    enabled and not
    pinned and [p] has been inactive for at least its TTL (or was never
    accessed), every observation and summary of [p] and every prompt of a
    session of [p] that was not deleted is in the store afterwards with
    [deleted_at_epoch] set to the call's [nowEpoch] and nothing else changed,
    and no row of [p] is left live.  When the policy of [p] is pinned, the
    report holds a detail for [p] with reason pinned, and the rows of [p] are
    afterwards exactly its rows of before, deletion marks included, less
    those the global hard-delete pass removes because they were already
    soft-deleted before the grace window. *)
Theorem runRetentionCleanup_expired_and_pinned (st : Store)
    (options : RetentionCleanupOptions) (now : Z) (p : string) :
  p <> EmptyString ->
  co_dryRun options = false ->
  List.NoDup (map s_content_session_id (sdk_sessions st)) ->
  let nowEpoch := default now (co_nowEpoch options) in
  let policy := getProjectRetentionPolicy st p in
  let ttlDays := effective_ttl policy (Z.max 1 (co_defaultTtlDays options)) in
  let cutoff := nowEpoch - Z.max 1 (co_softDeleteDays options) * DAY_MS in
  let report := fst (runRetentionCleanup st options now) in
  let st' := snd (runRetentionCleanup st options now) in
  (pol_pinned policy = false -> pol_enabled policy = true ->
   (forall e, getProjectLastAccessEpoch st p = Some e -> ttlDays * DAY_MS <= nowEpoch - e) ->
   (forall o, In o (observations st) -> o_project o = p -> o_deleted_at_epoch o = None ->
      In (stamp_observation nowEpoch o) (observations st')) /\
   (forall x, In x (session_summaries st) -> ss_project x = p ->
      ss_deleted_at_epoch x = None ->
      In (stamp_summary nowEpoch x) (session_summaries st')) /\
   (forall up, In up (user_prompts st) -> prompt_in_project st p up = true ->
      up_deleted_at_epoch up = None ->
      In (stamp_prompt nowEpoch up) (user_prompts st')) /\
   no_live_rows p st st') /\
  (pol_pinned policy = true ->
   (exists d, In d (r_details report) /\ dt_project d = p /\
              dt_skippedReason d = Some skip_pinned /\ dt_softDeleteCandidate d = false) /\
   List.filter (fun o => String.eqb (o_project o) p) (observations st')
   = List.filter (fun o => negb (past_grace cutoff o))
       (List.filter (fun o => String.eqb (o_project o) p) (observations st)) /\
   List.filter (fun x => String.eqb (ss_project x) p) (session_summaries st')
   = List.filter (fun x => negb (past_grace cutoff x))
       (List.filter (fun x => String.eqb (ss_project x) p) (session_summaries st)) /\
   List.filter (prompt_in_project st p) (user_prompts st')
   = List.filter (fun up => negb (past_grace cutoff up))
       (List.filter (prompt_in_project st p) (user_prompts st))).
Proof.
  intros Hp Hexec Hnd nowEpoch policy ttlDays cutoff report st'.
  subst report st'. unfold runRetentionCleanup. rewrite Hexec.
  fold nowEpoch. fold cutoff.
  set (step := retention_step false nowEpoch (Z.max 1 (co_defaultTtlDays options))).
  set (acc0 := (mkReport false nowEpoch (Z.max 1 (co_defaultTtlDays options))
                  (Z.max 1 (co_softDeleteDays options))
                  (Z.of_nat (List.length (listRetentionProjects st)))
                  0 0 0 0 0 0 0 0 0 [], st)).
  assert (Hsame0 : same_for p st (snd acc0)) by apply same_for_refl.
  assert (Hgrace : forall t, (t <=? cutoff) = false \/ t <> nowEpoch).
  { intros t. destruct (Z.eq_dec t nowEpoch) as [->|Hne]; [left | now right].
    apply Z.leb_gt. unfold cutoff. pose proof DAY_MS_pos. nia. }
  split.
  - intros Hpin Hen Hstale.
    assert (Hexp : is_expired nowEpoch (getProjectLastAccessEpoch st p) ttlDays = true).
    { unfold is_expired. destruct (getProjectLastAccessEpoch st p) as [e|]; [|reflexivity].
      apply Z.leb_le. now apply Hstale. }
    pose proof (fold_expired p st nowEpoch (Z.max 1 (co_defaultTtlDays options))
                  Hnd Hpin Hen Hexp (listRetentionProjects st) acc0 Hsame0) as Hfold.
    pose proof (fold_expired_no_live p st nowEpoch (Z.max 1 (co_defaultTtlDays options))
                  Hnd Hpin Hen Hexp (listRetentionProjects st) acc0 Hsame0) as Hnl.
    pose proof (fold_other false nowEpoch (Z.max 1 (co_defaultTtlDays options)) p st Hnd
                  (listRetentionProjects st) acc0) as Hoth.
    fold step in Hfold, Hnl, Hoth.
    destruct (fold_left step (listRetentionProjects st) acc0) as [report1 st1].
    cbn [fst snd] in *. cbn [observations session_summaries user_prompts
      with_observations with_summaries with_prompts].
    split; [|split; [|split]].
    + intros o Ho Hop Hd.
      assert (Hin : In p (listRetentionProjects st)).
      { apply listRetentionProjects_spec. split; [exact Hp|].
        apply in_or_app. right. apply in_or_app. left. rewrite <- Hop. now apply in_map. }
      destruct (Hfold Hin) as (F1 & _). apply filter_In. split; [now apply F1|].
      unfold past_grace. simpl. destruct (Hgrace nowEpoch) as [->|]; [reflexivity|congruence].
    + intros x Hx Hxp Hd.
      assert (Hin : In p (listRetentionProjects st)).
      { apply listRetentionProjects_spec. split; [exact Hp|].
        apply in_or_app. right. apply in_or_app. right. apply in_or_app. left.
        rewrite <- Hxp. now apply in_map. }
      destruct (Hfold Hin) as (_ & F2 & _). apply filter_In. split; [now apply F2|].
      unfold past_grace. simpl. destruct (Hgrace nowEpoch) as [->|]; [reflexivity|congruence].
    + intros up Hup Hupp Hd.
      assert (Hin : In p (listRetentionProjects st)).
      { apply listRetentionProjects_spec. split; [exact Hp|].
        apply in_or_app. left. now apply (prompt_project_listed st p up). }
      destruct (Hfold Hin) as (_ & _ & F3). apply filter_In. split; [now apply F3|].
      unfold past_grace. simpl. destruct (Hgrace nowEpoch) as [->|]; [reflexivity|congruence].
    + assert (HN1 : no_live_rows p st st1).
      { destruct (in_dec string_dec p (listRetentionProjects st)) as [Hin|Hnot];
          [now apply Hnl|].
        specialize (Hoth Hnot Hsame0).
        assert (Hnone : ~ In p (map s_project (sdk_sessions st)
                                ++ map o_project (observations st)
                                ++ map ss_project (session_summaries st)
                                ++ map a_project (project_memory_activity st)
                                ++ map rp_project (project_retention_policies st))).
        { intros Hf. apply Hnot, listRetentionProjects_spec. now split. }
        split; [|split].
        - intros o Ho Hop _. apply Hnone.
          apply (same_for_in_observations p st st1 o Hoth Hop) in Ho.
          apply in_or_app. right. apply in_or_app. left. rewrite <- Hop. now apply in_map.
        - intros x Hx Hxp _. apply Hnone.
          apply (same_for_in_summaries p st st1 x Hoth Hxp) in Hx.
          apply in_or_app. right. apply in_or_app. right. apply in_or_app. left.
          rewrite <- Hxp. now apply in_map.
        - intros up _ Hupp _. apply Hnone. apply in_or_app. left.
          now apply (prompt_project_listed st p up). }
      destruct HN1 as (N1 & N2 & N3). split; [|split].
      * intros o Ho. apply filter_In in Ho. now apply N1.
      * intros x Hx. apply filter_In in Hx. now apply N2.
      * intros up Hup. apply filter_In in Hup. now apply N3.
  - intros Hpin.
    assert (Hin : In p (listRetentionProjects st)).
    { apply listRetentionProjects_spec. split; [exact Hp|].
      do 4 (apply in_or_app; right). now apply pinned_has_policy. }
    destruct (fold_pinned false nowEpoch (Z.max 1 (co_defaultTtlDays options)) p st Hnd Hpin
                (listRetentionProjects st) acc0 Hsame0) as [Hsame Hdetail].
    fold step in Hsame, Hdetail.
    destruct (fold_left step (listRetentionProjects st) acc0) as [report1 st1].
    cbn [fst snd] in *. cbn [observations session_summaries user_prompts r_details
      with_observations with_summaries with_prompts].
    destruct Hsame as (_ & _ & _ & Ho & Hx & Hu).
    split; [now apply Hdetail|].
    split; [|split]; rewrite filter_comm; [now rewrite Ho | now rewrite Hx | now rewrite Hu].
Qed.

Lemma runRetentionCleanup_expired_and_pinned_witness :
  "old"%string <> EmptyString /\
  co_dryRun execute_cleanup = false /\
  List.NoDup (map s_content_session_id (sdk_sessions retention_store)) /\
  In (stamp_observation (31 * DAY_MS) old_observation)
    (observations (snd (runRetentionCleanup retention_store execute_cleanup 0))) /\
  List.filter (fun o => String.eqb (o_project o) "keep")
    (observations (snd (runRetentionCleanup retention_store execute_cleanup 0)))
  = [kept_observation].
Proof.
  assert (H1 : "old"%string <> EmptyString) by discriminate.
  assert (H1' : "keep"%string <> EmptyString) by discriminate.
  assert (H2 : co_dryRun execute_cleanup = false) by reflexivity.
  assert (H3 : List.NoDup (map s_content_session_id (sdk_sessions retention_store))).
  { simpl. repeat constructor; simpl; [|intros []]. intros [E|[]]. discriminate E. }
  split; [exact H1|]. split; [exact H2|]. split; [exact H3|].
  pose proof (runRetentionCleanup_expired_and_pinned retention_store execute_cleanup 0
                "old" H1 H2 H3) as Hold.
  pose proof (runRetentionCleanup_expired_and_pinned retention_store execute_cleanup 0
                "keep" H1' H2 H3) as Hkeep.
  cbv zeta in Hold, Hkeep. destruct Hold as [Hold _]. destruct Hkeep as [_ Hkeep].
  split.
  - destruct Hold as (Hobs & _); [reflexivity | reflexivity | |].
    + intros e He. vm_compute in He. inversion He; subst. vm_compute. discriminate.
    + apply (Hobs old_observation); [now left | reflexivity | reflexivity].
  - destruct (Hkeep eq_refl) as (_ & Hobs & _). rewrite Hobs. reflexivity.
Defined.

(** A pinned project is not left untouched: the hard-delete pass removes the
    row of [keep] that was soft-deleted before the grace window, pinned or
    not. *)
Lemma runRetentionCleanup_pinned_row_removed_counterexample :
  pol_pinned (getProjectRetentionPolicy pinned_after_delete "keep") = true /\
  In forgotten_observation (observations pinned_after_delete) /\
  o_project forgotten_observation = "keep"%string /\
  map o_id (observations (snd (runRetentionCleanup pinned_after_delete execute_cleanup 0)))
  = [1; 2] /\
  r_hardDeletedObservations (fst (runRetentionCleanup pinned_after_delete execute_cleanup 0))
  = 1.
Proof.
  split; [reflexivity|]. split; [right; right; now left|]. split; [reflexivity|].
  split; vm_compute; reflexivity.
Qed.

(** * Further properties

    Properties of the code beyond the ones above, read off the source. *)

(** ** The queue *)

Lemma queue_ok_map (g : PendingMessage -> PendingMessage) st :
  (forall m, In m (pending_messages st) -> pm_id (g m) = pm_id m) ->
  (forall m, In m (pending_messages st) -> 0 <= pm_retry_count (g m) <= MAX_RETRY) ->
  queue_ok st ->
  queue_ok (with_pending st (map g (pending_messages st)) (seq_pending st)).
Proof.
  intros Hid Hretry (Hnd & Hseq & Hcap). unfold queue_ok.
  cbn [pending_messages seq_pending with_pending].
  assert (Hids : map pm_id (map g (pending_messages st)) = map pm_id (pending_messages st)).
  { rewrite map_map. apply map_ext_in. exact Hid. }
  split; [|split].
  - now rewrite Hids.
  - intros r Hr. apply in_map_iff in Hr as (m & <- & Hm). rewrite Hid by exact Hm.
    now apply Hseq.
  - intros r Hr. apply in_map_iff in Hr as (m & <- & Hm). now apply Hretry.
Qed.

Lemma queue_ok_update_by_id i f st :
  (forall m, In m (pending_messages st) -> pm_id m = i ->
             pm_id (f m) = pm_id m /\ 0 <= pm_retry_count (f m) <= MAX_RETRY) ->
  queue_ok st ->
  queue_ok (with_pending st (update_by_id i f (pending_messages st)) (seq_pending st)).
Proof.
  intros Hf Hok. unfold update_by_id. apply queue_ok_map; [| |exact Hok].
  - intros m Hm. destruct (pm_id m =? i) eqn:E; [|reflexivity].
    apply Z.eqb_eq in E. now apply Hf.
  - intros m Hm. destruct (pm_id m =? i) eqn:E.
    + apply Z.eqb_eq in E. now apply Hf.
    + destruct Hok as (_ & _ & Hcap). now apply Hcap.
Qed.

Lemma queue_ok_claim st sid now : queue_ok st -> queue_ok (snd (claimNextPending st sid now)).
Proof.
  intros Hok. unfold claimNextPending.
  destruct (order_by_id_asc_limit_1 _) as [m|]; [|exact Hok].
  cbn [snd]. apply queue_ok_update_by_id; [|exact Hok].
  intros r Hr _. split; [reflexivity|]. destruct Hok as (_ & _ & Hcap). exact (Hcap r Hr).
Qed.

Lemma NoDup_map_filter_any {A B} (f : A -> B) (g : A -> bool) l :
  List.NoDup (map f l) -> List.NoDup (map f (List.filter g l)).
Proof.
  induction l as [|a l IH]; simpl; intros Hnd; [constructor|].
  inversion Hnd as [|? ? Hna Hl]; subst.
  destruct (g a); [|now apply IH].
  simpl. constructor; [|now apply IH].
  intros Hin. apply Hna. apply in_map_iff in Hin as (x & Hx & Hin).
  apply filter_In in Hin as [Hin _]. apply in_map_iff. now exists x.
Qed.

Lemma queue_ok_confirm st i : queue_ok st -> queue_ok (confirmProcessed st i).
Proof.
  intros (Hnd & Hseq & Hcap). unfold queue_ok, confirmProcessed.
  cbn [pending_messages seq_pending with_pending]. split; [|split].
  - now apply NoDup_map_filter_any.
  - intros r Hr. apply filter_In in Hr as [Hr _]. now apply Hseq.
  - intros r Hr. apply filter_In in Hr as [Hr _]. now apply Hcap.
Qed.

Lemma queue_ok_markFailed st i now : queue_ok st -> queue_ok (markFailed st i now).
Proof.
  intros Hok. pose proof Hok as (Hnd & Hseq & Hcap). unfold markFailed.
  destruct (List.find _ _) as [row|] eqn:Hfind; [|exact Hok].
  assert (Hsame : forall m, In m (pending_messages st) -> pm_id m = i -> m = row).
  { intros m Hm Hi. pose proof (find_by_id_unique _ m Hnd Hm) as Hu.
    rewrite Hi in Hu. congruence. }
  destruct (pm_retry_count row <? MAX_RETRY) eqn:Hlt.
  - apply queue_ok_update_by_id; [|exact Hok].
    intros m Hm Hi. rewrite (Hsame m Hm Hi). split; [reflexivity|]. simpl.
    apply Z.ltb_lt in Hlt. apply find_by_id_in in Hfind as [Hrow _].
    specialize (Hcap row Hrow). lia.
  - apply queue_ok_update_by_id; [|exact Hok].
    intros m Hm Hi. split; [reflexivity|]. exact (Hcap m Hm).
Qed.

Lemma queue_ok_resetStaleProcessing st t now :
  queue_ok st -> queue_ok (snd (resetStaleProcessing st t now)).
Proof.
  intros Hok. unfold resetStaleProcessing. cbn [snd]. apply queue_ok_map; [| |exact Hok].
  - intros m _. now destruct (is_stale _ m).
  - intros m Hm. destruct Hok as (_ & _ & Hcap).
    destruct (is_stale _ m); exact (Hcap m Hm).
Qed.

Lemma queue_ok_retryFailed st sid : queue_ok st -> queue_ok (snd (retryFailed st sid)).
Proof.
  intros Hok. unfold retryFailed. cbn [snd]. apply queue_ok_map; [| |exact Hok].
  - intros m _. now destruct (is_failed_of _ m).
  - intros m Hm. destruct Hok as (_ & _ & Hcap).
    destruct (is_failed_of _ m); [simpl; unfold MAX_RETRY; lia | now apply Hcap].
Qed.

Lemma queue_ok_snoc st row :
  queue_ok st ->
  pm_id row = next_rowid (seq_pending st) (map pm_id (pending_messages st)) ->
  pm_retry_count row = 0 ->
  queue_ok (with_pending st (pending_messages st ++ [row]) (pm_id row)).
Proof.
  intros (Hnd & Hseq & Hcap) Hid Hretry. unfold queue_ok.
  cbn [pending_messages seq_pending with_pending]. split; [|split].
  - rewrite map_app. simpl. apply NoDup_snoc; [exact Hnd|].
    rewrite Hid. apply next_rowid_fresh.
  - intros r Hr. apply in_app_or in Hr as [Hr|[<-|[]]]; [|lia].
    rewrite Hid. apply Z.lt_le_incl, next_rowid_bound. now apply in_map.
  - intros r Hr. apply in_app_or in Hr as [Hr|[<-|[]]]; [now apply Hcap|].
    rewrite Hretry. unfold MAX_RETRY. lia.
Qed.

Lemma queue_ok_enqueue_message st sid kind key row now :
  (forall i k, pm_id (row i k) = i /\ pm_retry_count (row i k) = 0) ->
  queue_ok st -> queue_ok (snd (enqueue_message st sid kind key row now)).
Proof.
  intros Hrow Hok. unfold enqueue_message.
  set (new_id := next_rowid (seq_pending st) (map pm_id (pending_messages st))).
  destruct (truthy_key key) as [k|].
  - destruct (ledger_has st sid kind k); [exact Hok|].
    destruct (negb (session_exists st sid)); [exact Hok|].
    destruct (existsb _ _); [exact Hok|]. cbn [snd].
    destruct (Hrow new_id (Some k)) as [Hi Hr].
    pose proof (queue_ok_snoc (with_dedupe st (processed_message_dedupe st ++
                  [mkDedupeRow sid kind k now])) (row new_id (Some k))) as H.
    rewrite Hi in H. apply H; [exact Hok | reflexivity | exact Hr].
  - destruct (session_exists st sid); [|exact Hok]. cbn [snd].
    destruct (Hrow new_id None) as [Hi Hr].
    pose proof (queue_ok_snoc st (row new_id None)) as H.
    rewrite Hi in H. apply H; [exact Hok | reflexivity | exact Hr].
Qed.

(** X1: Every operation of the store on the queue keeps the queue well
    formed: row ids stay unique and at most the sequence counter, retry
    counts stay between 0 and [MAX_RETRY]. *)
Theorem queue_operations_keep_queue_ok (st : Store) :
  queue_ok st ->
  (forall sid now, queue_ok (snd (claimNextPending st sid now))) /\
  (forall i, queue_ok (confirmProcessed st i)) /\
  (forall i now, queue_ok (markFailed st i now)) /\
  (forall thresholdMs now, queue_ok (snd (resetStaleProcessing st thresholdMs now))) /\
  (forall sid, queue_ok (snd (retryFailed st sid))) /\
  (forall sid c payload now, queue_ok (snd (enqueueObservation st sid c payload now))) /\
  (forall sid c payload now, queue_ok (snd (enqueueSummarize st sid c payload now))).
Proof.
  intros Hok.
  split; [intros; now apply queue_ok_claim|].
  split; [intros; now apply queue_ok_confirm|].
  split; [intros; now apply queue_ok_markFailed|].
  split; [intros; now apply queue_ok_resetStaleProcessing|].
  split; [intros; now apply queue_ok_retryFailed|].
  split; intros; (apply queue_ok_enqueue_message; [intros; split; reflexivity | exact Hok]).
Qed.

Lemma claim_split st sid now m :
  List.NoDup (map pm_id (pending_messages st)) ->
  fst (claimNextPending st sid now) = Some m ->
  exists l1 l2,
    pending_messages st = l1 ++ m :: l2 /\
    pending_messages (snd (claimNextPending st sid now)) = l1 ++ set_claimed now m :: l2 /\
    ~ In (pm_id m) (map pm_id (l1 ++ l2)).
Proof.
  intros Hnd Hm. destruct (claim_in st sid now m Hm) as (Hin & _).
  unfold claimNextPending in *.
  destruct (order_by_id_asc_limit_1 _) as [b|]; [|discriminate].
  cbn [fst snd] in *. inversion Hm; subst b. cbn [pending_messages with_pending].
  destruct (update_by_id_split (pm_id m) (set_claimed now) _ m Hnd Hin eq_refl)
    as (l1 & l2 & E1 & E2).
  exists l1, l2. split; [exact E1|]. split; [exact E2|].
  rewrite E1, map_app in Hnd. simpl in Hnd. apply NoDup_remove_2 in Hnd.
  now rewrite map_app.
Qed.

Lemma filter_drop_middle (i : Z) l1 x l2 :
  pm_id x = i -> ~ In i (map pm_id (l1 ++ l2)) ->
  List.filter (fun m => negb (pm_id m =? i)) (l1 ++ x :: l2) = l1 ++ l2.
Proof.
  intros Hx Hni. rewrite List.filter_app. simpl. rewrite Hx, Z.eqb_refl. simpl.
  rewrite <- List.filter_app. apply filter_all.
  intros y Hy. apply negb_true_iff, Z.eqb_neq. intros E. apply Hni.
  rewrite <- E. now apply in_map.
Qed.

Lemma find_absent_id (i : Z) l :
  ~ In i (map pm_id l) -> List.find (fun m => pm_id m =? i) l = None.
Proof.
  intros Hni. destruct (List.find _ l) as [r|] eqn:E; [|reflexivity].
  apply find_by_id_in in E as [Hr Hi]. exfalso. apply Hni. rewrite <- Hi. now apply in_map.
Qed.

Lemma find_skip_middle (i j : Z) l1 x l2 :
  pm_id x = i -> j <> i ->
  List.find (fun m => pm_id m =? j) (l1 ++ x :: l2) = List.find (fun m => pm_id m =? j) (l1 ++ l2).
Proof.
  intros Hx Hne. induction l1 as [|a l1 IH]; simpl.
  - rewrite Hx. destruct (i =? j) eqn:E; [apply Z.eqb_eq in E; congruence | reflexivity].
  - destruct (pm_id a =? j); [reflexivity | exact IH].
Qed.

Lemma open_count_app (sid : Z) l1 l2 :
  let p := fun m => (pm_session_db_id m =? sid) &&
                    (QueueStatus_eqb (pm_status m) pending
                     || QueueStatus_eqb (pm_status m) processing) in
  Z.of_nat (List.length (List.filter p (l1 ++ l2)))
  = Z.of_nat (List.length (List.filter p l1)) + Z.of_nat (List.length (List.filter p l2)).
Proof.
  intros p. rewrite List.filter_app, length_app. lia.
Qed.

(** X2: Claiming an item and confirming it removes exactly that row: the id
    no longer resolves, every other row reads as before, the session's open
    count drops by one and the other sessions' counts stay. *)
Theorem confirmProcessed_after_claim (st st1 : Store) (sid now : Z) (m : PendingMessage) :
  List.NoDup (map pm_id (pending_messages st)) ->
  claimNextPending st sid now = (Some m, st1) ->
  let st2 := confirmProcessed st1 (pm_id m) in
  getMessage st2 (pm_id m) = None /\
  (forall j, j <> pm_id m -> getMessage st2 j = getMessage st j) /\
  getPendingCount st2 sid = getPendingCount st sid - 1 /\
  (forall sid', sid' <> sid -> getPendingCount st2 sid' = getPendingCount st sid').
Proof.
  intros Hnd Hclaim st2.
  assert (Hm : fst (claimNextPending st sid now) = Some m) by now rewrite Hclaim.
  destruct (claim_in st sid now m Hm) as (_ & Hsid & Hst & _).
  destruct (claim_split st sid now m Hnd Hm) as (l1 & l2 & E1 & E2 & Hni).
  rewrite Hclaim in E2. cbn [snd] in E2.
  assert (Eq2 : pending_messages st2 = l1 ++ l2).
  { unfold st2, confirmProcessed. cbn [pending_messages with_pending]. rewrite E2.
    apply filter_drop_middle; [reflexivity | exact Hni]. }
  unfold getMessage, getPendingCount. rewrite Eq2, E1.
  split; [now apply find_absent_id|].
  split; [intros j Hj; symmetry; now apply (find_skip_middle (pm_id m))|].
  split.
  - rewrite !open_count_app. simpl.
    rewrite Hsid, Z.eqb_refl, Hst. simpl. lia.
  - intros sid' Hne. rewrite !open_count_app. simpl.
    rewrite Hsid. destruct (sid =? sid') eqn:E; [apply Z.eqb_eq in E; congruence|].
    simpl. lia.
Qed.


Lemma find_map_id (g : PendingMessage -> PendingMessage) (i : Z) rows :
  (forall m, pm_id (g m) = pm_id m) ->
  List.find (fun m => pm_id m =? i) (map g rows)
  = option_map g (List.find (fun m => pm_id m =? i) rows).
Proof.
  intros Hg. apply find_map_same. intros x. now rewrite Hg.
Qed.

Lemma reset_counts cutoff rows :
  let g := fun m => if is_stale cutoff m
                    then pm_update pending (pm_retry_count m) None (pm_failed_at_epoch m) m
                    else m in
  let n := Z.of_nat (List.length (List.filter (is_stale cutoff) rows)) in
  count_status pending (map g rows) = count_status pending rows + n /\
  count_status processing (map g rows) = count_status processing rows - n /\
  count_status failed (map g rows) = count_status failed rows.
Proof.
  intros g n. subst n. unfold count_status.
  induction rows as [|a rows IH]; [simpl; lia|].
  cbn [map List.filter]. destruct IH as (I1 & I2 & I3).
  assert (Hg : g a = if is_stale cutoff a then pm_update pending (pm_retry_count a) None (pm_failed_at_epoch a) a else a) by reflexivity.
  destruct (is_stale cutoff a) eqn:Hst.
  - rewrite Hg. cbn [pm_status pm_update QueueStatus_eqb].
    unfold is_stale in Hst. apply andb_true_iff in Hst as [Hp _].
    apply QueueStatus_eqb_eq in Hp. rewrite Hp. cbn [QueueStatus_eqb List.length]. lia.
  - rewrite Hg. destruct (pm_status a); cbn [QueueStatus_eqb List.length]; lia.
Qed.

Lemma resetStaleProcessing_row st thresholdMs now i r :
  getMessage st i = Some r ->
  getMessage (snd (resetStaleProcessing st thresholdMs now)) i
  = Some (if is_stale (now - thresholdMs) r
          then pm_update pending (pm_retry_count r) None (pm_failed_at_epoch r) r
          else r).
Proof.
  intros Hr. unfold getMessage, resetStaleProcessing in *.
  cbn [snd pending_messages with_pending].
  rewrite find_map_id, Hr; [reflexivity|].
  intros m. now destruct (is_stale (now - thresholdMs) m).
Qed.

(** X3: [resetStaleProcessing] releases exactly the stale claims: afterwards
    no row is processing with a start time before the cutoff, a stale row is
    pending again with its retry count untouched, every other row reads as
    before, the returned number moves from the processing to the pending
    count, and a second call with the same arguments changes nothing. *)
Theorem resetStaleProcessing_releases_exactly_stale (st : Store) (thresholdMs now : Z) :
  let cutoff := now - thresholdMs in
  let n := fst (resetStaleProcessing st thresholdMs now) in
  let st' := snd (resetStaleProcessing st thresholdMs now) in
  (forall r, In r (pending_messages st') -> is_stale cutoff r = false) /\
  (forall i r, getMessage st i = Some r ->
     getMessage st' i
     = Some (if is_stale cutoff r
             then pm_update pending (pm_retry_count r) None (pm_failed_at_epoch r) r
             else r)) /\
  qc_pending (getQueueCounts st') = qc_pending (getQueueCounts st) + n /\
  qc_processing (getQueueCounts st') = qc_processing (getQueueCounts st) - n /\
  qc_failed (getQueueCounts st') = qc_failed (getQueueCounts st) /\
  resetStaleProcessing st' thresholdMs now = (0, st').
Proof.
  intros cutoff n st'. subst n st'. unfold resetStaleProcessing. fold cutoff.
  cbn [fst snd pending_messages with_pending getQueueCounts qc_pending qc_processing qc_failed].
  set (g := fun m => if is_stale cutoff m
                     then pm_update pending (pm_retry_count m) None (pm_failed_at_epoch m) m
                     else m).
  assert (Hfresh : forall m, is_stale cutoff (g m) = false).
  { intros m. unfold g. destruct (is_stale cutoff m) eqn:E; [reflexivity | exact E]. }
  split; [|split].
  - intros r Hr. apply in_map_iff in Hr as (m & <- & _). apply Hfresh.
  - intros i r Hr. apply (resetStaleProcessing_row st thresholdMs now i r Hr).
  - destruct (reset_counts cutoff (pending_messages st)) as (C1 & C2 & C3).
    fold g in C1, C2, C3.
    split; [exact C1|]. split; [exact C2|]. split; [exact C3|].
    assert (Hnone : List.filter (is_stale cutoff) (map g (pending_messages st)) = []).
    { apply filter_none. intros x Hx. apply in_map_iff in Hx as (m & <- & _). apply Hfresh. }
    rewrite Hnone. cbn [List.length Z.of_nat]. f_equal.
    unfold with_pending. cbn. f_equal.
    rewrite map_map. apply map_ext. intros m. fold (g (g m)).
    unfold g at 1. now rewrite Hfresh.
Qed.

(** X4: A claim that went stale can be consumed again.  Once the claim of
    [m] at [t0] is older than the threshold, the reset counts at least one
    row, [m] is pending again with its retry count, and the next claim of
    the session succeeds with an item no younger than [m]; a claim that is
    not older than the threshold is left as it is. *)
Theorem resetStaleProcessing_after_claim (st st1 : Store) (sid t0 thresholdMs now : Z)
    (m : PendingMessage) :
  List.NoDup (map pm_id (pending_messages st)) ->
  claimNextPending st sid t0 = (Some m, st1) ->
  let n := fst (resetStaleProcessing st1 thresholdMs now) in
  let st2 := snd (resetStaleProcessing st1 thresholdMs now) in
  (t0 < now - thresholdMs ->
   1 <= n /\
   getMessage st2 (pm_id m)
   = Some (pm_update pending (pm_retry_count m) None (pm_failed_at_epoch m) m) /\
   forall now', exists m', fst (claimNextPending st2 sid now') = Some m' /\
                           pm_id m' <= pm_id m) /\
  (now - thresholdMs <= t0 -> getMessage st2 (pm_id m) = Some (set_claimed t0 m)).
Proof.
  intros Hnd Hclaim n st2.
  assert (Hm : fst (claimNextPending st sid t0) = Some m) by now rewrite Hclaim.
  destruct (claim_in st sid t0 m Hm) as (_ & Hsid & Hst & _).
  destruct (claim_split st sid t0 m Hnd Hm) as (l1 & l2 & E1 & E2 & Hni).
  rewrite Hclaim in E2. cbn [snd] in E2.
  assert (Hget1 : getMessage st1 (pm_id m) = Some (set_claimed t0 m)).
  { unfold getMessage. rewrite E2.
    assert (Hnd1 : List.NoDup (map pm_id (l1 ++ set_claimed t0 m :: l2))).
    { rewrite map_app. simpl. rewrite E1, map_app in Hnd. exact Hnd. }
    apply (find_by_id_unique _ (set_claimed t0 m) Hnd1). apply in_elt. }
  pose proof (resetStaleProcessing_row st1 thresholdMs now) as Hrow.
  split.
  - intros Hold.
    assert (Hstale : is_stale (now - thresholdMs) (set_claimed t0 m) = true).
    { unfold is_stale. simpl. now apply Z.ltb_lt. }
    specialize (Hrow _ _ Hget1). fold st2 in Hrow. rewrite Hstale in Hrow.
    split; [|split].
    + unfold n, resetStaleProcessing. cbn [fst]. rewrite E2.
      rewrite List.filter_app. simpl. rewrite Hstale. rewrite length_app. simpl. lia.
    + exact Hrow.
    + intros now'. apply find_by_id_in in Hrow as [Hin Hid].
      destruct (claim_some st2 sid now' _ Hin) as (m' & Hm'); [exact Hsid | reflexivity |].
      exists m'. split; [exact Hm'|].
      destruct (claim_in st2 sid now' m' Hm') as (_ & _ & _ & Hmin).
      specialize (Hmin _ Hin Hsid eq_refl). exact Hmin.
  - intros Hyoung.
    assert (Hstale : is_stale (now - thresholdMs) (set_claimed t0 m) = false).
    { unfold is_stale. simpl. now apply Z.ltb_ge. }
    specialize (Hrow _ _ Hget1). fold st2 in Hrow. now rewrite Hstale in Hrow.
Qed.

Lemma retry_counts sessionDbId rows :
  let g := fun m => if is_failed_of sessionDbId m then pm_update pending 0 None None m else m in
  let n := Z.of_nat (List.length (List.filter (is_failed_of sessionDbId) rows)) in
  count_status pending (map g rows) = count_status pending rows + n /\
  count_status processing (map g rows) = count_status processing rows /\
  count_status failed (map g rows) = count_status failed rows - n.
Proof.
  intros g n. subst n. unfold count_status.
  induction rows as [|a rows IH]; [simpl; lia|].
  cbn [map List.filter]. destruct IH as (I1 & I2 & I3).
  assert (Hg : g a = if is_failed_of sessionDbId a then pm_update pending 0 None None a else a)
    by reflexivity.
  destruct (is_failed_of sessionDbId a) eqn:Hf.
  - rewrite Hg. cbn [pm_status pm_update QueueStatus_eqb].
    unfold is_failed_of in Hf. apply andb_true_iff in Hf as [Hp _].
    apply QueueStatus_eqb_eq in Hp. rewrite Hp. cbn [QueueStatus_eqb List.length]. lia.
  - rewrite Hg. destruct (pm_status a); cbn [QueueStatus_eqb List.length]; lia.
Qed.

(** X5: [retryFailed] puts the failed rows it selects back in the queue
    with a fresh retry budget and touches nothing else: afterwards no
    selected row is failed, each of them is pending with retry count 0 and
    no start or failure time, every other row reads as before, and the
    returned number moves from the failed to the pending count. *)
Theorem retryFailed_requeues_failed (st : Store) (sessionDbId : option Z) :
  let n := fst (retryFailed st sessionDbId) in
  let st' := snd (retryFailed st sessionDbId) in
  (forall r, In r (pending_messages st') -> is_failed_of sessionDbId r = false) /\
  (forall i r, getMessage st i = Some r ->
     getMessage st' i
     = Some (if is_failed_of sessionDbId r then pm_update pending 0 None None r else r)) /\
  qc_pending (getQueueCounts st') = qc_pending (getQueueCounts st) + n /\
  qc_processing (getQueueCounts st') = qc_processing (getQueueCounts st) /\
  qc_failed (getQueueCounts st') = qc_failed (getQueueCounts st) - n /\
  (sessionDbId = None -> qc_failed (getQueueCounts st') = 0) /\
  retryFailed st' sessionDbId = (0, st').
Proof.
  intros n st'. subst n st'. unfold retryFailed.
  cbn [fst snd pending_messages with_pending getQueueCounts qc_pending qc_processing qc_failed].
  set (g := fun m => if is_failed_of sessionDbId m then pm_update pending 0 None None m else m).
  assert (Hfresh : forall m, is_failed_of sessionDbId (g m) = false).
  { intros m. unfold g. destruct (is_failed_of sessionDbId m) eqn:E; [reflexivity | exact E]. }
  destruct (retry_counts sessionDbId (pending_messages st)) as (C1 & C2 & C3).
  fold g in C1, C2, C3.
  split; [|split; [|split; [|split; [|split; [|split]]]]].
  - intros r Hr. apply in_map_iff in Hr as (m & <- & _). apply Hfresh.
  - intros i r Hr. unfold getMessage in *. cbn [pending_messages with_pending].
    rewrite find_map_id, Hr; [reflexivity|].
    intros m. unfold g. now destruct (is_failed_of sessionDbId m).
  - exact C1.
  - exact C2.
  - exact C3.
  - intros ->. unfold count_status. rewrite filter_none; [reflexivity|].
    intros x Hx. apply in_map_iff in Hx as (m & <- & _).
    specialize (Hfresh m). unfold is_failed_of in Hfresh. now rewrite andb_true_r in Hfresh.
  - assert (Hnone : List.filter (is_failed_of sessionDbId) (map g (pending_messages st)) = []).
    { apply filter_none. intros x Hx. apply in_map_iff in Hx as (m & <- & _). apply Hfresh. }
    rewrite Hnone. cbn [List.length Z.of_nat]. f_equal.
    unfold with_pending. cbn. f_equal.
    rewrite map_map. apply map_ext. intros m. fold (g (g m)).
    unfold g at 1. now rewrite Hfresh.
Qed.

Lemma open_count_pos st sid :
  0 < getPendingCount st sid <->
  exists m, In m (pending_messages st) /\ pm_session_db_id m = sid /\ is_open m = true.
Proof.
  unfold getPendingCount. split.
  - intros Hpos. destruct (List.filter _ _) as [|m l] eqn:E; [simpl in Hpos; lia|].
    assert (Hin : In m (List.filter
      (fun m => (pm_session_db_id m =? sid) &&
                (QueueStatus_eqb (pm_status m) pending || QueueStatus_eqb (pm_status m) processing))
      (pending_messages st))) by (rewrite E; now left).
    apply filter_In in Hin as [Hin Hp]. apply andb_true_iff in Hp as [Hs Ho].
    exists m. split; [exact Hin|]. split; [now apply Z.eqb_eq | exact Ho].
  - intros (m & Hin & Hs & Ho).
    assert (Hf : In m (List.filter
      (fun m => (pm_session_db_id m =? sid) &&
                (QueueStatus_eqb (pm_status m) pending || QueueStatus_eqb (pm_status m) processing))
      (pending_messages st))).
    { apply filter_In. split; [exact Hin|]. rewrite Hs, Z.eqb_refl. exact Ho. }
    destruct (List.filter _ _); [destruct Hf | simpl; lia].
Qed.

Lemma sum_of_counts (rows : list PendingMessage) (keys : list Z) :
  List.NoDup keys ->
  (forall m, In m rows -> In (pm_session_db_id m) keys) ->
  fold_right (fun sid acc =>
      Z.of_nat (List.length (List.filter (fun m => pm_session_db_id m =? sid) rows)) + acc)
    0 keys
  = Z.of_nat (List.length rows).
Proof.
  intros Hnd. induction rows as [|a rows IH]; intros Hall.
  - clear. induction keys as [|k keys IHk]; [reflexivity|]. cbn [fold_right]. rewrite IHk. reflexivity.
  - assert (Hone : forall ks, List.NoDup ks ->
      fold_right (fun sid acc =>
        Z.of_nat (List.length (List.filter (fun m => pm_session_db_id m =? sid) (a :: rows))) + acc)
        0 ks
      = fold_right (fun sid acc =>
        Z.of_nat (List.length (List.filter (fun m => pm_session_db_id m =? sid) rows)) + acc)
        0 ks + (if existsb (Z.eqb (pm_session_db_id a)) ks then 1 else 0)).
    { intros ks. induction ks as [|k ks IHk]; intros Hk; [reflexivity|].
      inversion Hk as [|? ? Hnk Hks]; subst. cbn [fold_right existsb].
      rewrite (IHk Hks). cbn [List.filter]. destruct (pm_session_db_id a =? k) eqn:E.
      - apply Z.eqb_eq in E. subst k.
        assert (Hex : existsb (Z.eqb (pm_session_db_id a)) ks = false).
        { destruct (existsb _ ks) eqn:Ex; [|reflexivity].
          apply existsb_exists in Ex as (y & Hy & Ey). apply Z.eqb_eq in Ey. subst y.
          contradiction. }
        rewrite Hex. cbn [orb List.length]. lia.
      - cbn [orb]. lia. }
    rewrite (Hone keys Hnd), IH by (intros m Hm; apply Hall; now right).
    assert (Hex : existsb (Z.eqb (pm_session_db_id a)) keys = true).
    { apply existsb_exists. exists (pm_session_db_id a). split; [apply Hall; now left|].
      apply Z.eqb_refl. }
    rewrite Hex. cbn [List.length]. lia.
Qed.

Lemma in_distinct_first xs x : In x (distinct_first xs) <-> In x xs.
Proof.
  induction xs as [|a xs IH]; [reflexivity|]. cbn [distinct_first In].
  rewrite filter_In, IH, negb_true_iff, Z.eqb_neq.
  destruct (Z.eq_dec a x) as [->|Hne]; [tauto|]. intuition congruence.
Qed.

Lemma NoDup_distinct_first xs : List.NoDup (distinct_first xs).
Proof.
  induction xs as [|a xs IH]; [constructor|]. cbn [distinct_first]. constructor.
  - intros Hin. apply filter_In in Hin. destruct Hin as [_ Hin].
    now rewrite Z.eqb_refl in Hin.
  - now apply List.NoDup_filter.
Qed.

Lemma in_insert_by_id m x rows : In x (insert_by_id m rows) <-> x = m \/ In x rows.
Proof.
  induction rows as [|a rows IH]; cbn [insert_by_id].
  - simpl. intuition.
  - destruct (pm_id m <=? pm_id a); cbn [In]; [intuition|]. rewrite IH. intuition.
Qed.

Lemma in_order_by_id rows x : In x (order_by_id rows) <-> In x rows.
Proof.
  unfold order_by_id. induction rows as [|a rows IH]; [reflexivity|].
  cbn [fold_right In]. rewrite in_insert_by_id, IH. intuition.
Qed.

Lemma sessions_listed st sid :
  In sid (getSessionsWithPendingMessages st) <->
  exists m, In m (pending_messages st) /\ pm_session_db_id m = sid /\ is_open m = true.
Proof.
  unfold getSessionsWithPendingMessages.
  rewrite in_distinct_first, in_map_iff. split.
  - intros (m & Hs & Hm). exists m. apply in_app_or in Hm.
    destruct Hm as [Hm|Hm]; apply in_order_by_id, filter_In in Hm; destruct Hm as [Hin Hst];
      (split; [exact Hin|]; split; [exact Hs|]); unfold is_open; rewrite Hst;
      [reflexivity | apply orb_true_r].
  - intros (m & Hin & Hs & Ho). exists m. split; [exact Hs|]. apply in_or_app.
    unfold is_open in Ho. apply orb_true_iff in Ho.
    destruct Ho as [Ho|Ho]; [left | right]; apply in_order_by_id, filter_In; now split.
Qed.

(** X6: The sessions [getSessionsWithPendingMessages] lists are exactly
    those with a positive [getPendingCount], each listed once, and their
    counts add up to the queue depth of [queueSnapshot]. *)
Theorem getSessionsWithPendingMessages_counts (st : Store) :
  List.NoDup (getSessionsWithPendingMessages st) /\
  (forall sid, In sid (getSessionsWithPendingMessages st) <-> 0 < getPendingCount st sid) /\
  open_rows_of st (getSessionsWithPendingMessages st) = qs_queueDepth (queueSnapshot st).
Proof.
  split; [apply NoDup_distinct_first|]. split.
  - intros sid. now rewrite sessions_listed, open_count_pos.
  - unfold open_rows_of, getPendingCount, queueSnapshot, getQueueCounts, count_status.
    cbn [qs_queueDepth qc_pending qc_processing].
    set (opened := List.filter is_open (pending_messages st)).
    transitivity (Z.of_nat (List.length opened)).
    + rewrite <- (sum_of_counts opened (getSessionsWithPendingMessages st)).
      * induction (getSessionsWithPendingMessages st) as [|k ks IHk];
          [reflexivity|]. cbn [fold_right]. rewrite IHk. f_equal. f_equal. f_equal.
        unfold opened. rewrite <- filter_andb.
        clear. induction (pending_messages st) as [|a l IH]; [reflexivity|].
        simpl. unfold is_open at 2. rewrite IH.
        now rewrite (andb_comm (pm_session_db_id a =? k)).
      * apply NoDup_distinct_first.
      * intros m Hm. apply filter_In in Hm. destruct Hm as [Hin Ho].
        apply sessions_listed. now exists m.
    + unfold opened. clear. induction (pending_messages st) as [|a l IH]; [reflexivity|].
      cbn [List.filter]. unfold is_open at 1.
      destruct (pm_status a); cbn [QueueStatus_eqb orb List.length]; lia.
Qed.

Lemma ledger_has_snoc st sid kind k now sid' kind' k' :
  ledger_has (with_dedupe st (processed_message_dedupe st ++ [mkDedupeRow sid kind k now]))
    sid' kind' k'
  = ledger_has st sid' kind' k'
    || ((sid =? sid') && MessageType_eqb kind kind' && String.eqb k k').
Proof.
  unfold ledger_has. cbn [processed_message_dedupe with_dedupe].
  rewrite existsb_app. simpl. now rewrite orb_false_r.
Qed.

(** X7: The dedupe key is scoped to the session and to the kind of
    message.  After an observation was queued under a key, a closing
    message of the same session under the same key is queued as well, under
    a new id, and so is an observation of another known session. *)
Theorem enqueue_dedupe_scoped_by_kind_and_session (st st1 : Store) (sid sid2 : Z)
    (c c2 k : string) (payload : ObservationPayload) (closing : SummarizePayload)
    (now now' : Z) (r1 : EnqueueResult) :
  k <> EmptyString ->
  ledger_covers_queue st ->
  op_dedupe_key payload = Some k ->
  sp_dedupe_key closing = Some k ->
  enqueueObservation st sid c payload now = (Some r1, st1) ->
  er_deduped r1 = false ->
  ledger_has st sid summarize k = false ->
  (exists i st2, enqueueSummarize st1 sid c closing now' = (Some (mkEnqueueResult i false), st2)
                 /\ er_id r1 < i) /\
  (sid2 <> sid -> session_exists st sid2 = true -> ledger_has st sid2 observation k = false ->
   exists i st2, enqueueObservation st1 sid2 c2 payload now' = (Some (mkEnqueueResult i false), st2)
                 /\ er_id r1 < i).
Proof.
  intros Hk Hcover Hkey Hkey2 Henq Hnew Hled.
  pose proof (enqueue_message_keeps_cover st sid observation (op_dedupe_key payload)
                (observation_row sid c payload now) now) as Hcover1.
  fold (enqueueObservation st sid c payload now) in Hcover1. rewrite Henq in Hcover1.
  cbn [snd] in Hcover1.
  specialize (Hcover1 (fun i k0 => conj eq_refl (conj eq_refl eq_refl)) Hcover).
  unfold enqueueObservation, enqueue_message in Henq. rewrite Hkey in Henq.
  rewrite (truthy_key_some k Hk) in Henq.
  destruct (ledger_has st sid observation k) eqn:Hl1.
  { inversion Henq; subst. discriminate Hnew. }
  destruct (negb (session_exists st sid)) eqn:Hs1; [discriminate|].
  destruct (existsb _ _) eqn:Hq1; [discriminate|].
  inversion Henq; subst r1 st1. clear Henq. cbn [er_id].
  apply negb_false_iff in Hs1.
  set (st1 := with_pending _ _ _) in *.
  assert (Hsess : forall s, session_exists st1 s = session_exists st s) by reflexivity.
  assert (Hseq : seq_pending st1
                 = next_rowid (seq_pending st) (map pm_id (pending_messages st))) by reflexivity.
  assert (Hledger : forall s kd k', ledger_has st1 s kd k'
            = ledger_has st s kd k'
              || ((sid =? s) && MessageType_eqb observation kd && String.eqb k k')).
  { intros. apply ledger_has_snoc. }
  assert (Hnext : seq_pending st1
                  < next_rowid (seq_pending st1) (map pm_id (pending_messages st1))).
  { unfold next_rowid.
    assert (H : forall l s, s <= fold_right Z.max s l)
      by (induction l; simpl; intros; [lia | specialize (IHl s); lia]).
    specialize (H (map pm_id (pending_messages st1)) (seq_pending st1)). lia. }
  split.
  - unfold enqueueSummarize, enqueue_message. rewrite Hkey2, (truthy_key_some k Hk).
    rewrite Hledger, Hled. cbn [MessageType_eqb andb orb]. rewrite andb_false_r. cbn [orb].
    rewrite Hsess, Hs1. cbn [negb].
    rewrite (cover_no_key st1 sid summarize k Hcover1)
      by (rewrite Hledger, Hled; cbn; now rewrite andb_false_r).
    eexists _, _. split; [reflexivity|]. rewrite <- Hseq. exact Hnext.
  - intros Hne Hs2 Hl2.
    unfold enqueueObservation, enqueue_message. rewrite Hkey, (truthy_key_some k Hk).
    assert (Hl2' : ledger_has st1 sid2 observation k = false).
    { rewrite Hledger, Hl2. destruct (sid =? sid2) eqn:E; [|reflexivity].
      apply Z.eqb_eq in E. congruence. }
    rewrite Hl2', Hsess, Hs2. cbn [negb].
    rewrite (cover_no_key st1 sid2 observation k Hcover1 Hl2').
    eexists _, _. split; [reflexivity|]. rewrite <- Hseq. exact Hnext.
Qed.

Lemma enqueue_message_fresh st sid kind key row now r st' :
  enqueue_message st sid kind key row now = (Some r, st') ->
  er_deduped r = false ->
  er_id r = next_rowid (seq_pending st) (map pm_id (pending_messages st)) /\
  seq_pending st' = er_id r.
Proof.
  unfold enqueue_message. intros H Hnew.
  destruct (truthy_key key) as [k|].
  - destruct (ledger_has st sid kind k).
    { inversion H; subst. discriminate Hnew. }
    destruct (negb (session_exists st sid)); [discriminate|].
    destruct (existsb _ _); [discriminate|].
    inversion H; subst. split; reflexivity.
  - destruct (session_exists st sid); [|discriminate].
    inversion H; subst. split; reflexivity.
Qed.

Lemma next_rowid_above_seq seq ids : seq < next_rowid seq ids.
Proof.
  unfold next_rowid.
  assert (H : forall l, seq <= fold_right Z.max seq l)
    by (induction l; simpl; [lia | lia]).
  specialize (H ids). lia.
Qed.

(** X8: Queue ids are never handed out twice.  The id of a newly queued
    item lies above the sequence counter and above every id in the queue,
    and after that item was confirmed and deleted the next queued item
    still gets a larger id. *)
Theorem enqueue_ids_never_reused (st st1 : Store) (sid : Z) (c : string)
    (payload : ObservationPayload) (now : Z) (r1 : EnqueueResult) :
  enqueueObservation st sid c payload now = (Some r1, st1) ->
  er_deduped r1 = false ->
  seq_pending st < er_id r1 /\
  (forall i, In i (map pm_id (pending_messages st)) -> i < er_id r1) /\
  forall sid' c' payload' now' r2 st3,
    enqueueObservation (confirmProcessed st1 (er_id r1)) sid' c' payload' now' = (Some r2, st3) ->
    er_deduped r2 = false ->
    er_id r1 < er_id r2.
Proof.
  intros Henq Hnew.
  destruct (enqueue_message_fresh _ _ _ _ _ _ _ _ Henq Hnew) as [Hid Hseq].
  split; [rewrite Hid; apply next_rowid_above_seq|].
  split; [intros i Hi; rewrite Hid; now apply next_rowid_bound|].
  intros sid' c' payload' now' r2 st3 Henq2 Hnew2.
  destruct (enqueue_message_fresh _ _ _ _ _ _ _ _ Henq2 Hnew2) as [Hid2 _].
  rewrite Hid2. cbn [seq_pending confirmProcessed with_pending]. rewrite Hseq.
  apply next_rowid_above_seq.
Qed.

Lemma queue_operations_keep_queue_ok_witness :
  queue_ok one_item /\
  queue_ok (markFailed one_item 1 30) /\
  queue_ok (snd (retryFailed one_item None)) /\
  queue_ok (snd (enqueueObservation one_item 1 "sess-c3" run_payload 40)).
Proof.
  assert (Hok : queue_ok one_item).
  { unfold queue_ok. vm_compute pending_messages. vm_compute seq_pending.
    split; [|split].
    - repeat constructor. simpl. tauto.
    - intros r [<-|[]]. simpl. lia.
    - intros r [<-|[]]. simpl. unfold MAX_RETRY. lia. }
  destruct (queue_operations_keep_queue_ok one_item Hok) as (_ & _ & H3 & _ & H5 & H6 & _).
  split; [exact Hok|]. split; [apply H3|]. split; [apply H5 | apply H6].
Defined.

Lemma confirmProcessed_after_claim_witness :
  List.NoDup (map pm_id (pending_messages one_item)) /\
  getMessage (confirmProcessed (snd (claimNextPending one_item 1 30)) 1) 1 = None /\
  getPendingCount (confirmProcessed (snd (claimNextPending one_item 1 30)) 1) 1
  = getPendingCount one_item 1 - 1.
Proof.
  assert (Hnd : List.NoDup (map pm_id (pending_messages one_item))).
  { vm_compute. repeat constructor. simpl. tauto. }
  split; [exact Hnd|].
  pose proof (confirmProcessed_after_claim one_item (snd (claimNextPending one_item 1 30)) 1 30
                (observation_row 1 "sess-c3" run_payload 20 1 None) Hnd eq_refl) as H.
  cbv zeta in H. destruct H as (H1 & _ & H3 & _). split; [exact H1 | exact H3].
Defined.

Lemma resetStaleProcessing_after_claim_witness :
  List.NoDup (map pm_id (pending_messages one_item)) /\
  1 <= fst (resetStaleProcessing (snd (claimNextPending one_item 1 30)) 1000 5000) /\
  getMessage (snd (resetStaleProcessing (snd (claimNextPending one_item 1 30)) 1000 5000)) 1
  = Some (observation_row 1 "sess-c3" run_payload 20 1 None).
Proof.
  assert (Hnd : List.NoDup (map pm_id (pending_messages one_item))).
  { vm_compute. repeat constructor. simpl. tauto. }
  split; [exact Hnd|].
  pose proof (resetStaleProcessing_after_claim one_item (snd (claimNextPending one_item 1 30))
                1 30 1000 5000 (observation_row 1 "sess-c3" run_payload 20 1 None)
                Hnd eq_refl) as H.
  cbv zeta in H. destruct H as (H & _).
  destruct H as (H1 & H2 & _); [lia|]. split; [exact H1 | exact H2].
Defined.

Lemma enqueue_dedupe_scoped_by_kind_and_session_witness :
  "obs-key-1"%string <> EmptyString /\
  ledger_covers_queue ready_session /\
  ledger_has ready_session 1 summarize "obs-key-1" = false /\
  exists i st2,
    enqueueSummarize (snd (enqueueObservation ready_session 1 "sess-dedupe-1" read_payload 20))
      1 "sess-dedupe-1" (mkSummarizePayload "done" 1 (Some "obs-key-1"%string)) 21
    = (Some (mkEnqueueResult i false), st2) /\ 1 < i.
Proof.
  assert (Hne : "obs-key-1"%string <> EmptyString) by discriminate.
  assert (Hcov : ledger_covers_queue ready_session) by (intros m k []).
  split; [exact Hne|]. split; [exact Hcov|]. split; [reflexivity|].
  destruct (enqueue_dedupe_scoped_by_kind_and_session ready_session
              (snd (enqueueObservation ready_session 1 "sess-dedupe-1" read_payload 20))
              1 2 "sess-dedupe-1" "other" "obs-key-1" read_payload
              (mkSummarizePayload "done" 1 (Some "obs-key-1"%string)) 20 21
              (mkEnqueueResult 1 false) Hne Hcov eq_refl eq_refl eq_refl eq_refl eq_refl)
    as [H _].
  exact H.
Defined.

Lemma enqueue_ids_never_reused_witness :
  enqueueObservation one_session 1 "sess-c3" run_payload 20
  = (Some (mkEnqueueResult 1 false), one_item) /\
  forall r2 st3,
    enqueueObservation (confirmProcessed one_item 1) 1 "sess-c3" run_payload 50 = (Some r2, st3) ->
    er_deduped r2 = false -> 1 < er_id r2.
Proof.
  split; [reflexivity|].
  destruct (enqueue_ids_never_reused one_session one_item 1 "sess-c3" run_payload 20
              (mkEnqueueResult 1 false) eq_refl eq_refl) as (_ & _ & H).
  intros r2 st3. apply (H 1 "sess-c3"%string run_payload 50).
Defined.

(** ** Sessions, prompts and saved memories *)

Lemma sessions_touchProjectActivity st ps t :
  sdk_sessions (touchProjectActivity st ps t) = sdk_sessions st.
Proof. reflexivity. Qed.

Lemma createSDKSession_new st c p u now :
  getSessionByContentSessionId st c = None ->
  let new_id := next_rowid (seq_sessions st) (map s_id (sdk_sessions st)) in
  fst (createSDKSession st c p u now) = new_id /\
  sdk_sessions (snd (createSDKSession st c p u now))
  = sdk_sessions st ++ [mkSessionRow new_id c None p (Some u) now active] /\
  seq_sessions (snd (createSDKSession st c p u now)) = new_id /\
  observations (snd (createSDKSession st c p u now)) = observations st /\
  session_summaries (snd (createSDKSession st c p u now)) = session_summaries st /\
  user_prompts (snd (createSDKSession st c p u now)) = user_prompts st /\
  pending_messages (snd (createSDKSession st c p u now)) = pending_messages st.
Proof.
  intros E new_id. unfold createSDKSession. rewrite E. fold new_id.
  cbn [fst snd]. unfold getSessionByContentSessionId at 1.
  rewrite sessions_touchProjectActivity. cbn [sdk_sessions with_sessions].
  rewrite find_app_skip.
  - repeat split; reflexivity.
  - now apply find_none_existsb.
  - cbn. apply String.eqb_refl.
Qed.

Lemma getSessionById_in st sid s :
  getSessionById st sid = Some s -> In s (sdk_sessions st) /\ s_id s = sid.
Proof.
  unfold getSessionById. intros H. apply find_some in H as [Hin Hid].
  split; [exact Hin | now apply Z.eqb_eq].
Qed.

Lemma getSessionByContentSessionId_in st c s :
  getSessionByContentSessionId st c = Some s ->
  In s (sdk_sessions st) /\ s_content_session_id s = c.
Proof.
  unfold getSessionByContentSessionId. intros H. apply find_some in H as [Hin Hid].
  split; [exact Hin | now apply String.eqb_eq].
Qed.

Lemma find_unique_by {A K} (key : A -> K) (eqb : K -> K -> bool) (l : list A) (x : A) :
  (forall a b, eqb a b = true <-> a = b) ->
  List.NoDup (map key l) -> In x l ->
  List.find (fun y => eqb (key y) (key x)) l = Some x.
Proof.
  intros Heq. induction l as [|a l IH]; intros Hnd Hin; [destruct Hin|].
  simpl in *. inversion Hnd as [|? ? Hna Hl]; subst.
  destruct Hin as [->|Hin].
  - assert (E : eqb (key x) (key x) = true) by now apply Heq. now rewrite E.
  - destruct (eqb (key a) (key x)) eqn:E; [|now apply IH].
    apply Heq in E. exfalso. apply Hna. rewrite E. now apply in_map.
Qed.

Lemma getSessionById_unique st s :
  List.NoDup (map s_id (sdk_sessions st)) -> In s (sdk_sessions st) ->
  getSessionById st (s_id s) = Some s.
Proof.
  intros Hnd Hin. unfold getSessionById.
  apply (find_unique_by s_id Z.eqb _ s Z.eqb_eq Hnd Hin).
Qed.

(** What a successful registration leaves: the one row of the id carries
    the memory session id, the other rows and the counters are as before. *)
Lemma ensureMemorySessionIdRegistered_ok st sid mid row :
  getSessionById st sid = Some row ->
  (forall s, In s (sdk_sessions st) -> s_memory_session_id s = Some mid -> s_id s = sid) ->
  exists st',
    ensureMemorySessionIdRegistered st sid mid = Some st' /\
    sdk_sessions st'
    = map (fun s => if s_id s =? sid then set_memory_session_id mid s else s) (sdk_sessions st) /\
    seq_sessions st' = seq_sessions st /\
    seq_observations st' = seq_observations st /\
    user_prompts st' = user_prompts st /\
    pending_messages st' = pending_messages st /\
    map o_id (observations st') = map o_id (observations st).
Proof.
  intros Hrow Hown. unfold ensureMemorySessionIdRegistered. rewrite Hrow.
  assert (Hex : existsb (fun s => negb (s_id s =? sid) &&
                           match s_memory_session_id s with
                           | Some m => String.eqb m mid
                           | None => false
                           end) (sdk_sessions st) = false).
  { destruct (existsb _ _) eqn:E; [|reflexivity].
    apply existsb_exists in E as (s & Hs & Hb). apply andb_true_iff in Hb as [Hne Hm].
    destruct (s_memory_session_id s) as [m|] eqn:Em; [|discriminate].
    apply String.eqb_eq in Hm. subst m. rewrite (Hown s Hs Em), Z.eqb_refl in Hne.
    discriminate. }
  rewrite Hex. destruct (s_memory_session_id row) as [old|].
  - eexists. split; [reflexivity|]. cbn. repeat split; try reflexivity.
    rewrite map_map. apply map_ext. intros o. unfold rename_obs_session.
    now destruct (String.eqb _ _).
  - eexists. split; [reflexivity|]. cbn. repeat split; reflexivity.
Qed.

Lemma sessions_ok_register st sid mid sessions' seq' :
  sessions_ok st ->
  sessions' = map (fun s => if s_id s =? sid then set_memory_session_id mid s else s)
                (sdk_sessions st) ->
  seq' = seq_sessions st ->
  List.NoDup (map s_id sessions') /\
  List.NoDup (map s_content_session_id sessions') /\
  (forall s, In s sessions' -> s_id s <= seq').
Proof.
  intros (H1 & H2 & H3) -> ->.
  assert (E1 : map s_id (map (fun s => if s_id s =? sid then set_memory_session_id mid s else s)
                          (sdk_sessions st)) = map s_id (sdk_sessions st)).
  { rewrite map_map. apply map_ext. intros s. now destruct (s_id s =? sid). }
  assert (E2 : map s_content_session_id
                 (map (fun s => if s_id s =? sid then set_memory_session_id mid s else s)
                    (sdk_sessions st)) = map s_content_session_id (sdk_sessions st)).
  { rewrite map_map. apply map_ext. intros s. now destruct (s_id s =? sid). }
  rewrite E1, E2. split; [exact H1|]. split; [exact H2|].
  intros s Hs. apply in_map_iff in Hs as (s0 & <- & Hs0).
  destruct (s_id s0 =? sid); exact (H3 s0 Hs0).
Qed.

Lemma append_inj_l (a x y : string) : String.append a x = String.append a y -> x = y.
Proof.
  induction a as [|ch a IH]; simpl; intros H; [exact H|]. inversion H. now apply IH.
Qed.

Lemma getSessionByContentSessionId_unique st s :
  List.NoDup (map s_content_session_id (sdk_sessions st)) -> In s (sdk_sessions st) ->
  getSessionByContentSessionId st (s_content_session_id s) = Some s.
Proof.
  intros Hnd Hin. unfold getSessionByContentSessionId.
  apply (find_unique_by s_content_session_id String.eqb _ s String.eqb_eq Hnd Hin).
Qed.

Lemma backfill_keys c p sessions :
  let g := fun s => if String.eqb (s_content_session_id s) c
                       && String.eqb (s_project s) EmptyString
                    then set_project p s else s in
  map s_id (map g sessions) = map s_id sessions /\
  map s_content_session_id (map g sessions) = map s_content_session_id sessions.
Proof.
  intros g. split; rewrite map_map; apply map_ext; intros s; unfold g;
    now destruct (_ && _).
Qed.

Lemma find_content_map (g : SessionRow -> SessionRow) c sessions :
  (forall s, s_content_session_id (g s) = s_content_session_id s) ->
  List.find (fun s => String.eqb (s_content_session_id s) c) (map g sessions)
  = option_map g (List.find (fun s => String.eqb (s_content_session_id s) c) sessions).
Proof.
  intros Hg. apply find_map_same. intros x. now rewrite Hg.
Qed.

Lemma find_content_other c c' row sessions :
  c' <> c -> s_content_session_id row = c ->
  List.find (fun s => String.eqb (s_content_session_id s) c') (sessions ++ [row])
  = List.find (fun s => String.eqb (s_content_session_id s) c') sessions.
Proof.
  intros Hne Hrow. induction sessions as [|a l IH]; simpl.
  - rewrite Hrow. destruct (String.eqb c c') eqn:E; [|reflexivity].
    apply String.eqb_eq in E. congruence.
  - destruct (String.eqb (s_content_session_id a) c'); [reflexivity | exact IH].
Qed.

(** X9: [createSDKSession] is a get-or-create keyed by the external id.
    It keeps row ids and external ids unique; afterwards the external id
    resolves to the returned row id; an existing session keeps its id and
    its row, except that an empty project is filled in from a non-empty
    argument; a new session gets an id not used before; the sessions of
    other external ids read as before; and a repeat call, with whatever
    project and prompt, returns the same id. *)
Theorem createSDKSession_get_or_create (st : Store) (c p u : string) (now : Z) :
  sessions_ok st ->
  let i := fst (createSDKSession st c p u now) in
  let st' := snd (createSDKSession st c p u now) in
  sessions_ok st' /\
  (exists r', getSessionByContentSessionId st' c = Some r' /\ s_id r' = i) /\
  (forall r, getSessionByContentSessionId st c = Some r ->
     i = s_id r /\
     getSessionByContentSessionId st' c
     = Some (if nonempty p && String.eqb (s_project r) EmptyString then set_project p r else r)) /\
  (getSessionByContentSessionId st c = None ->
     ~ In i (map s_id (sdk_sessions st)) /\
     getSessionByContentSessionId st' c = Some (mkSessionRow i c None p (Some u) now active)) /\
  (forall c', c' <> c ->
     getSessionByContentSessionId st' c' = getSessionByContentSessionId st c') /\
  (forall p' u' now', fst (createSDKSession st' c p' u' now') = i).
Proof.
  intros (Hid & Hcid & Hseq) i st'.
  destruct (getSessionByContentSessionId st c) as [r|] eqn:E.
  - (* the session exists *)
    assert (Hi : i = s_id r).
    { unfold i, createSDKSession. rewrite E. now destruct (nonempty p). }
    assert (Hsess : sdk_sessions st'
              = map (fun s => if nonempty p && (String.eqb (s_content_session_id s) c
                                               && String.eqb (s_project s) EmptyString)
                              then set_project p s else s) (sdk_sessions st)
            /\ seq_sessions st' = seq_sessions st).
    { unfold st', createSDKSession. rewrite E. destruct (nonempty p); cbn.
      - split; reflexivity.
      - split; [|reflexivity]. symmetry. apply map_id. }
    destruct Hsess as [Hsess Hseq'].
    set (g := fun s => if nonempty p && (String.eqb (s_content_session_id s) c
                                        && String.eqb (s_project s) EmptyString)
                       then set_project p s else s) in Hsess.
    assert (Hgid : forall s, s_id (g s) = s_id s)
      by (intros s; unfold g; now destruct (_ && _)).
    assert (Hgc : forall s, s_content_session_id (g s) = s_content_session_id s)
      by (intros s; unfold g; now destruct (_ && _)).
    assert (Hfind : forall c', getSessionByContentSessionId st' c'
                      = option_map g (getSessionByContentSessionId st c')).
    { intros c'. unfold getSessionByContentSessionId. rewrite Hsess.
      now apply find_content_map. }
    destruct (getSessionByContentSessionId_in st c r E) as [Hr Hrc].
    assert (Hgr : g r = if nonempty p && String.eqb (s_project r) EmptyString
                        then set_project p r else r).
    { unfold g. rewrite Hrc, String.eqb_refl. reflexivity. }
    split; [|split; [|split; [|split; [|split]]]].
    + unfold sessions_ok. rewrite Hsess, Hseq'.
      assert (E1 : map s_id (map g (sdk_sessions st)) = map s_id (sdk_sessions st))
        by (rewrite map_map; now apply map_ext).
      assert (E2 : map s_content_session_id (map g (sdk_sessions st))
                   = map s_content_session_id (sdk_sessions st))
        by (rewrite map_map; now apply map_ext).
      rewrite E1, E2. split; [exact Hid|]. split; [exact Hcid|].
      intros s Hs. apply in_map_iff in Hs as (s0 & <- & Hs0). rewrite Hgid. now apply Hseq.
    + exists (g r). rewrite Hfind, E. split; [reflexivity|]. now rewrite Hgid.
    + intros r0 Hr0. inversion Hr0; subst r0. split; [exact Hi|].
      rewrite Hfind, E. cbn [option_map]. now rewrite Hgr.
    + discriminate.
    + intros c' Hne. rewrite Hfind.
      destruct (getSessionByContentSessionId st c') as [s|] eqn:E'; [|reflexivity].
      cbn [option_map]. f_equal. unfold g.
      destruct (getSessionByContentSessionId_in st c' s E') as [_ Hsc].
      destruct (String.eqb (s_content_session_id s) c) eqn:B.
      * apply String.eqb_eq in B. congruence.
      * now rewrite andb_false_r.
    + intros p' u' now'. unfold createSDKSession at 1.
      rewrite Hfind, E. cbn [option_map]. rewrite Hi.
      destruct (nonempty p'); cbn [fst]; apply Hgid.
  - (* a new session *)
    destruct (createSDKSession_new st c p u now E) as (N1 & N2 & N3 & _).
    fold i in N1. fold st' in N2, N3. rewrite <- N1 in N2, N3.
    assert (Hfresh : ~ In i (map s_id (sdk_sessions st)))
      by (rewrite N1; apply next_rowid_fresh).
    assert (Hnew : getSessionByContentSessionId st' c
                   = Some (mkSessionRow i c None p (Some u) now active)).
    { unfold getSessionByContentSessionId. rewrite N2. apply find_app_skip.
      - now apply find_none_existsb.
      - cbn. apply String.eqb_refl. }
    split; [|split; [|split; [|split; [|split]]]].
    + unfold sessions_ok. rewrite N2, N3, !map_app. cbn [map s_id s_content_session_id].
      split; [now apply NoDup_snoc|]. split.
      * apply NoDup_snoc; [exact Hcid|]. intros Hin. apply in_map_iff in Hin as (s & Hs & Hin).
        apply find_none_existsb in E.
        assert (Hex : existsb (fun s => String.eqb (s_content_session_id s) c) (sdk_sessions st)
                      = true).
        { apply existsb_exists. exists s. split; [exact Hin|]. now apply String.eqb_eq. }
        congruence.
      * intros s Hs. apply in_app_or in Hs as [Hs|[<-|[]]]; [|cbn; lia].
        rewrite N1. apply Z.lt_le_incl, next_rowid_bound. now apply in_map.
    + eexists. split; [exact Hnew | reflexivity].
    + discriminate.
    + intros _. split; [exact Hfresh | exact Hnew].
    + intros c' Hne. unfold getSessionByContentSessionId. rewrite N2.
      now apply (find_content_other c).
    + intros p' u' now'. unfold createSDKSession at 1. rewrite Hnew.
      now destruct (nonempty p').
Qed.

Lemma cmem_not_manual x y : String.append "cmem-" x <> String.append "manual-" y.
Proof. discriminate. Qed.

(** Registering the memory session id built from a row id on that row. *)
Lemma register_own st sid mid row :
  sessions_ok st -> memory_ids_own st ->
  getSessionById st sid = Some row ->
  mid = String.append "cmem-" (pretty sid) \/ mid = String.append "manual-" (pretty sid) ->
  exists st',
    ensureMemorySessionIdRegistered st sid mid = Some st' /\
    getSessionById st' sid = Some (set_memory_session_id mid row) /\
    getSessionByContentSessionId st' (s_content_session_id row)
    = Some (set_memory_session_id mid row) /\
    sessions_ok st' /\ memory_ids_own st' /\
    memory_session_known st' mid = true /\
    seq_observations st' = seq_observations st /\
    map o_id (observations st') = map o_id (observations st) /\
    user_prompts st' = user_prompts st /\
    pending_messages st' = pending_messages st.
Proof.
  intros Hok Hown Hrow Hmid. pose proof Hok as (Hid & Hcid & Hseq).
  destruct (getSessionById_in st sid row Hrow) as [Hin Hrid].
  assert (Hmine : forall s, In s (sdk_sessions st) -> s_memory_session_id s = Some mid ->
                            s_id s = sid).
  { intros s Hs Hm. symmetry. apply (Hown s sid Hs). rewrite Hm.
    destruct Hmid as [Hmid|Hmid]; rewrite Hmid; [left | right]; reflexivity. }
  destruct (ensureMemorySessionIdRegistered_ok st sid mid row Hrow Hmine)
    as (st' & E & Hsess & Hseq' & Hso & Hup & Hpm & Hobs).
  set (g := fun s => if s_id s =? sid then set_memory_session_id mid s else s) in Hsess.
  assert (Hg : g row = set_memory_session_id mid row)
    by (unfold g; now rewrite Hrid, Z.eqb_refl).
  exists st'. split; [exact E|].
  split; [|split; [|split; [|split; [|split]]]].
  - unfold getSessionById in *. rewrite Hsess, find_map_same, Hrow; [now rewrite <- Hg|].
    intros x. unfold g. destruct (s_id x =? sid) eqn:B; exact B.
  - unfold getSessionByContentSessionId. rewrite Hsess, find_content_map.
    + pose proof (getSessionByContentSessionId_unique st row Hcid Hin) as Hu.
      unfold getSessionByContentSessionId in Hu. rewrite Hu. cbn. now rewrite Hg.
    + intros s. unfold g. now destruct (s_id s =? sid).
  - unfold sessions_ok. now apply (sessions_ok_register st sid mid).
  - intros s x Hs Hm. rewrite Hsess in Hs. apply in_map_iff in Hs as (s0 & <- & Hs0).
    unfold g in *. destruct (s_id s0 =? sid) eqn:B.
    + apply Z.eqb_eq in B. cbn [s_id set_memory_session_id]. rewrite B.
      cbn [s_memory_session_id set_memory_session_id] in Hm.
      destruct Hmid as [->| ->], Hm as [Hm|Hm]; inversion Hm as [Hm'].
      * apply append_inj_l in Hm'. symmetry. now apply (inj pretty).
      * apply append_inj_l in Hm'. symmetry. now apply (inj pretty).
    + now apply (Hown s0 x Hs0).
  - unfold memory_session_known. rewrite Hsess. apply existsb_exists.
    exists (g row). split; [now apply in_map|]. rewrite Hg. cbn. apply String.eqb_refl.
  - repeat split; assumption.
Qed.

Lemma truthy_string_inv s x : truthy_string s = Some x -> s = Some x /\ x <> EmptyString.
Proof.
  unfold truthy_string. destruct s as [y|]; [|discriminate].
  destruct (String.eqb y EmptyString) eqn:E; [discriminate|].
  intros H. inversion H; subst. split; [reflexivity|].
  intros ->. discriminate.
Qed.

Lemma or_unknown_nonempty s : or_unknown s <> EmptyString.
Proof.
  unfold or_unknown. destruct (String.eqb s EmptyString) eqn:E; [discriminate|].
  intros ->. discriminate.
Qed.

Lemma or_unknown_fixed s : s <> EmptyString -> or_unknown s = s.
Proof.
  intros H. unfold or_unknown. destruct (String.eqb s EmptyString) eqn:E; [|reflexivity].
  apply String.eqb_eq in E. contradiction.
Qed.

Lemma sessions_ok_new st c p u now :
  sessions_ok st -> getSessionByContentSessionId st c = None ->
  sessions_ok (snd (createSDKSession st c p u now)).
Proof.
  intros (Hid & Hcid & Hseq) E.
  destruct (createSDKSession_new st c p u now E) as (_ & N2 & N3 & _).
  unfold sessions_ok. rewrite N2, N3, !map_app. cbn [map s_id s_content_session_id].
  split; [apply NoDup_snoc; [exact Hid | apply next_rowid_fresh]|]. split.
  - apply NoDup_snoc; [exact Hcid|]. intros Hin. apply in_map_iff in Hin as (s & Hs & Hin).
    apply find_none_existsb in E.
    assert (Hex : existsb (fun s => String.eqb (s_content_session_id s) c) (sdk_sessions st)
                  = true).
    { apply existsb_exists. exists s. split; [exact Hin|]. now apply String.eqb_eq. }
    congruence.
  - intros s Hs. apply in_app_or in Hs as [Hs|[<-|[]]]; [|cbn; lia].
    apply Z.lt_le_incl, next_rowid_bound. now apply in_map.
Qed.

Lemma memory_ids_own_new st c p u now :
  memory_ids_own st -> getSessionByContentSessionId st c = None ->
  memory_ids_own (snd (createSDKSession st c p u now)).
Proof.
  intros Hown E. destruct (createSDKSession_new st c p u now E) as (_ & N2 & _).
  intros s x Hs Hm. rewrite N2 in Hs. apply in_app_or in Hs as [Hs|[<-|[]]].
  - now apply (Hown s x Hs).
  - cbn in Hm. destruct Hm; discriminate.
Qed.

Lemma getSessionById_new st c p u now :
  getSessionByContentSessionId st c = None ->
  getSessionById (snd (createSDKSession st c p u now)) (fst (createSDKSession st c p u now))
  = Some (mkSessionRow (fst (createSDKSession st c p u now)) c None p (Some u) now active).
Proof.
  intros E. destruct (createSDKSession_new st c p u now E) as (N1 & N2 & _).
  unfold getSessionById. rewrite N2, N1. apply find_app_skip.
  - destruct (existsb _ _) eqn:B; [|reflexivity].
    apply existsb_exists in B as (s & Hs & Hb). apply Z.eqb_eq in Hb.
    exfalso. apply (next_rowid_fresh (seq_sessions st) (map s_id (sdk_sessions st))).
    rewrite <- Hb. now apply in_map.
  - cbn. apply Z.eqb_refl.
Qed.

(** X10: [ensureSessionForProcessing] hands back a session that is ready
    for the queue.  On a store whose session ids and external ids are unique
    and whose built memory ids name their own rows, it succeeds; the
    returned row id resolves to the row of the external id; that row
    carries the returned memory session id, which is not empty and is known
    to the store, so that results can be stored under it; the returned
    project is not empty; the store keeps its shape; and a repeat call
    returns the same answer and changes nothing. *)
Theorem ensureSessionForProcessing_registers (st : Store) (c : string) (now : Z) :
  sessions_ok st -> memory_ids_own st ->
  exists ps st',
    ensureSessionForProcessing st c now = Some (ps, st') /\
    (exists row, getSessionById st' (ps_sessionDbId ps) = Some row /\
                 getSessionByContentSessionId st' c = Some row /\
                 s_memory_session_id row = Some (ps_memorySessionId ps)) /\
    ps_memorySessionId ps <> EmptyString /\
    memory_session_known st' (ps_memorySessionId ps) = true /\
    ps_project ps <> EmptyString /\
    sessions_ok st' /\ memory_ids_own st' /\
    user_prompts st' = user_prompts st /\
    pending_messages st' = pending_messages st /\
    forall now', ensureSessionForProcessing st' c now' = Some (ps, st').
Proof.
  intros Hok Hown. pose proof Hok as (Hid & Hcid & Hseq).
  unfold ensureSessionForProcessing at 1.
  destruct (getSessionByContentSessionId st c) as [session|] eqn:E.
  - destruct (getSessionByContentSessionId_in st c session E) as [Hin Hc].
    pose proof (getSessionById_unique st session Hid Hin) as Hbyid.
    destruct (truthy_string (s_memory_session_id session)) as [m|] eqn:T.
    + (* the session has its memory session id *)
      destruct (truthy_string_inv _ _ T) as [Hm Hne].
      eexists _, st. split; [reflexivity|]. cbn [ps_sessionDbId ps_memorySessionId ps_project].
      split; [exists session; now repeat split|].
      split; [exact Hne|].
      split; [now apply (getSessionById_known st (s_id session) session m)|].
      split; [apply or_unknown_nonempty|].
      split; [exact Hok|]. split; [exact Hown|]. split; [reflexivity|]. split; [reflexivity|].
      intros now'. unfold ensureSessionForProcessing. now rewrite E, T.
    + (* it gets one now *)
      destruct (register_own st (s_id session) (String.append "cmem-" (pretty (s_id session)))
                  session Hok Hown Hbyid (or_introl eq_refl))
        as (st' & R & G1 & G2 & Ok' & Own' & K & _ & _ & Hup & Hpm).
      rewrite R. eexists _, st'. split; [reflexivity|].
      cbn [ps_sessionDbId ps_memorySessionId ps_project]. rewrite Hc in G2.
      split; [eexists; split; [exact G1|]; split; [exact G2 | reflexivity]|].
      split; [discriminate|]. split; [exact K|].
      split; [apply or_unknown_nonempty|].
      split; [exact Ok'|]. split; [exact Own'|]. split; [exact Hup|]. split; [exact Hpm|].
      intros now'. unfold ensureSessionForProcessing. rewrite G2.
      cbn [s_memory_session_id set_memory_session_id s_id s_project].
      rewrite truthy_string_some by discriminate. reflexivity.
  - (* the session is created *)
    pose proof (sessions_ok_new st c "unknown" EmptyString now Hok E) as Ok1.
    pose proof (memory_ids_own_new st c "unknown" EmptyString now Hown E) as Own1.
    pose proof (getSessionById_new st c "unknown" EmptyString now E) as Hbyid.
    destruct (createSDKSession_new st c "unknown" EmptyString now E)
      as (_ & _ & _ & _ & _ & Hup1 & Hpm1).
    destruct (createSDKSession st c "unknown" EmptyString now) as [sid st1].
    cbn [fst snd] in *.
    destruct (register_own st1 sid (String.append "cmem-" (pretty sid)) _ Ok1 Own1 Hbyid
                (or_introl eq_refl))
      as (st' & R & G1 & G2 & Ok' & Own' & K & _ & _ & Hup & Hpm).
    rewrite R. eexists _, st'. split; [reflexivity|].
    cbn [ps_sessionDbId ps_memorySessionId ps_project].
    cbn [s_content_session_id] in G2.
    split; [eexists; split; [exact G1|]; split; [exact G2 | reflexivity]|].
    split; [discriminate|]. split; [exact K|]. split; [discriminate|].
    split; [exact Ok'|]. split; [exact Own'|].
    split; [now rewrite Hup|]. split; [now rewrite Hpm|].
    intros now'. unfold ensureSessionForProcessing. rewrite G2.
    cbn [s_memory_session_id set_memory_session_id s_id s_project].
    rewrite truthy_string_some by discriminate. reflexivity.
Qed.

(** The session [createSDKSession] returns is there, whichever branch ran,
    and the store keeps its shape; only the session and activity tables can
    have changed. *)
Lemma createSDKSession_ready st c p u now :
  sessions_ok st -> memory_ids_own st ->
  let sid := fst (createSDKSession st c p u now) in
  let st1 := snd (createSDKSession st c p u now) in
  (exists row, getSessionById st1 sid = Some row /\ s_content_session_id row = c) /\
  sessions_ok st1 /\ memory_ids_own st1 /\
  observations st1 = observations st /\
  seq_observations st1 = seq_observations st /\
  user_prompts st1 = user_prompts st /\
  pending_messages st1 = pending_messages st.
Proof.
  intros Hok Hown sid st1. pose proof Hok as (Hid & Hcid & Hseq).
  destruct (getSessionByContentSessionId st c) as [r|] eqn:E.
  - destruct (getSessionByContentSessionId_in st c r E) as [Hin Hc].
    set (g := fun s => if nonempty p && (String.eqb (s_content_session_id s) c
                                        && String.eqb (s_project s) EmptyString)
                       then set_project p s else s).
    assert (Hst1 : sid = s_id r /\ sdk_sessions st1 = map g (sdk_sessions st)
                   /\ seq_sessions st1 = seq_sessions st
                   /\ observations st1 = observations st
                   /\ seq_observations st1 = seq_observations st
                   /\ user_prompts st1 = user_prompts st
                   /\ pending_messages st1 = pending_messages st).
    { unfold sid, st1, createSDKSession, g. rewrite E. destruct (nonempty p); cbn.
      - repeat split; reflexivity.
      - repeat split; try reflexivity. symmetry. apply map_id. }
    destruct Hst1 as (Hsid & Hsess & Hseq1 & Ho & Hso & Hup & Hpm).
    assert (Hgid : forall s, s_id (g s) = s_id s)
      by (intros s; unfold g; now destruct (_ && _)).
    assert (Hgc : forall s, s_content_session_id (g s) = s_content_session_id s)
      by (intros s; unfold g; now destruct (_ && _)).
    assert (Hgm : forall s, s_memory_session_id (g s) = s_memory_session_id s)
      by (intros s; unfold g; now destruct (_ && _)).
    split; [|split; [|split]].
    + exists (g r). split; [|now rewrite Hgc].
      unfold getSessionById. rewrite Hsess, find_map_same, Hsid.
      * pose proof (getSessionById_unique st r Hid Hin) as Hu.
        unfold getSessionById in Hu. now rewrite Hu.
      * intros x. now rewrite Hgid.
    + unfold sessions_ok. rewrite Hsess, Hseq1.
      assert (E1 : map s_id (map g (sdk_sessions st)) = map s_id (sdk_sessions st))
        by (rewrite map_map; now apply map_ext).
      assert (E2 : map s_content_session_id (map g (sdk_sessions st))
                   = map s_content_session_id (sdk_sessions st))
        by (rewrite map_map; now apply map_ext).
      rewrite E1, E2. split; [exact Hid|]. split; [exact Hcid|].
      intros s Hs. apply in_map_iff in Hs as (s0 & <- & Hs0). rewrite Hgid. now apply Hseq.
    + intros s x Hs Hm. rewrite Hsess in Hs. apply in_map_iff in Hs as (s0 & <- & Hs0).
      rewrite Hgid. rewrite Hgm in Hm. now apply (Hown s0 x Hs0).
    + repeat split; assumption.
  - destruct (createSDKSession_new st c p u now E) as (_ & _ & _ & Ho & _ & Hup & Hpm).
    split; [|split; [|split]].
    + eexists. split; [now apply getSessionById_new | reflexivity].
    + now apply sessions_ok_new.
    + now apply memory_ids_own_new.
    + repeat split; try assumption. unfold st1, createSDKSession. now rewrite E.
Qed.

Lemma find_live_id_snoc (rows : list ObservationRow) (row : ObservationRow) j :
  ~ In (o_id row) (map o_id rows) ->
  List.find (fun o => (o_id o =? j) && live o) (rows ++ [row])
  = if (o_id row =? j) && live row then Some row
    else List.find (fun o => (o_id o =? j) && live o) rows.
Proof.
  intros Hfresh. induction rows as [|a l IH]; simpl; [now destruct (_ && _)|].
  simpl in Hfresh. destruct ((o_id a =? j) && live a) eqn:B.
  - destruct ((o_id row =? j) && live row) eqn:B'; [|reflexivity].
    apply andb_true_iff in B as [B _]. apply andb_true_iff in B' as [B' _].
    apply Z.eqb_eq in B, B'. exfalso. apply Hfresh. left. congruence.
  - apply IH. tauto.
Qed.

(** X11: A saved memory reads back.  [POST /api/memory/save] with a text
    that is not blank stores one observation under the manual session of
    the project, under an id no observation had; that id then resolves to a
    live observation of the target project whose narrative is the text and
    whose title is the given title or, without one, the first 60 UTF-16
    code units of the text, which are its first 60 characters as the text is
    then taken from the Basic Multilingual Plane; the observations there
    were keep their content. *)
Theorem memory_save_round_trip (st : Store) (text : string) (title project : option string)
    (now : Z) :
  sessions_ok st -> memory_ids_own st ->
  trim text <> EmptyString ->
  (truthy_string title = None -> bmp text) ->
  let target := default "codexmem"%string (truthy_string project) in
  let shown := default (slice_from_start 60 text) (truthy_string title) in
  exists id st' row,
    memory_save st (Some text) title project now = Some (save_ok id shown target, st') /\
    ~ In id (map o_id (observations st)) /\
    getObservationById st' id = Some row /\
    o_project row = target /\
    o_input row = mkObservationInput "discovery" (Some shown) (Some "Manual memory"%string)
                    [] (Some text) [] [] [] /\
    o_created_at_epoch row = now /\
    o_deleted_at_epoch row = None /\
    (exists s, getSessionByContentSessionId st' (String.append "manual-" target) = Some s /\
               s_memory_session_id s = Some (o_memory_session_id row)) /\
    forall j, j <> id ->
      option_map o_input (getObservationById st' j) = option_map o_input (getObservationById st j).
Proof.
  intros Hok Hown Htext _ target shown.
  assert (Hne : text <> EmptyString) by (intros ->; now apply Htext).
  unfold memory_save. rewrite (truthy_string_some text Hne), (nonempty_true _ Htext).
  cbn [negb]. fold target. fold shown. unfold getOrCreateManualSession.
  destruct (createSDKSession_ready st (String.append "manual-" target) target
              "Manual memory session" now Hok Hown)
    as ((srow & Hbyid & Hsc) & Ok1 & Own1 & Ho1 & Hso1 & _ & _).
  destruct (createSDKSession st (String.append "manual-" target) target
              "Manual memory session" now) as [sid st1].
  cbn [fst snd] in *.
  destruct (register_own st1 sid (String.append "manual-" (pretty sid)) srow Ok1 Own1 Hbyid
              (or_intror eq_refl))
    as (st2 & R & _ & G2 & _ & _ & K & Hso2 & Hids2 & _ & _).
  rewrite R. unfold storeObservation. rewrite K.
  set (id := next_rowid (seq_observations st2) (map o_id (observations st2))).
  set (row := mkObservationRow id (String.append "manual-" (pretty sid)) target
                (mkObservationInput "discovery" (Some shown) (Some "Manual memory"%string)
                   [] (Some text) [] [] []) 0 now (Some now) None).
  assert (Hfresh2 : ~ In id (map o_id (observations st2))) by apply next_rowid_fresh.
  exists id. eexists. exists row. split; [reflexivity|].
  split; [now rewrite <- Ho1, <- Hids2|].
  assert (Hget : forall j,
            getObservationById
              (touchProjectActivity
                 (with_observations st2 (observations st2 ++ [row]) id) [target] now) j
            = if (id =? j) && true then Some row else getObservationById st2 j).
  { intros j. unfold getObservationById.
    change (observations (touchProjectActivity
              (with_observations st2 (observations st2 ++ [row]) id) [target] now))
      with (observations st2 ++ [row]).
    now rewrite find_live_id_snoc. }
  split; [rewrite Hget, Z.eqb_refl; reflexivity|].
  split; [reflexivity|]. split; [reflexivity|]. split; [reflexivity|]. split; [reflexivity|].
  split.
  - exists (set_memory_session_id (String.append "manual-" (pretty sid)) srow).
    split; [|reflexivity]. rewrite <- Hsc.
    unfold getSessionByContentSessionId in *.
    change (sdk_sessions (touchProjectActivity
              (with_observations st2 (observations st2 ++ [row]) id) [target] now))
      with (sdk_sessions st2).
    exact G2.
  - intros j Hj. rewrite Hget.
    destruct (id =? j) eqn:B; [apply Z.eqb_eq in B; congruence|]. cbn [andb].
    (* the registration may rename the session of older rows, not their content *)
    unfold ensureMemorySessionIdRegistered in R. rewrite Hbyid in R.
    destruct (existsb _ _); [discriminate|].
    unfold getObservationById. rewrite <- Ho1.
    destruct (s_memory_session_id srow) as [old|]; inversion R; subst st2; cbn.
    + rewrite find_map_same.
      * destruct (List.find _ (observations st1)) as [o|]; [|reflexivity].
        cbn. unfold rename_obs_session. now destruct (String.eqb _ _).
      * intros o. unfold rename_obs_session. now destruct (String.eqb _ _).
    + reflexivity.
Qed.

Lemma find_prompt_snoc c n rows row :
  List.find (fun p => String.eqb (up_content_session_id p) c && (up_prompt_number p =? n))
    (rows ++ [row])
  = match List.find (fun p => String.eqb (up_content_session_id p) c
                              && (up_prompt_number p =? n)) rows with
    | Some p => Some p
    | None => if String.eqb (up_content_session_id row) c && (up_prompt_number row =? n)
              then Some row else None
    end.
Proof.
  induction rows as [|a l IH]; simpl; [reflexivity|].
  destruct (String.eqb (up_content_session_id a) c && (up_prompt_number a =? n));
    [reflexivity | exact IH].
Qed.

(** X12: A saved prompt reads back under its session and number.
    [saveUserPrompt] needs the session row and fails without it; with it,
    the prompt gets an id no prompt had, the session's prompt count goes up
    by one and the other sessions' counts stay, [getUserPrompt] returns the
    text for that session and number unless an older prompt already holds
    the pair, in which case the older text stays in front, and every other
    pair reads as before. *)
Theorem saveUserPrompt_round_trip (st : Store) (c text : string) (n now : Z) :
  (getSessionByContentSessionId st c = None -> saveUserPrompt st c n text now = None) /\
  (getSessionByContentSessionId st c <> None ->
   exists id st',
     saveUserPrompt st c n text now = Some (id, st') /\
     ~ In id (map up_id (user_prompts st)) /\
     getPromptNumberFromUserPrompts st' c = getPromptNumberFromUserPrompts st c + 1 /\
     (forall c', c' <> c ->
        getPromptNumberFromUserPrompts st' c' = getPromptNumberFromUserPrompts st c') /\
     getUserPrompt st' c n = Some (default text (getUserPrompt st c n)) /\
     (forall c' n', c' <> c \/ n' <> n -> getUserPrompt st' c' n' = getUserPrompt st c' n')).
Proof.
  split.
  - intros E. unfold saveUserPrompt. now rewrite E.
  - intros E. destruct (getSessionByContentSessionId st c) as [r|] eqn:Er; [|congruence].
    destruct (saveUserPrompt_post st c n text now r Er) as (st' & S & Hup & _).
    set (id := next_rowid (seq_prompts st) (map up_id (user_prompts st))) in *.
    exists id, st'. split; [exact S|]. split; [apply next_rowid_fresh|].
    unfold getPromptNumberFromUserPrompts, getUserPrompt. rewrite Hup.
    split; [now apply prompt_count_snoc|]. split; [|split].
    + intros c' Hne. rewrite List.filter_app. cbn [List.filter up_content_session_id].
      destruct (String.eqb c c') eqn:B; [apply String.eqb_eq in B; congruence|].
      now rewrite app_nil_r.
    + rewrite find_prompt_snoc. cbn [up_content_session_id up_prompt_number].
      rewrite String.eqb_refl, Z.eqb_refl. cbn [andb].
      now destruct (List.find _ (user_prompts st)).
    + intros c' n' Hne. rewrite find_prompt_snoc.
      cbn [up_content_session_id up_prompt_number].
      destruct (List.find _ (user_prompts st)); [reflexivity|].
      destruct (String.eqb c c') eqn:B1; [|reflexivity].
      destruct (n =? n') eqn:B2; [|reflexivity].
      apply String.eqb_eq in B1. apply Z.eqb_eq in B2. destruct Hne; congruence.
Qed.

Lemma createSDKSession_get_or_create_witness :
  sessions_ok empty_store /\
  fst (createSDKSession (snd (createSDKSession empty_store "s" "p" "hi" 1)) "s" "q" "again" 2)
  = fst (createSDKSession empty_store "s" "p" "hi" 1).
Proof.
  assert (Hok : sessions_ok empty_store).
  { split; [constructor|]. split; [constructor|]. intros s []. }
  split; [exact Hok|].
  pose proof (createSDKSession_get_or_create empty_store "s" "p" "hi" 1 Hok) as H.
  cbv zeta in H. destruct H as (_ & _ & _ & _ & _ & H). apply H.
Defined.

Lemma ensureSessionForProcessing_registers_witness :
  sessions_ok empty_store /\ memory_ids_own empty_store /\
  exists st',
    ensureSessionForProcessing empty_store "s1" 5
    = Some (mkProcessingSession 1 "cmem-1" "unknown", st') /\
    memory_session_known st' "cmem-1" = true /\
    ensureSessionForProcessing st' "s1" 6
    = Some (mkProcessingSession 1 "cmem-1" "unknown", st').
Proof.
  assert (Hok : sessions_ok empty_store).
  { split; [constructor|]. split; [constructor|]. intros s []. }
  assert (Hown : memory_ids_own empty_store) by (intros s x []).
  split; [exact Hok|]. split; [exact Hown|].
  destruct (ensureSessionForProcessing_registers empty_store "s1" 5 Hok Hown)
    as (ps & st' & E & _ & _ & K & _ & _ & _ & _ & _ & R).
  exists st'. vm_compute in E. inversion E; subst ps st'. split; [reflexivity|].
  split; [exact K | apply R].
Defined.

Lemma memory_save_round_trip_witness :
  sessions_ok empty_store /\ memory_ids_own empty_store /\
  trim accented_note <> EmptyString /\ bmp accented_note /\
  String.length accented_note = 122%nat /\
  exists st' row,
    memory_save empty_store (Some accented_note) None None 7
    = Some (save_ok 1
              "éééééééééééééééééééééééééééééééééééééééééééééééééééééééééééé"
              "codexmem", st') /\
    getObservationById st' 1 = Some row /\
    oi_narrative (o_input row) = Some accented_note.
Proof.
  assert (Hok : sessions_ok empty_store).
  { split; [constructor|]. split; [constructor|]. intros s []. }
  assert (Hown : memory_ids_own empty_store) by (intros s x []).
  assert (Ht : trim accented_note <> EmptyString) by (vm_compute; discriminate).
  assert (Hb : bmp accented_note).
  { unfold bmp. apply List.Forall_forall. intros c Hc. vm_compute in Hc.
    repeat (destruct Hc as [<-|Hc]; [vm_compute; lia|]). destruct Hc. }
  split; [exact Hok|]. split; [exact Hown|]. split; [exact Ht|]. split; [exact Hb|].
  split; [reflexivity|].
  destruct (memory_save_round_trip empty_store accented_note None None 7 Hok Hown Ht
              (fun _ => Hb))
    as (id & st' & row & E & _ & G & _ & I & _).
  exists st', row. vm_compute in E.
  assert (Hid : id = 1).
  { destruct (memory_save empty_store (Some accented_note) None None 7)
      as [[resp st0]|] eqn:M; vm_compute in M; inversion M; subst. now inversion E. }
  subst id. split; [exact E|]. split; [exact G|]. now rewrite I.
Defined.

Lemma saveUserPrompt_round_trip_witness :
  getSessionByContentSessionId one_session "sess-c3" <> None /\
  exists id st',
    saveUserPrompt one_session "sess-c3" 1 "hello" 11 = Some (id, st') /\
    getUserPrompt st' "sess-c3" 1 = Some "hello"%string /\
    getPromptNumberFromUserPrompts st' "sess-c3" = 1.
Proof.
  assert (Hs : getSessionByContentSessionId one_session "sess-c3" <> None)
    by (vm_compute; discriminate).
  split; [exact Hs|].
  destruct (saveUserPrompt_round_trip one_session "sess-c3" "hello" 1 11) as [_ H].
  destruct (H Hs) as (id & st' & E & _ & Hc & _ & Hg & _).
  exists id, st'. split; [exact E|]. split; [exact Hg | exact Hc].
Defined.

(** ** Retention policies, access times and the cleanup *)

Lemma find_policy_map (g : PolicyRow -> PolicyRow) q rows :
  (forall r, rp_project (g r) = rp_project r) ->
  List.find (fun r => String.eqb (rp_project r) q) (map g rows)
  = option_map g (List.find (fun r => String.eqb (rp_project r) q) rows).
Proof.
  intros Hg. apply find_map_same. intros x. now rewrite Hg.
Qed.

Lemma find_policy_snoc q rows row :
  List.find (fun r => String.eqb (rp_project r) q) (rows ++ [row])
  = match List.find (fun r => String.eqb (rp_project r) q) rows with
    | Some r => Some r
    | None => if String.eqb (rp_project row) q then Some row else None
    end.
Proof.
  induction rows as [|a l IH]; simpl; [reflexivity|].
  destruct (String.eqb (rp_project a) q); [reflexivity | exact IH].
Qed.

(** What [upsertRetentionPolicy] leaves in the policy table. *)
Lemma upsertRetentionPolicy_policy st p policy atEpoch q :
  getProjectRetentionPolicy (upsertRetentionPolicy st p policy atEpoch) q
  = if String.eqb p q then
      mkRetentionPolicy
        (default (pol_enabled (getProjectRetentionPolicy st p)) (pi_enabled policy))
        (default (pol_pinned (getProjectRetentionPolicy st p)) (pi_pinned policy))
        (match pi_ttlDays policy with
         | None => pol_ttlDays (getProjectRetentionPolicy st p)
         | Some given => given
         end)
    else getProjectRetentionPolicy st q.
Proof.
  unfold getProjectRetentionPolicy, upsertRetentionPolicy.
  cbn [project_retention_policies with_policies].
  destruct (List.find (fun r => String.eqb (rp_project r) p) (project_retention_policies st))
    as [e|] eqn:E.
  - rewrite find_policy_map by (intros r; now destruct (String.eqb (rp_project r) p)).
    destruct (String.eqb p q) eqn:B.
    + apply String.eqb_eq in B. subst q. rewrite E. cbn [option_map].
      apply find_some in E as [_ Ep]. rewrite Ep. reflexivity.
    + destruct (List.find (fun r => String.eqb (rp_project r) q) _) as [r|] eqn:Eq;
        [|reflexivity].
      cbn [option_map]. apply find_some in Eq as [_ Er]. apply String.eqb_eq in Er.
      assert (Hne : String.eqb (rp_project r) p = false).
      { apply String.eqb_neq. intros Hp. apply String.eqb_neq in B. congruence. }
      now rewrite Hne.
  - rewrite find_policy_snoc. cbn [rp_project].
    destruct (String.eqb p q) eqn:B.
    + apply String.eqb_eq in B. subst q. rewrite E. reflexivity.
    + now destruct (List.find (fun r => String.eqb (rp_project r) q) _).
Qed.

(** X13: A retention policy reads back as written.  After
    [upsertRetentionPolicy] the policy of the project holds the fields given
    and, for the fields left out, the values it had before (the defaults
    enabled, not pinned, no TTL when there was no policy); the policies of
    the other projects and every other table are as before; and project
    names stay unique in the policy table. *)
Theorem upsertRetentionPolicy_round_trip (st : Store) (p : string)
    (policy : RetentionPolicyInput) (atEpoch : Z) :
  let st' := upsertRetentionPolicy st p policy atEpoch in
  let old := getProjectRetentionPolicy st p in
  getProjectRetentionPolicy st' p
  = mkRetentionPolicy (default (pol_enabled old) (pi_enabled policy))
      (default (pol_pinned old) (pi_pinned policy))
      (match pi_ttlDays policy with None => pol_ttlDays old | Some given => given end) /\
  (forall q, q <> p -> getProjectRetentionPolicy st' q = getProjectRetentionPolicy st q) /\
  (List.NoDup (map rp_project (project_retention_policies st)) ->
   List.NoDup (map rp_project (project_retention_policies st'))) /\
  st' = with_policies st (project_retention_policies st').
Proof.
  intros st' old. subst st' old. split; [|split; [|split]].
  - rewrite upsertRetentionPolicy_policy. now rewrite String.eqb_refl.
  - intros q Hq. rewrite upsertRetentionPolicy_policy.
    destruct (String.eqb p q) eqn:B; [|reflexivity]. apply String.eqb_eq in B. congruence.
  - intros Hnd. unfold upsertRetentionPolicy. cbn [project_retention_policies with_policies].
    destruct (List.find _ _) as [e|] eqn:E.
    + rewrite map_map.
      erewrite map_ext; [exact Hnd|]. intros r. now destruct (String.eqb (rp_project r) p).
    + rewrite map_app. cbn [map rp_project]. apply NoDup_snoc; [exact Hnd|].
      intros Hin. apply in_map_iff in Hin as (r & Hr & Hin).
      apply find_none_existsb in E.
      assert (Hex : existsb (fun r => String.eqb (rp_project r) p) (project_retention_policies st)
                    = true).
      { apply existsb_exists. exists r. split; [exact Hin|]. now apply String.eqb_eq. }
      congruence.
  - reflexivity.
Qed.

(** X14: [POST /api/ops/retention/policies] stores the policy under the
    trimmed project name.  A blank project or a TTL that is not positive is
    refused and leaves the store as it was.  An accepted request sets
    [enabled] and [pinned] where given and keeps them where left out, and
    sets the TTL to the number given, clearing a stored TTL when the
    request has none. *)
Theorem retention_policies_post_stores_policy (st : Store) (project : option string)
    (enabled pinned : option bool) (ttlDays : option Z) (now : Z) :
  let response := fst (retention_policies_post st project enabled pinned ttlDays now) in
  let st' := snd (retention_policies_post st project enabled pinned ttlDays now) in
  (forall message, response = policy_bad_request message -> st' = st) /\
  (forall p, truthy_string project = Some p -> trim p = EmptyString ->
             exists message, response = policy_bad_request message) /\
  (forall t, ttlDays = Some t -> t <= 0 -> exists message, response = policy_bad_request message) /\
  (forall q, response = policy_saved q ->
     q <> EmptyString /\
     (exists p, project = Some p /\ q = trim p) /\
     (forall t, ttlDays = Some t -> 0 < t) /\
     getProjectRetentionPolicy st' q
     = mkRetentionPolicy
         (default (pol_enabled (getProjectRetentionPolicy st q)) enabled)
         (default (pol_pinned (getProjectRetentionPolicy st q)) pinned)
         ttlDays /\
     forall q', q' <> q -> getProjectRetentionPolicy st' q' = getProjectRetentionPolicy st q').
Proof.
  intros response st'. subst response st'. unfold retention_policies_post.
  destruct (truthy_string project) as [p|] eqn:Tp.
  2:{ split; [intros m _; reflexivity|]. split; [discriminate|].
      split; [intros; eexists; reflexivity | discriminate]. }
  destruct (nonempty (trim p)) eqn:Np; cbn [negb].
  2:{ split; [intros m _; reflexivity|]. split; [intros; eexists; reflexivity|].
      split; [intros; eexists; reflexivity | discriminate]. }
  assert (Hq : trim p <> EmptyString).
  { intros Hq. unfold nonempty in Np. now rewrite Hq in Np. }
  assert (Hproj : project = Some p).
  { unfold truthy_string in Tp. destruct project as [x|]; [|discriminate].
    destruct (String.eqb x EmptyString); [discriminate | exact Tp]. }
  destruct ttlDays as [t|].
  - destruct (t <=? 0) eqn:Ht; cbn [fst snd].
    + split; [intros m _; reflexivity|].
      split; [intros p0 Hp0 Hb; inversion Hp0; subst; contradiction|].
      split; [intros; eexists; reflexivity | discriminate].
    + apply Z.leb_gt in Ht.
      split; [discriminate|].
      split; [intros p0 Hp0 Hb; inversion Hp0; subst; contradiction|].
      split; [intros t0 Ht0; inversion Ht0; subst; lia|].
      intros q Hsaved. inversion Hsaved; subst q. split; [exact Hq|].
      split; [now exists p|]. split; [intros t0 Ht0; inversion Ht0; subst; lia|].
      split.
      * rewrite upsertRetentionPolicy_policy, String.eqb_refl. reflexivity.
      * intros q' Hne. rewrite upsertRetentionPolicy_policy.
        destruct (String.eqb (trim p) q') eqn:B; [|reflexivity].
        apply String.eqb_eq in B. congruence.
  - cbn [fst snd]. split; [discriminate|].
    split; [intros p0 Hp0 Hb; inversion Hp0; subst; contradiction|].
    split; [discriminate|].
    intros q Hsaved. inversion Hsaved; subst q. split; [exact Hq|].
    split; [now exists p|]. split; [discriminate|]. split.
    + rewrite upsertRetentionPolicy_policy, String.eqb_refl. reflexivity.
    + intros q' Hne. rewrite upsertRetentionPolicy_policy.
      destruct (String.eqb (trim p) q') eqn:B; [|reflexivity].
      apply String.eqb_eq in B. congruence.
Qed.

Lemma retention_step_spared dryRun nowEpoch defaultTtl report p st st' :
  spared nowEpoch defaultTtl st p = true ->
  same_for p st st' ->
  snd (retention_step dryRun nowEpoch defaultTtl (report, st') p) = st'.
Proof.
  intros Hsp Hsame. rewrite retention_step_store.
  rewrite (same_for_policy p st st' Hsame), (same_for_last_access p st st' Hsame).
  unfold spared in Hsp.
  destruct (pol_pinned _); [reflexivity|].
  destruct (negb (pol_enabled _)); [reflexivity|].
  cbn [orb] in Hsp. now rewrite Hsp.
Qed.

Lemma fold_spared dryRun nowEpoch defaultTtl p st :
  List.NoDup (map s_content_session_id (sdk_sessions st)) ->
  spared nowEpoch defaultTtl st p = true ->
  forall l acc,
    same_for p st (snd acc) ->
    same_for p st (snd (fold_left (retention_step dryRun nowEpoch defaultTtl) l acc)).
Proof.
  intros Hnd Hsp. induction l as [|q l IH]; intros [report st'] Hsame; [exact Hsame|].
  cbn [snd] in Hsame. cbn [fold_left]. apply IH.
  destruct (string_dec q p) as [->|Hne].
  - now rewrite (retention_step_spared dryRun nowEpoch defaultTtl report p st st' Hsp Hsame).
  - now apply retention_step_other.
Qed.

Lemma runRetentionCleanup_store st options now :
  snd (runRetentionCleanup st options now)
  = if co_dryRun options then snd (cleanup_loop st options now)
    else hard_delete_pass (hardDeleteCutoff options now) (snd (cleanup_loop st options now)).
Proof.
  unfold runRetentionCleanup, cleanup_loop, hardDeleteCutoff, hard_delete_pass.
  destruct (fold_left _ _ _) as [report1 st1]. reflexivity.
Qed.

Lemma in_hard_delete_pass cutoff st :
  (forall o, In o (observations (hard_delete_pass cutoff st))
             <-> In o (observations st) /\ past_grace cutoff o = false) /\
  (forall x, In x (session_summaries (hard_delete_pass cutoff st))
             <-> In x (session_summaries st) /\ past_grace cutoff x = false) /\
  (forall up, In up (user_prompts (hard_delete_pass cutoff st))
              <-> In up (user_prompts st) /\ past_grace cutoff up = false).
Proof.
  unfold hard_delete_pass.
  cbn [observations session_summaries user_prompts with_observations with_summaries with_prompts].
  split; [|split]; intros r; rewrite filter_In, negb_true_iff; reflexivity.
Qed.

Lemma live_not_past_grace {A} `{MemoryRow A} (r : A) cutoff :
  row_deleted r = None -> past_grace cutoff r = false.
Proof. intros Hr. unfold past_grace. now rewrite Hr. Qed.

(** The rows of a project the loop passes by, after the whole cleanup. *)
Lemma cleanup_spared st options now p :
  List.NoDup (map s_content_session_id (sdk_sessions st)) ->
  spared (default now (co_nowEpoch options)) (Z.max 1 (co_defaultTtlDays options)) st p = true ->
  let st' := snd (runRetentionCleanup st options now) in
  (forall o, In o (observations st) -> o_project o = p -> o_deleted_at_epoch o = None ->
             In o (observations st')) /\
  (forall x, In x (session_summaries st) -> ss_project x = p -> ss_deleted_at_epoch x = None ->
             In x (session_summaries st')) /\
  (forall up, In up (user_prompts st) -> prompt_in_project st p up = true ->
              up_deleted_at_epoch up = None -> In up (user_prompts st')) /\
  (forall o, In o (observations st') -> o_project o = p -> In o (observations st)) /\
  (forall x, In x (session_summaries st') -> ss_project x = p -> In x (session_summaries st)) /\
  (forall up, In up (user_prompts st') -> prompt_in_project st p up = true ->
              In up (user_prompts st)).
Proof.
  intros Hnd Hsp st'. subst st'. rewrite runRetentionCleanup_store.
  pose proof (fold_spared (co_dryRun options) (default now (co_nowEpoch options))
                (Z.max 1 (co_defaultTtlDays options)) p st Hnd Hsp (listRetentionProjects st)
                (mkReport (co_dryRun options) (default now (co_nowEpoch options))
                   (Z.max 1 (co_defaultTtlDays options)) (Z.max 1 (co_softDeleteDays options))
                   (Z.of_nat (List.length (listRetentionProjects st))) 0 0 0 0 0 0 0 0 0 [], st)
                (same_for_refl p st)) as Hsame.
  change (fold_left _ _ _) with (cleanup_loop st options now) in Hsame.
  set (st1 := snd (cleanup_loop st options now)) in *.
  destruct Hsame as (_ & _ & _ & Ho & Hx & Hu).
  assert (Ho' : forall o, o_project o = p -> In o (observations st1) <-> In o (observations st)).
  { intros o Hp. split; intros Hin.
    - assert (H : In o (List.filter (fun o => String.eqb (o_project o) p) (observations st1)))
        by (apply filter_In; split; [exact Hin | now apply String.eqb_eq]).
      rewrite Ho in H. now apply filter_In in H.
    - assert (H : In o (List.filter (fun o => String.eqb (o_project o) p) (observations st)))
        by (apply filter_In; split; [exact Hin | now apply String.eqb_eq]).
      rewrite <- Ho in H. now apply filter_In in H. }
  assert (Hx' : forall x, ss_project x = p ->
                          In x (session_summaries st1) <-> In x (session_summaries st)).
  { intros x Hp. split; intros Hin.
    - assert (H : In x (List.filter (fun x => String.eqb (ss_project x) p)
                          (session_summaries st1)))
        by (apply filter_In; split; [exact Hin | now apply String.eqb_eq]).
      rewrite Hx in H. now apply filter_In in H.
    - assert (H : In x (List.filter (fun x => String.eqb (ss_project x) p)
                          (session_summaries st)))
        by (apply filter_In; split; [exact Hin | now apply String.eqb_eq]).
      rewrite <- Hx in H. now apply filter_In in H. }
  assert (Hu' : forall up, prompt_in_project st p up = true ->
                           In up (user_prompts st1) <-> In up (user_prompts st)).
  { intros up Hp. split; intros Hin.
    - assert (H : In up (List.filter (prompt_in_project st p) (user_prompts st1)))
        by (apply filter_In; now split).
      rewrite Hu in H. now apply filter_In in H.
    - assert (H : In up (List.filter (prompt_in_project st p) (user_prompts st)))
        by (apply filter_In; now split).
      rewrite <- Hu in H. now apply filter_In in H. }
  destruct (co_dryRun options).
  - split; [|split; [|split; [|split; [|split]]]]; intros r Hin Hp; try intros _;
      first [now apply Ho' | now apply Hx' | now apply Hu'].
  - destruct (in_hard_delete_pass (hardDeleteCutoff options now) st1) as (S1 & S2 & S3).
    split; [|split; [|split; [|split; [|split]]]].
    + intros o Hin Hp Hd. apply S1. split; [now apply Ho'|].
      now apply (live_not_past_grace (H := ObservationRow_MemoryRow)).
    + intros x Hin Hp Hd. apply S2. split; [now apply Hx'|].
      now apply (live_not_past_grace (H := SummaryRow_MemoryRow)).
    + intros up Hin Hp Hd. apply S3. split; [now apply Hu'|].
      now apply (live_not_past_grace (H := PromptRow_MemoryRow)).
    + intros o Hin Hp. apply S1 in Hin as [Hin _]. now apply Ho'.
    + intros x Hin Hp. apply S2 in Hin as [Hin _]. now apply Hx'.
    + intros up Hin Hp. apply S3 in Hin as [Hin _]. now apply Hu'.
Qed.

Lemma retention_step_dry nowEpoch defaultTtl report st q :
  snd (retention_step true nowEpoch defaultTtl (report, st) q) = st.
Proof.
  rewrite retention_step_store.
  destruct (pol_pinned _); [reflexivity|].
  destruct (negb (pol_enabled _)); [reflexivity|].
  now destruct (negb (is_expired _ _ _)).
Qed.

Lemma fold_dry nowEpoch defaultTtl l :
  forall report st,
    snd (fold_left (retention_step true nowEpoch defaultTtl) l (report, st)) = st.
Proof.
  induction l as [|q l IH]; intros report st; [reflexivity|].
  cbn [fold_left]. pose proof (retention_step_dry nowEpoch defaultTtl report st q) as H.
  destruct (retention_step true nowEpoch defaultTtl (report, st) q) as [r' s'].
  cbn [snd] in H. subst s'. apply IH.
Qed.

Lemma NoDup_uniq_first xs : List.NoDup (uniq_first xs).
Proof.
  induction xs as [|x xs IH]; simpl; [constructor|].
  constructor.
  - intros Hin. apply filter_In in Hin as [_ Hb]. now rewrite String.eqb_refl in Hb.
  - now apply List.NoDup_filter.
Qed.

Lemma same_for_counts p st st' :
  same_for p st st' ->
  count_of (fun o => String.eqb (o_project o) p && live o) (observations st')
  = count_of (fun o => String.eqb (o_project o) p && live o) (observations st) /\
  count_of (fun x => String.eqb (ss_project x) p && live x) (session_summaries st')
  = count_of (fun x => String.eqb (ss_project x) p && live x) (session_summaries st) /\
  count_of (fun us => String.eqb (s_project (snd us)) p && live (fst us))
    (prompts_join_sessions st')
  = count_of (fun us => String.eqb (s_project (snd us)) p && live (fst us))
      (prompts_join_sessions st).
Proof.
  intros (Hs & _ & _ & Ho & Hx & Hp). unfold count_of.
  rewrite !(filter_andb (fun o => String.eqb (o_project o) p)).
  rewrite !(filter_andb (fun x => String.eqb (ss_project x) p)).
  rewrite Ho, Hx. split; [reflexivity|]. split; [reflexivity|].
  unfold prompts_join_sessions. rewrite Hs. rewrite !join_of_project.
  unfold prompt_in_project in Hp. now rewrite Hp.
Qed.

(** A turn of the execute loop reports what the dry turn reports, as long
    as the project's rows are as they were at the start. *)
Lemma retention_step_report nowEpoch defaultTtl rd st se q :
  same_for q st se ->
  fst (retention_step false nowEpoch defaultTtl (report_as_execute rd, se) q)
  = report_as_execute (fst (retention_step true nowEpoch defaultTtl (rd, st) q)).
Proof.
  intros Hsame. unfold retention_step.
  rewrite (same_for_policy q st se Hsame), (same_for_last_access q st se Hsame).
  destruct (same_for_counts q st se Hsame) as (-> & -> & ->).
  destruct (pol_pinned _); [reflexivity|].
  destruct (negb (pol_enabled _)); [reflexivity|].
  destruct (negb (is_expired _ _ _)); reflexivity.
Qed.

Lemma count_of_map {A} (f : A -> bool) (g : A -> A) l :
  (forall x, f (g x) = f x) -> count_of f (map g l) = count_of f l.
Proof.
  intros H. unfold count_of. induction l as [|a l IH]; [reflexivity|].
  cbn [map List.filter]. rewrite H. destruct (f a); cbn [List.length]; lia.
Qed.

(** The rows past the grace window, counted per table. *)
Lemma soft_delete_past_grace cutoff st q nowEpoch :
  cutoff < nowEpoch ->
  count_of (past_grace cutoff) (observations (soft_delete_project st q nowEpoch))
  = count_of (past_grace cutoff) (observations st) /\
  count_of (past_grace cutoff) (session_summaries (soft_delete_project st q nowEpoch))
  = count_of (past_grace cutoff) (session_summaries st) /\
  count_of (past_grace cutoff) (user_prompts (soft_delete_project st q nowEpoch))
  = count_of (past_grace cutoff) (user_prompts st).
Proof.
  intros Hlt. unfold soft_delete_project.
  cbn [observations session_summaries user_prompts with_observations with_summaries
       with_prompts].
  assert (Hnow : (nowEpoch <=? cutoff) = false) by (apply Z.leb_gt; exact Hlt).
  split; [|split]; apply count_of_map; intros r.
  - unfold live, past_grace. cbn [row_deleted ObservationRow_MemoryRow].
    destruct (o_deleted_at_epoch r) eqn:Hd;
      [now rewrite andb_false_r, Hd|].
    destruct (String.eqb (o_project r) q); cbn [andb]; [|now rewrite Hd].
    cbn. exact Hnow.
  - unfold live, past_grace. cbn [row_deleted SummaryRow_MemoryRow].
    destruct (ss_deleted_at_epoch r) eqn:Hd;
      [now rewrite andb_false_r, Hd|].
    destruct (String.eqb (ss_project r) q); cbn [andb]; [|now rewrite Hd].
    cbn. exact Hnow.
  - unfold live, past_grace. cbn [row_deleted PromptRow_MemoryRow].
    destruct (up_deleted_at_epoch r) eqn:Hd; cbn [andb]; [now rewrite Hd|].
    destruct (prompt_in_project st q r); [|now rewrite Hd]. cbn. exact Hnow.
Qed.

Lemma retention_step_past_grace cutoff dryRun nowEpoch defaultTtl report st q :
  cutoff < nowEpoch ->
  let st' := snd (retention_step dryRun nowEpoch defaultTtl (report, st) q) in
  count_of (past_grace cutoff) (observations st') = count_of (past_grace cutoff) (observations st) /\
  count_of (past_grace cutoff) (session_summaries st')
  = count_of (past_grace cutoff) (session_summaries st) /\
  count_of (past_grace cutoff) (user_prompts st') = count_of (past_grace cutoff) (user_prompts st).
Proof.
  intros Hlt st'. subst st'. rewrite retention_step_store.
  destruct (pol_pinned _); [repeat split|].
  destruct (negb (pol_enabled _)); [repeat split|].
  destruct (negb (is_expired _ _ _)); [repeat split|].
  destruct dryRun; [repeat split | now apply soft_delete_past_grace].
Qed.

(** The execute loop next to the dry loop. *)
Lemma fold_report nowEpoch defaultTtl cutoff st :
  List.NoDup (map s_content_session_id (sdk_sessions st)) ->
  cutoff < nowEpoch ->
  forall l rd se,
    List.NoDup l ->
    (forall q, In q l -> same_for q st se) ->
    count_of (past_grace cutoff) (observations se) = count_of (past_grace cutoff) (observations st) ->
    count_of (past_grace cutoff) (session_summaries se)
    = count_of (past_grace cutoff) (session_summaries st) ->
    count_of (past_grace cutoff) (user_prompts se)
    = count_of (past_grace cutoff) (user_prompts st) ->
    let exec := fold_left (retention_step false nowEpoch defaultTtl) l
                  (report_as_execute rd, se) in
    let dry := fold_left (retention_step true nowEpoch defaultTtl) l (rd, st) in
    fst exec = report_as_execute (fst dry) /\
    count_of (past_grace cutoff) (observations (snd exec))
    = count_of (past_grace cutoff) (observations st) /\
    count_of (past_grace cutoff) (session_summaries (snd exec))
    = count_of (past_grace cutoff) (session_summaries st) /\
    count_of (past_grace cutoff) (user_prompts (snd exec))
    = count_of (past_grace cutoff) (user_prompts st).
Proof.
  intros Hnd Hlt. induction l as [|q l IH]; intros rd se Hl Hsame C1 C2 C3.
  - cbn. repeat split; assumption.
  - cbn [fold_left]. inversion Hl as [|? ? Hq Hl']; subst.
    pose proof (retention_step_report nowEpoch defaultTtl rd st se q
                  (Hsame q (or_introl eq_refl))) as Hrep.
    pose proof (retention_step_dry nowEpoch defaultTtl rd st q) as Hdry.
    destruct (retention_step_past_grace cutoff false nowEpoch defaultTtl
                (report_as_execute rd) se q Hlt) as (P1 & P2 & P3).
    assert (Hsame' : forall q', In q' l ->
              same_for q' st (snd (retention_step false nowEpoch defaultTtl
                                     (report_as_execute rd, se) q))).
    { intros q' Hin. apply retention_step_other; [|exact Hnd|].
      - intros ->. contradiction.
      - apply Hsame. now right. }
    destruct (retention_step false nowEpoch defaultTtl (report_as_execute rd, se) q)
      as [re' se'].
    destruct (retention_step true nowEpoch defaultTtl (rd, st) q) as [rd' sd'].
    cbn [fst snd] in *. subst re' sd'.
    apply IH; [exact Hl' | exact Hsame' | congruence | congruence | congruence].
Qed.

(** X15: A dry run changes nothing and predicts the execute call.  With
    [dryRun] set, [runRetentionCleanup] returns the store as it was; and,
    external session ids being unique, the report of the execute call with
    the same options on the same store is the dry run's report with the
    [dryRun] flag cleared: the same projects scanned and skipped, the same
    details and the same soft- and hard-delete counts. *)
Theorem runRetentionCleanup_dry_run_predicts (st : Store) (options : RetentionCleanupOptions)
    (now : Z) :
  co_dryRun options = true ->
  snd (runRetentionCleanup st options now) = st /\
  (List.NoDup (map s_content_session_id (sdk_sessions st)) ->
   fst (runRetentionCleanup st (as_execute options) now)
   = report_as_execute (fst (runRetentionCleanup st options now))).
Proof.
  intros Hdry. split.
  - rewrite runRetentionCleanup_store, Hdry. unfold cleanup_loop. rewrite Hdry. apply fold_dry.
  - intros Hnd. unfold runRetentionCleanup, as_execute.
    cbn [co_dryRun co_nowEpoch co_defaultTtlDays co_softDeleteDays]. rewrite Hdry.
    set (nowEpoch := default now (co_nowEpoch options)).
    set (ttl := Z.max 1 (co_defaultTtlDays options)).
    set (cutoff := nowEpoch - Z.max 1 (co_softDeleteDays options) * DAY_MS).
    assert (Hlt : cutoff < nowEpoch) by (unfold cutoff; pose proof DAY_MS_pos; nia).
    set (rd0 := mkReport true nowEpoch ttl (Z.max 1 (co_softDeleteDays options))
                  (Z.of_nat (List.length (listRetentionProjects st))) 0 0 0 0 0 0 0 0 0 []).
    destruct (fold_report nowEpoch ttl cutoff st Hnd Hlt (listRetentionProjects st) rd0 st
                (NoDup_sort_names _ (NoDup_uniq_first _)) (fun q _ => same_for_refl q st)
                eq_refl eq_refl eq_refl)
      as (Hrep & C1 & C2 & C3).
    pose proof (fold_dry nowEpoch ttl (listRetentionProjects st) rd0 st) as Hst.
    change (report_as_execute rd0)
      with (mkReport false nowEpoch ttl (Z.max 1 (co_softDeleteDays options))
              (Z.of_nat (List.length (listRetentionProjects st))) 0 0 0 0 0 0 0 0 0 [])
      in Hrep, C1, C2, C3.
    destruct (fold_left (retention_step false nowEpoch ttl) _ _) as [re se].
    destruct (fold_left (retention_step true nowEpoch ttl) _ _) as [rd sd].
    cbn [fst snd] in *. subst re sd. rewrite C1, C2, C3. reflexivity.
Qed.

(** X16: The cleanup passes by every project that is pinned, disabled or
    not yet expired.  External session ids being unique, the rows of such a
    project are, after a dry run as after an execute call, the rows it had:
    every live observation, summary and prompt of the project is still in
    the store as it was, and no row of the project has been altered. *)
Theorem runRetentionCleanup_spares_project (st : Store) (options : RetentionCleanupOptions)
    (now : Z) (p : string) :
  List.NoDup (map s_content_session_id (sdk_sessions st)) ->
  let nowEpoch := default now (co_nowEpoch options) in
  let policy := getProjectRetentionPolicy st p in
  let ttlDays := effective_ttl policy (Z.max 1 (co_defaultTtlDays options)) in
  pol_pinned policy = true \/ pol_enabled policy = false \/
  (exists e, getProjectLastAccessEpoch st p = Some e /\ nowEpoch - e < ttlDays * DAY_MS) ->
  let st' := snd (runRetentionCleanup st options now) in
  (forall o, In o (observations st) -> o_project o = p -> o_deleted_at_epoch o = None ->
             In o (observations st')) /\
  (forall x, In x (session_summaries st) -> ss_project x = p -> ss_deleted_at_epoch x = None ->
             In x (session_summaries st')) /\
  (forall up, In up (user_prompts st) -> prompt_in_project st p up = true ->
              up_deleted_at_epoch up = None -> In up (user_prompts st')) /\
  (forall o, In o (observations st') -> o_project o = p -> In o (observations st)) /\
  (forall x, In x (session_summaries st') -> ss_project x = p -> In x (session_summaries st)) /\
  (forall up, In up (user_prompts st') -> prompt_in_project st p up = true ->
              In up (user_prompts st)).
Proof.
  intros Hnd nowEpoch policy ttlDays Hcase. apply cleanup_spared; [exact Hnd|].
  unfold spared. fold nowEpoch policy ttlDays.
  destruct Hcase as [-> | [-> | (e & -> & Hlt)]];
    [reflexivity | now destruct (pol_pinned policy) |].
  cbn [is_expired]. apply orb_true_iff. right. apply negb_true_iff, Z.leb_gt. exact Hlt.
Qed.

(** X17: Pinning protects a project.  Once a policy with [pinned] set was
    written for a project, whatever its other fields and whatever the
    options and the time of the cleanup, every live observation, summary and
    prompt of the project is still in the store after the cleanup,
    unchanged. *)
Theorem pinned_project_survives_cleanup (st : Store) (p : string)
    (policy : RetentionPolicyInput) (atEpoch : Z) (options : RetentionCleanupOptions)
    (now : Z) :
  List.NoDup (map s_content_session_id (sdk_sessions st)) ->
  pi_pinned policy = Some true ->
  let st' := snd (runRetentionCleanup (upsertRetentionPolicy st p policy atEpoch) options now) in
  (forall o, In o (observations st) -> o_project o = p -> o_deleted_at_epoch o = None ->
             In o (observations st')) /\
  (forall x, In x (session_summaries st) -> ss_project x = p -> ss_deleted_at_epoch x = None ->
             In x (session_summaries st')) /\
  (forall up, In up (user_prompts st) -> prompt_in_project st p up = true ->
              up_deleted_at_epoch up = None -> In up (user_prompts st')).
Proof.
  intros Hnd Hpin st'.
  destruct (cleanup_spared (upsertRetentionPolicy st p policy atEpoch) options now p)
    as (H1 & H2 & H3 & _); [exact Hnd | | ].
  - unfold spared. rewrite upsertRetentionPolicy_policy, String.eqb_refl.
    cbn [pol_pinned]. now rewrite Hpin.
  - split; [exact H1|]. split; [exact H2 | exact H3].
Qed.

Lemma length_filter_negb {A} (f : A -> bool) l :
  Z.of_nat (List.length (List.filter (fun x => negb (f x)) l))
  = Z.of_nat (List.length l) - count_of f l.
Proof.
  unfold count_of. induction l as [|a l IH]; [reflexivity|].
  cbn [List.filter]. destruct (f a); cbn [negb List.length]; lia.
Qed.

Lemma retention_step_lengths dryRun nowEpoch defaultTtl report st q :
  let st' := snd (retention_step dryRun nowEpoch defaultTtl (report, st) q) in
  List.length (observations st') = List.length (observations st) /\
  List.length (session_summaries st') = List.length (session_summaries st) /\
  List.length (user_prompts st') = List.length (user_prompts st).
Proof.
  intros st'. subst st'. rewrite retention_step_store.
  destruct (pol_pinned _); [repeat split|].
  destruct (negb (pol_enabled _)); [repeat split|].
  destruct (negb (is_expired _ _ _)); [repeat split|].
  destruct dryRun; [repeat split|]. unfold soft_delete_project.
  cbn [observations session_summaries user_prompts with_observations with_summaries
       with_prompts].
  now rewrite !length_map.
Qed.

Lemma fold_size cutoff dryRun nowEpoch defaultTtl :
  cutoff < nowEpoch ->
  forall l acc,
    let st' := snd (fold_left (retention_step dryRun nowEpoch defaultTtl) l acc) in
    (List.length (observations st') = List.length (observations (snd acc)) /\
     List.length (session_summaries st') = List.length (session_summaries (snd acc)) /\
     List.length (user_prompts st') = List.length (user_prompts (snd acc))) /\
    (count_of (past_grace cutoff) (observations st')
     = count_of (past_grace cutoff) (observations (snd acc)) /\
     count_of (past_grace cutoff) (session_summaries st')
     = count_of (past_grace cutoff) (session_summaries (snd acc)) /\
     count_of (past_grace cutoff) (user_prompts st')
     = count_of (past_grace cutoff) (user_prompts (snd acc))).
Proof.
  intros Hlt. induction l as [|q l IH]; intros [report st]; [cbn; tauto|].
  cbn [fold_left].
  destruct (retention_step_lengths dryRun nowEpoch defaultTtl report st q) as (L1 & L2 & L3).
  destruct (retention_step_past_grace cutoff dryRun nowEpoch defaultTtl report st q Hlt)
    as (P1 & P2 & P3).
  specialize (IH (retention_step dryRun nowEpoch defaultTtl (report, st) q)).
  cbn [snd] in *. destruct IH as ((I1 & I2 & I3) & (J1 & J2 & J3)).
  repeat split; congruence.
Qed.

(** X18: The hard-delete pass of an execute call removes exactly the rows
    whose soft-delete mark is at or before the cutoff [nowEpoch -
    softDeleteDays * DAY_MS].  Afterwards no table holds such a row; a row
    soft-deleted after the cutoff is still there, unchanged; the three
    hard-delete counts of the report are the numbers of such rows the store
    had when the call began, and each table is shorter by that number. *)
Theorem runRetentionCleanup_hard_deletes_past_grace (st : Store)
    (options : RetentionCleanupOptions) (now : Z) :
  co_dryRun options = false ->
  let cutoff := hardDeleteCutoff options now in
  let report := fst (runRetentionCleanup st options now) in
  let st' := snd (runRetentionCleanup st options now) in
  ((forall o, In o (observations st') -> past_grace cutoff o = false) /\
   (forall x, In x (session_summaries st') -> past_grace cutoff x = false) /\
   (forall up, In up (user_prompts st') -> past_grace cutoff up = false)) /\
  ((forall o d, In o (observations st) -> o_deleted_at_epoch o = Some d -> cutoff < d ->
                In o (observations st')) /\
   (forall x d, In x (session_summaries st) -> ss_deleted_at_epoch x = Some d -> cutoff < d ->
                In x (session_summaries st')) /\
   (forall up d, In up (user_prompts st) -> up_deleted_at_epoch up = Some d -> cutoff < d ->
                 In up (user_prompts st'))) /\
  (r_hardDeletedObservations report = count_of (past_grace cutoff) (observations st) /\
   r_hardDeletedSummaries report = count_of (past_grace cutoff) (session_summaries st) /\
   r_hardDeletedPrompts report = count_of (past_grace cutoff) (user_prompts st)) /\
  (Z.of_nat (List.length (observations st'))
   = Z.of_nat (List.length (observations st)) - r_hardDeletedObservations report /\
   Z.of_nat (List.length (session_summaries st'))
   = Z.of_nat (List.length (session_summaries st)) - r_hardDeletedSummaries report /\
   Z.of_nat (List.length (user_prompts st'))
   = Z.of_nat (List.length (user_prompts st)) - r_hardDeletedPrompts report).
Proof.
  intros Hexec cutoff report st'.
  assert (Hlt : cutoff < default now (co_nowEpoch options)).
  { unfold cutoff, hardDeleteCutoff. pose proof DAY_MS_pos. nia. }
  assert (Hst : st' = hard_delete_pass cutoff (snd (cleanup_loop st options now))).
  { unfold st'. now rewrite runRetentionCleanup_store, Hexec. }
  assert (Hrep : r_hardDeletedObservations report
                 = count_of (past_grace cutoff) (observations (snd (cleanup_loop st options now)))
                 /\ r_hardDeletedSummaries report
                 = count_of (past_grace cutoff)
                     (session_summaries (snd (cleanup_loop st options now)))
                 /\ r_hardDeletedPrompts report
                 = count_of (past_grace cutoff) (user_prompts (snd (cleanup_loop st options now)))).
  { unfold report, runRetentionCleanup, cleanup_loop, cutoff, hardDeleteCutoff.
    destruct (fold_left _ _ _) as [report1 st1]. repeat split. }
  pose proof (fold_size cutoff (co_dryRun options) (default now (co_nowEpoch options))
                (Z.max 1 (co_defaultTtlDays options)) Hlt (listRetentionProjects st)
                (mkReport (co_dryRun options) (default now (co_nowEpoch options))
                   (Z.max 1 (co_defaultTtlDays options)) (Z.max 1 (co_softDeleteDays options))
                   (Z.of_nat (List.length (listRetentionProjects st))) 0 0 0 0 0 0 0 0 0 [], st))
    as Hsize.
  destruct (fold_keeps_deleted (co_dryRun options) (default now (co_nowEpoch options))
              (Z.max 1 (co_defaultTtlDays options)) (listRetentionProjects st)
              (mkReport (co_dryRun options) (default now (co_nowEpoch options))
                 (Z.max 1 (co_defaultTtlDays options)) (Z.max 1 (co_softDeleteDays options))
                 (Z.of_nat (List.length (listRetentionProjects st))) 0 0 0 0 0 0 0 0 0 [], st))
    as (K1 & K2 & K3).
  change (fold_left _ _ _) with (cleanup_loop st options now) in Hsize, K1, K2, K3.
  set (st1 := snd (cleanup_loop st options now)) in *. cbn [snd] in Hsize, K1, K2, K3.
  destruct Hsize as ((L1 & L2 & L3) & (C1 & C2 & C3)).
  destruct Hrep as (R1 & R2 & R3).
  destruct (in_hard_delete_pass cutoff st1) as (S1 & S2 & S3).
  rewrite Hst. split; [|split; [|split]].
  - split; [|split]; intros r Hr; [apply S1 in Hr | apply S2 in Hr | apply S3 in Hr]; tauto.
  - split; [|split].
    + intros o d Ho Hd Hc. apply S1. split; [apply K1; [exact Ho | congruence]|].
      unfold past_grace. cbn. rewrite Hd. now apply Z.leb_gt.
    + intros x d Hx Hd Hc. apply S2. split; [apply K2; [exact Hx | congruence]|].
      unfold past_grace. cbn. rewrite Hd. now apply Z.leb_gt.
    + intros up d Hu Hd Hc. apply S3. split; [apply K3; [exact Hu | congruence]|].
      unfold past_grace. cbn. rewrite Hd. now apply Z.leb_gt.
  - rewrite R1, R2, R3. now rewrite C1, C2, C3.
  - unfold hard_delete_pass.
    cbn [observations session_summaries user_prompts with_observations with_summaries
         with_prompts].
    rewrite !length_filter_negb, R1, R2, R3, L1, L2, L3. repeat split.
Qed.

Lemma max_of_ge xs x : In x xs -> exists m, max_of xs = Some m /\ x <= m.
Proof.
  induction xs as [|a l IH]; intros Hin; [destruct Hin|].
  unfold max_of in *. cbn [fold_right]. destruct Hin as [->|Hin].
  - destruct (fold_right _ None l) as [y|]; eexists; split; try reflexivity; lia.
  - destruct (IH Hin) as (m & -> & Hm). eexists. split; [reflexivity|]. lia.
Qed.

Lemma touch_one_keeps p q t rows : refreshed p t rows -> refreshed p t (touch_one t rows q).
Proof.
  intros (a & Ha & Hp & Ht). unfold touch_one.
  destruct (existsb _ rows).
  - destruct (String.eqb (a_project a) q) eqn:B.
    + exists (mkActivityRow (a_project a)
                (if a_last_accessed_at_epoch a <? t then t else a_last_accessed_at_epoch a) t).
      split; [|split; [exact Hp|]].
      * apply in_map_iff. exists a. now rewrite B.
      * cbn. destruct (a_last_accessed_at_epoch a <? t); lia.
    + exists a. split; [|now split]. apply in_map_iff. exists a. now rewrite B.
  - exists a. split; [|now split]. apply in_or_app. now left.
Qed.

Lemma touch_one_makes p t rows : refreshed p t (touch_one t rows p).
Proof.
  unfold touch_one. destruct (existsb _ rows) eqn:E.
  - apply existsb_exists in E as (a & Ha & Hp).
    exists (mkActivityRow (a_project a)
              (if a_last_accessed_at_epoch a <? t then t else a_last_accessed_at_epoch a) t).
    split; [|split].
    + apply in_map_iff. exists a. now rewrite Hp.
    + cbn. now apply String.eqb_eq.
    + cbn. destruct (a_last_accessed_at_epoch a <? t) eqn:L; [lia|]. now apply Z.ltb_ge.
  - exists (mkActivityRow p t t). split; [|split; [reflexivity | cbn; lia]].
    apply in_or_app. right. now left.
Qed.

Lemma fold_touch_refreshed p t l :
  forall rows, refreshed p t rows \/ In p l -> refreshed p t (fold_left (touch_one t) l rows).
Proof.
  induction l as [|q l IH]; intros rows [H|H]; [exact H | destruct H | |].
  - cbn [fold_left]. apply IH. left. now apply touch_one_keeps.
  - cbn [fold_left]. apply IH. destruct H as [->|H]; [left; apply touch_one_makes | now right].
Qed.

Lemma touchProjectActivity_refreshed st ps t p :
  In p ps -> p <> EmptyString ->
  refreshed p t (project_memory_activity (touchProjectActivity st ps t)).
Proof.
  intros Hin Hp. unfold touchProjectActivity. cbn [project_memory_activity with_activity].
  apply fold_touch_refreshed. right. apply in_uniq_first. apply filter_In.
  split; [exact Hin | now apply nonempty_true].
Qed.

Lemma refreshed_last_access st p t :
  refreshed p t (project_memory_activity st) ->
  exists e, getProjectLastAccessEpoch st p = Some e /\ t <= e.
Proof.
  intros (a & Ha & Hp & Ht). unfold getProjectLastAccessEpoch.
  destruct (max_of_ge
    (map (last_access o_last_accessed_at_epoch)
       (List.filter (fun o => String.eqb (o_project o) p && live o) (observations st))
     ++ map (last_access ss_last_accessed_at_epoch)
          (List.filter (fun x => String.eqb (ss_project x) p && live x)
             (session_summaries st))
     ++ map (fun us => last_access up_last_accessed_at_epoch (fst us))
          (List.filter (fun us => String.eqb (s_project (snd us)) p && live (fst us))
             (prompts_join_sessions st))
     ++ map a_last_accessed_at_epoch
          (List.filter (fun a => String.eqb (a_project a) p)
             (project_memory_activity st)))
    (a_last_accessed_at_epoch a)) as (m & Hm & Hle).
  - do 3 (apply in_or_app; right). apply in_map. apply filter_In.
    split; [exact Ha | now apply String.eqb_eq].
  - exists m. split; [exact Hm | lia].
Qed.

(** What [touchMemoryAccess] leaves alone: sessions and policies, and in
    the three memory tables everything but the access time of the rows. *)
Lemma touchMemoryAccess_frame st args t :
  sdk_sessions (touchMemoryAccess st args t) = sdk_sessions st /\
  project_retention_policies (touchMemoryAccess st args t) = project_retention_policies st /\
  observations (touchMemoryAccess st args t)
  = map (fun o => if live o && id_in (aa_observationIds args) (o_id o)
                  then touch_observation t o else o) (observations st) /\
  session_summaries (touchMemoryAccess st args t)
  = map (fun x => if live x && id_in (aa_summaryIds args) (ss_id x)
                  then touch_summary t x else x) (session_summaries st) /\
  user_prompts (touchMemoryAccess st args t)
  = map (fun up => if live up && id_in (aa_promptIds args) (up_id up)
                   then touch_prompt t up else up) (user_prompts st).
Proof.
  unfold touchMemoryAccess.
  cbn [sdk_sessions project_retention_policies observations session_summaries user_prompts
       touchProjectActivity with_activity].
  destruct (aa_observationIds args) as [|i1 l1], (aa_summaryIds args) as [|i2 l2],
    (aa_promptIds args) as [|i3 l3]; cbn [is_nil];
    cbn [sdk_sessions project_retention_policies observations session_summaries user_prompts
         with_observations with_summaries with_prompts];
    repeat split;
    try reflexivity;
    try (symmetry; erewrite map_ext; [apply map_id|]; intros x; cbn; now rewrite andb_false_r).
Qed.

(** X19: Reading a project keeps it alive.  After [touchMemoryAccess] at
    time [t] named a project, or an observation or a summary that belongs
    to it, the project counts as accessed at [t] or later; so a
    cleanup whose time is less than the project's TTL after [t] passes the
    project by, and its rows are after the cleanup the rows the touch left. *)
Theorem touched_project_survives_cleanup (st : Store) (args : AccessArgs) (t : Z)
    (options : RetentionCleanupOptions) (now : Z) (p : string) :
  List.NoDup (map s_content_session_id (sdk_sessions st)) ->
  p <> EmptyString ->
  In p (aa_projects args) \/
  (exists o, In o (observations st) /\ In (o_id o) (aa_observationIds args) /\ o_project o = p) \/
  (exists x, In x (session_summaries st) /\ In (ss_id x) (aa_summaryIds args)
             /\ ss_project x = p) ->
  let st1 := touchMemoryAccess st args t in
  let nowEpoch := default now (co_nowEpoch options) in
  let ttlDays :=
    effective_ttl (getProjectRetentionPolicy st p) (Z.max 1 (co_defaultTtlDays options)) in
  nowEpoch - t < ttlDays * DAY_MS ->
  let st' := snd (runRetentionCleanup st1 options now) in
  (exists e, getProjectLastAccessEpoch st1 p = Some e /\ t <= e) /\
  (forall o, In o (observations st1) -> o_project o = p -> o_deleted_at_epoch o = None ->
             In o (observations st')) /\
  (forall x, In x (session_summaries st1) -> ss_project x = p ->
             ss_deleted_at_epoch x = None -> In x (session_summaries st')) /\
  (forall up, In up (user_prompts st1) -> prompt_in_project st p up = true ->
              up_deleted_at_epoch up = None -> In up (user_prompts st')).
Proof.
  intros Hnd Hp Hnamed st1 nowEpoch ttlDays Hfresh st'.
  destruct (touchMemoryAccess_frame st args t) as (Fs & Fp & Fo & Fx & Fu).
  fold st1 in Fs, Fp, Fo, Fx, Fu.
  assert (Hlast : exists e, getProjectLastAccessEpoch st1 p = Some e /\ t <= e).
  { apply refreshed_last_access. unfold st1, touchMemoryAccess.
    apply touchProjectActivity_refreshed; [|exact Hp].
    destruct Hnamed as [Hin | [(o & Ho & Hid & Hop) | (x & Hx & Hid & Hxp)]].
    - apply in_or_app. left. apply filter_In. split; [exact Hin | now apply nonempty_true].
    - apply in_or_app. right. apply in_or_app. left.
      apply filter_In. split; [|now apply nonempty_true].
      destruct (aa_observationIds args) as [|i l] eqn:El; [destruct Hid|]. cbn [is_nil].
      cbn [observations with_observations]. rewrite <- Hop.
      set (g := fun o0 => if live o0 && id_in (i :: l) (o_id o0)
                          then touch_observation t o0 else o0).
      assert (Hg : o_project (g o) = o_project o /\ o_id (g o) = o_id o)
        by (unfold g; destruct (_ && _); split; reflexivity).
      destruct Hg as [Hg1 Hg2]. rewrite <- Hg1. apply in_map. apply filter_In.
      split; [now apply in_map|]. rewrite Hg2. unfold id_in. apply existsb_exists.
      exists (o_id o). split; [exact Hid | apply Z.eqb_refl].
    - do 2 (apply in_or_app; right). apply in_or_app. left.
      apply filter_In. split; [|now apply nonempty_true].
      destruct (aa_summaryIds args) as [|i l] eqn:El; [destruct Hid|]. cbn [is_nil].
      cbn [session_summaries with_summaries]. rewrite <- Hxp.
      set (g := fun x0 => if live x0 && id_in (i :: l) (ss_id x0)
                          then touch_summary t x0 else x0).
      assert (Hg : ss_project (g x) = ss_project x /\ ss_id (g x) = ss_id x)
        by (unfold g; destruct (_ && _); split; reflexivity).
      destruct Hg as [Hg1 Hg2]. rewrite <- Hg1. apply in_map. apply filter_In.
      split; [|rewrite Hg2; unfold id_in; apply existsb_exists; exists (ss_id x);
               split; [exact Hid | apply Z.eqb_refl]].
      destruct (aa_observationIds args); cbn [is_nil session_summaries with_observations];
        now apply in_map. }
  split; [exact Hlast|].
  assert (Hpol : getProjectRetentionPolicy st1 p = getProjectRetentionPolicy st p).
  { unfold getProjectRetentionPolicy. now rewrite Fp. }
  destruct (cleanup_spared st1 options now p) as (H1 & H2 & H3 & _).
  - now rewrite Fs.
  - unfold spared. rewrite Hpol. fold nowEpoch ttlDays.
    destruct Hlast as (e & -> & Hle). cbn [is_expired].
    apply orb_true_iff. right. apply negb_true_iff, Z.leb_gt. lia.
  - split; [exact H1|]. split; [exact H2|].
    intros up Hin Hpp Hd. apply H3; [exact Hin | | exact Hd].
    now rewrite (prompt_in_project_sessions st st1 p up Fs).
Qed.

Lemma runRetentionCleanup_dry_run_predicts_witness :
  co_dryRun dry_cleanup = true /\
  snd (runRetentionCleanup retention_store dry_cleanup 0) = retention_store /\
  r_softDeletedObservations (fst (runRetentionCleanup retention_store execute_cleanup 0))
  = r_softDeletedObservations (fst (runRetentionCleanup retention_store dry_cleanup 0)).
Proof.
  split; [reflexivity|].
  destruct (runRetentionCleanup_dry_run_predicts retention_store dry_cleanup 0 eq_refl)
    as [H1 H2].
  split; [exact H1|].
  change execute_cleanup with (as_execute dry_cleanup). rewrite H2; [reflexivity|].
  simpl. repeat constructor; simpl; [|intros []]. intros [E|[]]. discriminate E.
Defined.

Lemma runRetentionCleanup_spares_project_witness :
  List.NoDup (map s_content_session_id (sdk_sessions retention_store)) /\
  pol_pinned (getProjectRetentionPolicy retention_store "keep") = true /\
  In kept_observation (observations (snd (runRetentionCleanup retention_store execute_cleanup 0))).
Proof.
  assert (Hnd : List.NoDup (map s_content_session_id (sdk_sessions retention_store))).
  { simpl. repeat constructor; simpl; [|intros []]. intros [E|[]]. discriminate E. }
  split; [exact Hnd|]. split; [reflexivity|].
  pose proof (runRetentionCleanup_spares_project retention_store execute_cleanup 0 "keep" Hnd)
    as H.
  cbv zeta in H. destruct (H (or_introl eq_refl)) as (H1 & _).
  apply H1; [right; now left | reflexivity | reflexivity].
Defined.

Lemma pinned_project_survives_cleanup_witness :
  List.NoDup (map s_content_session_id (sdk_sessions retention_store)) /\
  In old_observation
    (observations
       (snd (runRetentionCleanup
               (upsertRetentionPolicy retention_store "old"
                  (mkRetentionPolicyInput None (Some true) None) 5)
               execute_cleanup 0))).
Proof.
  assert (Hnd : List.NoDup (map s_content_session_id (sdk_sessions retention_store))).
  { simpl. repeat constructor; simpl; [|intros []]. intros [E|[]]. discriminate E. }
  split; [exact Hnd|].
  pose proof (pinned_project_survives_cleanup retention_store "old"
                (mkRetentionPolicyInput None (Some true) None) 5 execute_cleanup 0 Hnd eq_refl)
    as H.
  cbv zeta in H. destruct H as (H1 & _).
  apply H1; [now left | reflexivity | reflexivity].
Defined.

Lemma runRetentionCleanup_hard_deletes_past_grace_witness :
  co_dryRun execute_cleanup = false /\
  r_hardDeletedObservations (fst (runRetentionCleanup retention_store execute_cleanup 0)) = 0 /\
  List.length (observations (snd (runRetentionCleanup retention_store execute_cleanup 0)))
  = 2%nat.
Proof.
  split; [reflexivity|].
  pose proof (runRetentionCleanup_hard_deletes_past_grace retention_store execute_cleanup 0
                eq_refl) as H.
  cbv zeta in H. destruct H as (_ & _ & (R1 & _) & (L1 & _)).
  split; [rewrite R1; reflexivity|].
  rewrite R1 in L1. change (count_of _ (observations retention_store)) with 0 in L1.
  change (Z.of_nat (List.length (observations retention_store))) with 2 in L1. lia.
Defined.

Lemma touched_project_survives_cleanup_witness :
  List.NoDup (map s_content_session_id (sdk_sessions retention_store)) /\
  "old"%string <> EmptyString /\
  31 * DAY_MS - 2 * DAY_MS < 30 * DAY_MS /\
  In old_observation
    (observations
       (snd (runRetentionCleanup
               (touchMemoryAccess retention_store (mkAccessArgs [] [] [] ["old"%string])
                  (2 * DAY_MS))
               execute_cleanup 0))).
Proof.
  assert (Hnd : List.NoDup (map s_content_session_id (sdk_sessions retention_store))).
  { simpl. repeat constructor; simpl; [|intros []]. intros [E|[]]. discriminate E. }
  assert (Hne : "old"%string <> EmptyString) by discriminate.
  assert (Hlt : 31 * DAY_MS - 2 * DAY_MS < 30 * DAY_MS) by (unfold DAY_MS; lia).
  split; [exact Hnd|]. split; [exact Hne|]. split; [exact Hlt|].
  pose proof (touched_project_survives_cleanup retention_store
                (mkAccessArgs [] [] [] ["old"%string]) (2 * DAY_MS) execute_cleanup 0 "old"
                Hnd Hne (or_introl (or_introl eq_refl)) Hlt) as H.
  cbv zeta in H. destruct H as (_ & H1 & _).
  apply H1; [now left | reflexivity | reflexivity].
Defined.

(** ** Reading: pages, batches by id and the merge *)

Section Touched.
Context {A : Type} {rows_of_A : MemoryRow A}.
Variable g : A -> A.
Hypothesis g_created : forall x, row_created (g x) = row_created x.

Lemma insert_row_map o (x : A) l :
  insert_row o (g x) (map g l) = map g (insert_row o x l).
Proof.
  induction l as [|a l IH]; [reflexivity|]. cbn [map insert_row].
  assert (E : comes_first o (g x) (g a) = comes_first o x a)
    by (unfold comes_first; now rewrite !g_created).
  rewrite E. destruct (comes_first o x a); [reflexivity|]. cbn [map]. now rewrite IH.
Qed.

Lemma order_by_created_map o (l : list A) :
  order_by_created o (map g l) = map g (order_by_created o l).
Proof.
  unfold order_by_created. induction l as [|a l IH]; [reflexivity|].
  cbn [map fold_right]. rewrite IH. apply insert_row_map.
Qed.

Lemma sql_limit_offset_map n k (l : list A) :
  sql_limit_offset n k (map g l) = map g (sql_limit_offset n k l).
Proof.
  unfold sql_limit_offset, sql_limit. rewrite skipn_map.
  destruct (n <? 0); [reflexivity | apply firstn_map].
Qed.

End Touched.

Lemma filter_map_commute {A} (f : A -> bool) (g : A -> A) l :
  (forall x, f (g x) = f x) -> List.filter f (map g l) = map g (List.filter f l).
Proof.
  intros H. induction l as [|a l IH]; [reflexivity|]. cbn [map List.filter].
  rewrite H. destruct (f a); [cbn [map]; now rewrite IH | exact IH].
Qed.

Lemma sorted_skipn {A} (R : A -> A -> Prop) n l : Sorted R l -> Sorted R (skipn n l).
Proof.
  revert l. induction n as [|n IH]; intros l Hs; [exact Hs|].
  destruct l as [|a l]; [constructor|]. cbn [skipn]. apply IH. now inversion Hs.
Qed.

Lemma length_order_by_created {A} `{MemoryRow A} o (l : list A) :
  List.length (order_by_created o l) = List.length l.
Proof. apply Permutation_length, order_by_created_perm. Qed.

(** The listing of a store whose observations went through a map that
    changes neither id, project, creation time nor deletion mark. *)
Lemma listObservations_map st st' (g : ObservationRow -> ObservationRow) off lim proj :
  (forall o, o_project (g o) = o_project o /\
             o_created_at_epoch (g o) = o_created_at_epoch o /\
             o_deleted_at_epoch (g o) = o_deleted_at_epoch o) ->
  observations st' = map g (observations st) ->
  listObservations st' off lim proj
  = (map g (fst (listObservations st off lim proj)), snd (listObservations st off lim proj)).
Proof.
  intros Hg Hobs. unfold listObservations. rewrite Hobs. cbn [fst snd].
  assert (Hf : forall o, project_clause proj (o_project (g o)) && live (g o)
                         = project_clause proj (o_project o) && live o).
  { intros o. destruct (Hg o) as (-> & _ & Hd). unfold live. cbn. now rewrite Hd. }
  rewrite (filter_map_commute _ g _ Hf).
  rewrite (order_by_created_map g) by (intros x; now destruct (Hg x) as (_ & ? & _)).
  rewrite sql_limit_offset_map, length_map. reflexivity.
Qed.

Lemma truthy_string_idem s : truthy_string (truthy_string s) = truthy_string s.
Proof.
  destruct s as [x|]; [|reflexivity]. cbn.
  destruct (String.eqb x EmptyString) eqn:E; [reflexivity|]. cbn. now rewrite E.
Qed.

(** The length of a page cut out of [n] rows. *)
Lemma length_page {A} (lim off : Z) (l : list A) :
  1 <= lim -> 0 <= off ->
  Z.of_nat (List.length (sql_limit_offset lim off l))
  = Z.max 0 (Z.min lim (Z.of_nat (List.length l) - off)).
Proof.
  intros Hlim Hoff. unfold sql_limit_offset, sql_limit.
  destruct (lim <? 0) eqn:E; [apply Z.ltb_lt in E; lia|].
  rewrite length_firstn, length_skipn. lia.
Qed.

(** X20: [GET /api/observations] pages through the live observations of a
    project, newest first, and reading does not disturb the listing.  A page
    holds at most [limit] rows, the limit being clamped to 1..100; every row
    on it is a live row of the store and of the project asked for; the
    rows come newest first; each of them has then its access time set to
    the time of the request; the same request, made again, returns the same
    ids in the same order with the same total; and [hasMore] is set exactly
    when the page that follows has a row. *)
Theorem api_observations_pages (st : Store) (limit offset : option Z)
    (project : option string) (now : Z) :
  let lim := Z.max 1 (Z.min (default 20 limit) 100) in
  let off := Z.max 0 (default 0 offset) in
  let resp := fst (api_observations st limit offset project now) in
  let st' := snd (api_observations st limit offset project now) in
  Z.of_nat (List.length (lr_items resp)) <= lim <= 100 /\
  (forall o, In o (lr_items resp) ->
     In o (observations st) /\ o_deleted_at_epoch o = None /\
     forall p, truthy_string project = Some p -> o_project o = p) /\
  newest_first (lr_items resp) /\
  (forall o, In o (lr_items resp) -> In (touch_observation now o) (observations st')) /\
  (forall now',
     let again := fst (api_observations st' limit offset project now') in
     map o_id (lr_items again) = map o_id (lr_items resp) /\
     lr_total again = lr_total resp /\ lr_hasMore again = lr_hasMore resp) /\
  (forall now',
     lr_hasMore resp = true <->
     lr_items (fst (api_observations st' limit (Some (off + lim)) project now')) <> []).
Proof.
  intros lim off resp st'.
  assert (Hlim : 1 <= lim <= 100) by (unfold lim; lia).
  assert (Hoff : 0 <= off) by (unfold off; lia).
  set (proj := truthy_string project).
  set (f := fun o : ObservationRow => project_clause proj (o_project o) && live o).
  set (S := order_by_created date_desc (List.filter f (observations st))).
  set (items := sql_limit_offset lim off S).
  set (total := Z.of_nat (List.length (List.filter f (observations st)))).
  set (g := fun o => if live o && id_in (map o_id items) (o_id o)
                     then touch_observation now o else o).
  assert (Hresp : resp = mkListResponse items total (off + Z.of_nat (List.length items) <? total))
    by reflexivity.
  assert (Hobs' : observations st' = map g (observations st)).
  { unfold st', api_observations. cbn [parseLimitOffset listObservations snd].
    fold lim off proj. fold f. fold S. fold items.
    destruct (touchMemoryAccess_frame st (mkAccessArgs (map o_id items) [] [] (project_list proj))
                now) as (_ & _ & Fo & _).
    exact Fo. }
  assert (Hg : forall o, o_project (g o) = o_project o /\
                         o_created_at_epoch (g o) = o_created_at_epoch o /\
                         o_deleted_at_epoch (g o) = o_deleted_at_epoch o).
  { intros o. unfold g. destruct (_ && _); repeat split. }
  assert (Hgid : forall o, o_id (g o) = o_id o)
    by (intros o; unfold g; now destruct (_ && _)).
  assert (Hlist : forall off' , listObservations st' off' lim proj
                    = (map g (sql_limit_offset lim off' S), total)).
  { intros off'. rewrite (listObservations_map st st' g off' lim proj Hg Hobs'). reflexivity. }
  assert (Hlen : Z.of_nat (List.length S) = total).
  { unfold S, total. now rewrite length_order_by_created. }
  assert (Hpage : forall off', 0 <= off' ->
            Z.of_nat (List.length (sql_limit_offset lim off' S))
            = Z.max 0 (Z.min lim (total - off'))).
  { intros off' H0. rewrite <- Hlen. apply length_page; lia. }
  assert (Hin : forall o, In o items -> In o (observations st) /\ f o = true).
  { intros o Ho. apply in_sql_limit_offset in Ho. apply in_order_by_created in Ho.
    now apply filter_In in Ho. }
  assert (Hitems : Z.of_nat (List.length items) = Z.max 0 (Z.min lim (total - off)))
    by (apply Hpage; exact Hoff).
  rewrite Hresp. cbn [lr_items lr_total lr_hasMore].
  split; [rewrite Hitems; lia|].
  split.
  { intros o Ho. destruct (Hin o Ho) as [Hst Hf]. unfold f in Hf.
    apply andb_true_iff in Hf as [Hp Hl]. split; [exact Hst|].
    split; [now apply live_spec in Hl|].
    intros p Hp'. unfold project_clause in Hp. subst proj.
    rewrite (truthy_string_idem project), Hp' in Hp. now apply String.eqb_eq in Hp. }
  split.
  { apply newest_first_date_desc. unfold items, sql_limit_offset.
    apply sorted_sql_limit, sorted_skipn, order_by_created_sorted. }
  split.
  { intros o Ho. rewrite Hobs'. destruct (Hin o Ho) as [Hst Hf].
    apply andb_true_iff in Hf as [_ Hl].
    assert (Hgo : g o = touch_observation now o).
    { unfold g. rewrite Hl. cbn [andb].
      assert (Hid : id_in (map o_id items) (o_id o) = true).
      { unfold id_in. apply existsb_exists. exists (o_id o).
        split; [now apply in_map | apply Z.eqb_refl]. }
      now rewrite Hid. }
    rewrite <- Hgo. now apply in_map. }
  split.
  { intros now'. unfold api_observations. cbn [parseLimitOffset].
    fold lim off proj. rewrite Hlist. cbn [fst lr_items lr_total lr_hasMore].
    fold items. rewrite map_map, length_map.
    split; [apply map_ext; exact Hgid | split; reflexivity]. }
  intros now'.
  assert (Hparse : parseLimitOffset limit (Some (off + lim)) project = (lim, off + lim, proj)).
  { unfold parseLimitOffset. fold lim proj. repeat f_equal. cbn. lia. }
  unfold api_observations. rewrite Hparse.
  rewrite Hlist. cbn [fst lr_items].
  assert (Hne : map g (sql_limit_offset lim (off + lim) S) <> []
                <-> 0 < Z.of_nat (List.length (sql_limit_offset lim (off + lim) S))).
  { destruct (sql_limit_offset lim (off + lim) S); cbn; split; intros H;
      try lia; try congruence. }
  rewrite Hne, (Hpage (off + lim)) by lia.
  rewrite Z.ltb_lt, Hitems. lia.
Qed.

Section Merge.
Context {A : Type} {rows_of_A : MemoryRow A}.

Lemma first_occurrences_fresh (rows : list A) :
  forall seen : gset Z,
    List.NoDup (map row_id (first_occurrences seen rows)) /\
    (forall r, In r (first_occurrences seen rows) -> In r rows /\ row_id r ∉ seen).
Proof.
  induction rows as [|a rows IH]; intros seen; [split; [constructor | intros r []]|].
  cbn [first_occurrences]. destruct (bool_decide (row_id a ∈ seen)) eqn:B.
  - destruct (IH seen) as [I1 I2]. split; [exact I1|].
    intros r Hr. destruct (I2 r Hr). split; [now right | assumption].
  - apply bool_decide_eq_false in B.
    destruct (IH (seen ∪ {[row_id a]})) as [I1 I2]. split.
    + cbn [map]. constructor; [|exact I1].
      intros Hin. apply in_map_iff in Hin as (r & Hid & Hr).
      destruct (I2 r Hr) as [_ Hn]. apply Hn. rewrite Hid.
      apply elem_of_union. right. now apply elem_of_singleton.
    + intros r [<-|Hr]; [split; [now left | exact B]|].
      destruct (I2 r Hr) as [Hin Hn]. split; [now right|].
      intros Hs. apply Hn. apply elem_of_union. now left.
Qed.

Lemma first_occurrences_nil (rows : list A) (seen : gset Z) :
  (forall r, In r rows -> row_id r ∉ seen) -> rows <> [] -> first_occurrences seen rows <> [].
Proof.
  destruct rows as [|a rows]; [congruence|]. intros Hfresh _. cbn [first_occurrences].
  rewrite bool_decide_eq_false_2 by (apply Hfresh; now left). discriminate.
Qed.

(** X21: [mergeRowsWithPriority] for any rows and any limit.  The result
    is the list of first occurrences of each id, priority rows before
    lexical rows, cut after [max 1 limit] rows: no id comes twice, every
    row comes from one of the two inputs, a lexical row whose id a priority
    row carries is dropped, and a limit of zero or less still lets the first
    row through. *)
Theorem mergeRowsWithPriority_first_occurrences (P L : list A) (limit : Z) :
  let merged := mergeRowsWithPriority P L limit in
  merged = firstn (Z.to_nat (Z.max 1 limit))
             (first_occurrences ∅ P ++ first_occurrences (list_to_set (map row_id P)) L) /\
  List.NoDup (map row_id merged) /\
  (forall r, In r merged -> In r P \/ In r L) /\
  Z.of_nat (List.length merged) <= Z.max 1 limit /\
  (P ++ L <> [] -> merged <> []).
Proof.
  intros merged.
  assert (E : merged = firstn (Z.to_nat (Z.max 1 limit)) (first_occurrences ∅ (P ++ L))).
  { unfold merged, mergeRowsWithPriority. rewrite merge_loop_spec. cbn [List.length app].
    now rewrite Z.sub_0_r. }
  destruct (first_occurrences_fresh (P ++ L) ∅) as [Hnd Hin].
  split; [|split; [|split; [|split]]].
  - rewrite E, first_occurrences_app. now rewrite (left_id_L ∅ (∪)).
  - rewrite E. now apply NoDup_map_firstn.
  - intros r Hr. rewrite E in Hr. apply in_firstn in Hr.
    destruct (Hin r Hr) as [Hr' _]. now apply in_app_or.
  - rewrite E, length_firstn. lia.
  - intros Hne. rewrite E.
    assert (Hfo : first_occurrences ∅ (P ++ L) <> []).
    { apply first_occurrences_nil; [|exact Hne]. intros r _. apply not_in_empty_seen. }
    destruct (first_occurrences ∅ (P ++ L)) as [|x l]; [congruence|].
    assert (Hn : exists n, Z.to_nat (Z.max 1 limit) = Datatypes.S n).
    { exists (Z.to_nat (Z.max 1 limit) - 1)%nat. lia. }
    destruct Hn as (n & ->). discriminate.
Qed.

End Merge.

Lemma id_in_iff ids i : id_in ids i = true <-> In i ids.
Proof.
  unfold id_in. rewrite existsb_exists. split.
  - intros (x & Hx & E). apply Z.eqb_eq in E. now subst.
  - intros H. exists i. split; [exact H | apply Z.eqb_refl].
Qed.

(** X22: [getObservationsByIds] answers by membership, not by position.
    Observation ids being unique, the rows returned are live rows of the
    store whose id was asked for and that pass the project, type and date
    filters, each once, ordered by creation time in the direction asked for
    (newest first by default); ids that name no such row are passed over in
    silence; without a limit, or with limit 0, every such row is returned;
    a limit [n] other than 0 caps the result at [max 1 n] rows; and the
    answer is the same for any two id lists with the same members. *)
Theorem getObservationsByIds_by_membership (st : Store) (ids : list Z) (opts : ByIdsOptions) :
  List.NoDup (map o_id (observations st)) ->
  let rows := getObservationsByIds st ids opts in
  let wanted := fun o =>
    id_in ids (o_id o) && live o
    && project_clause (bo_project opts) (o_project o)
    && types_clause (bo_obsTypes opts) (oi_type (o_input o))
    && date_clause (bo_dateStartEpoch opts) (bo_dateEndEpoch opts) (o_created_at_epoch o) in
  (forall o, In o rows ->
     In o (observations st) /\ wanted o = true /\ In (o_id o) ids /\
     o_deleted_at_epoch o = None) /\
  List.NoDup (map o_id rows) /\
  Sorted (fun a b => comes_first (order_clause (bo_orderBy opts)) a b = true) rows /\
  (bo_limit opts = None \/ bo_limit opts = Some 0 ->
   forall o, In o (observations st) -> wanted o = true -> In o rows) /\
  (forall n, bo_limit opts = Some n -> n <> 0 ->
             Z.of_nat (List.length rows) <= Z.max 1 n) /\
  (forall ids', (forall i, In i ids <-> In i ids') -> getObservationsByIds st ids' opts = rows).
Proof.
  intros Hnd rows wanted.
  assert (Hrows : ids <> [] ->
            rows = limit_clause (bo_limit opts)
                     (order_by_created (order_clause (bo_orderBy opts))
                        (List.filter wanted (observations st)))).
  { intros Hne. unfold rows, getObservationsByIds. destruct ids; [congruence | reflexivity]. }
  destruct ids as [|i0 ids0].
  { (* nothing was asked for *)
    assert (Hnil : rows = []) by reflexivity.
    assert (Hw : forall o, wanted o = false) by (intros o; reflexivity).
    rewrite Hnil. split; [intros o []|]. split; [constructor|]. split; [constructor|].
    split; [intros _ o _ Ho; rewrite Hw in Ho; discriminate|].
    split; [intros n _ _; cbn; lia|].
    intros ids' Hsame. destruct ids' as [|j l]; [reflexivity|].
    exfalso. apply (Hsame j). now left. }
  specialize (Hrows ltac:(discriminate)).
  split; [|split; [|split; [|split; [|split]]]].
  - intros o Ho. rewrite Hrows in Ho. apply in_limit_clause in Ho.
    apply in_order_by_created in Ho. apply filter_In in Ho as [Hin Hw].
    split; [exact Hin|]. split; [exact Hw|]. unfold wanted in Hw.
    apply andb_true_iff in Hw as [Hw _]. apply andb_true_iff in Hw as [Hw _].
    apply andb_true_iff in Hw as [Hw _]. apply andb_true_iff in Hw as [Hid Hlive].
    split; [now apply id_in_iff | exact (live_spec o Hlive)].
  - rewrite Hrows. apply (NoDup_map_limit_clause (rows_of_A := ObservationRow_MemoryRow)).
    apply (NoDup_map_order_by (rows_of_A := ObservationRow_MemoryRow)).
    now apply (NoDup_map_filter (rows_of_A := ObservationRow_MemoryRow)).
  - rewrite Hrows. apply sorted_limit_clause, order_by_created_sorted.
  - intros Hlim o Hin Hw. rewrite Hrows.
    assert (Hall : limit_clause (bo_limit opts)
                     (order_by_created (order_clause (bo_orderBy opts))
                        (List.filter wanted (observations st)))
                   = order_by_created (order_clause (bo_orderBy opts))
                       (List.filter wanted (observations st))).
    { destruct Hlim as [-> | ->]; reflexivity. }
    rewrite Hall. apply in_order_by_created. now apply filter_In.
  - intros n Hn Hn0. rewrite Hrows, Hn. unfold limit_clause.
    destruct (n =? 0) eqn:E; [apply Z.eqb_eq in E; congruence|].
    unfold sql_limit. destruct (Z.max 1 n <? 0) eqn:E'; [apply Z.ltb_lt in E'; lia|].
    rewrite length_firstn. lia.
  - intros ids' Hsame. rewrite Hrows. unfold getObservationsByIds.
    destruct ids' as [|j l] eqn:E'.
    { exfalso. apply (Hsame i0). now left. }
    rewrite <- E'. do 2 f_equal. apply filter_ext. intros o. unfold wanted.
    assert (Hid : id_in ids' (o_id o) = id_in (i0 :: ids0) (o_id o)).
    { destruct (id_in (i0 :: ids0) (o_id o)) eqn:B.
      - apply id_in_iff. rewrite E'. apply Hsame. now apply id_in_iff.
      - destruct (id_in ids' (o_id o)) eqn:B'; [|reflexivity].
        apply id_in_iff in B'. rewrite E' in B'. apply Hsame in B'.
        apply id_in_iff in B'. congruence. }
    now rewrite Hid.
Qed.

Lemma getObservationsByIds_by_membership_witness :
  List.NoDup (map o_id (observations two_observations)) /\
  getObservationsByIds two_observations [1; 2; 1] no_options
  = getObservationsByIds two_observations [2; 1] no_options /\
  map o_id (getObservationsByIds two_observations [2; 1] no_options) = [2; 1].
Proof.
  assert (Hnd : List.NoDup (map o_id (observations two_observations))).
  { vm_compute. repeat constructor; simpl; intuition lia. }
  split; [exact Hnd|].
  destruct (getObservationsByIds_by_membership two_observations [2; 1] no_options Hnd)
    as (_ & _ & _ & _ & _ & Hsame).
  split; [|reflexivity].
  apply Hsame. intros i. simpl. intuition lia.
Defined.

(** ** Stripping the memory tags *)

Lemma plain_cons c s : plain (String c s) <-> c <> "<"%char /\ plain s.
Proof.
  unfold plain. cbn [count_matches String.prefix].
  destruct (ascii_dec "<" c) as [<-|Hne].
  - destruct s; cbn [String.prefix]; (split; [intros H; lia | intros [H _]; congruence]).
  - cbn [Nat.add]. split; [intros H; split; [congruence | exact H] | tauto].
Qed.

Lemma append_cons c a b : String.append (String c a) b = String c (String.append a b).
Proof. reflexivity. Qed.

Lemma append_nil b : String.append EmptyString b = b.
Proof. reflexivity. Qed.

Lemma string_length_append a b :
  String.length (String.append a b) = (String.length a + String.length b)%nat.
Proof.
  induction a as [|c a IH]; [reflexivity|]. rewrite append_cons. cbn [String.length].
  now rewrite IH.
Qed.

Lemma plain_app a b : plain a -> plain b -> plain (String.append a b).
Proof.
  induction a as [|c a IH]; intros Ha Hb; [exact Hb|]. rewrite append_cons.
  apply plain_cons in Ha as [Hc Ha]. apply plain_cons. split; [exact Hc | now apply IH].
Qed.

(** A tag opens with an angle bracket, so it does not start at a
    character that is none. *)
Lemma prefix_tag_no c s tag :
  c <> "<"%char -> String.prefix (String "<" tag) (String c s) = false.
Proof.
  intros Hc. cbn [String.prefix]. destruct (ascii_dec "<" c); [congruence | reflexivity].
Qed.

Lemma strip_tag_fuel_plain fuel tag close s :
  plain s -> strip_tag_fuel fuel (String "<" tag) close s = s.
Proof.
  revert s. induction fuel as [|fuel IH]; intros s Hs; [reflexivity|].
  destruct s as [|c s]; [reflexivity|]. apply plain_cons in Hs as [Hc Hs].
  cbn [strip_tag_fuel]. rewrite (prefix_tag_no c s tag Hc). now rewrite IH.
Qed.

Lemma prefix_nil s : String.prefix EmptyString s = true.
Proof. now destruct s. Qed.

Lemma prefix_append a b : String.prefix a (String.append a b) = true.
Proof.
  induction a as [|c a IH]; [apply prefix_nil|]. rewrite append_cons.
  cbn [String.prefix]. destruct (ascii_dec c c); [exact IH | congruence].
Qed.

Lemma drop_chars_append a b : drop_chars (String.length a) (String.append a b) = b.
Proof.
  induction a as [|c a IH]; [reflexivity|]. rewrite append_cons. exact IH.
Qed.

Lemma after_first_eq close s :
  after_first close s
  = if String.prefix close s then Some (drop_chars (String.length close) s)
    else match s with
         | EmptyString => None
         | String _ rest => after_first close rest
         end.
Proof. now destruct s. Qed.

Lemma after_first_plain tag body rest :
  plain body ->
  after_first (String "<" tag) (String.append body (String.append (String "<" tag) rest))
  = Some rest.
Proof.
  intros Hb. induction body as [|c body IH].
  - rewrite append_nil, after_first_eq.
    now rewrite prefix_append, drop_chars_append.
  - apply plain_cons in Hb as [Hc Hb]. rewrite append_cons, after_first_eq.
    rewrite (prefix_tag_no c _ tag Hc). now apply IH.
Qed.

Lemma strip_tag_fuel_eq fuel open close s :
  strip_tag_fuel (Datatypes.S fuel) open close s
  = match s with
    | EmptyString => EmptyString
    | String c rest =>
        if String.prefix open s then
          match after_first close (drop_chars (String.length open) s) with
          | Some tail => strip_tag_fuel fuel open close tail
          | None => String c (strip_tag_fuel fuel open close rest)
          end
        else String c (strip_tag_fuel fuel open close rest)
    end.
Proof. reflexivity. Qed.

(** One tagged span between plain texts is cut out whole. *)
Lemma strip_tag_span tag ctag pre body post :
  plain pre -> plain body -> plain post ->
  let s := String.append pre
             (String.append (String "<" tag)
                (String.append body (String.append (String "<" ctag) post))) in
  strip_tag (String "<" tag) (String "<" ctag) s = String.append pre post.
Proof.
  intros Hpre Hbody Hpost s. unfold strip_tag.
  assert (H : forall fuel, (String.length pre < fuel)%nat ->
            strip_tag_fuel fuel (String "<" tag) (String "<" ctag) s = String.append pre post).
  { subst s. clear -Hpre Hbody Hpost. induction pre as [|c pre IH]; intros fuel Hfuel.
    - destruct fuel as [|fuel]; [cbn in Hfuel; lia|].
      rewrite append_nil, append_cons, strip_tag_fuel_eq, <- append_cons.
      rewrite prefix_append, drop_chars_append, (after_first_plain ctag body post Hbody).
      now apply strip_tag_fuel_plain.
    - destruct fuel as [|fuel]; [cbn in Hfuel; lia|].
      apply plain_cons in Hpre as [Hc Hpre].
      rewrite append_cons, strip_tag_fuel_eq, (prefix_tag_no c _ tag Hc).
      rewrite IH; [reflexivity | exact Hpre | cbn in Hfuel; lia]. }
  apply H. subst s. rewrite string_length_append. lia.
Qed.

Lemma strip_tag_fuel_absent fuel open close s :
  count_matches open s = 0%nat -> strip_tag_fuel fuel open close s = s.
Proof.
  revert s. induction fuel as [|fuel IH]; intros s Hs; [reflexivity|].
  destruct s as [|c s]; [reflexivity|]. rewrite strip_tag_fuel_eq.
  cbn [count_matches] in Hs.
  destruct (String.prefix open (String c s)); [cbn in Hs; lia|].
  cbn [Nat.add] in Hs. now rewrite IH.
Qed.

(** X23: A text without opening marker is only trimmed.  When neither
    [<private>] nor [<claude-mem-context>] occurs in the content, that is
    when [countTags] is 0, the stripping functions return the content with
    the white space at both ends removed, whatever closing tags or other
    markup it holds. *)
Theorem stripMemoryTags_without_markers (content : string) :
  countTags content = 0%nat ->
  stripMemoryTagsFromPrompt content = trim content /\
  stripMemoryTagsFromJson content = trim content.
Proof.
  intros Hcount. unfold stripMemoryTagsFromPrompt, stripMemoryTagsFromJson, stripTagsInternal.
  unfold countTags in Hcount.
  assert (H1 : count_matches "<private>" content = 0%nat) by lia.
  assert (H2 : count_matches "<claude-mem-context>" content = 0%nat) by lia.
  unfold strip_tag. rewrite (strip_tag_fuel_absent _ _ _ content H2).
  rewrite (strip_tag_fuel_absent _ _ _ content H1).
  split; now destruct (Nat.ltb _ _).
Qed.

Lemma count_matches_plain tag a : plain a -> count_matches (String "<" tag) a = 0%nat.
Proof.
  induction a as [|c a IH]; intros Ha; [reflexivity|].
  apply plain_cons in Ha as [Hc Ha]. cbn [count_matches].
  now rewrite (prefix_tag_no c a tag Hc), IH.
Qed.

Lemma count_matches_plain_app tag a b :
  plain a ->
  count_matches (String "<" tag) (String.append a b) = count_matches (String "<" tag) b.
Proof.
  induction a as [|c a IH]; intros Ha; [reflexivity|].
  apply plain_cons in Ha as [Hc Ha]. rewrite append_cons. cbn [count_matches].
  now rewrite (prefix_tag_no c _ tag Hc), IH.
Qed.

(** Another tag: its name starts with another character. *)
Lemma count_matches_other_tag t tag n name rest :
  t <> n -> plain (String n name) ->
  count_matches (String "<" (String t tag)) (String.append (String "<" (String n name)) rest)
  = count_matches (String "<" (String t tag)) rest.
Proof.
  intros Hne Hname. rewrite append_cons. cbn [count_matches].
  assert (Hp : String.prefix (String "<" (String t tag))
                 (String "<" (String.append (String n name) rest)) = false).
  { rewrite append_cons. cbn [String.prefix]. destruct (ascii_dec "<" "<"); [|congruence].
    destruct (ascii_dec t n); [congruence | reflexivity]. }
  rewrite Hp. cbn [Nat.add]. now apply count_matches_plain_app.
Qed.

Lemma plain_tag_name : plain "private>" /\ plain "/private>" /\
                       plain "claude-mem-context>" /\ plain "/claude-mem-context>".
Proof. repeat split. Qed.

(** X24: A marked span is cut out whole.  For texts [pre], [body] and
    [post] in which no angle bracket opens, stripping
    [pre <private> body </private> post] gives [pre post] trimmed, and so
    does the same with a [<claude-mem-context>] span; in particular a prompt
    that is one private span, with white space around it at most, is empty
    after stripping. *)
Theorem stripMemoryTags_cuts_marked_span (pre body post : string) :
  plain pre -> plain body -> plain post ->
  stripMemoryTagsFromPrompt
    (String.append pre
       (String.append "<private>" (String.append body (String.append "</private>" post))))
  = trim (String.append pre post) /\
  stripMemoryTagsFromPrompt
    (String.append pre
       (String.append "<claude-mem-context>"
          (String.append body (String.append "</claude-mem-context>" post))))
  = trim (String.append pre post) /\
  (trim (String.append pre post) = EmptyString ->
   trim (stripMemoryTagsFromPrompt
           (String.append pre
              (String.append "<private>"
                 (String.append body (String.append "</private>" post)))))
   = EmptyString).
Proof.
  intros Hpre Hbody Hpost.
  destruct plain_tag_name as (T1 & T2 & T3 & T4).
  assert (Hprivate : stripMemoryTagsFromPrompt
            (String.append pre
               (String.append "<private>"
                  (String.append body (String.append "</private>" post))))
          = trim (String.append pre post)).
  { unfold stripMemoryTagsFromPrompt, stripTagsInternal.
    set (s := String.append pre _).
    assert (Hctx : strip_tag "<claude-mem-context>" "</claude-mem-context>" s = s).
    { unfold strip_tag. apply strip_tag_fuel_absent. unfold s.
      rewrite (count_matches_plain_app _ pre _ Hpre).
      rewrite (count_matches_other_tag "c" _ "p" "rivate>") by (discriminate || exact T1).
      rewrite (count_matches_plain_app _ body _ Hbody).
      rewrite (count_matches_other_tag "c" _ "/" "private>") by (discriminate || exact T2).
      now apply count_matches_plain. }
    rewrite Hctx.
    assert (Hpriv : strip_tag "<private>" "</private>" s = String.append pre post)
      by (apply (strip_tag_span "private>" "/private>" pre body post Hpre Hbody Hpost)).
    rewrite Hpriv. now destruct (Nat.ltb _ _). }
  split; [exact Hprivate|]. split.
  - unfold stripMemoryTagsFromPrompt, stripTagsInternal.
    set (s := String.append pre _).
    assert (Hctx : strip_tag "<claude-mem-context>" "</claude-mem-context>" s
                   = String.append pre post)
      by (apply (strip_tag_span "claude-mem-context>" "/claude-mem-context>" pre body post
                   Hpre Hbody Hpost)).
    rewrite Hctx.
    assert (Hpriv : strip_tag "<private>" "</private>" (String.append pre post)
                    = String.append pre post).
    { unfold strip_tag. apply strip_tag_fuel_plain. now apply plain_app. }
    rewrite Hpriv. now destruct (Nat.ltb _ _).
  - intros Hblank. rewrite Hprivate, Hblank. reflexivity.
Qed.

Lemma stripMemoryTags_without_markers_witness :
  countTags "  hello </private> " = 0%nat /\
  stripMemoryTagsFromPrompt "  hello </private> " = "hello </private>"%string.
Proof.
  split; [reflexivity|].
  destruct (stripMemoryTags_without_markers "  hello </private> " eq_refl) as [-> _].
  reflexivity.
Defined.

Lemma stripMemoryTags_cuts_marked_span_witness :
  plain "keep " /\ plain "secret" /\ plain " this" /\
  stripMemoryTagsFromPrompt "keep <private>secret</private> this" = "keep  this"%string.
Proof.
  split; [reflexivity|]. split; [reflexivity|]. split; [reflexivity|].
  destruct (stripMemoryTags_cuts_marked_span "keep " "secret" " this" eq_refl eq_refl eq_refl)
    as [H _].
  exact H.
Defined.

(** ** One call of the queue processor *)

Lemma steady_turn agent turn now msg session st1 m :
  agent_answers agent ->
  truthy_string (s_memory_session_id session) = Some m ->
  memory_session_known st1 m = true ->
  exists st2,
    process_message agent turn now msg session st1 = (true, st2, true) /\
    pending_messages st2 = pending_messages st1 /\
    sdk_sessions st2 = sdk_sessions st1 /\
    stored_rows st2 = Datatypes.S (stored_rows st1).
Proof.
  intros Hagent Hm Hknown. unfold process_message. rewrite Hm. cbn [default].
  destruct (Hagent turn msg) as [(obs & Ho) (sm & Hs)].
  destruct (pm_message_type msg).
  - rewrite Ho. unfold storeObservation. cbn. rewrite Hknown.
    eexists. split; [reflexivity|]. unfold stored_rows. cbn.
    repeat split. rewrite length_app. cbn. lia.
  - rewrite Hs. unfold storeSummary. cbn. rewrite Hknown.
    eexists. split; [reflexivity|]. unfold stored_rows. cbn.
    repeat split. rewrite length_app. cbn. lia.
Qed.

Lemma claim_none st sid now :
  fst (claimNextPending st sid now) = None ->
  pending_of sid st = [] /\ snd (claimNextPending st sid now) = st.
Proof.
  unfold claimNextPending, pending_of.
  destruct (order_by_id_asc_limit_1 _) as [m|] eqn:E; [discriminate|].
  intros _. split; [now apply oldest_none | reflexivity].
Qed.

Lemma claim_sessions st sid now :
  sdk_sessions (snd (claimNextPending st sid now)) = sdk_sessions st.
Proof.
  unfold claimNextPending. now destruct (order_by_id_asc_limit_1 _).
Qed.

Lemma drain_steady agent clock sid session m :
  agent_answers agent ->
  truthy_string (s_memory_session_id session) = Some m ->
  forall fuel turn st seen calls,
    (List.length (pending_of sid st) < fuel)%nat ->
    List.NoDup (map pm_id (pending_messages st)) ->
    getSessionById st sid = Some session ->
    (forall r, In r (pending_of sid st) -> pm_id r ∉ seen) ->
    exists st' rest,
      drain_loop fuel agent clock sid turn st seen calls = Some (st', calls ++ rest) /\
      pending_messages st'
      = List.filter (fun r => negb (is_pending_of sid r)) (pending_messages st) /\
      sdk_sessions st' = sdk_sessions st /\
      stored_rows st' = (stored_rows st + List.length rest)%nat /\
      StronglySorted Z.lt rest /\
      (forall i, In i rest <-> In i (map pm_id (pending_of sid st))).
Proof.
  intros Hagent Hm. induction fuel as [|fuel IH]; intros turn st seen calls Hfuel Hnd Hsess Hseen;
    [lia|].
  cbn [drain_loop].
  destruct (claimNextPending st sid (clock turn)) as [[msg|] st1] eqn:Hclaim.
  2:{ (* nothing is pending *)
      destruct (claim_none st sid (clock turn)) as [Hnone Hst]; [now rewrite Hclaim|].
      rewrite Hclaim in Hst. cbn [snd] in Hst. subst st1.
      exists st, []. rewrite app_nil_r, Hnone. cbn [List.length map].
      split; [reflexivity|]. split.
      - symmetry. apply filter_all. intros r Hr.
        destruct (is_pending_of sid r) eqn:B; [|reflexivity].
        assert (Hin : In r (pending_of sid st)) by (apply filter_In; now split).
        rewrite Hnone in Hin. destruct Hin.
      - split; [reflexivity|]. split; [lia|]. split; [constructor | tauto]. }
  assert (Hc : fst (claimNextPending st sid (clock turn)) = Some msg) by now rewrite Hclaim.
  destruct (claim_in st sid (clock turn) msg Hc) as (Hin & Hsid & Hstat & Hmin).
  destruct (claim_split st sid (clock turn) msg Hnd Hc) as (l1 & l2 & E1 & E2 & Hni).
  pose proof (claim_sessions st sid (clock turn)) as Hs1.
  rewrite Hclaim in E2, Hs1. cbn [snd] in E2, Hs1.
  assert (Hp : is_pending_of sid msg = true) by (apply is_pending_of_spec; now split).
  assert (Hnew : pm_id msg ∉ seen).
  { apply Hseen. apply filter_In. now split. }
  rewrite bool_decide_eq_false_2 by exact Hnew.
  assert (Hsess1 : getSessionById st1 (pm_session_db_id msg) = Some session).
  { unfold getSessionById in *. now rewrite Hs1, Hsid. }
  rewrite Hsess1.
  destruct (steady_turn agent turn (clock turn) msg session st1 m Hagent Hm)
    as (st2 & Hpm & Hq2 & Hs2 & Hrows2).
  { apply (getSessionById_known st1 (pm_session_db_id msg) session m Hsess1 Hm). }
  rewrite Hpm.
  set (st3 := confirmProcessed st2 (pm_id msg)).
  assert (Hq3 : pending_messages st3 = l1 ++ l2).
  { unfold st3, confirmProcessed. cbn [pending_messages with_pending]. rewrite Hq2, E2.
    apply filter_drop_middle; [reflexivity | exact Hni]. }
  assert (Hp3 : pending_of sid st3
                = List.filter (is_pending_of sid) l1 ++ List.filter (is_pending_of sid) l2).
  { unfold pending_of. now rewrite Hq3, List.filter_app. }
  assert (Hp0 : pending_of sid st
                = List.filter (is_pending_of sid) l1 ++ msg :: List.filter (is_pending_of sid) l2).
  { unfold pending_of. rewrite E1, List.filter_app. cbn [List.filter]. now rewrite Hp. }
  assert (Hother : forall r, In r (pending_of sid st3) ->
                             In r (pending_of sid st) /\ pm_id msg < pm_id r).
  { intros r Hr. rewrite Hp3 in Hr.
    assert (Hr0 : In r (pending_of sid st)).
    { rewrite Hp0. apply in_app_or in Hr as [Hr|Hr]; apply in_or_app;
        [now left | right; now right]. }
    split; [exact Hr0|].
    assert (Hrl : In r (l1 ++ l2)).
    { apply in_app_or in Hr as [Hr|Hr]; apply filter_In in Hr as [Hr _]; apply in_or_app;
        [now left | now right]. }
    assert (Hne : pm_id r <> pm_id msg).
    { intros E. apply Hni. rewrite <- E. now apply in_map. }
    unfold pending_of in Hr0. apply filter_In in Hr0 as [Hr0 Hpr].
    apply is_pending_of_spec in Hpr as [Hrs Hrp].
    specialize (Hmin r Hr0 Hrs Hrp). lia. }
  destruct (IH (Datatypes.S turn) st3 (seen ∪ {[pm_id msg]}) (calls ++ [pm_id msg]))
    as (st' & rest & Hloop & Hq' & Hs' & Hrows' & Hsorted & Hmem).
  - rewrite Hp0, length_app in Hfuel. cbn [List.length] in Hfuel.
    rewrite Hp3, length_app. lia.
  - rewrite Hq3. rewrite E1, map_app in Hnd. cbn [map] in Hnd.
    apply NoDup_remove_1 in Hnd. now rewrite map_app.
  - unfold st3, getSessionById, confirmProcessed. cbn [sdk_sessions with_pending].
    unfold getSessionById in Hsess. now rewrite Hs2, Hs1.
  - intros r Hr Hin'. destruct (Hother r Hr) as [Hr0 Hlt].
    apply elem_of_union in Hin' as [Hin'|Hin'].
    + now apply (Hseen r Hr0).
    + apply elem_of_singleton in Hin'. lia.
  - exists st', (pm_id msg :: rest). split.
    + fold st3. rewrite Hloop. now rewrite <- app_assoc.
    + split.
      * rewrite Hq', Hq3, E1, !List.filter_app. cbn [List.filter]. now rewrite Hp.
      * split; [unfold st3 in Hs'; cbn [sdk_sessions confirmProcessed with_pending] in Hs';
                congruence|].
        split.
        { rewrite Hrows'. unfold st3, stored_rows in *.
          cbn [observations session_summaries confirmProcessed with_pending] in *.
          assert (Hst1 : (List.length (observations st1) + List.length (session_summaries st1)
                          = List.length (observations st) + List.length (session_summaries st))%nat).
          { unfold claimNextPending in Hclaim.
            destruct (order_by_id_asc_limit_1 _); inversion Hclaim; reflexivity. }
          cbn [List.length]. lia. }
        split.
        { constructor; [exact Hsorted|]. apply List.Forall_forall. intros i Hi.
          apply Hmem in Hi. apply in_map_iff in Hi as (r & <- & Hr).
          now destruct (Hother r Hr). }
        intros i. rewrite Hp0, map_app, in_app_iff. cbn [map In].
        rewrite Hmem, Hp3, map_app, in_app_iff. tauto.
Qed.

Lemma find_replace_other i j c rows :
  pm_id c = i -> j <> i ->
  List.find (fun r => pm_id r =? j) (update_by_id i (fun _ => c) rows)
  = List.find (fun r => pm_id r =? j) rows.
Proof.
  intros Hc Hne. induction rows as [|a rows IH]; [reflexivity|].
  unfold update_by_id in *. cbn [map List.find].
  destruct (pm_id a =? i) eqn:E.
  - apply Z.eqb_eq in E. rewrite Hc.
    assert ((i =? j) = false) as -> by (apply Z.eqb_neq; lia).
    assert ((pm_id a =? j) = false) as -> by (apply Z.eqb_neq; lia). exact IH.
  - destruct (pm_id a =? j); [reflexivity | exact IH].
Qed.

(** X25: With an agent that answers, one call of [processSessionQueue]
    works off the session's queue.  Queue ids being unique and the session
    having its memory session id, the call returns once the fuel exceeds
    the number of pending rows of the session; it hands exactly those rows
    to the agent, each once, in increasing order of id; it stores one
    observation or summary for each; and it leaves the queue as it was, less
    the rows of the session that were pending. *)
Theorem processSessionQueue_steady_agent_drains (agent : Agent) (clock : nat -> Z)
    (st : Store) (sid : Z) (session : SessionRow) (m : string) (fuel : nat) :
  agent_answers agent ->
  List.NoDup (map pm_id (pending_messages st)) ->
  getSessionById st sid = Some session ->
  truthy_string (s_memory_session_id session) = Some m ->
  (List.length (pending_of sid st) < fuel)%nat ->
  exists st' calls,
    processSessionQueue fuel agent clock st sid = Some (st', calls) /\
    pending_messages st'
    = List.filter (fun r => negb (is_pending_of sid r)) (pending_messages st) /\
    StronglySorted Z.lt calls /\
    (forall i, In i calls <->
       exists r, In r (pending_messages st) /\ pm_session_db_id r = sid /\
                 pm_status r = pending /\ pm_id r = i) /\
    stored_rows st' = (stored_rows st + List.length calls)%nat /\
    sdk_sessions st' = sdk_sessions st.
Proof.
  intros Hagent Hnd Hsess Hm Hfuel. unfold processSessionQueue.
  destruct (drain_steady agent clock sid session m Hagent Hm fuel O st ∅ [] Hfuel Hnd Hsess)
    as (st' & rest & Hloop & Hq & Hs & Hrows & Hsorted & Hmem).
  { intros r _. apply not_in_empty_seen. }
  exists st', rest. cbn [app] in Hloop.
  split; [exact Hloop|]. split; [exact Hq|]. split; [exact Hsorted|].
  split; [|split; [exact Hrows | exact Hs]].
  intros i. rewrite Hmem, in_map_iff. unfold pending_of. split.
  - intros (r & Hi & Hr). apply filter_In in Hr as [Hr Hp].
    apply is_pending_of_spec in Hp as [H1 H2]. now exists r.
  - intros (r & Hr & H1 & H2 & Hi). exists r. split; [exact Hi|].
    apply filter_In. split; [exact Hr|]. apply is_pending_of_spec. now split.
Qed.

(** X26: A failed item stops the call, and is left claimed.  When the
    agent throws on the oldest pending item of the session and the item
    still has retries left, [processSessionQueue] counts the failure, claims
    the item a second time, finds its id among those it has seen, and
    returns: the agent was called once; the item is left in status
    [processing] with one more retry in its count; nothing was stored; and
    every other row of the queue, the pending rows behind the item included,
    is as it was. *)
Theorem processSessionQueue_stops_at_failed_item (agent : Agent) (clock : nat -> Z)
    (st : Store) (sid : Z) (msg : PendingMessage) (session : SessionRow) (m : string)
    (fuel : nat) :
  List.NoDup (map pm_id (pending_messages st)) ->
  fst (claimNextPending st sid (clock O)) = Some msg ->
  getSessionById st sid = Some session ->
  truthy_string (s_memory_session_id session) = Some m ->
  (exists e, match pm_message_type msg with
             | observation => processObservation agent O msg = threw e
             | summarize => processSummary agent O msg = threw e
             end) ->
  pm_retry_count msg < MAX_RETRY ->
  (2 <= fuel)%nat ->
  exists st',
    processSessionQueue fuel agent clock st sid = Some (st', [pm_id msg]) /\
    pending_messages st'
    = update_by_id (pm_id msg)
        (fun _ => pm_update processing (pm_retry_count msg + 1) (Some (clock 1%nat))
                    (pm_failed_at_epoch msg) msg)
        (pending_messages st) /\
    (forall j, j <> pm_id msg -> getMessage st' j = getMessage st j) /\
    observations st' = observations st /\
    session_summaries st' = session_summaries st.
Proof.
  intros Hnd Hc Hsess Hm (e & He) Hretry Hfuel.
  destruct fuel as [|[|fuel]]; [lia | lia |].
  unfold processSessionQueue. cbn [drain_loop].
  destruct (claim_in st sid (clock O) msg Hc) as (Hin & Hsid & Hstat & _).
  pose proof (claim_again st sid (clock O) (clock 1%nat) msg Hnd Hc Hretry) as Hagain.
  pose proof (claim_and_fail_queue st sid (clock O) msg Hnd Hc) as Hqueue.
  pose proof (claim_sessions st sid (clock O)) as Hs1.
  unfold claim_and_fail in Hagain, Hqueue.
  destruct (claimNextPending st sid (clock O)) as [[msg0|] st1] eqn:Hclaim; [|discriminate].
  cbn [fst snd] in Hc, Hs1. inversion Hc; subst msg0.
  rewrite bool_decide_eq_false_2 by apply not_in_empty_seen.
  assert (Hsess1 : getSessionById st1 (pm_session_db_id msg) = Some session).
  { unfold getSessionById in *. now rewrite Hs1, Hsid. }
  rewrite Hsess1.
  assert (Hpm : process_message agent O (clock O) msg session st1 = (false, st1, true)).
  { unfold process_message. rewrite Hm. cbn [default].
    destruct (pm_message_type msg); now rewrite He. }
  rewrite Hpm.
  set (st2 := markFailed st1 (pm_id msg) (clock O)) in *.
  assert (Hafter : after_failure (clock O) msg = set_retry (set_claimed (clock O) msg)).
  { unfold after_failure. cbn [pm_retry_count set_claimed pm_update].
    apply Z.ltb_lt in Hretry. now rewrite Hretry. }
  rewrite Hafter in Hagain, Hqueue.
  destruct (claimNextPending st2 sid (clock 1%nat)) as [[again|] st3] eqn:Hclaim2;
    [|discriminate].
  cbn [fst] in Hagain. inversion Hagain; subst again.
  assert (Hseen : pm_id (set_retry (set_claimed (clock O) msg)) ∈ (∅ ∪ {[pm_id msg]} : gset Z)).
  { cbn [pm_id set_retry set_claimed pm_update]. apply elem_of_union. right.
    now apply elem_of_singleton. }
  rewrite bool_decide_eq_true_2 by exact Hseen.
  exists st3. cbn [app]. split; [reflexivity|].
  assert (Hst3 : pending_messages st3
                 = update_by_id (pm_id msg) (set_claimed (clock 1%nat)) (pending_messages st2)
                 /\ observations st3 = observations st2
                 /\ session_summaries st3 = session_summaries st2).
  { unfold claimNextPending in Hclaim2.
    destruct (order_by_id_asc_limit_1 _) as [b|]; inversion Hclaim2; subst.
    repeat split. }
  destruct Hst3 as (Hq3 & Ho3 & Hx3).
  assert (Hrows2 : observations st2 = observations st
                   /\ session_summaries st2 = session_summaries st).
  { unfold st2, markFailed. unfold claimNextPending in Hclaim.
    destruct (order_by_id_asc_limit_1 _) as [b|]; inversion Hclaim; subst.
    destruct (List.find _ _); [destruct (_ <? _)|]; repeat split. }
  destruct Hrows2 as [Ho2 Hx2].
  assert (Hfinal : pending_messages st3
                   = update_by_id (pm_id msg)
                       (fun _ => pm_update processing (pm_retry_count msg + 1)
                                   (Some (clock 1%nat)) (pm_failed_at_epoch msg) msg)
                       (pending_messages st)).
  { rewrite Hq3, Hqueue. unfold update_by_id. rewrite map_map. apply map_ext.
    intros r. destruct (pm_id r =? pm_id msg) eqn:B.
    - cbn [pm_id set_retry set_claimed pm_update]. now rewrite Z.eqb_refl.
    - now rewrite B. }
  split; [exact Hfinal|]. split.
  - intros j Hj. unfold getMessage. rewrite Hfinal.
    now apply find_replace_other.
  - split; congruence.
Qed.

Lemma processSessionQueue_steady_agent_drains_witness :
  agent_answers steady_agent /\
  List.NoDup (map pm_id (pending_messages ready_item)) /\
  exists st',
    processSessionQueue 2 steady_agent (fun _ => 30) ready_item 1 = Some (st', [1]) /\
    pending_messages st' = [] /\ stored_rows st' = 1%nat.
Proof.
  assert (Hagent : agent_answers steady_agent).
  { intros turn msg. split; eexists; reflexivity. }
  assert (Hnd : List.NoDup (map pm_id (pending_messages ready_item))).
  { vm_compute. repeat constructor. simpl. tauto. }
  split; [exact Hagent|]. split; [exact Hnd|].
  destruct (processSessionQueue_steady_agent_drains steady_agent (fun _ => 30) ready_item 1
              (mkSessionRow 1 "sess-dedupe-1" (Some "cmem-1"%string) "test-project"
                 (Some "hello"%string) 10 active)
              "cmem-1" 2 Hagent Hnd eq_refl eq_refl)
    as (st' & calls & E & Hq & _ & _ & Hrows & _).
  { vm_compute. lia. }
  exists st'.
  assert (Hcalls : calls = [1]).
  { destruct (processSessionQueue 2 steady_agent (fun _ => 30) ready_item 1)
      as [[s c]|] eqn:D; vm_compute in D; inversion D; subst. now inversion E. }
  subst calls. split; [exact E|]. split; [rewrite Hq; reflexivity | rewrite Hrows; reflexivity].
Defined.

Lemma processSessionQueue_stops_at_failed_item_witness :
  List.NoDup (map pm_id (pending_messages ready_item)) /\
  exists st',
    processSessionQueue 2 broken_agent (fun _ => 30) ready_item 1 = Some (st', [1]) /\
    option_map pm_status (getMessage st' 1) = Some processing /\
    option_map pm_retry_count (getMessage st' 1) = Some 1 /\
    observations st' = [].
Proof.
  assert (Hnd : List.NoDup (map pm_id (pending_messages ready_item))).
  { vm_compute. repeat constructor. simpl. tauto. }
  split; [exact Hnd|].
  destruct (processSessionQueue_stops_at_failed_item broken_agent (fun _ => 30) ready_item 1
              (observation_row 1 "sess-dedupe-1" read_payload 20 1 (Some "obs-key-1"%string))
              (mkSessionRow 1 "sess-dedupe-1" (Some "cmem-1"%string) "test-project"
                 (Some "hello"%string) 10 active)
              "cmem-1" 2 Hnd eq_refl eq_refl eq_refl)
    as (st' & E & Hq & _ & Ho & _).
  - eexists; reflexivity.
  - vm_compute. reflexivity.
  - lia.
  - exists st'. split; [exact E|]. unfold getMessage. rewrite Hq, Ho.
    split; [reflexivity|]. split; reflexivity.
Defined.

(** ** After the cleanup *)

Lemma map_fixed {A} (g : A -> A) l : (forall x, In x l -> g x = x) -> map g l = l.
Proof.
  intros H. induction l as [|a l IH]; [reflexivity|]. cbn [map].
  rewrite (H a) by now left. f_equal. apply IH. intros x Hx. apply H. now right.
Qed.

Lemma soft_delete_project_nothing st p nowEpoch :
  no_live_rows p st st -> soft_delete_project st p nowEpoch = st.
Proof.
  intros (Ho & Hx & Hu). unfold soft_delete_project.
  rewrite (map_fixed _ (observations st)), (map_fixed _ (session_summaries st)),
    (map_fixed _ (user_prompts st)).
  - now destruct st.
  - intros up Hin. destruct (prompt_in_project st p up) eqn:E; [|now rewrite andb_false_r].
    specialize (Hu up Hin E). unfold live. cbn [row_deleted PromptRow_MemoryRow].
    now destruct (up_deleted_at_epoch up).
  - intros x Hin. destruct (String.eqb (ss_project x) p) eqn:E; [|reflexivity].
    apply String.eqb_eq in E. specialize (Hx x Hin E). unfold live.
    cbn [row_deleted SummaryRow_MemoryRow]. now destruct (ss_deleted_at_epoch x).
  - intros o Hin. destruct (String.eqb (o_project o) p) eqn:E; [|reflexivity].
    apply String.eqb_eq in E. specialize (Ho o Hin E). unfold live.
    cbn [row_deleted ObservationRow_MemoryRow]. now destruct (o_deleted_at_epoch o).
Qed.

Lemma count_of_none {A} (f : A -> bool) l :
  (forall x, In x l -> f x = false) -> count_of f l = 0.
Proof.
  intros H. unfold count_of. induction l as [|a l IH]; [reflexivity|].
  cbn [List.filter]. rewrite (H a) by now left. apply IH. intros x Hx. apply H. now right.
Qed.

Lemma no_live_rows_counts st p :
  no_live_rows p st st ->
  count_of (fun o => String.eqb (o_project o) p && live o) (observations st) = 0 /\
  count_of (fun x => String.eqb (ss_project x) p && live x) (session_summaries st) = 0 /\
  count_of (fun us => String.eqb (s_project (snd us)) p && live (fst us))
    (prompts_join_sessions st) = 0.
Proof.
  intros (Ho & Hx & Hu). split; [|split]; apply count_of_none.
  - intros o Hin. destruct (String.eqb (o_project o) p) eqn:E; [|reflexivity].
    apply String.eqb_eq in E. specialize (Ho o Hin E). unfold live.
    cbn [row_deleted ObservationRow_MemoryRow andb]. now destruct (o_deleted_at_epoch o).
  - intros x Hin. destruct (String.eqb (ss_project x) p) eqn:E; [|reflexivity].
    apply String.eqb_eq in E. specialize (Hx x Hin E). unfold live.
    cbn [row_deleted SummaryRow_MemoryRow andb]. now destruct (ss_deleted_at_epoch x).
  - intros [up s] Hin. cbn [fst snd].
    destruct (String.eqb (s_project s) p) eqn:E; [|reflexivity]. cbn [andb].
    unfold prompts_join_sessions in Hin. apply in_flat_map in Hin.
    destruct Hin as (up' & Hup & Hpair). apply in_map_iff in Hpair.
    destruct Hpair as (s' & Heq & Hs'). inversion Heq; subst up' s'.
    apply filter_In in Hs'. destruct Hs' as [Hs' Hc].
    assert (Hin : prompt_in_project st p up = true).
    { unfold prompt_in_project. apply existsb_exists. exists s. split; [exact Hs'|].
      now rewrite Hc, E. }
    specialize (Hu up Hup Hin). unfold live. cbn [row_deleted PromptRow_MemoryRow].
    now destruct (up_deleted_at_epoch up).
Qed.

(** The counters of the report that count soft-deleted rows. *)
Lemma retention_step_settled nowEpoch defaultTtl report st p :
  settled nowEpoch defaultTtl st p ->
  let acc := retention_step false nowEpoch defaultTtl (report, st) p in
  snd acc = st /\
  r_softDeletedObservations (fst acc) = r_softDeletedObservations report /\
  r_softDeletedSummaries (fst acc) = r_softDeletedSummaries report /\
  r_softDeletedPrompts (fst acc) = r_softDeletedPrompts report.
Proof.
  intros Hset acc. subst acc. unfold retention_step.
  destruct (pol_pinned _) eqn:Epin;
    [cbn [fst snd r_softDeletedObservations r_softDeletedSummaries r_softDeletedPrompts];
     repeat split; lia|].
  destruct (negb (pol_enabled _)) eqn:Een;
    [cbn [fst snd r_softDeletedObservations r_softDeletedSummaries r_softDeletedPrompts];
     repeat split; lia|].
  destruct (negb (is_expired _ _ _)) eqn:Eex;
    [cbn [fst snd r_softDeletedObservations r_softDeletedSummaries r_softDeletedPrompts];
     repeat split; lia|].
  destruct Hset as [Hsp|Hno].
  - unfold spared in Hsp. rewrite Epin, Een, Eex in Hsp. discriminate.
  - cbn [fst snd r_softDeletedObservations r_softDeletedSummaries r_softDeletedPrompts].
    destruct (no_live_rows_counts st p Hno) as (-> & -> & ->).
    rewrite (soft_delete_project_nothing st p nowEpoch Hno). repeat split; lia.
Qed.

Lemma fold_settled nowEpoch defaultTtl st :
  forall l report,
    (forall p, In p l -> settled nowEpoch defaultTtl st p) ->
    let acc := fold_left (retention_step false nowEpoch defaultTtl) l (report, st) in
    snd acc = st /\
    r_softDeletedObservations (fst acc) = r_softDeletedObservations report /\
    r_softDeletedSummaries (fst acc) = r_softDeletedSummaries report /\
    r_softDeletedPrompts (fst acc) = r_softDeletedPrompts report.
Proof.
  induction l as [|q l IH]; intros report Hall; [repeat split|].
  cbn [fold_left].
  destruct (retention_step_settled nowEpoch defaultTtl report st q (Hall q (or_introl eq_refl)))
    as (Hs & H1 & H2 & H3).
  destruct (retention_step false nowEpoch defaultTtl (report, st) q) as [report' st'].
  cbn [fst snd] in Hs, H1, H2, H3. subst st'.
  destruct (IH report' (fun p Hp => Hall p (or_intror Hp))) as (Is & I1 & I2 & I3).
  cbv zeta. rewrite Is, I1, I2, I3. repeat split; assumption.
Qed.

Lemma filter_live_after_hard {A} `{MemoryRow A} (f : A -> bool) cutoff l :
  List.filter (fun r => f r && live r) (List.filter (fun r => negb (past_grace cutoff r)) l)
  = List.filter (fun r => f r && live r) l.
Proof.
  induction l as [|a l IH]; [reflexivity|]. cbn [List.filter].
  destruct (past_grace cutoff a) eqn:E; cbn [negb].
  - rewrite IH. unfold past_grace in E. unfold live.
    destruct (row_deleted a); [now rewrite andb_false_r | discriminate].
  - cbn [List.filter]. now rewrite IH.
Qed.

Lemma join_live_after_hard sessions p cutoff prompts :
  List.filter (fun us : PromptRow * SessionRow =>
                 String.eqb (s_project (snd us)) p && live (fst us))
    (flat_map (fun up => map (fun s => (up, s))
                 (List.filter (fun s => String.eqb (s_content_session_id s)
                                          (up_content_session_id up)) sessions))
       (List.filter (fun r => negb (past_grace cutoff r)) prompts))
  = List.filter (fun us : PromptRow * SessionRow =>
                   String.eqb (s_project (snd us)) p && live (fst us))
      (flat_map (fun up => map (fun s => (up, s))
                   (List.filter (fun s => String.eqb (s_content_session_id s)
                                            (up_content_session_id up)) sessions))
         prompts).
Proof.
  induction prompts as [|a l IH]; [reflexivity|]. cbn [List.filter flat_map].
  destruct (past_grace cutoff a) eqn:E; cbn [negb].
  - rewrite IH, List.filter_app.
    assert (Hnone : List.filter (fun us : PromptRow * SessionRow =>
                       String.eqb (s_project (snd us)) p && live (fst us))
                      (map (fun s => (a, s))
                         (List.filter (fun s => String.eqb (s_content_session_id s)
                                                  (up_content_session_id a)) sessions)) = []).
    { induction (List.filter _ sessions) as [|s ss IHs]; [reflexivity|].
      cbn [map List.filter fst snd]. unfold past_grace in E. unfold live at 1.
      destruct (row_deleted a); [|discriminate]. now rewrite andb_false_r. }
    now rewrite Hnone.
  - cbn [flat_map]. now rewrite !List.filter_app, IH.
Qed.

Lemma last_access_after_hard cutoff st p :
  getProjectLastAccessEpoch (hard_delete_pass cutoff st) p = getProjectLastAccessEpoch st p.
Proof.
  unfold getProjectLastAccessEpoch, prompts_join_sessions, hard_delete_pass.
  cbn [observations session_summaries user_prompts sdk_sessions project_memory_activity
       with_observations with_summaries with_prompts].
  now rewrite !filter_live_after_hard, join_live_after_hard.
Qed.

Lemma spared_after_hard nowEpoch defaultTtl cutoff st p :
  spared nowEpoch defaultTtl (hard_delete_pass cutoff st) p = spared nowEpoch defaultTtl st p.
Proof.
  unfold spared. rewrite last_access_after_hard. reflexivity.
Qed.

Lemma spared_same_for nowEpoch defaultTtl p st st' :
  same_for p st st' -> spared nowEpoch defaultTtl st' p = spared nowEpoch defaultTtl st p.
Proof.
  intros Hsame. unfold spared.
  now rewrite (same_for_policy p st st' Hsame), (same_for_last_access p st st' Hsame).
Qed.

Lemma fold_sessions dryRun nowEpoch defaultTtl :
  forall l acc,
    sdk_sessions (snd (fold_left (retention_step dryRun nowEpoch defaultTtl) l acc))
    = sdk_sessions (snd acc).
Proof.
  induction l as [|q l IH]; intros [report st]; [reflexivity|].
  cbn [fold_left]. rewrite IH.
  destruct (retention_step dryRun nowEpoch defaultTtl (report, st) q) as [r' s'] eqn:E.
  assert (Hs : s' = snd (retention_step dryRun nowEpoch defaultTtl (report, st) q))
    by now rewrite E.
  rewrite retention_step_store in Hs. cbn [snd]. subst s'.
  destruct (pol_pinned _); [reflexivity|].
  destruct (negb (pol_enabled _)); [reflexivity|].
  destruct (negb (is_expired _ _ _)); [reflexivity|].
  now destruct dryRun.
Qed.

Lemma hard_delete_pass_again cutoff st :
  hard_delete_pass cutoff (hard_delete_pass cutoff st) = hard_delete_pass cutoff st /\
  count_of (past_grace cutoff) (observations (hard_delete_pass cutoff st)) = 0 /\
  count_of (past_grace cutoff) (session_summaries (hard_delete_pass cutoff st)) = 0 /\
  count_of (past_grace cutoff) (user_prompts (hard_delete_pass cutoff st)) = 0.
Proof.
  assert (Hidem : forall A (f : A -> bool) l, List.filter f (List.filter f l) = List.filter f l).
  { intros A f l. apply filter_all. intros x Hx. now apply filter_In in Hx. }
  assert (Hnone : forall A (f : A -> bool) l, count_of f (List.filter (fun r => negb (f r)) l) = 0).
  { intros A f l. apply count_of_none. intros x Hx. apply filter_In in Hx.
    destruct Hx as [_ Hx]. now apply negb_true_iff in Hx. }
  unfold hard_delete_pass.
  cbn [observations session_summaries user_prompts seq_observations seq_summaries seq_prompts
       with_observations with_summaries with_prompts].
  rewrite !Hidem. split; [reflexivity|]. split; [|split]; apply Hnone.
Qed.

(** An execute call leaves no live row to a project it does not spare. *)
Lemma cleanup_expired_no_live st options now p :
  List.NoDup (map s_content_session_id (sdk_sessions st)) ->
  co_dryRun options = false ->
  p <> EmptyString ->
  spared (default now (co_nowEpoch options)) (Z.max 1 (co_defaultTtlDays options)) st p = false ->
  no_live_rows p (snd (runRetentionCleanup st options now))
    (snd (runRetentionCleanup st options now)).
Proof.
  intros Hnd Hexec Hp Hsp. rewrite runRetentionCleanup_store, Hexec.
  set (nowEpoch := default now (co_nowEpoch options)) in *.
  set (ttl := Z.max 1 (co_defaultTtlDays options)) in *.
  set (cutoff := hardDeleteCutoff options now).
  unfold cleanup_loop. rewrite Hexec. fold nowEpoch. fold ttl.
  set (acc0 := (mkReport false nowEpoch ttl (Z.max 1 (co_softDeleteDays options))
                  (Z.of_nat (List.length (listRetentionProjects st)))
                  0 0 0 0 0 0 0 0 0 [], st)).
  assert (Hsame0 : same_for p st (snd acc0)) by apply same_for_refl.
  pose proof (fold_sessions false nowEpoch ttl (listRetentionProjects st) acc0) as Hsess.
  cbn [snd acc0] in Hsess.
  destruct (in_hard_delete_pass cutoff
              (snd (fold_left (retention_step false nowEpoch ttl) (listRetentionProjects st) acc0)))
    as (Io & Ix & Iu).
  assert (Hsess1 : sdk_sessions (hard_delete_pass cutoff
              (snd (fold_left (retention_step false nowEpoch ttl)
                      (listRetentionProjects st) acc0))) = sdk_sessions st).
  { unfold hard_delete_pass. cbn [sdk_sessions with_observations with_summaries with_prompts].
    exact Hsess. }
  unfold spared in Hsp. apply orb_false_iff in Hsp. destruct Hsp as [Hsp Hex].
  apply orb_false_iff in Hsp. destruct Hsp as [Hpin Hen].
  apply negb_false_iff in Hen, Hex.
  destruct (in_dec string_dec p (listRetentionProjects st)) as [Hin|Hout].
  - destruct (fold_expired_no_live p st nowEpoch ttl Hnd Hpin Hen Hex
                (listRetentionProjects st) acc0 Hsame0 Hin) as (No & Nx & Nu).
    split; [|split].
    + intros o Ho. apply Io in Ho. destruct Ho as [Ho _]. now apply No.
    + intros x Hx. apply Ix in Hx. destruct Hx as [Hx _]. now apply Nx.
    + intros up Hu Hpr. apply Iu in Hu. destruct Hu as [Hu _].
      rewrite (prompt_in_project_sessions st _ p up Hsess1) in Hpr. now apply Nu.
  - pose proof (fold_other false nowEpoch ttl p st Hnd (listRetentionProjects st) acc0
                  Hout Hsame0) as Hsame.
    assert (Habs : forall q, In q (map s_project (sdk_sessions st) ++
                                   map o_project (observations st) ++
                                   map ss_project (session_summaries st) ++
                                   map a_project (project_memory_activity st) ++
                                   map rp_project (project_retention_policies st)) ->
                             q <> p).
    { intros q Hq ->. apply Hout. apply listRetentionProjects_spec. now split. }
    split; [|split].
    + intros o Ho Hop. exfalso. apply Io in Ho. destruct Ho as [Ho _].
      apply (same_for_in_observations p st _ o Hsame Hop) in Ho.
      apply (Habs (o_project o)); [|exact Hop].
      apply in_or_app. right. apply in_or_app. left. now apply in_map.
    + intros x Hx Hxp. exfalso. apply Ix in Hx. destruct Hx as [Hx _].
      apply (same_for_in_summaries p st _ x Hsame Hxp) in Hx.
      apply (Habs (ss_project x)); [|exact Hxp].
      apply in_or_app. right. apply in_or_app. right. apply in_or_app. left.
      now apply in_map.
    + intros up Hu Hpr. exfalso.
      rewrite (prompt_in_project_sessions st _ p up Hsess1) in Hpr.
      unfold prompt_in_project in Hpr. apply existsb_exists in Hpr.
      destruct Hpr as (s & Hs & E). apply andb_true_iff in E. destruct E as [_ E].
      apply String.eqb_eq in E.
      apply (Habs (s_project s)); [|exact E].
      apply in_or_app. left. now apply in_map.
Qed.

(** After an execute call every project is settled. *)
Lemma cleanup_settles st options now p :
  List.NoDup (map s_content_session_id (sdk_sessions st)) ->
  co_dryRun options = false ->
  p <> EmptyString ->
  settled (default now (co_nowEpoch options)) (Z.max 1 (co_defaultTtlDays options))
    (snd (runRetentionCleanup st options now)) p.
Proof.
  intros Hnd Hexec Hp. unfold settled.
  destruct (spared (default now (co_nowEpoch options)) (Z.max 1 (co_defaultTtlDays options))
              st p) eqn:Hsp.
  - left. rewrite runRetentionCleanup_store, Hexec, spared_after_hard.
    rewrite (spared_same_for _ _ p st); [exact Hsp|].
    unfold cleanup_loop. now apply fold_spared.
  - right. now apply cleanup_expired_no_live.
Qed.

(** X27: A cleanup repeated at the same time finds nothing to do.  After
    an execute call of [runRetentionCleanup], external session ids unique, a
    second execute call with the same options and the same [nowEpoch] leaves
    the store as the first call left it and reports no observation, summary
    or prompt as soft-deleted or hard-deleted.  (The projects it counts as
    soft-deleted are another matter: an expired project is counted at every
    call, with or without live rows.) *)
Theorem runRetentionCleanup_twice_changes_nothing (st : Store)
    (options : RetentionCleanupOptions) (now : Z) :
  List.NoDup (map s_content_session_id (sdk_sessions st)) ->
  co_dryRun options = false ->
  let st1 := snd (runRetentionCleanup st options now) in
  let again := runRetentionCleanup st1 options now in
  snd again = st1 /\
  r_softDeletedObservations (fst again) = 0 /\
  r_softDeletedSummaries (fst again) = 0 /\
  r_softDeletedPrompts (fst again) = 0 /\
  r_hardDeletedObservations (fst again) = 0 /\
  r_hardDeletedSummaries (fst again) = 0 /\
  r_hardDeletedPrompts (fst again) = 0.
Proof.
  intros Hnd Hexec st1 again.
  assert (Hset : forall p, In p (listRetentionProjects st1) ->
            settled (default now (co_nowEpoch options)) (Z.max 1 (co_defaultTtlDays options))
              st1 p).
  { intros p Hp. apply listRetentionProjects_spec in Hp. destruct Hp as [Hp _].
    now apply cleanup_settles. }
  assert (Hst1 : st1 = hard_delete_pass (hardDeleteCutoff options now)
                         (snd (cleanup_loop st options now))).
  { unfold st1. now rewrite runRetentionCleanup_store, Hexec. }
  destruct (hard_delete_pass_again (hardDeleteCutoff options now)
              (snd (cleanup_loop st options now))) as (Hidem & Co & Cx & Cu).
  rewrite <- Hst1 in Hidem, Co, Cx, Cu.
  subst again. unfold runRetentionCleanup. rewrite Hexec.
  pose proof (fold_settled (default now (co_nowEpoch options))
                (Z.max 1 (co_defaultTtlDays options)) st1 (listRetentionProjects st1)
                (mkReport false (default now (co_nowEpoch options))
                   (Z.max 1 (co_defaultTtlDays options)) (Z.max 1 (co_softDeleteDays options))
                   (Z.of_nat (List.length (listRetentionProjects st1)))
                   0 0 0 0 0 0 0 0 0 [])
                Hset) as Hfold.
  cbv zeta in Hfold.
  destruct (fold_left _ (listRetentionProjects st1) _) as [report1 st2].
  cbn [fst snd] in Hfold. destruct Hfold as (-> & H1 & H2 & H3).
  cbn [fst snd r_softDeletedObservations r_softDeletedSummaries r_softDeletedPrompts
       r_hardDeletedObservations r_hardDeletedSummaries r_hardDeletedPrompts].
  cbn [r_softDeletedObservations r_softDeletedSummaries r_softDeletedPrompts] in H1, H2, H3.
  split; [exact Hidem|].
  split; [exact H1|]. split; [exact H2|]. split; [exact H3|].
  split; [exact Co|]. split; [exact Cx | exact Cu].
Qed.

Lemma runRetentionCleanup_twice_changes_nothing_witness :
  List.NoDup (map s_content_session_id (sdk_sessions retention_store)) /\
  let st1 := snd (runRetentionCleanup retention_store execute_cleanup 0) in
  let again := runRetentionCleanup st1 execute_cleanup 0 in
  st1 <> retention_store /\ snd again = st1 /\
  r_softDeletedObservations (fst again) = 0 /\ r_softDeletedProjects (fst again) = 1.
Proof.
  assert (Hnd : List.NoDup (map s_content_session_id (sdk_sessions retention_store))).
  { vm_compute. repeat constructor; simpl; intuition discriminate. }
  split; [exact Hnd|].
  pose proof (runRetentionCleanup_twice_changes_nothing retention_store execute_cleanup 0
                Hnd eq_refl) as H.
  cbv zeta in H. destruct H as (Hs & Ho & _).
  cbv zeta. split; [vm_compute; discriminate|]. split; [exact Hs|]. split; [exact Ho|].
  vm_compute. reflexivity.
Defined.

Lemma sql_limit_nil {A} n : sql_limit n ([] : list A) = [].
Proof. unfold sql_limit. destruct (n <? 0); [reflexivity | apply firstn_nil]. Qed.

Lemma same_key_same_row {A K} (key : A -> K) (l : list A) (a b : A) :
  List.NoDup (map key l) -> In a l -> In b l -> key a = key b -> a = b.
Proof.
  induction l as [|x l IH]; [intros _ []|]. cbn [map]. intros Hnd Ha Hb E.
  inversion Hnd as [|? ? Hx Hl]; subst.
  destruct Ha as [->|Ha], Hb as [->|Hb]; [reflexivity | | |now apply IH].
  - exfalso. apply Hx. rewrite E. now apply in_map.
  - exfalso. apply Hx. rewrite <- E. now apply in_map.
Qed.

Lemma retention_step_keys dryRun nowEpoch defaultTtl report st q :
  map (fun o => (o_id o, o_project o))
    (observations (snd (retention_step dryRun nowEpoch defaultTtl (report, st) q)))
  = map (fun o => (o_id o, o_project o)) (observations st).
Proof.
  rewrite retention_step_store.
  destruct (pol_pinned _); [reflexivity|].
  destruct (negb (pol_enabled _)); [reflexivity|].
  destruct (negb (is_expired _ _ _)); [reflexivity|].
  destruct dryRun; [reflexivity|]. unfold soft_delete_project.
  cbn [observations with_observations with_summaries with_prompts].
  rewrite map_map. apply map_ext. intros o.
  now destruct (String.eqb (o_project o) q && live o).
Qed.

Lemma fold_keys dryRun nowEpoch defaultTtl :
  forall l acc,
    map (fun o => (o_id o, o_project o))
      (observations (snd (fold_left (retention_step dryRun nowEpoch defaultTtl) l acc)))
    = map (fun o => (o_id o, o_project o)) (observations (snd acc)).
Proof.
  induction l as [|q l IH]; intros [report st]; [reflexivity|].
  cbn [fold_left]. rewrite IH.
  destruct (retention_step dryRun nowEpoch defaultTtl (report, st) q) as [r' s'] eqn:E.
  pose proof (retention_step_keys dryRun nowEpoch defaultTtl report st q) as H.
  now rewrite E in H.
Qed.

(** Every observation left by a cleanup carries the id and the project of an
    observation that was there before. *)
Lemma cleanup_keys st options now o' :
  In o' (observations (snd (runRetentionCleanup st options now))) ->
  exists o, In o (observations st) /\ o_id o = o_id o' /\ o_project o = o_project o'.
Proof.
  rewrite runRetentionCleanup_store. intros Hin.
  assert (Hloop : In o' (observations (snd (cleanup_loop st options now)))).
  { destruct (co_dryRun options); [exact Hin|].
    now apply (in_hard_delete_pass (hardDeleteCutoff options now)) in Hin. }
  unfold cleanup_loop in Hloop.
  apply (in_map (fun o => (o_id o, o_project o))) in Hloop.
  rewrite fold_keys in Hloop. cbn [snd] in Hloop. apply in_map_iff in Hloop.
  destruct Hloop as (o & E & Ho). inversion E. now exists o.
Qed.

(** X28: The memories of an expired project leave the reads.  After an
    execute call of [runRetentionCleanup] that finds project [p] enabled,
    not pinned and inactive for its TTL (external session ids and
    observation ids unique), no id of an observation of [p] resolves through
    [getObservationById] any more, [getObservationsByIds] returns no row of
    [p] whatever ids and options it is given, and [GET /api/observations] and
    [GET /api/summaries] for [p] answer with no item, total 0 and no further
    page. *)
Theorem expired_project_leaves_the_reads (st : Store) (options : RetentionCleanupOptions)
    (now : Z) (p : string) :
  p <> EmptyString ->
  co_dryRun options = false ->
  List.NoDup (map s_content_session_id (sdk_sessions st)) ->
  List.NoDup (map o_id (observations st)) ->
  spared (default now (co_nowEpoch options)) (Z.max 1 (co_defaultTtlDays options)) st p = false ->
  let st' := snd (runRetentionCleanup st options now) in
  (forall o, In o (observations st) -> o_project o = p ->
             getObservationById st' (o_id o) = None) /\
  (forall ids opts o, In o (getObservationsByIds st' ids opts) -> o_project o <> p) /\
  (forall limit offset now',
     fst (api_observations st' limit offset (Some p) now') = mkListResponse [] 0 false) /\
  (forall limit offset now',
     fst (api_summaries st' limit offset (Some p) now') = mkListResponse [] 0 false).
Proof.
  intros Hp Hexec Hnd Hids Hsp st'.
  destruct (cleanup_expired_no_live st options now p Hnd Hexec Hp Hsp) as (No & Nx & _).
  fold st' in No, Nx.
  assert (Hdead_o : forall o, In o (observations st') -> o_project o = p -> live o = false).
  { intros o Ho Hop. specialize (No o Ho Hop). unfold live.
    cbn [row_deleted ObservationRow_MemoryRow]. now destruct (o_deleted_at_epoch o). }
  assert (Hdead_x : forall x, In x (session_summaries st') -> ss_project x = p ->
                              live x = false).
  { intros x Hx Hxp. specialize (Nx x Hx Hxp). unfold live.
    cbn [row_deleted SummaryRow_MemoryRow]. now destruct (ss_deleted_at_epoch x). }
  assert (Htruthy : truthy_string (Some p) = Some p).
  { unfold truthy_string. destruct (String.eqb p EmptyString) eqn:E; [|reflexivity].
    apply String.eqb_eq in E. contradiction. }
  split; [|split; [|split]].
  - intros o Ho Hop. unfold getObservationById.
    destruct (List.find _ (observations st')) as [o'|] eqn:F; [|reflexivity]. exfalso.
    apply find_some in F. destruct F as [Hin' F]. apply andb_true_iff in F.
    destruct F as [Fid Flive]. apply Z.eqb_eq in Fid.
    destruct (cleanup_keys st options now o' Hin') as (o0 & Ho0 & Eid & Eproj).
    assert (o0 = o).
    { apply (same_key_same_row o_id (observations st)); [exact Hids | exact Ho0 | exact Ho | lia]. }
    subst o0. rewrite (Hdead_o o' Hin') in Flive; [discriminate | congruence].
  - intros ids opts o Hin Hop.
    unfold getObservationsByIds in Hin. destruct ids as [|i ids']; [destruct Hin|].
    apply in_limit_clause, in_order_by_created, filter_In in Hin. destruct Hin as [Hin Hf].
    rewrite !andb_true_iff in Hf. destruct Hf as ((((_ & Hl) & _) & _) & _).
    rewrite (Hdead_o o Hin Hop) in Hl. discriminate.
  - intros limit offset now'. unfold api_observations, parseLimitOffset, listObservations.
    rewrite Htruthy.
    assert (Hnone : List.filter (fun o => project_clause (Some p) (o_project o) && live o)
                      (observations st') = []).
    { apply filter_none. intros o Ho. unfold project_clause. rewrite Htruthy.
      destruct (String.eqb (o_project o) p) eqn:E; [|reflexivity].
      apply String.eqb_eq in E. now rewrite (Hdead_o o Ho E). }
    rewrite Hnone. cbn [fst]. unfold order_by_created, sql_limit_offset. cbn [fold_right].
    rewrite skipn_nil, sql_limit_nil. cbn [List.length].
    f_equal. apply Z.ltb_ge. lia.
  - intros limit offset now'. unfold api_summaries, parseLimitOffset, listSummaries.
    rewrite Htruthy.
    assert (Hnone : List.filter (fun x => project_clause (Some p) (ss_project x) && live x)
                      (session_summaries st') = []).
    { apply filter_none. intros x Hx. unfold project_clause. rewrite Htruthy.
      destruct (String.eqb (ss_project x) p) eqn:E; [|reflexivity].
      apply String.eqb_eq in E. now rewrite (Hdead_x x Hx E). }
    rewrite Hnone. cbn [fst]. unfold order_by_created, sql_limit_offset. cbn [fold_right].
    rewrite skipn_nil, sql_limit_nil. cbn [List.length].
    f_equal. apply Z.ltb_ge. lia.
Qed.

Lemma expired_project_leaves_the_reads_witness :
  List.NoDup (map s_content_session_id (sdk_sessions retention_store)) /\
  List.NoDup (map o_id (observations retention_store)) /\
  getObservationById retention_store 1 = Some old_observation /\
  let st' := snd (runRetentionCleanup retention_store execute_cleanup 0) in
  getObservationById st' 1 = None /\
  fst (api_observations st' None None (Some "old"%string) 0) = mkListResponse [] 0 false.
Proof.
  assert (Hnd : List.NoDup (map s_content_session_id (sdk_sessions retention_store))).
  { vm_compute. repeat constructor; simpl; intuition discriminate. }
  assert (Hids : List.NoDup (map o_id (observations retention_store))).
  { vm_compute. repeat constructor; simpl; intuition lia. }
  split; [exact Hnd|]. split; [exact Hids|]. split; [reflexivity|].
  assert (Hp : "old"%string <> EmptyString) by discriminate.
  pose proof (expired_project_leaves_the_reads retention_store execute_cleanup 0 "old"
                Hp eq_refl Hnd Hids eq_refl) as H.
  cbv zeta in H. destruct H as (Hget & _ & Hlist & _).
  cbv zeta. split.
  - apply (Hget old_observation); [now left | reflexivity].
  - apply Hlist.
Defined.
